(** * Smart watch control core: a shallow embedding of [main.c]

    The development follows the translation unit top to bottom: the
    data structures and globals, the sensor path ([readAccelerometerAxis],
    [detectStep], [checkTiltToSave]), the clock ([advanceDate],
    [incrementSystemTime]), the menu pages, the Timer1 interrupt handler
    and the body of the foreground loop of [main].

    Conventions.
    - A C integer of width [w] is a [Z] and every store into it is
      written with its wrap-around ([u8], [u16], [u32]).
    - An array is a [list]; a read or a write outside its bounds is
      undefined behaviour in C and is the outcome [Undefined] (or [None]
      for the pure clock functions).
    - A [float] is an IEEE 754 binary32 number ([spec_float] at
      precision 24), computed on with the operations of [Module F32]. *)

From Stdlib Require Import ZArith QArith Qabs Qround Qminmax Lia Lqa Bool String Ascii.
From Stdlib Require Import Floats.SpecFloat.
From Stdlib Require Import DecimalString DecimalN.
From stdpp Require Import base option list.

Local Open Scope Z_scope.

(** ** Fixed-width integers *)

Definition u8 (x : Z) : Z := x mod 256.
Definition u16 (x : Z) : Z := x mod 65536.
Definition u32 (x : Z) : Z := x mod 4294967296.

(** Conversion of a 16-bit pattern to [int16_t] (two's complement). *)
Definition int16 (x : Z) : Z :=
  let r := x mod 65536 in if r <? 32768 then r else r - 65536.

(** [a[i]] for a C array: [None] outside the bounds. *)
Definition array_get {A} (a : list A) (i : Z) : option A :=
  if i <? 0 then None else a !! Z.to_nat i.

(** [a[i] = v] for a C array: [None] outside the bounds. *)
Definition array_set {A} (a : list A) (i : Z) (v : A) : option (list A) :=
  if (i <? 0) || (Z.of_nat (length a) <=? i) then None
  else Some (<[Z.to_nat i := v]> a).

(** ** Data structures *)

Record AccelerometerData := mkAccel { ax_x : Z; ax_y : Z; ax_z : Z }.

Record TimeSetting := mkTimeSetting { ts_hours : Z; ts_minutes : Z }.

Record DateSetting := mkDateSetting { ds_day : Z; ds_month : Z }.

Record ClockTime := mkClock {
  hours : Z;
  minutes : Z;
  seconds : Z;
  day : Z;
  month : Z
}.

(** * ClockModel *)

Module Clock.

Definition DAYS_PER_MONTH : list Z :=
  [31; 28; 31; 30; 31; 30; 31; 31; 30; 31; 30; 31].

(** [advanceDate]: the day is incremented first, then compared with the
    table entry of the (still current) month. *)
Definition advanceDate (t : ClockTime) : option ClockTime :=
  let d := u8 (day t + 1) in
  maxDays ← array_get DAYS_PER_MONTH (month t - 1);
  if maxDays <? d then
    let m := u8 (month t + 1) in
    Some (mkClock (hours t) (minutes t) (seconds t) 1 (if 12 <? m then 1 else m))
  else
    Some (mkClock (hours t) (minutes t) (seconds t) d (month t)).

(** [incrementSystemTime]: three consecutive (not nested) tests. *)
Definition incrementSystemTime (t : ClockTime) : option ClockTime :=
  let s := u8 (seconds t + 1) in
  let t1 :=
    if 60 <=? s then mkClock (hours t) (u8 (minutes t + 1)) 0 (day t) (month t)
    else mkClock (hours t) (minutes t) s (day t) (month t) in
  let t2 :=
    if 60 <=? minutes t1
    then mkClock (u8 (hours t1 + 1)) 0 (seconds t1) (day t1) (month t1)
    else t1 in
  if 24 <=? hours t2
  then advanceDate (mkClock 0 (minutes t2) (seconds t2) (day t2) (month t2))
  else Some t2.

(** The clock after [n] ticks. *)
Fixpoint tick_n (n : nat) (t : ClockTime) : option ClockTime :=
  match n with
  | O => Some t
  | S n' => t' ← incrementSystemTime t; tick_n n' t'
  end.

(** The data-model invariant of [ClockTime]: every field in its range
    and the day within the month's entry of the table. *)
Definition valid_clock (t : ClockTime) : Prop :=
  0 <= hours t < 24 /\ 0 <= minutes t < 60 /\ 0 <= seconds t < 60 /\
  1 <= month t <= 12 /\
  exists maxDays, array_get DAYS_PER_MONTH (month t - 1) = Some maxDays /\
                  1 <= day t <= maxDays.

(** *** Modelled time

    The specification's "advancing by N seconds in modeled time": a clock
    value is a number of seconds since 00:00:00 on day 1 of month 1 of a
    365-day year; advancing adds to that number modulo the year. *)

Definition SECONDS_PER_DAY : Z := 86400.
Definition SECONDS_PER_YEAR : Z := 365 * SECONDS_PER_DAY.

Definition days_before_month (m : Z) : Z :=
  foldr Z.add 0 (take (Z.to_nat (m - 1)) DAYS_PER_MONTH).

Definition day_of_year (t : ClockTime) : Z :=
  days_before_month (month t) + (day t - 1).

Definition to_seconds (t : ClockTime) : Z :=
  ((day_of_year t * 24 + hours t) * 60 + minutes t) * 60 + seconds t.

(** Month and day of the [n]-th day of the year, walking the table. *)
Fixpoint date_of_day (table : list Z) (m : Z) (n : Z) : Z * Z :=
  match table with
  | [] => (m, n + 1)
  | len :: rest => if n <? len then (m, n + 1) else date_of_day rest (m + 1) (n - len)
  end.

Definition of_seconds (n : Z) : ClockTime :=
  let '(m, d) := date_of_day DAYS_PER_MONTH 1 (n / SECONDS_PER_DAY) in
  let r := n mod SECONDS_PER_DAY in
  mkClock (r / 3600) ((r / 60) mod 60) (r mod 60) d m.

Definition advance_seconds (n : Z) (t : ClockTime) : ClockTime :=
  of_seconds ((to_seconds t + n) mod SECONDS_PER_YEAR).

End Clock.

(** * The machine state

    The globals of [main.c] and the [static] locals of its functions, one
    field each, under their source names (the two statics called
    [button1HoldCount] are prefixed with their function).  [page] and
    [tiltCount] are not globals: the menu pages are nested loops inside
    [executeMenuSelection], and the model runs them one iteration per
    foreground poll, so it records which loop is executing and the loop's
    local counter. *)

Inductive Page :=
| InMainLoop        (* [while (1)] of [main] *)
| InGraphLoop       (* [while (graphModeActive)] of [displayStepGraph] *)
| InTimeFormatLoop  (* [while (inTimeFormatMenu)] of [manageTimeFormatSelection] *)
| InTimeSetLoop     (* [while (inTimeSetMenu)] of [manageTimeSetPage] *)
| InDateSetLoop.    (* [while (inTimeSetMenu)] of [manageDateSetPage] *)

Record Sys := mkSys {
  stepRateHistory : list Z;
  currentStepPace : spec_float;
  isGraphDisplayed : bool;
  timeToSet : TimeSetting;
  timeFieldSelected : Z;
  dateToSet : DateSetting;
  dateFieldSelected : Z;
  wasStepThresholdExceeded : bool;
  isMovementActive : bool;
  totalSteps : Z;
  stepsPerSecond : list Z;
  currentSecondIndex : Z;
  displayedStepPace : spec_float;
  elapsedSeconds : Z;
  use12HourFormat : bool;
  inTimeFormatMenu : bool;
  inTimeSetMenu : bool;
  timeFormatOption : Z;
  showFootIcon : bool;
  redrawClock : bool;
  justEnteredMenu : bool;
  inMainMenu : bool;
  systemClock : ClockTime;
  currentMenuSelection : Z;
  t1_button1HoldCount : Z;  (* static [button1HoldCount] of [_T1Interrupt] *)
  previousStepCount : Z;  (* static of [_T1Interrupt] *)
  inactivityCount : Z;  (* static of [_T1Interrupt] *)
  graph_button1HoldCount : Z;  (* static [button1HoldCount] of [displayStepGraph] *)
  button1WasPressed : bool;  (* static of [main] *)
  button2WasPressed : bool;  (* static of [main] *)
  comboPressCount : Z;  (* static of [main] *)
  wasInMenu : bool;  (* static of [main] *)
  previousTime : string;  (* static of [updateMenuTimeDisplay] *)
  tiltCount : Z;  (* local of [manageTimeSetPage], [manageDateSetPage] *)
  page : Page  (* the foreground loop in execution *)
}.

(** The values the globals and statics are initialised with. *)
Definition boot : Sys := {|
  stepRateHistory := replicate 90 0;
  currentStepPace := S754_zero false;  (* 0.0f *)
  isGraphDisplayed := false;
  timeToSet := mkTimeSetting 4 0;
  timeFieldSelected := 0;
  dateToSet := mkDateSetting 24 1;
  dateFieldSelected := 0;
  wasStepThresholdExceeded := false;
  isMovementActive := false;
  totalSteps := 0;
  stepsPerSecond := replicate 60 0;
  currentSecondIndex := 0;
  displayedStepPace := S754_zero false;  (* 0.0f *)
  elapsedSeconds := 0;
  use12HourFormat := true;
  inTimeFormatMenu := false;
  inTimeSetMenu := false;
  timeFormatOption := 0;
  showFootIcon := false;
  redrawClock := false;
  justEnteredMenu := false;
  inMainMenu := false;
  systemClock := mkClock 4 0 0 24 1;
  currentMenuSelection := 0;
  t1_button1HoldCount := 0;
  previousStepCount := 0;
  inactivityCount := 0;
  graph_button1HoldCount := 0;
  button1WasPressed := false;
  button2WasPressed := false;
  comboPressCount := 0;
  wasInMenu := false;
  previousTime := EmptyString;
  tiltCount := 0;
  page := InMainLoop
|}.

(** Assignment to a global.  [expanded s] is [s] written field by field;
    a setter is that record with the one field replaced. *)
Abbreviation expanded s :=
  (mkSys (stepRateHistory s) (currentStepPace s) (isGraphDisplayed s)
    (timeToSet s) (timeFieldSelected s) (dateToSet s) (dateFieldSelected s)
    (wasStepThresholdExceeded s) (isMovementActive s) (totalSteps s)
    (stepsPerSecond s) (currentSecondIndex s) (displayedStepPace s)
    (elapsedSeconds s) (use12HourFormat s) (inTimeFormatMenu s)
    (inTimeSetMenu s) (timeFormatOption s) (showFootIcon s) (redrawClock s)
    (justEnteredMenu s) (inMainMenu s) (systemClock s)
    (currentMenuSelection s) (t1_button1HoldCount s) (previousStepCount s)
    (inactivityCount s) (graph_button1HoldCount s) (button1WasPressed s)
    (button2WasPressed s) (comboPressCount s) (wasInMenu s) (previousTime s)
    (tiltCount s) (page s)).

Ltac assign s field v :=
  let e := constr:(expanded s) in
  let p := eval pattern (field s) in e in
  match p with
  | ?f _ => let r := eval cbv beta in (f v) in exact r
  end.

Definition set_stepRateHistory (v : list Z) (s : Sys) : Sys :=
  ltac:(assign s stepRateHistory v).
Definition set_currentStepPace (v : spec_float) (s : Sys) : Sys :=
  ltac:(assign s currentStepPace v).
Definition set_isGraphDisplayed (v : bool) (s : Sys) : Sys :=
  ltac:(assign s isGraphDisplayed v).
Definition set_timeToSet (v : TimeSetting) (s : Sys) : Sys :=
  ltac:(assign s timeToSet v).
Definition set_timeFieldSelected (v : Z) (s : Sys) : Sys :=
  ltac:(assign s timeFieldSelected v).
Definition set_dateToSet (v : DateSetting) (s : Sys) : Sys :=
  ltac:(assign s dateToSet v).
Definition set_dateFieldSelected (v : Z) (s : Sys) : Sys :=
  ltac:(assign s dateFieldSelected v).
Definition set_wasStepThresholdExceeded (v : bool) (s : Sys) : Sys :=
  ltac:(assign s wasStepThresholdExceeded v).
Definition set_isMovementActive (v : bool) (s : Sys) : Sys :=
  ltac:(assign s isMovementActive v).
Definition set_totalSteps (v : Z) (s : Sys) : Sys :=
  ltac:(assign s totalSteps v).
Definition set_stepsPerSecond (v : list Z) (s : Sys) : Sys :=
  ltac:(assign s stepsPerSecond v).
Definition set_currentSecondIndex (v : Z) (s : Sys) : Sys :=
  ltac:(assign s currentSecondIndex v).
Definition set_displayedStepPace (v : spec_float) (s : Sys) : Sys :=
  ltac:(assign s displayedStepPace v).
Definition set_elapsedSeconds (v : Z) (s : Sys) : Sys :=
  ltac:(assign s elapsedSeconds v).
Definition set_use12HourFormat (v : bool) (s : Sys) : Sys :=
  ltac:(assign s use12HourFormat v).
Definition set_inTimeFormatMenu (v : bool) (s : Sys) : Sys :=
  ltac:(assign s inTimeFormatMenu v).
Definition set_inTimeSetMenu (v : bool) (s : Sys) : Sys :=
  ltac:(assign s inTimeSetMenu v).
Definition set_timeFormatOption (v : Z) (s : Sys) : Sys :=
  ltac:(assign s timeFormatOption v).
Definition set_showFootIcon (v : bool) (s : Sys) : Sys :=
  ltac:(assign s showFootIcon v).
Definition set_redrawClock (v : bool) (s : Sys) : Sys :=
  ltac:(assign s redrawClock v).
Definition set_justEnteredMenu (v : bool) (s : Sys) : Sys :=
  ltac:(assign s justEnteredMenu v).
Definition set_inMainMenu (v : bool) (s : Sys) : Sys :=
  ltac:(assign s inMainMenu v).
Definition set_systemClock (v : ClockTime) (s : Sys) : Sys :=
  ltac:(assign s systemClock v).
Definition set_currentMenuSelection (v : Z) (s : Sys) : Sys :=
  ltac:(assign s currentMenuSelection v).
Definition set_t1_button1HoldCount (v : Z) (s : Sys) : Sys :=
  ltac:(assign s t1_button1HoldCount v).
Definition set_previousStepCount (v : Z) (s : Sys) : Sys :=
  ltac:(assign s previousStepCount v).
Definition set_inactivityCount (v : Z) (s : Sys) : Sys :=
  ltac:(assign s inactivityCount v).
Definition set_graph_button1HoldCount (v : Z) (s : Sys) : Sys :=
  ltac:(assign s graph_button1HoldCount v).
Definition set_button1WasPressed (v : bool) (s : Sys) : Sys :=
  ltac:(assign s button1WasPressed v).
Definition set_button2WasPressed (v : bool) (s : Sys) : Sys :=
  ltac:(assign s button2WasPressed v).
Definition set_comboPressCount (v : Z) (s : Sys) : Sys :=
  ltac:(assign s comboPressCount v).
Definition set_wasInMenu (v : bool) (s : Sys) : Sys :=
  ltac:(assign s wasInMenu v).
Definition set_previousTime (v : string) (s : Sys) : Sys :=
  ltac:(assign s previousTime v).
Definition set_tiltCount (v : Z) (s : Sys) : Sys :=
  ltac:(assign s tiltCount v).
Definition set_page (v : Page) (s : Sys) : Sys :=
  ltac:(assign s page v).

(** Stores into one field of a struct: [systemClock.hours = v] and the
    like. *)
Definition store_clock_hours (v : Z) (s : Sys) : Sys :=
  let c := systemClock s in
  set_systemClock (mkClock v (minutes c) (seconds c) (day c) (month c)) s.
Definition store_clock_minutes (v : Z) (s : Sys) : Sys :=
  let c := systemClock s in
  set_systemClock (mkClock (hours c) v (seconds c) (day c) (month c)) s.
Definition store_clock_seconds (v : Z) (s : Sys) : Sys :=
  let c := systemClock s in
  set_systemClock (mkClock (hours c) (minutes c) v (day c) (month c)) s.
Definition store_clock_day (v : Z) (s : Sys) : Sys :=
  let c := systemClock s in
  set_systemClock (mkClock (hours c) (minutes c) (seconds c) v (month c)) s.
Definition store_clock_month (v : Z) (s : Sys) : Sys :=
  let c := systemClock s in
  set_systemClock (mkClock (hours c) (minutes c) (seconds c) (day c) v) s.
Definition store_timeToSet_hours (v : Z) (s : Sys) : Sys :=
  set_timeToSet (mkTimeSetting v (ts_minutes (timeToSet s))) s.
Definition store_timeToSet_minutes (v : Z) (s : Sys) : Sys :=
  set_timeToSet (mkTimeSetting (ts_hours (timeToSet s)) v) s.
Definition store_dateToSet_day (v : Z) (s : Sys) : Sys :=
  set_dateToSet (mkDateSetting v (ds_month (dateToSet s))) s.
Definition store_dateToSet_month (v : Z) (s : Sys) : Sys :=
  set_dateToSet (mkDateSetting (ds_day (dateToSet s)) v) s.

(** Reading a field of an assigned state. *)
Ltac sys_simpl :=
  cbn [stepRateHistory currentStepPace isGraphDisplayed timeToSet
       timeFieldSelected dateToSet dateFieldSelected
       wasStepThresholdExceeded isMovementActive totalSteps stepsPerSecond
       currentSecondIndex displayedStepPace elapsedSeconds use12HourFormat
       inTimeFormatMenu inTimeSetMenu timeFormatOption showFootIcon
       redrawClock justEnteredMenu inMainMenu systemClock
       currentMenuSelection t1_button1HoldCount previousStepCount
       inactivityCount graph_button1HoldCount button1WasPressed
       button2WasPressed comboPressCount wasInMenu previousTime tiltCount
       page set_stepRateHistory set_currentStepPace set_isGraphDisplayed
       set_timeToSet set_timeFieldSelected set_dateToSet
       set_dateFieldSelected set_wasStepThresholdExceeded
       set_isMovementActive set_totalSteps set_stepsPerSecond
       set_currentSecondIndex set_displayedStepPace set_elapsedSeconds
       set_use12HourFormat set_inTimeFormatMenu set_inTimeSetMenu
       set_timeFormatOption set_showFootIcon set_redrawClock
       set_justEnteredMenu set_inMainMenu set_systemClock
       set_currentMenuSelection set_t1_button1HoldCount
       set_previousStepCount set_inactivityCount set_graph_button1HoldCount
       set_button1WasPressed set_button2WasPressed set_comboPressCount
       set_wasInMenu set_previousTime set_tiltCount set_page
       store_clock_hours store_clock_minutes store_clock_seconds
       store_clock_day store_clock_month store_timeToSet_hours
       store_timeToSet_minutes store_dateToSet_day store_dateToSet_month
       hours minutes seconds day month ts_hours ts_minutes ds_day
       ds_month].

Ltac sys_simpl_in H :=
  cbn [stepRateHistory currentStepPace isGraphDisplayed timeToSet
       timeFieldSelected dateToSet dateFieldSelected
       wasStepThresholdExceeded isMovementActive totalSteps stepsPerSecond
       currentSecondIndex displayedStepPace elapsedSeconds use12HourFormat
       inTimeFormatMenu inTimeSetMenu timeFormatOption showFootIcon
       redrawClock justEnteredMenu inMainMenu systemClock
       currentMenuSelection t1_button1HoldCount previousStepCount
       inactivityCount graph_button1HoldCount button1WasPressed
       button2WasPressed comboPressCount wasInMenu previousTime tiltCount
       page set_stepRateHistory set_currentStepPace set_isGraphDisplayed
       set_timeToSet set_timeFieldSelected set_dateToSet
       set_dateFieldSelected set_wasStepThresholdExceeded
       set_isMovementActive set_totalSteps set_stepsPerSecond
       set_currentSecondIndex set_displayedStepPace set_elapsedSeconds
       set_use12HourFormat set_inTimeFormatMenu set_inTimeSetMenu
       set_timeFormatOption set_showFootIcon set_redrawClock
       set_justEnteredMenu set_inMainMenu set_systemClock
       set_currentMenuSelection set_t1_button1HoldCount
       set_previousStepCount set_inactivityCount set_graph_button1HoldCount
       set_button1WasPressed set_button2WasPressed set_comboPressCount
       set_wasInMenu set_previousTime set_tiltCount set_page
       store_clock_hours store_clock_minutes store_clock_seconds
       store_clock_day store_clock_month store_timeToSet_hours
       store_timeToSet_minutes store_dateToSet_day store_dateToSet_month
       hours minutes seconds day month ts_hours ts_minutes ds_day
       ds_month] in H.
(** * Collaborators and effects *)

(** Modelled from the spec: the colours of [oledDriver/oledC_colors.h]
    that the modelled calls pass; the header is not part of the sources. *)
Inductive Color :=
| OLEDC_COLOR_BLACK
| OLEDC_COLOR_WHITE
| OLEDC_COLOR_DARKRED.

(** Modelled from the spec: the status of a bus transfer, [I2Cerror] of
    [Accel_i2c.h]; the header is not part of the sources and the code only
    tests a status against [OK]. *)
Inductive I2Cerror :=
| OK
| I2C_FAILED.

(** The motion-sensor bus seen from the core: the reply (status, byte) to
    the [n]-th register read of a foreground poll, given the device and
    register addressed. *)
Definition Bus : Type := nat -> Z -> Z -> I2Cerror * Z.

(** The condition of a busy-wait [while (cond) DELAY_milliseconds(10);]. *)
Inductive SpinCondition :=
| RA11_low
| RA12_low
| RA11_and_RA12_low
| RA11_or_RA12_low.

(** What the core does to its collaborators, in program order.  Display
    routines that the interrupt handler or the fatal halt can reach are
    expanded into the primitives they call; the remaining rendering
    routines of the display cache are recorded as one [Draws] each. *)
Inductive Event :=
| oledC_clearScreen
| oledC_DrawString (x y sx sy : Z) (text : string) (color : Color)
| oledC_DrawRectangle (x0 y0 x1 y1 : Z) (color : Color)
| Draws (routine : string)
| DELAY_milliseconds (ms : Z)
| SpinWhile (cond : SpinCondition)
| LED1_PORT (level : Z)
| LED2_PORT (level : Z)
| i2cReadSlaveRegister (device reg : Z) (status : I2Cerror)
| printf_u (format : string) (arg : Z)
| printf_s (format : string) (arg : string).

(** A call into the display collaborator. *)
Definition is_display_call (e : Event) : bool :=
  match e with
  | oledC_clearScreen | oledC_DrawString _ _ _ _ _ _
  | oledC_DrawRectangle _ _ _ _ _ | Draws _ => true
  | _ => false
  end.

(** A delay or a busy-wait. *)
Definition is_wait (e : Event) : bool :=
  match e with
  | DELAY_milliseconds _ | SpinWhile _ => true
  | _ => false
  end.

(** * The machine monad *)

Record World := mkWorld {
  sys : Sys;
  busReads : nat;         (* register reads issued so far in this step *)
  events : list Event     (* effects so far in this step, oldest first *)
}.

(** A call returns, or reaches [haltWithError] and never returns, or has
    undefined behaviour (an array access outside its bounds). *)
Inductive Outcome (A : Type) :=
| Ret (a : A) (w : World)
| Halted (message : string) (w : World)
| Undefined.
Arguments Ret {A} a w.
Arguments Halted {A} message w.
Arguments Undefined {A}.

Definition M (A : Type) : Type := Bus -> World -> Outcome A.

Definition ret {A} (a : A) : M A := fun _ w => Ret a w.

Definition bind {A B} (m : M A) (f : A -> M B) : M B := fun bus w =>
  match m bus w with
  | Ret a w' => f a bus w'
  | Halted msg w' => Halted msg w'
  | Undefined => Undefined
  end.

Declare Scope mach_scope.
Delimit Scope mach_scope with mach.
Bind Scope mach_scope with M.
Notation "x ← y ; z" := (bind y (fun x => z))
  (at level 20, y at level 100, z at level 200, only parsing) : mach_scope.
Notation "y ;; z" := (bind y (fun _ => z))
  (at level 100, z at level 200, only parsing, right associativity) : mach_scope.
Local Open Scope mach_scope.

Definition gets {A} (f : Sys -> A) : M A :=
  fun _ w => Ret (f (sys w)) w.

Definition modify (f : Sys -> Sys) : M unit :=
  fun _ w => Ret tt (mkWorld (f (sys w)) (busReads w) (events w)).

Definition emit (e : Event) : M unit :=
  fun _ w => Ret tt (mkWorld (sys w) (busReads w) (events w ++ [e])).

Definition undefined {A} : M A := fun _ _ => Undefined.

Definition defined {A} (o : option A) : M A :=
  match o with
  | Some a => ret a
  | None => undefined
  end.

(** [if (c) { body }] *)
Definition when (c : bool) (body : M unit) : M unit :=
  if c then body else ret tt.

(** A step starts with no bus read issued and no effect recorded. *)
Definition start (s : Sys) : World := mkWorld s 0 [].

(** The state an outcome leaves the machine in. *)
Definition final {A} (o : Outcome A) : option Sys :=
  match o with
  | Ret _ w | Halted _ w => Some (sys w)
  | Undefined => None
  end.

Definition effects {A} (o : Outcome A) : list Event :=
  match o with
  | Ret _ w | Halted _ w => events w
  | Undefined => []
  end.

Definition returns {A} (o : Outcome A) : bool :=
  match o with
  | Ret _ _ => true
  | _ => false
  end.

(** * Error handling and the sensor path *)

Definition ACCEL_WRITE_ADDR : Z := 0x3A.
Definition REG_DATA_X0 : Z := 0x32.
Definition REG_DATA_Y0 : Z := 0x34.
Definition REG_DATA_Z0 : Z := 0x36.

(** [haltWithError]: draw the message, print it, [while (1);]. *)
Definition haltWithError {A} (message : string) : M A :=
  emit (oledC_DrawString 0 20 1 1 message OLEDC_COLOR_DARKRED);;
  emit (printf_s "Error: %s\n" message);;
  ((fun _ w => Halted message w) : M A).

(** One call of the collaborator's register read; the byte is stored
    through a [uint8_t *]. *)
Definition i2cRead (device reg : Z) : M (I2Cerror * Z) :=
  fun bus w =>
    let '(status, byte) := bus (busReads w) device reg in
    Ret (status, u8 byte)
        (mkWorld (sys w) (S (busReads w))
                 (events w ++ [i2cReadSlaveRegister device reg status])).

(** One of the two [for (int i = 0; i < retries; i++)] loops of
    [readAccelerometerAxis], with [remaining] iterations to go.  Leaving
    the loop without [break] would leave the byte uninitialised; the halt
    of the last iteration comes first. *)
Fixpoint readByte (remaining : nat) (i retries reg : Z) (message : string)
  : M Z :=
  match remaining with
  | O => undefined
  | S remaining' =>
      r ← i2cRead ACCEL_WRITE_ADDR reg;
      match fst r with
      | OK => ret (snd r)
      | _ =>
          (if i =? retries - 1 then haltWithError message else ret tt);;
          emit (DELAY_milliseconds 10);;
          readByte remaining' (i + 1) retries reg message
      end
  end.

Definition readAccelerometerAxis (registerAddress : Z) : M Z :=
  let retries := 3 in
  lowByte ← readByte (Z.to_nat retries) 0 retries registerAddress
                     "I2C Read Error (LSB)";
  highByte ← readByte (Z.to_nat retries) 0 retries (u8 (registerAddress + 1))
                      "I2C Read Error (MSB)";
  ret (int16 (Z.lor (Z.shiftl highByte 8) lowByte)).

(** ** binary32 arithmetic *)

Module F32.
Definition prec : Z := 24.
Definition emax : Z := 128.
Definition of_int (n : Z) : spec_float := binary_normalize prec emax n 0 false.
Definition mul : spec_float -> spec_float -> spec_float := SFmul prec emax.
Definition add : spec_float -> spec_float -> spec_float := SFadd prec emax.
Definition sub : spec_float -> spec_float -> spec_float := SFsub prec emax.
Definition sqrtf : spec_float -> spec_float := SFsqrt prec emax.
Definition fabsf : spec_float -> spec_float := SFabs.
Definition ltb : spec_float -> spec_float -> bool := SFltb.
Definition leb : spec_float -> spec_float -> bool := SFleb.

(** [0.5f] *)
Definition half : spec_float := binary_normalize prec emax 1 (-1) false.

(** Conversion to an integer type: the fractional part is discarded;
    there is no result for an infinity or a NaN. *)
Definition truncate (f : spec_float) : option Z :=
  match f with
  | S754_zero _ => Some 0
  | S754_finite s m e =>
      let magnitude :=
        if 0 <=? e then Z.pos m * 2 ^ e else Z.pos m / 2 ^ (- e) in
      Some (if s then - magnitude else magnitude)
  | _ => None
  end.

(** [(uint8_t)f]: undefined unless the truncated value fits. *)
Definition to_uint8 (f : spec_float) : option Z :=
  match truncate f with
  | Some z => if (0 <=? z) && (z <? 256) then Some z else None
  | None => None
  end.

(** The number a finite value stands for. *)
Definition toQ (f : spec_float) : Q :=
  match f with
  | S754_finite s m e =>
      let magnitude :=
        if 0 <=? e then inject_Z (Z.pos m * 2 ^ e)
        else Z.pos m # Z.to_pos (2 ^ (- e)) in
      if s then Qopp magnitude else magnitude
  | _ => 0%Q
  end.

(** The same datum, bit for bit where there are bits. *)
Definition same (a b : spec_float) : bool :=
  match a, b with
  | S754_zero s, S754_zero s' => Bool.eqb s s'
  | S754_infinity s, S754_infinity s' => Bool.eqb s s'
  | S754_nan, S754_nan => true
  | S754_finite s m e, S754_finite s' m' e' =>
      Bool.eqb s s' && Pos.eqb m m' && Z.eqb e e'
  | _, _ => false
  end.
End F32.

Definition STEP_THRESHOLD : spec_float := F32.of_int 900.
Definition GRAVITY_BASELINE : spec_float := F32.of_int 1024.
Definition TILT_THRESHOLD : spec_float := F32.of_int 600.

(** [sqrtf(ax * ax + ay * ay + az * az)] with each axis scaled by [4.0f],
    as both [detectStep] and [checkTiltToSave] compute it. *)
Definition magnitude (accel : AccelerometerData) : spec_float :=
  let ax := F32.mul (F32.of_int (ax_x accel)) (F32.of_int 4) in
  let ay := F32.mul (F32.of_int (ax_y accel)) (F32.of_int 4) in
  let az := F32.mul (F32.of_int (ax_z accel)) (F32.of_int 4) in
  F32.sqrtf (F32.add (F32.add (F32.mul ax ax) (F32.mul ay ay)) (F32.mul az az)).

Definition dynamicForce (accel : AccelerometerData) : spec_float :=
  F32.fabsf (F32.sub (magnitude accel) GRAVITY_BASELINE).

(** [dynamicForce > STEP_THRESHOLD] *)
Definition exceedsThreshold (accel : AccelerometerData) : bool :=
  F32.ltb STEP_THRESHOLD (dynamicForce accel).

Definition readAccelerometer : M AccelerometerData :=
  x ← readAccelerometerAxis REG_DATA_X0;
  y ← readAccelerometerAxis REG_DATA_Y0;
  z ← readAccelerometerAxis REG_DATA_Z0;
  ret (mkAccel x y z).

Definition detectStep : M unit :=
  accel ← readAccelerometer;
  let exceeds := exceedsThreshold accel in
  modify (set_isMovementActive exceeds);;
  was ← gets wasStepThresholdExceeded;
  when (exceeds && negb was) (
    total ← gets totalSteps;
    modify (set_totalSteps (u16 (total + 1)));;
    slots ← gets stepsPerSecond;
    index ← gets currentSecondIndex;
    count ← defined (array_get slots index);
    slots' ← defined (array_set slots index (u8 (count + 1)));
    modify (set_stepsPerSecond slots');;
    total' ← gets totalSteps;
    emit (printf_u "Step detected! Total=%u\n" total'));;
  modify (set_wasStepThresholdExceeded exceeds).

(** [checkTiltToSave]: [magnitude < TILT_THRESHOLD]. *)
Definition checkTiltToSave : M bool :=
  accel ← readAccelerometer;
  ret (F32.ltb (magnitude accel) TILT_THRESHOLD).
(** * Rendering reached from the interrupt handler *)

Definition MENU_ITEM_COUNT : Z := 5.
Definition HISTORY_SIZE : Z := 60.
Definition GRAPH_WIDTH : Z := 90.

Definition MENU_OPTIONS : list string :=
  ["PedometerGraph"; "12H/24H"; "Set Time"; "Set Date"; "Exit"]%string.

Definition char (code : Z) : ascii := ascii_of_N (Z.to_N (u8 code)).

(** [formatTwoDigits]: two characters, ['0'] is 48. *)
Definition formatTwoDigits (value : Z) : string :=
  String (char (value / 10 + 48)) (String (char (value mod 10 + 48)) EmptyString).

Definition updateMenuTimeDisplay : M unit :=
  clock ← gets systemClock;
  use12 ← gets use12HourFormat;
  let displayHours :=
    if use12 then
      if 12 <=? hours clock
      then (if 12 <? hours clock then u8 (hours clock - 12) else hours clock)
      else (if hours clock =? 0 then 12 else hours clock)
    else hours clock in
  let currentTimeStr :=
    (formatTwoDigits displayHours ++ ":" ++ formatTwoDigits (minutes clock)
       ++ ":" ++ formatTwoDigits (seconds clock))%string in
  previous ← gets previousTime;
  when (negb (String.eqb previous currentTimeStr)) (
    emit (oledC_DrawRectangle 48 80 115 88 OLEDC_COLOR_BLACK);;
    emit (oledC_DrawString 48 80 1 1 currentTimeStr OLEDC_COLOR_WHITE);;
    modify (set_previousTime currentTimeStr)).

(** [for (i = first; i < MENU_ITEM_COUNT; i++)] of [renderMainMenu], with
    the options still to draw. *)
Fixpoint renderMenuItems (options : list string) (i : Z) : M unit :=
  match options with
  | [] => ret tt
  | option :: rest =>
      let yPosition := u8 (20 + i * 12) in
      emit (oledC_DrawString 10 yPosition 1 1 option OLEDC_COLOR_WHITE);;
      selection ← gets currentMenuSelection;
      when (i =? selection)
           (emit (oledC_DrawString 4 yPosition 1 1 ">" OLEDC_COLOR_WHITE));;
      renderMenuItems rest (i + 1)
  end.

Definition renderMainMenu : M unit :=
  emit oledC_clearScreen;;
  renderMenuItems MENU_OPTIONS 0;;
  updateMenuTimeDisplay;;
  use12 ← gets use12HourFormat;
  when use12 (
    clock ← gets systemClock;
    let isPM := 12 <=? hours clock in
    emit (oledC_DrawString 0 80 1 1 (if isPM then "PM" else "AM")
                           OLEDC_COLOR_WHITE)).

(** * TimeBase: the Timer1 interrupt handler

    [RA11] is the level of the button-1 line when the handler reads it
    (the line is active low).  Clearing the interrupt flag [IFS0bits.T1IF]
    is a write to a peripheral register and is not part of the state. *)
Definition _T1Interrupt (RA11 : bool) : M unit :=
  clock ← gets systemClock;
  clock' ← defined (Clock.incrementSystemTime clock);
  modify (set_systemClock clock');;
  elapsed ← gets elapsedSeconds;
  modify (set_elapsedSeconds (u32 (elapsed + 1)));;
  foot ← gets showFootIcon;
  modify (set_showFootIcon (negb foot));;
  graph ← gets isGraphDisplayed;
  when (negb graph) (
    let button1Pressed := negb RA11 in
    if button1Pressed then
      hold ← gets t1_button1HoldCount;
      modify (set_t1_button1HoldCount (u8 (hold + 1)));;
      hold' ← gets t1_button1HoldCount;
      inMenu ← gets inMainMenu;
      when ((2 <=? hold') && negb inMenu) (
        modify (set_inMainMenu true);;
        modify (set_currentMenuSelection 0);;
        renderMainMenu;;
        modify (set_t1_button1HoldCount 0));;
      emit (DELAY_milliseconds 10)
    else
      modify (set_t1_button1HoldCount 0));;
  inMenu ← gets inMainMenu;
  when (negb inMenu) (
    index ← gets currentSecondIndex;
    let index' := u8 ((index + 1) mod HISTORY_SIZE) in
    modify (set_currentSecondIndex index');;
    slots ← gets stepsPerSecond;
    slots' ← defined (array_set slots index' 0);
    modify (set_stepsPerSecond slots');;
    total ← gets totalSteps;
    previous ← gets previousStepCount;
    let stepsThisSecond := u16 (total - previous) in
    modify (set_previousStepCount total);;
    let rawPace := F32.mul (F32.of_int stepsThisSecond) (F32.of_int 60) in
    inactivity ← gets inactivityCount;
    rawPace' ← (if stepsThisSecond =? 0 then
       modify (set_inactivityCount (u8 (inactivity + 1)));;
       ret (if 3 <=? u8 (inactivity + 1) then F32.of_int 0 else rawPace)
     else
       modify (set_inactivityCount 0);;
       ret rawPace);
    modify (set_currentStepPace rawPace')).

(** * PaceEstimator *)

Module Pace.

(** Lines 917-929 of [main]: move toward [rawPace] by [2.0f] without
    passing it, then snap below [0.5f] and clamp above [100.0f]. *)
Definition track (currentDisplayPace rawPace : spec_float) : spec_float :=
  let moved :=
    if F32.ltb currentDisplayPace rawPace then
      let up := F32.add currentDisplayPace (F32.of_int 2) in
      if F32.ltb rawPace up then rawPace else up
    else if F32.ltb rawPace currentDisplayPace then
      let down := F32.sub currentDisplayPace (F32.of_int 2) in
      if F32.ltb down rawPace then rawPace else down
    else currentDisplayPace in
  if F32.ltb moved F32.half then F32.of_int 0
  else if F32.ltb (F32.of_int 100) moved then F32.of_int 100
  else moved.

(** The displayed pace after [n] foreground iterations with an unchanged
    [rawPace]. *)
Fixpoint track_n (n : nat) (displayed rawPace : spec_float) : spec_float :=
  match n with
  | O => displayed
  | S n' => track_n n' (track displayed rawPace) rawPace
  end.

(** [(float)stepsThisSecond * 60.0f], the raw pace the handler
    publishes. *)
Definition published (stepsThisSecond : Z) : spec_float :=
  F32.mul (F32.of_int stepsThisSecond) (F32.of_int 60).

End Pace.

(** * MenuStateMachine: the pages *)

(** What [main] does after [executeMenuSelection] returns, to the end of
    the loop body.  [button1Pressed] and [button2Pressed] are the values
    sampled at the top of the iteration. *)
Definition menuIterationTail (button1Pressed button2Pressed : bool) : M unit :=
  when (negb button1Pressed && negb button2Pressed)
       (emit (LED1_PORT 0);; emit (LED2_PORT 0));;
  updateMenuTimeDisplay;;
  modify (set_wasInMenu true);;
  emit (DELAY_milliseconds 20).

Definition afterMenuSelection : M unit :=
  emit (DELAY_milliseconds 50);;
  modify (set_comboPressCount 0);;
  modify (set_button1WasPressed true);;
  modify (set_button2WasPressed true);;
  menuIterationTail true true.

(** ** Graph *)

Definition displayStepGraph_enter : M unit :=
  modify (set_isGraphDisplayed true);;
  emit oledC_clearScreen;;
  emit (Draws "displayStepGraph");;
  modify (set_page InGraphLoop).

Definition displayStepGraph_leave : M unit :=
  modify (set_isGraphDisplayed false);;
  modify (set_page InMainLoop);;
  afterMenuSelection.

(** One iteration of [while (graphModeActive)]. *)
Definition displayStepGraph_iter (RA11 RA12 : bool) : M unit :=
  let button1Pressed := negb RA11 in
  let button2Pressed := negb RA12 in
  if button2Pressed then
    emit (SpinWhile RA12_low);;
    modify (set_inMainMenu true);;
    renderMainMenu;;
    updateMenuTimeDisplay;;
    emit (DELAY_milliseconds 50);;
    displayStepGraph_leave
  else if button1Pressed then
    hold ← gets graph_button1HoldCount;
    modify (set_graph_button1HoldCount (u8 (hold + 1)));;
    if 20 <=? u8 (hold + 1) then
      emit oledC_clearScreen;;
      modify (set_inMainMenu false);;
      modify (set_redrawClock true);;
      emit (DELAY_milliseconds 50);;
      displayStepGraph_leave
    else
      emit (DELAY_milliseconds 10);;
      emit (DELAY_milliseconds 20)
  else
    modify (set_graph_button1HoldCount 0);;
    emit (DELAY_milliseconds 20).

(** ** Time format *)

Definition manageTimeFormatSelection_enter : M unit :=
  modify (set_inTimeFormatMenu true);;
  use12 ← gets use12HourFormat;
  modify (set_timeFormatOption (if use12 then 0 else 1));;
  emit (Draws "renderTimeFormatMenu");;
  modify (set_page InTimeFormatLoop).

(** Back in [executeMenuSelection], case 1, 2 or 3. *)
Definition returnToMainMenu : M unit :=
  modify (set_page InMainLoop);;
  renderMainMenu;;
  updateMenuTimeDisplay;;
  afterMenuSelection.

(** One evaluation of [while (inTimeFormatMenu)] and of its body. *)
Definition manageTimeFormatSelection_iter (RA11 RA12 : bool) : M unit :=
  let button1Pressed := negb RA11 in
  let button2Pressed := negb RA12 in
  active ← gets inTimeFormatMenu;
  if negb active then returnToMainMenu
  else if button2Pressed then
    emit (SpinWhile RA12_low);;
    option ← gets timeFormatOption;
    modify (set_timeFormatOption (u8 ((option + 1) mod 2)));;
    emit (Draws "renderTimeFormatMenu");;
    emit (DELAY_milliseconds 50);;
    emit (DELAY_milliseconds 20)
  else if button1Pressed then
    emit (SpinWhile RA11_low);;
    option ← gets timeFormatOption;
    modify (set_use12HourFormat (option =? 0));;
    modify (set_inTimeFormatMenu false);;
    emit (DELAY_milliseconds 50);;
    returnToMainMenu
  else
    emit (DELAY_milliseconds 20).

(** ** Set time *)

(** [!x] on a [uint8_t]. *)
Definition lnot (x : Z) : Z := if x =? 0 then 1 else 0.

Definition processTimeSetInput (RA11 RA12 : bool) : M unit :=
  let button1Pressed := negb RA11 in
  let button2Pressed := negb RA12 in
  draft ← gets timeToSet;
  field ← gets timeFieldSelected;
  if button1Pressed && button2Pressed then
    emit (SpinWhile RA11_and_RA12_low);;
    modify (set_timeFieldSelected (lnot field));;
    emit (Draws "renderTimeSetMenu");;
    emit (DELAY_milliseconds 50)
  else if button1Pressed then
    emit (SpinWhile RA11_low);;
    (if field =? 0
     then modify (set_timeToSet
                    (mkTimeSetting (u8 ((ts_hours draft + 1) mod 24))
                                   (ts_minutes draft)))
     else modify (set_timeToSet
                    (mkTimeSetting (ts_hours draft)
                                   (u8 ((ts_minutes draft + 1) mod 60)))));;
    emit (Draws "displayTimeSetValues");;
    emit (DELAY_milliseconds 50)
  else if button2Pressed then
    emit (SpinWhile RA12_low);;
    (if field =? 0
     then modify (set_timeToSet
                    (mkTimeSetting
                       (if ts_hours draft =? 0 then 23
                        else u8 (ts_hours draft - 1))
                       (ts_minutes draft)))
     else modify (set_timeToSet
                    (mkTimeSetting
                       (ts_hours draft)
                       (if ts_minutes draft =? 0 then 59
                        else u8 (ts_minutes draft - 1)))));;
    emit (Draws "displayTimeSetValues");;
    emit (DELAY_milliseconds 50)
  else ret tt.

Definition manageTimeSetPage_enter : M unit :=
  modify (set_inTimeSetMenu true);;
  clockHours ← gets (fun s => hours (systemClock s));
  modify (store_timeToSet_hours clockHours);;
  clockMinutes ← gets (fun s => minutes (systemClock s));
  modify (store_timeToSet_minutes clockMinutes);;
  modify (set_timeFieldSelected 0);;
  emit (Draws "renderTimeSetMenu");;
  emit (SpinWhile RA11_or_RA12_low);;
  modify (set_tiltCount 0);;
  modify (set_page InTimeSetLoop).

(** One evaluation of [while (inTimeSetMenu)] and of its body. *)
Definition manageTimeSetPage_iter (RA11 RA12 : bool) : M unit :=
  active ← gets inTimeSetMenu;
  if negb active then returnToMainMenu
  else
    processTimeSetInput RA11 RA12;;
    level ← checkTiltToSave;
    if level then
      tilt ← gets tiltCount;
      modify (set_tiltCount (tilt + 1));;
      if 1 <=? tilt + 1 then
        draftHours ← gets (fun s => ts_hours (timeToSet s));
        modify (store_clock_hours draftHours);;
        draftMinutes ← gets (fun s => ts_minutes (timeToSet s));
        modify (store_clock_minutes draftMinutes);;
        modify (store_clock_seconds 0);;
        modify (set_inTimeSetMenu false);;
        returnToMainMenu
      else emit (DELAY_milliseconds 20)
    else
      modify (set_tiltCount 0);;
      emit (DELAY_milliseconds 20).

(** ** Set date *)

Definition processDateSetInput (RA11 RA12 : bool) : M unit :=
  let button1Pressed := negb RA11 in
  let button2Pressed := negb RA12 in
  draft ← gets dateToSet;
  field ← gets dateFieldSelected;
  if button1Pressed && button2Pressed then
    emit (SpinWhile RA11_and_RA12_low);;
    modify (set_dateFieldSelected (lnot field));;
    emit (Draws "renderDateSetMenu");;
    emit (DELAY_milliseconds 50)
  else if button1Pressed then
    emit (SpinWhile RA11_low);;
    (if field =? 0 then
       maxDay ← defined (array_get Clock.DAYS_PER_MONTH (ds_month draft - 1));
       modify (set_dateToSet
                 (mkDateSetting (u8 (ds_day draft mod maxDay + 1))
                                (ds_month draft)))
     else
       let month' := u8 (ds_month draft mod 12 + 1) in
       maxDay ← defined (array_get Clock.DAYS_PER_MONTH (month' - 1));
       modify (set_dateToSet
                 (mkDateSetting
                    (if maxDay <? ds_day draft then maxDay else ds_day draft)
                    month')));;
    emit (Draws "displayDateSetValues");;
    emit (DELAY_milliseconds 50)
  else if button2Pressed then
    emit (SpinWhile RA12_low);;
    (if field =? 0 then
       if ds_day draft =? 1 then
         maxDay ← defined (array_get Clock.DAYS_PER_MONTH (ds_month draft - 1));
         modify (set_dateToSet (mkDateSetting maxDay (ds_month draft)))
       else
         modify (set_dateToSet
                   (mkDateSetting (u8 (ds_day draft - 1)) (ds_month draft)))
     else
       let month' := if ds_month draft =? 1 then 12
                     else u8 (ds_month draft - 1) in
       maxDay ← defined (array_get Clock.DAYS_PER_MONTH (month' - 1));
       modify (set_dateToSet
                 (mkDateSetting
                    (if maxDay <? ds_day draft then maxDay else ds_day draft)
                    month')));;
    emit (Draws "displayDateSetValues");;
    emit (DELAY_milliseconds 50)
  else ret tt.

Definition manageDateSetPage_enter : M unit :=
  modify (set_inTimeSetMenu true);;
  clockDay ← gets (fun s => day (systemClock s));
  modify (store_dateToSet_day clockDay);;
  clockMonth ← gets (fun s => month (systemClock s));
  modify (store_dateToSet_month clockMonth);;
  modify (set_dateFieldSelected 0);;
  emit (Draws "renderDateSetMenu");;
  emit (SpinWhile RA11_or_RA12_low);;
  modify (set_tiltCount 0);;
  modify (set_page InDateSetLoop).

(** One evaluation of [while (inTimeSetMenu)] and of its body. *)
Definition manageDateSetPage_iter (RA11 RA12 : bool) : M unit :=
  active ← gets inTimeSetMenu;
  if negb active then returnToMainMenu
  else
    processDateSetInput RA11 RA12;;
    level ← checkTiltToSave;
    if level then
      tilt ← gets tiltCount;
      modify (set_tiltCount (tilt + 1));;
      if 1 <=? tilt + 1 then
        draftDay ← gets (fun s => ds_day (dateToSet s));
        modify (store_clock_day draftDay);;
        draftMonth ← gets (fun s => ds_month (dateToSet s));
        modify (store_clock_month draftMonth);;
        modify (set_inTimeSetMenu false);;
        returnToMainMenu
      else emit (DELAY_milliseconds 20)
    else
      modify (set_tiltCount 0);;
      emit (DELAY_milliseconds 20).

(** ** Dispatch *)

(** [executeMenuSelection].  Cases 0 to 3 enter a page loop, whose
    iterations are later polls: the result [true] says that the caller is
    suspended until the page leaves. *)
Definition executeMenuSelection : M bool :=
  selection ← gets currentMenuSelection;
  if selection =? 0 then displayStepGraph_enter;; ret true
  else if selection =? 1 then manageTimeFormatSelection_enter;; ret true
  else if selection =? 2 then manageTimeSetPage_enter;; ret true
  else if selection =? 3 then manageDateSetPage_enter;; ret true
  else if selection =? 4 then
    modify (set_inMainMenu false);;
    modify (set_redrawClock true);;
    emit oledC_clearScreen;;
    ret false
  else ret false.

(** * The foreground loop *)

(** The menu branch of the loop body of [main]. *)
Definition mainMenuIteration (button1Pressed button2Pressed : bool) : M unit :=
  just ← gets justEnteredMenu;
  if just then
    modify (set_justEnteredMenu false);;
    modify (set_button1WasPressed false);;
    modify (set_button2WasPressed false);;
    renderMainMenu;;
    modify (set_wasInMenu true);;
    emit (DELAY_milliseconds 20)
  else if button1Pressed && button2Pressed then
    combo ← gets comboPressCount;
    modify (set_comboPressCount (u8 (combo + 1)));;
    if 3 <=? u8 (combo + 1) then
      emit (LED1_PORT 1);;
      emit (LED2_PORT 1);;
      emit (SpinWhile RA11_and_RA12_low);;
      emit (LED1_PORT 0);;
      emit (LED2_PORT 0);;
      suspended ← executeMenuSelection;
      if suspended then ret tt else afterMenuSelection
    else menuIterationTail button1Pressed button2Pressed
  else
    modify (set_comboPressCount 0);;
    was1 ← gets button1WasPressed;
    (if button1Pressed && negb was1 then
       emit (LED1_PORT 1);;
       emit (SpinWhile RA11_low);;
       emit (LED1_PORT 0);;
       selection ← gets currentMenuSelection;
       modify (set_currentMenuSelection
                 (if selection =? 0 then MENU_ITEM_COUNT - 1
                  else u8 (selection - 1)));;
       renderMainMenu;;
       emit (DELAY_milliseconds 50);;
       modify (set_button1WasPressed true)
     else when (negb button1Pressed) (modify (set_button1WasPressed false)));;
    was2 ← gets button2WasPressed;
    (if button2Pressed && negb was2 then
       emit (LED2_PORT 1);;
       emit (SpinWhile RA12_low);;
       emit (LED2_PORT 0);;
       selection ← gets currentMenuSelection;
       modify (set_currentMenuSelection
                 (if selection =? MENU_ITEM_COUNT - 1 then 0
                  else u8 (selection + 1)));;
       renderMainMenu;;
       emit (DELAY_milliseconds 50);;
       modify (set_button2WasPressed true)
     else when (negb button2Pressed) (modify (set_button2WasPressed false)));;
    menuIterationTail button1Pressed button2Pressed.

(** The clock branch of the loop body of [main]. *)
Definition clockIteration (button1Pressed button2Pressed : bool) : M unit :=
  emit (LED1_PORT (if button1Pressed then 1 else 0));;
  emit (LED2_PORT (if button2Pressed then 1 else 0));;
  was ← gets wasInMenu;
  when was (
    emit (oledC_DrawRectangle 0 80 115 88 OLEDC_COLOR_BLACK);;
    modify (set_wasInMenu false));;
  detectStep;;
  currentDisplayPace ← gets displayedStepPace;
  rawPace ← gets currentStepPace;
  modify (set_displayedStepPace (Pace.track currentDisplayPace rawPace));;
  displayed ← gets displayedStepPace;
  elapsed ← gets elapsedSeconds;
  history ← gets stepRateHistory;
  sample ← defined (F32.to_uint8 displayed);
  history' ← defined (array_set history (elapsed mod GRAPH_WIDTH) sample);
  modify (set_stepRateHistory history');;
  emit (Draws "displayStepPace");;
  modify (set_redrawClock false);;
  emit (Draws "renderClockDisplay");;
  emit (oledC_DrawRectangle 0 0 15 15 OLEDC_COLOR_BLACK);;
  when (F32.ltb (F32.of_int 0) displayed) (emit (Draws "renderFootIcon"));;
  emit (DELAY_milliseconds 20).

(** One iteration of [while (1)] of [main]; [RA11] and [RA12] are the
    levels of the two button lines (active low) when it samples them. *)
Definition mainLoopBody (RA11 RA12 : bool) : M unit :=
  let button1Pressed := negb RA11 in
  let button2Pressed := negb RA12 in
  inMenu ← gets inMainMenu;
  if inMenu then mainMenuIteration button1Pressed button2Pressed
  else clockIteration button1Pressed button2Pressed.

(** One poll of the foreground: an iteration of the loop it is in. *)
Definition foreground (RA11 RA12 : bool) : M unit :=
  where_ ← gets page;
  match where_ with
  | InMainLoop => mainLoopBody RA11 RA12
  | InGraphLoop => displayStepGraph_iter RA11 RA12
  | InTimeFormatLoop => manageTimeFormatSelection_iter RA11 RA12
  | InTimeSetLoop => manageTimeSetPage_iter RA11 RA12
  | InDateSetLoop => manageDateSetPage_iter RA11 RA12
  end.

(** * The two execution contexts

    [step] and [run] take the two contexts at the grain of whole
    foreground iterations: a tick is handled between two polls.  Timer1
    is never masked, so this is one of the interleavings the hardware
    has; [preempted], below, lets the handler in before any access of
    the foreground.  A poll comes with the replies of the sensor bus to
    the register reads it issues. *)
Inductive Input :=
| Tick (RA11 : bool)
| Poll (RA11 RA12 : bool) (bus : Bus).

Definition silent_bus : Bus := fun _ _ _ => (I2C_FAILED, 0).

Definition step (i : Input) (s : Sys) : Outcome unit :=
  match i with
  | Tick RA11 => _T1Interrupt RA11 silent_bus (start s)
  | Poll RA11 RA12 bus => foreground RA11 RA12 bus (start s)
  end.

(** A run: the state after a sequence of inputs, while nothing halts. *)
Fixpoint run (inputs : list Input) (s : Sys) : option Sys :=
  match inputs with
  | [] => Some s
  | i :: rest =>
      match step i s with
      | Ret _ w => run rest (sys w)
      | Halted _ w => Some (sys w)
      | Undefined => None
      end
  end.

(** ** Well-behaved input for the sensor path *)

(** The little-endian register pair of a 16-bit axis value. *)
Definition lowByteOf (v : Z) : Z := v mod 256.
Definition highByteOf (v : Z) : Z := (v / 256) mod 256.

(** A bus on which every read succeeds and the data registers hold the
    sample [accel]. *)
Definition sampleBus (accel : AccelerometerData) : Bus := fun _ _ reg =>
  (OK,
   if reg =? REG_DATA_X0 then lowByteOf (ax_x accel)
   else if reg =? REG_DATA_X0 + 1 then highByteOf (ax_x accel)
   else if reg =? REG_DATA_Y0 then lowByteOf (ax_y accel)
   else if reg =? REG_DATA_Y0 + 1 then highByteOf (ax_y accel)
   else if reg =? REG_DATA_Z0 then lowByteOf (ax_z accel)
   else if reg =? REG_DATA_Z0 + 1 then highByteOf (ax_z accel)
   else 0).

Definition is_int16 (v : Z) : Prop := -32768 <= v < 32768.

Definition valid_sample (accel : AccelerometerData) : Prop :=
  is_int16 (ax_x accel) /\ is_int16 (ax_y accel) /\ is_int16 (ax_z accel).

(** * Notions the statements use *)

(** ** Outcomes

    [satisfies m bus w post halt]: run from [w], [m] has defined
    behaviour, and it either returns [a] in a world with [post a] or
    halts with a message and a world in [halt]. *)
Definition satisfies {A} (m : M A) (bus : Bus) (w : World)
    (post : A -> World -> Prop) (halt : string -> World -> Prop) : Prop :=
  match m bus w with
  | Ret a w' => post a w'
  | Halted message w' => halt message w'
  | Undefined => False
  end.

Definition never : string -> World -> Prop := fun _ _ => False.

(** ** Exhaustive checks

    [allFrom check count n]: [check] holds of the [count] numbers from
    [n] on. *)
Fixpoint allFrom (check : Z -> bool) (count : nat) (n : Z) : bool :=
  match count with
  | O => true
  | S count' => check n && allFrom check count' (n + 1)
  end.

(** ** The pace on whole numbers

    The update of [Pace.track] in exact arithmetic, on a displayed pace
    and a target that are whole numbers: toward the target by 2 without
    passing it, then kept between 0 and 100. *)
Definition paceStep (displayed target : Z) : Z :=
  let moved :=
    if displayed <? target then Z.min (displayed + 2) target
    else if target <? displayed then Z.max (displayed - 2) target
    else displayed in
  Z.max 0 (Z.min 100 moved).

Fixpoint paceSteps (n : nat) (displayed target : Z) : Z :=
  match n with
  | O => displayed
  | S n' => paceSteps n' (paceStep displayed target) target
  end.

(** A binary32 datum below 128: a zero, a negative number, or a positive
    one whose exponent is at most that of the numbers from 64 to 127. *)
Definition belowExponent7 (f : spec_float) : bool :=
  match f with
  | S754_zero _ => true
  | S754_finite true _ _ => true
  | S754_finite false _ e => e <=? -17
  | _ => false
  end.

(** A positive binary32 datum with the exponent of 128 or a larger one. *)
Definition fromExponent7 (f : spec_float) : bool :=
  match f with
  | S754_finite false _ e => -17 <? e
  | _ => false
  end.

(** ** Bus retries *)

(** The first successful attempt among the three a register read makes,
    with the byte it delivers. *)
Definition firstSuccess (attempt : nat -> I2Cerror * Z) : option (nat * Z) :=
  match fst (attempt 0%nat), fst (attempt 1%nat), fst (attempt 2%nat) with
  | OK, _, _ => Some (0%nat, snd (attempt 0%nat))
  | _, OK, _ => Some (1%nat, snd (attempt 1%nat))
  | _, _, OK => Some (2%nat, snd (attempt 2%nat))
  | _, _, _ => None
  end.

(** [n] failed attempts, each followed by the inter-attempt delay. *)
Fixpoint failedAttempts (n : nat) (reg : Z) : list Event :=
  match n with
  | O => []
  | S n' => i2cReadSlaveRegister ACCEL_WRITE_ADDR reg I2C_FAILED
            :: DELAY_milliseconds 10 :: failedAttempts n' reg
  end.

(** What [haltWithError] does before it idles. *)
Definition fatal (message : string) : list Event :=
  [oledC_DrawString 0 20 1 1 message OLEDC_COLOR_DARKRED;
   printf_s "Error: %s\n" message].

(** ** Step detection over a sequence of samples *)

(** [detectStep] called once per sample, each delivered by the bus
    without error. *)
Fixpoint detectSteps (samples : list AccelerometerData) (s : Sys)
  : option Sys :=
  match samples with
  | [] => Some s
  | accel :: rest =>
      match detectStep (sampleBus accel) (start s) with
      | Ret _ w => detectSteps rest (sys w)
      | _ => None
      end
  end.

(** Samples that are above threshold while the one before was not;
    [previous] stands for the sample before the first. *)
Fixpoint risingEdges (previous : bool) (above : list bool) : nat :=
  match above with
  | [] => 0
  | b :: rest => (if b && negb previous then 1 else 0) + risingEdges b rest
  end.

(** The maximal runs of equal values of a sequence, as (value, length). *)
Fixpoint runLengths (l : list bool) : list (bool * nat) :=
  match l with
  | [] => []
  | b :: rest =>
      match runLengths rest with
      | (b', n) :: runs =>
          if Bool.eqb b b' then (b, S n) :: runs else (b, 1%nat) :: (b', n) :: runs
      | [] => [(b, 1%nat)]
      end
  end.

(** The number of maximal runs of [true]. *)
Definition trueRuns (l : list bool) : nat :=
  length (filter (fun run => fst run = true) (runLengths l)).

(** The reading "at or above the threshold": [dynamicForce >= 900]. *)
Definition atOrAboveThreshold (accel : AccelerometerData) : bool :=
  F32.leb STEP_THRESHOLD (dynamicForce accel).

(** [dynamicForce < 900]. *)
Definition belowThreshold (accel : AccelerometerData) : bool :=
  F32.ltb (dynamicForce accel) STEP_THRESHOLD.

(** ** Frames

    [keeps R m]: whenever [m] has defined behaviour, the state it returns
    or halts in is [R]-related to the state it started from. *)
Definition keeps {A} (R : Sys -> Sys -> Prop) (m : M A) : Prop :=
  forall bus w,
    match m bus w with
    | Ret _ w' | Halted _ w' => R (sys w) (sys w')
    | Undefined => True
    end.

(** [agree proj]: the two states have the same [proj] view. *)
Definition agree {T} (proj : Sys -> T) (s s' : Sys) : Prop := proj s' = proj s.

(** [preserves inv]: if [inv] held before, it holds after. *)
Definition preserves (inv : Sys -> Prop) (s s' : Sys) : Prop := inv s -> inv s'.

(** A preorder on states that every assignment of the menu pages
    respects: these are the globals the pages write. *)
Class MenuFrame (R : Sys -> Sys -> Prop) : Prop := {
  frame_preorder :: PreOrder R;
  frame_previousTime : forall v s, R s (set_previousTime v s);
  frame_wasInMenu : forall v s, R s (set_wasInMenu v s);
  frame_comboPressCount : forall v s, R s (set_comboPressCount v s);
  frame_button1WasPressed : forall v s, R s (set_button1WasPressed v s);
  frame_button2WasPressed : forall v s, R s (set_button2WasPressed v s);
  frame_isGraphDisplayed : forall v s, R s (set_isGraphDisplayed v s);
  frame_page : forall v s, R s (set_page v s);
  frame_inMainMenu : forall v s, R s (set_inMainMenu v s);
  frame_graph_button1HoldCount : forall v s, R s (set_graph_button1HoldCount v s);
  frame_redrawClock : forall v s, R s (set_redrawClock v s);
  frame_inTimeFormatMenu : forall v s, R s (set_inTimeFormatMenu v s);
  frame_timeFormatOption : forall v s, R s (set_timeFormatOption v s);
  frame_use12HourFormat : forall v s, R s (set_use12HourFormat v s);
  frame_timeFieldSelected : forall v s, R s (set_timeFieldSelected v s);
  frame_timeToSet : forall v s, R s (set_timeToSet v s);
  frame_inTimeSetMenu : forall v s, R s (set_inTimeSetMenu v s);
  frame_tiltCount : forall v s, R s (set_tiltCount v s);
  frame_systemClock : forall v s, R s (set_systemClock v s);
  frame_dateFieldSelected : forall v s, R s (set_dateFieldSelected v s);
  frame_dateToSet : forall v s, R s (set_dateToSet v s);
  frame_justEnteredMenu : forall v s, R s (set_justEnteredMenu v s)
}.

(** What menu mode freezes: the step count, the per-second buckets and
    their index, the raw pace, and the two flags [detectStep] writes on
    every call. *)
Definition stepView (s : Sys) : Z * list Z * Z * spec_float * bool * bool :=
  (totalSteps s, stepsPerSecond s, currentSecondIndex s, currentStepPace s,
   wasStepThresholdExceeded s, isMovementActive s).

(** The main-menu cursor points at one of the [MENU_ITEM_COUNT] items. *)
Definition selectionInRange (s : Sys) : Prop :=
  0 <= currentMenuSelection s < MENU_ITEM_COUNT.

(** ** Polls of the tilt-confirmed pages *)

(** [magnitude < TILT_THRESHOLD]: the reading [checkTiltToSave] accepts. *)
Definition heldLevel (accel : AccelerometerData) : bool :=
  F32.ltb (magnitude accel) TILT_THRESHOLD.

(** The reading "at or above the tilt threshold": [magnitude >= 600]. *)
Definition atOrAboveTilt (accel : AccelerometerData) : bool :=
  F32.leb TILT_THRESHOLD (magnitude accel).

(** A foreground poll given by the two button lines and the sample the
    bus delivers. *)
Definition tiltPoll (p : bool * bool * AccelerometerData) : Input :=
  Poll (fst (fst p)) (snd (fst p)) (sampleBus (snd p)).

(** A staged date within the day count of its month. *)
Definition valid_date (d : DateSetting) : Prop :=
  1 <= ds_month d <= 12 /\
  exists maxDay, array_get Clock.DAYS_PER_MONTH (ds_month d - 1) = Some maxDay /\
                 1 <= ds_day d <= maxDay.

(** ** The four edits of a staged date, in the specification's words *)

(** The day count of month [m] in the fixed table. *)
Definition daysIn (m : Z) : Z :=
  match array_get Clock.DAYS_PER_MONTH (m - 1) with
  | Some maxDay => maxDay
  | None => 0
  end.

(** Day up by one, from the month's last day to 1. *)
Definition incrementDay (d : DateSetting) : DateSetting :=
  mkDateSetting (if ds_day d =? daysIn (ds_month d) then 1 else ds_day d + 1)
                (ds_month d).

(** Day down by one, from 1 to the month's last day. *)
Definition decrementDay (d : DateSetting) : DateSetting :=
  mkDateSetting (if ds_day d =? 1 then daysIn (ds_month d) else ds_day d - 1)
                (ds_month d).

(** Month [m] with the day clamped down to its day count. *)
Definition withMonth (m : Z) (d : DateSetting) : DateSetting :=
  mkDateSetting (Z.min (ds_day d) (daysIn m)) m.

Definition nextMonth (d : DateSetting) : DateSetting :=
  withMonth (if ds_month d =? 12 then 1 else ds_month d + 1) d.

Definition previousMonth (d : DateSetting) : DateSetting :=
  withMonth (if ds_month d =? 1 then 12 else ds_month d - 1) d.

(** The staged date after one look at the two button lines (active low)
    with [field] selected: button 1 alone increments, button 2 alone
    decrements, both or none leave the date. *)
Definition stagedDateAfter (RA11 RA12 : bool) (field : Z) (d : DateSetting)
  : DateSetting :=
  match RA11, RA12 with
  | false, true => if field =? 0 then incrementDay d else nextMonth d
  | true, false => if field =? 0 then decrementDay d else previousMonth d
  | _, _ => d
  end.

(** * Preemption

    [main] never masks Timer1: the handler can run before any access of
    the foreground to a variable, a register of the bus or a
    collaborator, and it runs to its end before the foreground goes on.

    [Code m] spells out how the program [m] is made of such accesses,
    one constructor per primitive of the machine: a derivation of
    [Code m] is [m] read as a syntax tree.  An access of the model is
    one [gets], [modify], [emit] or bus read; where the model reads or
    writes a struct in one [gets] or [modify] the interleavings are
    those of the model's accesses. *)

Inductive Code : forall {A : Type}, M A -> Type :=
| code_ret {A} (a : A) : Code (ret a)
| code_gets {A} (f : Sys -> A) : Code (gets f)
| code_modify (f : Sys -> Sys) : Code (modify f)
| code_emit (e : Event) : Code (emit e)
| code_i2cRead (device reg : Z) : Code (i2cRead device reg)
| code_undefined {A} : Code (@undefined A)
| code_halt {A} (message : string) :
    Code ((fun _ w => Halted message w) : M A)
| code_bind {A B} (m : M A) (f : A -> M B) :
    Code m -> (forall a, Code (f a)) -> Code (bind m f).

(** The handler invocations that preempt one access: the level of RA11
    each of them reads. *)
Definition Ticks : Type := list bool.

(** For each access of the foreground in turn, the ticks that preempt
    it; past the end of the list no tick fires. *)
Definition Schedule : Type := list Ticks.

(** What a preempted execution gives: the outcome, the part of the
    schedule not used, and the states in which the handler was
    entered. *)
Definition Preempted (A : Type) : Type := Outcome A * (Schedule * list Sys).

(** The handler invocations of [ticks], one after the other. *)
Fixpoint serve (ticks : Ticks) (bus : Bus) (w : World) : Outcome (list Sys) :=
  match ticks with
  | [] => Ret [] w
  | RA11 :: rest =>
      match _T1Interrupt RA11 bus w with
      | Ret _ w' =>
          match serve rest bus w' with
          | Ret entered w'' => Ret (sys w :: entered) w''
          | Halted message w'' => Halted message w''
          | Undefined => Undefined
          end
      | Halted message w' => Halted message w'
      | Undefined => Undefined
      end
  end.

(** One access, after the ticks that preempt it. *)
Definition access {A} (m : M A) (schedule : Schedule) (bus : Bus) (w : World)
  : Preempted A :=
  match schedule with
  | [] => (m bus w, ([], []))
  | ticks :: rest =>
      match serve ticks bus w with
      | Ret entered w' => (m bus w', (rest, entered))
      | Halted message w' => (Halted message w', (rest, []))
      | Undefined => (Undefined, (rest, []))
      end
  end.

(** The program of a derivation, preempted as the schedule says. *)
Fixpoint preempted {A} {m : M A} (c : Code m)
  : Schedule -> Bus -> World -> Preempted A :=
  match c in @Code A m return Schedule -> Bus -> World -> Preempted A with
  | code_ret a => fun schedule _ w => (Ret a w, (schedule, []))
  | code_gets f => access (gets f)
  | code_modify f => access (modify f)
  | code_emit e => access (emit e)
  | code_i2cRead device reg => access (i2cRead device reg)
  | code_undefined => fun schedule _ _ => (Undefined, (schedule, []))
  | code_halt message => fun schedule _ w => (Halted message w, (schedule, []))
  | code_bind m f cm cf => fun schedule bus w =>
      match preempted cm schedule bus w with
      | (Ret a w', (schedule', entered)) =>
          match preempted (cf a) schedule' bus w' with
          | (o, (schedule'', entered')) => (o, (schedule'', entered ++ entered'))
          end
      | (Halted message w', rest) => (Halted message w', rest)
      | (Undefined, rest) => (Undefined, rest)
      end
  end.

(** Every assignment of the derivation respects [R]. *)
Fixpoint respects (R : Sys -> Sys -> Prop) {A} {m : M A} (c : Code m) : Prop :=
  match c with
  | code_modify f => forall s, R s (f s)
  | code_bind _ _ cm cf => respects R cm /\ forall a, respects R (cf a)
  | _ => True
  end.

(** ** The programs as derivations

    Built by reading each program's definition, one constructor per
    primitive. *)

Create HintDb code.

Ltac code1 :=
  lazymatch goal with
  | |- Code (bind _ _) => apply code_bind; [|intros ?]
  | |- Code (ret _) => apply code_ret
  | |- Code (gets _) => apply code_gets
  | |- Code (modify _) => apply code_modify
  | |- Code (emit _) => apply code_emit
  | |- Code (i2cRead _ _) => apply code_i2cRead
  | |- Code undefined => apply code_undefined
  | |- Code (defined ?o) => destruct o; cbn [defined]
  | |- Code (when ?c _) => destruct c; cbn [when]
  | |- Code (haltWithError _) => unfold haltWithError
  | |- Code (if ?c then _ else _) => destruct c
  | |- Code (match ?x with _ => _ end) => destruct x
  | |- Code (fun _ w => Halted _ w) => apply code_halt
  | |- Code _ => solve [auto with code]
  end.

Ltac code := cbv zeta; repeat (code1; cbv zeta).

Fixpoint code_readByte (remaining : nat) (i retries reg : Z)
    (message : string) {struct remaining}
  : Code (readByte remaining i retries reg message).
Proof.
  destruct remaining as [|remaining]; cbn [readByte]; code.
Defined.
#[local] Hint Resolve code_readByte : code.

Definition code_readAccelerometerAxis (reg : Z) : Code (readAccelerometerAxis reg).
Proof. unfold readAccelerometerAxis. code. Defined.
#[local] Hint Resolve code_readAccelerometerAxis : code.

Definition code_readAccelerometer : Code readAccelerometer.
Proof. unfold readAccelerometer. code. Defined.
#[local] Hint Resolve code_readAccelerometer : code.

Definition code_checkTiltToSave : Code checkTiltToSave.
Proof. unfold checkTiltToSave. code. Defined.
#[local] Hint Resolve code_checkTiltToSave : code.

Definition code_updateMenuTimeDisplay : Code updateMenuTimeDisplay.
Proof. unfold updateMenuTimeDisplay. code. Defined.
#[local] Hint Resolve code_updateMenuTimeDisplay : code.

Fixpoint code_renderMenuItems (options : list string) (i : Z)
    {struct options} : Code (renderMenuItems options i).
Proof.
  destruct options as [|o rest]; cbn [renderMenuItems]; code.
Defined.
#[local] Hint Resolve code_renderMenuItems : code.

Definition code_renderMainMenu : Code renderMainMenu.
Proof. unfold renderMainMenu. code. Defined.
#[local] Hint Resolve code_renderMainMenu : code.

Definition code_menuIterationTail (b1 b2 : bool) : Code (menuIterationTail b1 b2).
Proof. unfold menuIterationTail. code. Defined.
#[local] Hint Resolve code_menuIterationTail : code.

Definition code_afterMenuSelection : Code afterMenuSelection.
Proof. unfold afterMenuSelection. code. Defined.
#[local] Hint Resolve code_afterMenuSelection : code.

Definition code_displayStepGraph_enter : Code displayStepGraph_enter.
Proof. unfold displayStepGraph_enter. code. Defined.

Definition code_displayStepGraph_leave : Code displayStepGraph_leave.
Proof. unfold displayStepGraph_leave. code. Defined.
#[local] Hint Resolve code_displayStepGraph_enter code_displayStepGraph_leave
  : code.

Definition code_displayStepGraph_iter (RA11 RA12 : bool) :
  Code (displayStepGraph_iter RA11 RA12).
Proof. unfold displayStepGraph_iter. code. Defined.

Definition code_returnToMainMenu : Code returnToMainMenu.
Proof. unfold returnToMainMenu. code. Defined.
#[local] Hint Resolve code_returnToMainMenu : code.

Definition code_manageTimeFormatSelection_enter :
  Code manageTimeFormatSelection_enter.
Proof. unfold manageTimeFormatSelection_enter. code. Defined.

Definition code_manageTimeFormatSelection_iter (RA11 RA12 : bool) :
  Code (manageTimeFormatSelection_iter RA11 RA12).
Proof. unfold manageTimeFormatSelection_iter. code. Defined.

Definition code_processTimeSetInput (RA11 RA12 : bool) :
  Code (processTimeSetInput RA11 RA12).
Proof. unfold processTimeSetInput. code. Defined.
#[local] Hint Resolve code_processTimeSetInput : code.

Definition code_manageTimeSetPage_enter : Code manageTimeSetPage_enter.
Proof. unfold manageTimeSetPage_enter. code. Defined.

Definition code_manageTimeSetPage_iter (RA11 RA12 : bool) :
  Code (manageTimeSetPage_iter RA11 RA12).
Proof. unfold manageTimeSetPage_iter. code. Defined.

Definition code_processDateSetInput (RA11 RA12 : bool) :
  Code (processDateSetInput RA11 RA12).
Proof. unfold processDateSetInput. code. Defined.
#[local] Hint Resolve code_processDateSetInput : code.

Definition code_manageDateSetPage_enter : Code manageDateSetPage_enter.
Proof. unfold manageDateSetPage_enter. code. Defined.

Definition code_manageDateSetPage_iter (RA11 RA12 : bool) :
  Code (manageDateSetPage_iter RA11 RA12).
Proof. unfold manageDateSetPage_iter. code. Defined.
#[local] Hint Resolve code_manageTimeFormatSelection_enter
  code_manageTimeSetPage_enter code_manageDateSetPage_enter : code.

Definition code_executeMenuSelection : Code executeMenuSelection.
Proof. unfold executeMenuSelection. code. Defined.
#[local] Hint Resolve code_executeMenuSelection : code.

Definition code_mainMenuIteration (b1 b2 : bool) : Code (mainMenuIteration b1 b2).
Proof. unfold mainMenuIteration. code. Defined.

Definition code_detectStep : Code detectStep.
Proof. unfold detectStep. code. Defined.
#[local] Hint Resolve code_detectStep : code.

Definition code_clockIteration (b1 b2 : bool) : Code (clockIteration b1 b2).
Proof. unfold clockIteration. code. Defined.

Definition code_mainLoopBody (RA11 RA12 : bool) : Code (mainLoopBody RA11 RA12).
Proof.
  unfold mainLoopBody. code;
    [apply code_mainMenuIteration | apply code_clockIteration].
Defined.

Definition code_foreground (RA11 RA12 : bool) : Code (foreground RA11 RA12).
Proof.
  unfold foreground. code;
    [ apply code_mainLoopBody | apply code_displayStepGraph_iter
    | apply code_manageTimeFormatSelection_iter
    | apply code_manageTimeSetPage_iter | apply code_manageDateSetPage_iter ].
Defined.

Definition code_T1Interrupt (RA11 : bool) : Code (_T1Interrupt RA11).
Proof. unfold _T1Interrupt. code. Defined.

(** No [haltWithError] in the derivation. *)
Fixpoint haltFree {A} {m : M A} (c : Code m) : Prop :=
  match c with
  | code_halt _ => False
  | code_bind _ _ cm cf => haltFree cm /\ forall a, haltFree (cf a)
  | _ => True
  end.

(** ** Menu mode under preemption

    Foreground iterations for as long as each of them starts with
    [inMainMenu] set, each preempted as its schedule says: the state
    reached and the states in which the handler was entered on the
    way.  A tick that falls after the last access of an iteration is
    one before the first access of the next. *)
Fixpoint preemptedMenuRun (polls : list (bool * bool * Bus * Schedule))
    (s : Sys) : option (Sys * list Sys) :=
  match polls with
  | [] => Some (s, [])
  | (RA11, RA12, bus, schedule) :: rest =>
      if inMainMenu s then
        match preempted (code_foreground RA11 RA12) schedule bus (start s) with
        | (Ret _ w, (_, entered)) =>
            match preemptedMenuRun rest (sys w) with
            | Some (s', entered') => Some (s', entered ++ entered')
            | None => None
            end
        | (Halted _ w, (_, entered)) => Some (sys w, entered)
        | (Undefined, _) => None
        end
      else Some (s, [])
  end.

(** * Well-formed states

    What the array accesses of the program rely on: the clock and the two
    drafts within their ranges (so that [DAYS_PER_MONTH] is indexed by a
    month in 1..12), the two rings at their declared sizes with the ring
    index inside [stepsPerSecond], and every graph sample a pace in
    0..100; and what the conversion of the displayed pace to a graph
    sample relies on: the displayed pace is a whole number from 0 to 100
    and the raw pace one that the handler publishes. *)

Definition valid_time (t : TimeSetting) : Prop :=
  0 <= ts_hours t < 24 /\ 0 <= ts_minutes t < 60.

Definition wellFormed (s : Sys) : Prop :=
  Clock.valid_clock (systemClock s) /\
  valid_time (timeToSet s) /\
  valid_date (dateToSet s) /\
  length (stepsPerSecond s) = Z.to_nat HISTORY_SIZE /\
  0 <= currentSecondIndex s < HISTORY_SIZE /\
  length (stepRateHistory s) = Z.to_nat GRAPH_WIDTH /\
  Forall (fun pace => 0 <= pace <= 100) (stepRateHistory s) /\
  (exists whole, 0 <= whole <= 100 /\
                 displayedStepPace s = F32.of_int whole) /\
  (exists steps, 0 <= steps < 65536 /\
                 currentStepPace s = Pace.published steps).

(** The main menu on 31 January at 23:59:59, the cursor on the Set
    Date item and both buttons held for two polls already: the next
    poll with both held opens the date page. *)
Definition january31 : Sys :=
  set_currentMenuSelection 3
    (set_comboPressCount 2
       (set_inMainMenu true (set_systemClock (mkClock 23 59 59 31 1) boot))).

(** The date page about to commit the draft 31 March over the clock's
    15 April. *)
Definition april15 : Sys :=
  set_page InDateSetLoop
    (set_inTimeSetMenu true
       (set_dateToSet (mkDateSetting 31 3)
          (set_inMainMenu true (set_systemClock (mkClock 12 0 0 15 4) boot)))).

(** [safe m]: from a well-formed state [m] has defined behaviour, and
    the state it returns or halts in is well-formed. *)
Definition safe {A} (m : M A) : Prop :=
  forall bus w, wellFormed (sys w) ->
    satisfies m bus w (fun _ w' => wellFormed (sys w'))
                      (fun _ w' => wellFormed (sys w')).

(** A halt of the sensor path: one of the two messages of
    [readAccelerometerAxis], drawn and printed last, the state as it
    was. *)
Definition sensorHalt (w : World) (message : string) (w' : World) : Prop :=
  (message = "I2C Read Error (LSB)"%string \/
   message = "I2C Read Error (MSB)"%string) /\
  sys w' = sys w /\
  exists evs, events w' = events w ++ evs ++ fatal message.

(** ** What the bus delivers

    The byte a register read ends with, and the number of reads issued
    by then, when one of its three attempts succeeds; [reads] is the
    number of reads issued before. *)
Definition sensedByte (bus : Bus) (reads : nat) (reg : Z) : option (Z * nat) :=
  match firstSuccess (fun i => bus (i + reads)%nat ACCEL_WRITE_ADDR reg) with
  | Some (i, byte) => Some (u8 byte, S (i + reads))
  | None => None
  end.

(** The 16-bit value of the register pair at [reg]. *)
Definition sensedAxis (bus : Bus) (reads : nat) (reg : Z) : option (Z * nat) :=
  match sensedByte bus reads reg with
  | Some (low, reads1) =>
      match sensedByte bus reads1 (u8 (reg + 1)) with
      | Some (high, reads2) =>
          Some (int16 (Z.lor (Z.shiftl high 8) low), reads2)
      | None => None
      end
  | None => None
  end.

(** The sample the first reads of a poll deliver; there is none when a
    byte fails three times in a row. *)
Definition sensedSample (bus : Bus) : option AccelerometerData :=
  match sensedAxis bus 0 REG_DATA_X0 with
  | Some (x, reads1) =>
      match sensedAxis bus reads1 REG_DATA_Y0 with
      | Some (y, reads2) =>
          match sensedAxis bus reads2 REG_DATA_Z0 with
          | Some (z, _) => Some (mkAccel x y z)
          | None => None
          end
      | None => None
      end
  | None => None
  end.

(** ** The edits of a staged time, as a user sees them *)

(** The staged time after one look at the two button lines (active low)
    with [field] selected: button 1 alone steps the field up, button 2
    alone steps it down, both or none leave the time. *)
Definition stagedTimeAfter (RA11 RA12 : bool) (field : Z) (t : TimeSetting)
  : TimeSetting :=
  match RA11, RA12 with
  | false, true =>
      if field =? 0
      then mkTimeSetting ((ts_hours t + 1) mod 24) (ts_minutes t)
      else mkTimeSetting (ts_hours t) ((ts_minutes t + 1) mod 60)
  | true, false =>
      if field =? 0
      then mkTimeSetting (if ts_hours t =? 0 then 23 else ts_hours t - 1)
                         (ts_minutes t)
      else mkTimeSetting (ts_hours t)
                         (if ts_minutes t =? 0 then 59 else ts_minutes t - 1)
  | _, _ => t
  end.

(** The field selector after the same look: both buttons together move
    it to the other field. *)
Definition selectedFieldAfter (RA11 RA12 : bool) (field : Z) : Z :=
  if negb RA11 && negb RA12 then lnot field else field.

(** ** Button polls *)

(** A foreground poll given by the levels of the two button lines
    (active low), on a bus [bus]. *)
Definition buttonPoll (bus : Bus) (levels : bool * bool) : Input :=
  Poll (fst levels) (snd levels) bus.

(** How many of the polls read button 2 pressed. *)
Definition button2Presses (polls : list (bool * bool)) : nat :=
  length (filter (fun levels => snd levels = false) polls).

(** * The display cache

    The rendering routines that [main] calls on the clock face keep
    [static] copies of what they drew last and redraw a field only when
    it differs.  Each routine is a function of its statics and of the
    globals it reads, and gives the new statics and the display calls in
    program order. *)

(** [sprintf(text, "%u", n)] and ["%d"] for a non-negative [n]. *)
Definition decimal (n : Z) : string :=
  NilEmpty.string_of_uint (N.to_uint (Z.to_N n)).

(** ** [displayStepPace] *)

(** [previousText] is the static buffer; [previousText[0] = '\0'] empties
    it.  The floating-point tests and the rounding [(uint16_t)(pace +
    0.5f)] are on the rational value of the pace. *)
Definition displayStepPace (previousText : string) (displayedStepPace : Q)
  : string * list Event :=
  if Qle_bool displayedStepPace (1 # 2) then
    if negb (String.eqb previousText EmptyString)
    then (EmptyString,
          [oledC_DrawString 25 2 1 1 previousText OLEDC_COLOR_BLACK])
    else (previousText, [])
  else
    let currentText := decimal (u16 (Qfloor (displayedStepPace + (1 # 2)))) in
    if negb (String.eqb previousText currentText)
    then (currentText,
          [oledC_DrawString 25 2 1 1 previousText OLEDC_COLOR_BLACK;
           oledC_DrawString 25 2 1 1 currentText OLEDC_COLOR_WHITE])
    else (previousText, []).

(** ** [renderClockDisplay] *)

(** The statics of [renderClockDisplay]. *)
Record ClockCache := mkClockCache {
  lastHours : Z;
  lastMinutes : Z;
  lastSeconds : Z;
  lastWas12Hour : bool;
  lastIsPM : bool;
  lastDay : Z;
  lastMonth : Z
}.

Definition initialClockCache : ClockCache :=
  mkClockCache 255 255 255 false false 255 255.

(** [if (redrawClock) { ... }]: forget what was drawn. *)
Definition forgetClock (use12HourFormat : bool) : ClockCache :=
  mkClockCache 255 255 255 (negb use12HourFormat) true 255 255.

(** The hour shown and the PM flag, from the block [if
    (use12HourFormat) { ... }]. *)
Definition displayedHours (use12HourFormat : bool) (hours : Z) : Z * bool :=
  if use12HourFormat then
    if hours =? 0 then (12, false)
    else if 12 <=? hours
         then ((if 12 <? hours then u8 (hours - 12) else hours), true)
         else (hours, false)
  else (hours, false).

(** [renderClockDisplay(time)] with [redrawClock] and [use12HourFormat]
    as it finds them; afterwards [redrawClock] is clear. *)
Definition renderClockDisplay (redrawClock use12HourFormat : bool)
    (time : ClockTime) (statics : ClockCache) : ClockCache * list Event :=
  let c := if redrawClock then forgetClock use12HourFormat else statics in
  let '(displayHours, isPM) := displayedHours use12HourFormat (hours time) in
  let formatChanged := negb (eqb (lastWas12Hour c) use12HourFormat) in
  (* hours *)
  let drawHours := negb (displayHours =? lastHours c) || formatChanged in
  let hoursDrawn :=
    if drawHours then
      [oledC_DrawRectangle 8 45 32 61 OLEDC_COLOR_BLACK;
       oledC_DrawString 8 45 2 2 (formatTwoDigits displayHours)
                        OLEDC_COLOR_WHITE;
       oledC_DrawString 32 45 2 2 ":" OLEDC_COLOR_WHITE]
    else [] in
  let lastHours' := if drawHours then displayHours else lastHours c in
  (* minutes *)
  let drawMinutes := negb (minutes time =? lastMinutes c) || formatChanged in
  let minutesDrawn :=
    if drawMinutes then
      [oledC_DrawRectangle 40 45 64 61 OLEDC_COLOR_BLACK;
       oledC_DrawString 40 45 2 2 (formatTwoDigits (minutes time))
                        OLEDC_COLOR_WHITE;
       oledC_DrawString 64 45 2 2 ":" OLEDC_COLOR_WHITE]
    else [] in
  let lastMinutes' := if drawMinutes then minutes time else lastMinutes c in
  (* seconds *)
  let drawSeconds := negb (seconds time =? lastSeconds c) in
  let secondsDrawn :=
    if drawSeconds then
      [oledC_DrawRectangle 72 45 96 61 OLEDC_COLOR_BLACK;
       oledC_DrawString 72 45 2 2 (formatTwoDigits (seconds time))
                        OLEDC_COLOR_WHITE]
    else [] in
  let lastSeconds' := if drawSeconds then seconds time else lastSeconds c in
  (* AM/PM *)
  let drawPeriod :=
    use12HourFormat
    && (negb (eqb isPM (lastIsPM c)) || formatChanged || (lastHours' =? 255)) in
  let periodDrawn :=
    if drawPeriod then
      [oledC_DrawRectangle 0 85 20 93 OLEDC_COLOR_BLACK;
       oledC_DrawString 0 85 1 1 (if isPM then "PM" else "AM")
                        OLEDC_COLOR_WHITE]
    else if negb use12HourFormat && lastWas12Hour c then
      [oledC_DrawRectangle 0 85 20 93 OLEDC_COLOR_BLACK]
    else [] in
  let lastIsPM' := if drawPeriod then isPM else lastIsPM c in
  (* date *)
  let drawDate :=
    negb (day time =? lastDay c) || negb (month time =? lastMonth c)
    || (lastHours' =? 255) in
  let dateDrawn :=
    if drawDate then
      [oledC_DrawRectangle 65 85 95 93 OLEDC_COLOR_BLACK;
       oledC_DrawString 65 85 1 1 (formatTwoDigits (day time))
                        OLEDC_COLOR_WHITE;
       oledC_DrawString 77 85 1 1 "/" OLEDC_COLOR_WHITE;
       oledC_DrawString 83 85 1 1 (formatTwoDigits (month time))
                        OLEDC_COLOR_WHITE]
    else [] in
  let lastDay' := if drawDate then day time else lastDay c in
  let lastMonth' := if drawDate then month time else lastMonth c in
  (mkClockCache lastHours' lastMinutes' lastSeconds' use12HourFormat
                lastIsPM' lastDay' lastMonth',
   hoursDrawn ++ minutesDrawn ++ secondsDrawn ++ periodDrawn ++ dateDrawn).

(** *** The fields of the clock face, as drawn *)

Definition hoursField (displayHours : Z) : list Event :=
  [oledC_DrawRectangle 8 45 32 61 OLEDC_COLOR_BLACK;
   oledC_DrawString 8 45 2 2 (formatTwoDigits displayHours) OLEDC_COLOR_WHITE;
   oledC_DrawString 32 45 2 2 ":" OLEDC_COLOR_WHITE].

Definition minutesField (minutes : Z) : list Event :=
  [oledC_DrawRectangle 40 45 64 61 OLEDC_COLOR_BLACK;
   oledC_DrawString 40 45 2 2 (formatTwoDigits minutes) OLEDC_COLOR_WHITE;
   oledC_DrawString 64 45 2 2 ":" OLEDC_COLOR_WHITE].

Definition secondsField (seconds : Z) : list Event :=
  [oledC_DrawRectangle 72 45 96 61 OLEDC_COLOR_BLACK;
   oledC_DrawString 72 45 2 2 (formatTwoDigits seconds) OLEDC_COLOR_WHITE].

Definition periodField (isPM : bool) : list Event :=
  [oledC_DrawRectangle 0 85 20 93 OLEDC_COLOR_BLACK;
   oledC_DrawString 0 85 1 1 (if isPM then "PM" else "AM") OLEDC_COLOR_WHITE].

Definition dateField (day month : Z) : list Event :=
  [oledC_DrawRectangle 65 85 95 93 OLEDC_COLOR_BLACK;
   oledC_DrawString 65 85 1 1 (formatTwoDigits day) OLEDC_COLOR_WHITE;
   oledC_DrawString 77 85 1 1 "/" OLEDC_COLOR_WHITE;
   oledC_DrawString 83 85 1 1 (formatTwoDigits month) OLEDC_COLOR_WHITE].

(** The statics once [time] has been drawn in a format. *)
Definition clockCacheOf (use12HourFormat : bool) (time : ClockTime)
    (lastIsPM : bool) : ClockCache :=
  let '(displayHours, isPM) := displayedHours use12HourFormat (hours time) in
  mkClockCache displayHours (minutes time) (seconds time) use12HourFormat
               (if use12HourFormat then isPM else lastIsPM)
               (day time) (month time).

(** ** Reading the display back *)

(** The value of a decimal digit character. *)
Definition digitValue (c : ascii) : option Z :=
  let code := Z.of_N (N_of_ascii c) in
  if (48 <=? code) && (code <=? 57) then Some (code - 48) else None.

(** The number a two-character text shows, when both are digits. *)
Definition readTwoDigits (text : string) : option Z :=
  match text with
  | String tens (String units EmptyString) =>
      match digitValue tens, digitValue units with
      | Some t, Some u => Some (10 * t + u)
      | _, _ => None
      end
  | _ => None
  end.

(** The text [updateMenuTimeDisplay] builds in [currentTimeStr]. *)
Definition menuTimeText (use12HourFormat : bool) (clock : ClockTime) : string :=
  (formatTwoDigits (fst (displayedHours use12HourFormat (hours clock)))
   ++ ":" ++ formatTwoDigits (minutes clock)
   ++ ":" ++ formatTwoDigits (seconds clock))%string.

(** The cursor of the main menu: a [">"] in column 4. *)
Definition isMarker (e : Event) : bool :=
  match e with
  | oledC_DrawString x _ _ _ text _ => (x =? 4) && String.eqb text ">"
  | _ => false
  end.

(** An item of the main menu: a text in column 10. *)
Definition isLabel (e : Event) : bool :=
  match e with
  | oledC_DrawString x _ _ _ _ _ => x =? 10
  | _ => false
  end.

(** The items of a menu from row [i] on, one text each, 12 pixels
    apart. *)
Fixpoint menuLabels (options : list string) (i : Z) : list Event :=
  match options with
  | [] => []
  | option :: rest =>
      oledC_DrawString 10 (20 + 12 * i) 1 1 option OLEDC_COLOR_WHITE
      :: menuLabels rest (i + 1)
  end.

(** * The step graph

    What [displayStepGraph] draws before it enters its loop, after
    [oledC_clearScreen()], as the list of its display calls in program
    order.  The arithmetic is on [int]; every operand is non-negative and
    below 2^15. *)

Inductive PlotCall :=
| GridPoint (x y : Z)
    (* [oledC_DrawPoint(x, y, OLEDC_COLOR_GHOSTWHITE)] *)
| GridLabel (x y : Z) (label : string)
    (* [oledC_DrawString(x, y, 1, 1, label, OLEDC_COLOR_WHITE)] *)
| AxisTick (x0 y0 x1 y1 : Z)
    (* [oledC_DrawRectangle(x0, y0, x1, y1, OLEDC_COLOR_GHOSTWHITE)] *)
| PaceLine (x0 y0 x1 y1 : Z).
    (* [oledC_DrawLine(x0, y0, x1, y1, 1, OLEDC_COLOR_BLUE)] *)

Module Graph.
Local Close Scope mach_scope.

Definition GRAPH_HEIGHT : Z := 100.
Definition xLeft : Z := 5.
Definition xRight : Z := GRAPH_WIDTH.
Definition baselineY : Z := GRAPH_HEIGHT - 10.
Definition topY : Z := 10.

(** [baselineY - ((value * (baselineY - topY)) / 100)] *)
Definition yOf (value : Z) : Z :=
  baselineY - (value * (baselineY - topY)) / 100.

(** [xLeft + (i * (xRight - xLeft) / (GRAPH_WIDTH - 1))] *)
Definition xOf (i : Z) : Z :=
  xLeft + (i * (xRight - xLeft)) / (GRAPH_WIDTH - 1).

(** [for (int x = xLeft; x <= xRight; x += 3)] with [fuel] iterations at
    most. *)
Fixpoint gridRow (fuel : nat) (x yPosition : Z) : list PlotCall :=
  match fuel with
  | O => []
  | S fuel' =>
      if x <=? xRight
      then GridPoint x yPosition :: gridRow fuel' (x + 3) yPosition
      else []
  end.

(** One iteration of the loop over [stepLevels]. *)
Definition gridLevel (value : Z) : list PlotCall :=
  let yPosition := yOf value in
  gridRow 100 xLeft yPosition
  ++ [GridLabel 0 (yPosition - 10) (decimal value)].

(** [for (int i = first; i <= 9; i++)]: the ticks of the time axis. *)
Fixpoint axisTicks (remaining : nat) (i : Z) : list PlotCall :=
  match remaining with
  | O => []
  | S remaining' =>
      let xTick := xLeft + (i * (xRight - xLeft)) / 9 in
      AxisTick xTick (baselineY - 2) (xTick + 2) baselineY
      :: axisTicks remaining' (i + 1)
  end.

(** [for (int i = first; i < GRAPH_WIDTH; i++)] with [remaining]
    iterations to go: the polyline through the pace samples. *)
Fixpoint paceLines (remaining : nat) (i : Z) (history : list Z)
    (previousX previousY : Z) : option (list PlotCall) :=
  match remaining with
  | O => Some []
  | S remaining' =>
      let currentX := xOf i in
      sample ← array_get history i;
      let currentY := yOf sample in
      before ← array_get history (i - 1);
      rest ← paceLines remaining' (i + 1) history currentX currentY;
      Some ((if (0 <? sample) || (0 <? before)
             then [PaceLine previousX previousY currentX currentY]
             else []) ++ rest)
  end.

Definition draw (stepRateHistory : list Z) : option (list PlotCall) :=
  let grid := gridLevel 30 ++ gridLevel 60 ++ gridLevel 100 in
  let ticks := axisTicks 10 0 in
  first ← array_get stepRateHistory 0;
  lines ← paceLines (Z.to_nat (GRAPH_WIDTH - 1)) 1 stepRateHistory
                    xLeft (yOf first);
  Some (grid ++ ticks ++ lines).

(** A call that stays on the 96 by 96 screen, its lines inside the plot
    area between [xLeft], [xRight], [topY] and [baselineY]. *)
Definition onScreen (c : PlotCall) : Prop :=
  match c with
  | GridPoint x y => xLeft <= x <= xRight /\ topY <= y <= baselineY
  | GridLabel x y _ => 0 <= x < 96 /\ 0 <= y < 96
  | AxisTick x0 y0 x1 y1 =>
      0 <= x0 <= x1 /\ x1 < 96 /\ 0 <= y0 <= y1 /\ y1 < 96
  | PaceLine x0 y0 x1 y1 =>
      xLeft <= x0 <= x1 /\ x1 <= xRight /\
      topY <= y0 <= baselineY /\ topY <= y1 <= baselineY
  end.

Definition isPaceLine (c : PlotCall) : bool :=
  match c with
  | PaceLine _ _ _ _ => true
  | _ => false
  end.

End Graph.

(** The pairs of neighbouring samples of which one at least is not 0. *)
Fixpoint activePairs (history : list Z) : nat :=
  match history with
  | before :: (sample :: _) as rest =>
      let active := (0 <? sample) || (0 <? before) in
      ((if active then 1 else 0) + activePairs rest)%nat
  | _ => 0%nat
  end.

(** * The foot icon *)

Module Icon.
Local Close Scope mach_scope.

Definition FOOT_ICON_1 : list Z :=
  [0x7800; 0xF800; 0xFC00; 0xFC00; 0xFC00; 0x7C1E; 0x783E; 0x047F;
   0x3F9F; 0x1F3E; 0x0C3E; 0x003E; 0x0004; 0x00F0; 0x01F0; 0x00E0].

Definition FOOT_ICON_2 : list Z :=
  [0x001E; 0x003F; 0x003F; 0x007F; 0x003F; 0x383E; 0x7C1E; 0x7E10;
   0x7E7C; 0x7E78; 0x7C30; 0x3C00; 0x2000; 0x1E00; 0x1F00; 0x0E00].

(** [1 << n] on the 16-bit [int] of the target: undefined for a negative
    [n] and from 16 on.  [1 << 15] is the sign bit, as the target's
    compiler defines it; converted to [unsigned] for the [&] with a
    [uint16_t] it selects bit 15. *)
Definition shiftOne (n : Z) : option Z :=
  if (0 <=? n) && (n <? 16) then Some (Z.shiftl 1 n) else None.

(** The inner loop of [renderFootIcon], [for (col = first; col < width;
    col++)], with [remaining] iterations to go: the points
    [oledC_DrawPoint] is called with, in order, each coordinate
    converted to the [uint8_t] of the parameter. *)
Fixpoint iconColumns (remaining : nat) (col : Z) (x y : Z) (bitmap : list Z)
    (width row : Z) : option (list (Z * Z)) :=
  match remaining with
  | O => Some []
  | S remaining' =>
      word ← array_get bitmap row;
      bit ← shiftOne (width - 1 - col);
      rest ← iconColumns remaining' (u8 (col + 1)) x y bitmap width row;
      Some ((if negb (Z.land word bit =? 0)
             then [(u8 (x + col), u8 (y + row))] else []) ++ rest)
  end.

(** The outer loop, [for (row = first; row < height; row++)]. *)
Fixpoint iconRows (remaining : nat) (row : Z) (x y : Z) (bitmap : list Z)
    (width : Z) : option (list (Z * Z)) :=
  match remaining with
  | O => Some []
  | S remaining' =>
      points ← iconColumns (Z.to_nat width) 0 x y bitmap width row;
      rest ← iconRows remaining' (u8 (row + 1)) x y bitmap width;
      Some (points ++ rest)
  end.

(** [x], [y], [width] and [height] are [uint8_t] and the words of
    [bitmap] [uint16_t]. *)
Definition renderFootIcon (x y : Z) (bitmap : list Z) (width height : Z)
  : option (list (Z * Z)) :=
  iconRows (Z.to_nat height) 0 x y bitmap width.

(** The values of the parameter types. *)
Definition is_uint8 (v : Z) : Prop := 0 <= v < 256.
Definition is_uint16 (v : Z) : Prop := 0 <= v < 65536.

End Icon.

(** A bus on which the first three register reads of a poll, those of
    the low byte of the X axis, all fail. *)
Definition deadSensor (bus : Bus) : Prop :=
  forall n, (n < 3)%nat ->
    fst (bus n ACCEL_WRITE_ADDR REG_DATA_X0) = I2C_FAILED.

(** * Start-up: the sensor is identified and configured

    The loops of [main] and [initializeAccelerometer] before the main
    loop.  They use the write side of the bus too, so they are modelled
    on a wire that answers every transfer, with a log of their own. *)

Module Startup.
Local Close Scope mach_scope.

Definition REG_POWER_CTL : Z := 0x2D.
Definition MEASURE_MODE : Z := 0x08.

(** A transfer: [i2cReadSlaveRegister(device, reg, &byte)] or
    [i2cWriteSlave(device, reg, value)]. *)
Inductive Transfer :=
| Read (device reg : Z)
| Write (device reg value : Z).

(** The reply to the [n]-th transfer: its status and, for a read, the
    byte stored through the pointer. *)
Definition Wire : Type := nat -> Transfer -> I2Cerror * Z.

Inductive Step :=
| Transferred (t : Transfer) (status : I2Cerror) (byte : Z)
| Delay (ms : Z)
| Fatal (message : string).   (* [haltWithError(message)]: no return *)

(** [status == OK && deviceId == 0xE5] *)
Definition identified (status : I2Cerror) (deviceId : Z) : bool :=
  match status with
  | OK => deviceId =? 0xE5
  | _ => false
  end.

(** [status == OK] *)
Definition acknowledged (status : I2Cerror) (_ : Z) : bool :=
  match status with
  | OK => true
  | _ => false
  end.

(** [for (int i = first; i < 3; i++) { status = transfer; if (accepted)
    break; if (i == 2) haltWithError(message); DELAY_milliseconds(10); }]
    with [remaining] iterations to go and [n] transfers made before: the
    log, and the number of transfers made when the loop is left, or
    [None] when it halts. *)
Fixpoint attempts (remaining : nat) (i : Z) (t : Transfer)
    (accepted : I2Cerror -> Z -> bool) (message : string)
    (wire : Wire) (n : nat) : list Step * option nat :=
  match remaining with
  | O => ([], Some n)
  | S remaining' =>
      let status := fst (wire n t) in
      let byte := u8 (snd (wire n t)) in
      if accepted status byte
      then ([Transferred t status byte], Some (S n))
      else if i =? 2
      then ([Transferred t status byte; Fatal message], None)
      else
        let later := attempts remaining' (i + 1) t accepted message wire (S n) in
        (Transferred t status byte :: Delay 10 :: fst later, snd later)
  end.

(** Two statements in sequence, the second run only if the first
    returns. *)
Definition andThen (first : list Step * option nat)
    (second : nat -> list Step * option nat) : list Step * option nat :=
  match snd first with
  | Some n => (fst first ++ fst (second n), snd (second n))
  | None => first
  end.

(** The identity check that [main] and [initializeAccelerometer] both
    start with. *)
Definition checkDeviceId (wire : Wire) (n : nat) : list Step * option nat :=
  attempts 3 0 (Read ACCEL_WRITE_ADDR 0x00) identified
           "I2C Error or Wrong Device ID" wire n.

Definition initializeAccelerometer (wire : Wire) (n : nat)
  : list Step * option nat :=
  andThen (checkDeviceId wire n) (fun n1 =>
  andThen (attempts 3 0 (Write ACCEL_WRITE_ADDR REG_POWER_CTL MEASURE_MODE)
                    acknowledged "Accel Power Error" wire n1) (fun n2 =>
  attempts 3 0 (Write ACCEL_WRITE_ADDR 0x31 0x0B)
           acknowledged "Accel Data Format Error" wire n2)).

(** The bus traffic of [main] before its loop. *)
Definition main_startup (wire : Wire) : list Step * option nat :=
  andThen (checkDeviceId wire 0) (initializeAccelerometer wire).

Definition isTransfer (e : Step) : bool :=
  match e with
  | Transferred _ _ _ => true
  | _ => false
  end.

Definition isWrite (e : Step) : bool :=
  match e with
  | Transferred (Write _ _ _) _ _ => true
  | _ => false
  end.

(** A read of the identity register that the check accepts. *)
Definition isIdentification (e : Step) : bool :=
  match e with
  | Transferred (Read _ 0) OK byte => byte =? 0xE5
  | _ => false
  end.

Definition isFatal (e : Step) : bool :=
  match e with
  | Fatal _ => true
  | _ => false
  end.

End Startup.

(** * The sensor bench program, [working_acc.c]

    A second [main] for the same board: it counts steps and shows the
    count.  Its [errorStop] and [readAxis] are [haltWithError] and
    [readAccelerometerAxis] under other names, and its start-up is the
    one of [Module Startup]; what differs is modelled here, from the
    values the three [readAxis] calls of [detectStep] returned. *)

Module WorkingAcc.
Local Close Scope mach_scope.

(** The file's statics, [oldStr] of [drawSteps] among them. *)
Record Statics := mkStatics {
  wasAboveThreshold : bool;
  movementDetected : bool;
  stepCount : Z;              (* uint16_t *)
  inactivityCounter : Z;      (* uint8_t *)
  oldStr : string             (* char[6] *)
}.

Definition initialStatics : Statics := mkStatics false false 0 0 EmptyString.

Inductive Call :=
| printf_mag (mag dynamic : spec_float)   (* "mag=%.1f dynamic=%.1f\n" *)
| printf_count (count : Z)                (* "Step detected! Count=%u\n" *)
| DrawString (x y sx sy : Z) (text : string) (color : Color).

Definition baselineGravity : spec_float := F32.of_int 1024.

(** [dynamic > threshold] with [threshold = 200.0f]. *)
Definition above (accel : AccelerometerData) : bool :=
  let mag := magnitude accel in
  let dynamic := F32.fabsf (F32.sub mag baselineGravity) in
  F32.ltb (F32.of_int 200) dynamic.

Definition detectStep (accel : AccelerometerData) (s : Statics)
  : Statics * list Call :=
  let mag := magnitude accel in
  let dynamic := F32.fabsf (F32.sub mag baselineGravity) in
  let above := F32.ltb (F32.of_int 200) dynamic in
  let count :=
    if above && negb (wasAboveThreshold s)
    then u16 (stepCount s + 1) else stepCount s in
  (mkStatics above above count (inactivityCounter s) (oldStr s),
   printf_mag mag dynamic ::
   (if above && negb (wasAboveThreshold s) then [printf_count count] else [])).

(** [sprintf(newStr, "%u", stepCount)] needs the digits and the
    terminator to fit [char newStr[6]]; writing past it is undefined. *)
Definition drawSteps (s : Statics) : option (Statics * list Call) :=
  let newStr := decimal (stepCount s) in
  if (String.length newStr <? 6)%nat then
    if negb (String.eqb (oldStr s) newStr)
    then Some (mkStatics (wasAboveThreshold s) (movementDetected s)
                         (stepCount s) (inactivityCounter s) newStr,
               [DrawString 80 2 1 1 (oldStr s) OLEDC_COLOR_BLACK;
                DrawString 80 2 1 1 newStr OLEDC_COLOR_WHITE])
    else Some (s, [])
  else None.

(** [detectStep(); drawSteps();], the statements of the loop of [main]
    that touch the statics. *)
Definition countAndShow (accel : AccelerometerData) (s : Statics)
  : option (Statics * list Call) :=
  let '(s1, printed) := detectStep accel s in
  match drawSteps s1 with
  | Some (s2, drawn) => Some (s2, printed ++ drawn)
  | None => None
  end.

(** Successive iterations of the loop, one sample each. *)
Fixpoint iterations (samples : list AccelerometerData) (s : Statics)
  : option (Statics * list Call) :=
  match samples with
  | [] => Some (s, [])
  | accel :: rest =>
      match countAndShow accel s with
      | Some (s1, calls) =>
          match iterations rest s1 with
          | Some (s2, later) => Some (s2, calls ++ later)
          | None => None
          end
      | None => None
      end
  end.

Definition isDraw (c : Call) : bool :=
  match c with
  | DrawString _ _ _ _ _ _ => true
  | _ => false
  end.

Definition isCountLine (c : Call) : bool :=
  match c with
  | printf_count _ => true
  | _ => false
  end.

(** The display shows the count. *)
Definition inSync (s : Statics) : Prop := oldStr s = decimal (stepCount s).

End WorkingAcc.

(** * Proofs *)

(** ** binary32 on whole numbers *)

Lemma allFrom_spec (check : Z -> bool) (count : nat) (n k : Z) :
  allFrom check count n = true -> n <= k < n + Z.of_nat count ->
  check k = true.
Proof.
  revert n. induction count as [|count IH]; intros n Hall Hk; [lia|].
  cbn [allFrom] in Hall. apply andb_prop in Hall as [Hn Hrest].
  destruct (Z.eq_dec k n) as [-> | Hne]; [exact Hn|].
  apply (IH (n + 1) Hrest). lia.
Qed.

Section WholeNumbers.

Lemma same_eq (a b : spec_float) : F32.same a b = true -> a = b.
Proof.
  destruct a as [s|s| |s m e], b as [s'|s'| |s' m' e']; cbn;
    try discriminate; try reflexivity.
  - intros H. apply Bool.eqb_prop in H. now subst.
  - intros H. apply Bool.eqb_prop in H. now subst.
  - intros H. apply andb_prop in H as [H He]. apply andb_prop in H as [Hs Hm].
    apply Bool.eqb_prop in Hs. apply Pos.eqb_eq in Hm. apply Z.eqb_eq in He.
    now subst.
Qed.

(** Every check below is on the whole numbers from -2 to 127. *)
Ltac by_cases check n :=
  apply (allFrom_spec check (Z.to_nat 130) (-2) n);
  [vm_compute; reflexivity | rewrite Z2Nat.id; lia].

Lemma whole_add2 (n : Z) :
  -2 <= n <= 125 ->
  F32.add (F32.of_int n) (F32.of_int 2) = F32.of_int (n + 2).
Proof.
  intros Hn. apply same_eq.
  by_cases (fun n => F32.same (F32.add (F32.of_int n) (F32.of_int 2))
                             (F32.of_int (n + 2))) n.
Qed.

Lemma whole_sub2 (n : Z) :
  -2 <= n <= 127 ->
  F32.sub (F32.of_int n) (F32.of_int 2) = F32.of_int (n - 2).
Proof.
  intros Hn. apply same_eq.
  by_cases (fun n => F32.same (F32.sub (F32.of_int n) (F32.of_int 2))
                             (F32.of_int (n - 2))) n.
Qed.

Lemma whole_ltb (a b : Z) :
  -2 <= a <= 127 -> -2 <= b <= 127 ->
  F32.ltb (F32.of_int a) (F32.of_int b) = (a <? b).
Proof.
  intros Ha Hb. apply Bool.eqb_prop.
  apply (allFrom_spec
           (fun b => Bool.eqb (F32.ltb (F32.of_int a) (F32.of_int b)) (a <? b))
           (Z.to_nat 130) (-2) b); [|rewrite Z2Nat.id; lia].
  by_cases (fun a => allFrom
              (fun b => Bool.eqb (F32.ltb (F32.of_int a) (F32.of_int b)) (a <? b))
              (Z.to_nat 130) (-2)) a.
Qed.

Lemma whole_half (a : Z) :
  -2 <= a <= 127 -> F32.ltb (F32.of_int a) F32.half = (a <? 1).
Proof.
  intros Ha. apply Bool.eqb_prop.
  by_cases (fun a => Bool.eqb (F32.ltb (F32.of_int a) F32.half) (a <? 1)) a.
Qed.

Lemma whole_below (a : Z) :
  -2 <= a <= 127 -> belowExponent7 (F32.of_int a) = true.
Proof.
  intros Ha. by_cases (fun a => belowExponent7 (F32.of_int a)) a.
Qed.

Lemma whole_to_uint8 (a : Z) :
  0 <= a <= 127 -> F32.to_uint8 (F32.of_int a) = Some a.
Proof.
  intros Ha.
  assert (H : (a <? 0) ||
              match F32.to_uint8 (F32.of_int a) with
              | Some z => z =? a
              | None => false
              end = true).
  { by_cases (fun a => (a <? 0) ||
                       match F32.to_uint8 (F32.of_int a) with
                       | Some z => z =? a
                       | None => false
                       end) a. }
  replace (a <? 0) with false in H by (symmetry; apply Z.ltb_ge; lia).
  cbn [orb] in H.
  destruct (F32.to_uint8 (F32.of_int a)) as [z|]; [|discriminate].
  apply Z.eqb_eq in H. now subst.
Qed.

Lemma whole_toQ (a : Z) :
  -2 <= a <= 127 -> (F32.toQ (F32.of_int a) == inject_Z a)%Q.
Proof.
  intros Ha. apply Qeq_bool_iff.
  by_cases (fun a => Qeq_bool (F32.toQ (F32.of_int a)) (inject_Z a)) a.
Qed.

(** The raw pace of every 16-bit step count is 60 times the count,
    without rounding. *)
Lemma published_whole (steps : Z) :
  0 <= steps < 65536 -> Pace.published steps = F32.of_int (60 * steps).
Proof.
  intros Hk. apply same_eq.
  apply (allFrom_spec
           (fun k => F32.same (Pace.published k) (F32.of_int (60 * k)))
           (Z.to_nat 65536) 0 steps); [|rewrite Z2Nat.id; lia].
  vm_compute. reflexivity.
Qed.

Lemma published_toQ (steps : Z) :
  0 <= steps < 65536 ->
  (F32.toQ (Pace.published steps) == inject_Z (60 * steps))%Q.
Proof.
  intros Hk. apply Qeq_bool_iff.
  apply (allFrom_spec
           (fun k => Qeq_bool (F32.toQ (Pace.published k)) (inject_Z (60 * k)))
           (Z.to_nat 65536) 0 steps); [|rewrite Z2Nat.id; lia].
  vm_compute. reflexivity.
Qed.

Lemma published_from (steps : Z) :
  3 <= steps < 65536 -> fromExponent7 (Pace.published steps) = true.
Proof.
  intros Hk.
  apply (allFrom_spec (fun k => fromExponent7 (Pace.published k))
                      (Z.to_nat 65533) 3 steps); [|rewrite Z2Nat.id; lia].
  vm_compute. reflexivity.
Qed.

Lemma below_from_ltb (a t : spec_float) :
  belowExponent7 a = true -> fromExponent7 t = true ->
  F32.ltb a t = true /\ F32.ltb t a = false.
Proof.
  unfold F32.ltb, SFltb.
  destruct a as [s|s| |[] m e], t as [s'|s'| |[] m' e']; cbn;
    try discriminate; intros Ha Ht; try (split; reflexivity).
  apply Z.leb_le in Ha. apply Z.ltb_lt in Ht.
  assert (Hlt : (e ?= e') = Lt) by (apply Z.compare_lt_iff; lia).
  assert (Hgt : (e' ?= e) = Gt) by (apply Z.compare_gt_iff; lia).
  rewrite Hlt, Hgt. split; reflexivity.
Qed.

Lemma track_wholes (n t : Z) :
  0 <= n <= 100 -> 0 <= t <= 125 ->
  Pace.track (F32.of_int n) (F32.of_int t) = F32.of_int (paceStep n t).
Proof.
  intros Hn Ht. apply same_eq.
  apply (allFrom_spec
           (fun t => F32.same (Pace.track (F32.of_int n) (F32.of_int t))
                              (F32.of_int (paceStep n t)))
           (Z.to_nat 126) 0 t); [|rewrite Z2Nat.id; lia].
  apply (allFrom_spec
           (fun n => allFrom
              (fun t => F32.same (Pace.track (F32.of_int n) (F32.of_int t))
                                 (F32.of_int (paceStep n t)))
              (Z.to_nat 126) 0)
           (Z.to_nat 101) 0 n); [|rewrite Z2Nat.id; lia].
  vm_compute. reflexivity.
Qed.

Lemma track_whole (n steps : Z) :
  0 <= n <= 100 -> 0 <= steps < 65536 ->
  Pace.track (F32.of_int n) (Pace.published steps)
  = F32.of_int (paceStep n (60 * steps)).
Proof.
  intros Hn Hk. destruct (Z.ltb_spec steps 3) as [Hsmall|Hlarge].
  - rewrite published_whole by lia. apply track_wholes; lia.
  - pose proof (published_from steps ltac:(lia)) as Hfrom.
    pose proof (published_whole steps Hk) as Hvalue.
    unfold Pace.track. cbv zeta.
    destruct (below_from_ltb _ _ (whole_below n ltac:(lia)) Hfrom) as [-> _].
    rewrite whole_add2 by lia.
    destruct (below_from_ltb _ _ (whole_below (n + 2) ltac:(lia)) Hfrom)
      as [_ ->].
    rewrite whole_half, whole_ltb by lia.
    unfold paceStep.
    replace (n <? 60 * steps) with true by (symmetry; apply Z.ltb_lt; lia).
    replace (n + 2 <? 1) with false by (symmetry; apply Z.ltb_ge; lia).
    destruct (Z.ltb_spec 100 (n + 2)); f_equal; lia.
Qed.

End WholeNumbers.

(** ** ClockModel *)

Section ClockProofs.
Import Clock.

Lemma month_cases (m : Z) :
  1 <= m <= 12 ->
  m = 1 \/ m = 2 \/ m = 3 \/ m = 4 \/ m = 5 \/ m = 6 \/
  m = 7 \/ m = 8 \/ m = 9 \/ m = 10 \/ m = 11 \/ m = 12.
Proof. lia. Qed.

Ltac split_months H :=
  apply month_cases in H;
  repeat (destruct H as [H | H]; [subst | ]); [.. | subst].

Ltac case_tests :=
  repeat match goal with
  | |- context [if ?a <? ?b then _ else _] => destruct (Z.ltb_spec a b); try lia
  | |- context [if ?a <=? ?b then _ else _] => destruct (Z.leb_spec a b); try lia
  end.

Lemma u8_small (x : Z) : 0 <= x < 256 -> u8 x = x.
Proof. intros; unfold u8; now apply Z.mod_small. Qed.

Ltac clk := cbv zeta; cbn [hours minutes seconds day month].

Ltac eval_days :=
  repeat match goal with
  | |- context [days_before_month ?k] =>
      let v := eval vm_compute in (days_before_month k) in
      change (days_before_month k) with v
  end.

Ltac by_month Hmo Hget :=
  split_months Hmo; injection Hget as <-;
  unfold to_seconds, day_of_year, SECONDS_PER_YEAR, SECONDS_PER_DAY; clk;
  eval_days; try (rewrite Z.mod_small by lia); lia.

(** One tick of a valid clock is defined, valid, and one second later in
    modelled time. *)
Lemma incrementSystemTime_step (t : ClockTime) :
  valid_clock t ->
  exists t', incrementSystemTime t = Some t' /\ valid_clock t' /\
             to_seconds t' = (to_seconds t + 1) mod SECONDS_PER_YEAR.
Proof.
  destruct t as [h m s d mo]; unfold valid_clock; clk.
  intros (Hh & Hm & Hs & Hmo & maxDays & Hget & Hd).
  assert (Hmax : maxDays <= 31)
    by (split_months Hmo; injection Hget as <-; lia).
  unfold incrementSystemTime; clk.
  rewrite (u8_small (s + 1)) by lia.
  destruct (Z.leb_spec 60 (s + 1)); clk.
  2:{ destruct (Z.leb_spec 60 m); [lia|]. clk.
      destruct (Z.leb_spec 24 h); [lia|].
      eexists; split; [reflexivity|]. clk. split.
      - repeat split; try lia. exists maxDays; split; [assumption | lia].
      - by_month Hmo Hget. }
  rewrite (u8_small (m + 1)) by lia.
  destruct (Z.leb_spec 60 (m + 1)); clk.
  2:{ destruct (Z.leb_spec 24 h); [lia|].
      eexists; split; [reflexivity|]. clk. split.
      - repeat split; try lia. exists maxDays; split; [assumption | lia].
      - by_month Hmo Hget. }
  rewrite (u8_small (h + 1)) by lia.
  destruct (Z.leb_spec 24 (h + 1)); clk.
  2:{ eexists; split; [reflexivity|]. clk. split.
      - repeat split; try lia. exists maxDays; split; [assumption | lia].
      - by_month Hmo Hget. }
  unfold advanceDate; clk. rewrite Hget; simpl.
  rewrite (u8_small (d + 1)) by lia.
  rewrite (u8_small (mo + 1)) by lia.
  assert (h = 23 /\ m = 59 /\ s = 59) as (-> & -> & ->) by lia.
  destruct (Z.ltb_spec maxDays (d + 1)).
  - assert (d = maxDays) as -> by lia.
    eexists; split; [reflexivity|]. split.
    + clk. repeat split; try lia.
      * destruct (Z.ltb_spec 12 (mo + 1)); lia.
      * destruct (Z.ltb_spec 12 (mo + 1)); lia.
      * split_months Hmo; injection Hget as <-; simpl; eexists; (split; [reflexivity | lia]).
    + split_months Hmo; injection Hget as <-; reflexivity.
  - eexists; split; [reflexivity|]. split.
    + clk. repeat split; try lia. exists maxDays; split; [assumption | lia].
    + by_month Hmo Hget.
Qed.

Lemma to_seconds_range (t : ClockTime) :
  valid_clock t -> 0 <= to_seconds t < SECONDS_PER_YEAR.
Proof.
  destruct t as [h m s d mo]; unfold valid_clock; clk.
  intros (Hh & Hm & Hs & Hmo & maxDays & Hget & Hd).
  by_month Hmo Hget.
Qed.

Lemma split_seconds (doy h m s : Z) :
  0 <= h < 24 -> 0 <= m < 60 -> 0 <= s < 60 ->
  let n := ((doy * 24 + h) * 60 + m) * 60 + s in
  n / 86400 = doy /\ (n mod 86400) / 3600 = h /\
  ((n mod 86400) / 60) mod 60 = m /\ (n mod 86400) mod 60 = s.
Proof.
  intros Hh Hm Hs n.
  assert (Hr : n mod 86400 = (h * 60 + m) * 60 + s)
    by (symmetry; apply (Z.mod_unique_pos _ _ doy); subst n; lia).
  assert (Hq : n / 86400 = doy)
    by (symmetry; apply (Z.div_unique_pos _ _ _ ((h * 60 + m) * 60 + s)); subst n; lia).
  rewrite Hr. repeat split.
  - exact Hq.
  - symmetry; apply (Z.div_unique_pos _ _ _ (m * 60 + s)); lia.
  - replace (((h * 60 + m) * 60 + s) / 60) with (h * 60 + m)
      by (apply (Z.div_unique_pos _ _ _ s); lia).
    symmetry; apply (Z.mod_unique_pos _ _ h); lia.
  - symmetry; apply (Z.mod_unique_pos _ _ (h * 60 + m)); lia.
Qed.

(** Modelled time determines the clock value: decoding the seconds of a
    valid clock gives the clock back. *)
Lemma of_seconds_to_seconds (t : ClockTime) :
  valid_clock t -> of_seconds (to_seconds t) = t.
Proof.
  destruct t as [h m s d mo]; unfold valid_clock; clk.
  intros (Hh & Hm & Hs & Hmo & maxDays & Hget & Hd).
  unfold of_seconds, to_seconds, SECONDS_PER_DAY.
  cbn [hours minutes seconds].
  destruct (split_seconds
              (day_of_year (mkClock h m s d mo)) h m s Hh Hm Hs)
    as (-> & -> & -> & ->).
  unfold day_of_year; clk.
  split_months Hmo; injection Hget as <-; eval_days;
    unfold DAYS_PER_MONTH, date_of_day; case_tests;
    f_equal; lia.
Qed.

Lemma tick_n_seconds (n : nat) : forall t : ClockTime,
  valid_clock t ->
  exists t', tick_n n t = Some t' /\ valid_clock t' /\
             to_seconds t' = (to_seconds t + Z.of_nat n) mod SECONDS_PER_YEAR.
Proof.
  induction n as [|n IH]; intros t Hv.
  - exists t; split; [reflexivity | split; [assumption|]].
    change (Z.of_nat 0) with 0.
    rewrite Z.add_0_r, Z.mod_small; [reflexivity | now apply to_seconds_range].
  - destruct (incrementSystemTime_step t Hv) as (t1 & E1 & Hv1 & S1).
    destruct (IH t1 Hv1) as (t' & E' & Hv' & S').
    exists t'; split; [|split; [assumption|]].
    + cbn [tick_n]. rewrite E1. exact E'.
    + rewrite S', S1, Zplus_mod_idemp_l. f_equal. lia.
Qed.

Lemma boot_clock_valid : valid_clock (systemClock boot).
Proof.
  unfold valid_clock; simpl.
  repeat split; try lia. exists 31; split; [reflexivity | lia].
Defined.

(** C2. For every valid clock value (fields in range, day within the
    month's table entry): [n] one-second ticks give the clock advanced by
    [n] seconds of modelled time, and every value reached is valid again;
    a tick at 23:59:59 moves to day 1 of the next month exactly when the
    day equals the month's table entry (month 12 wrapping to 1) and to the
    next day otherwise; 23:59:59 on day 31 of month 1 becomes 00:00:00 on
    day 1 of month 2; day 28 of month 2 is followed by day 1 of month 3,
    both by the tick at 23:59:59 and by a whole day of ticks. *)
Theorem clock_ticks_compose (t : ClockTime) (Hv : valid_clock t) :
  (forall n : nat,
      tick_n n t = Some (advance_seconds (Z.of_nat n) t) /\
      valid_clock (advance_seconds (Z.of_nat n) t)) /\
  (exists t', incrementSystemTime t = Some t' /\ valid_clock t') /\
  (forall maxDays,
      array_get DAYS_PER_MONTH (month t - 1) = Some maxDays ->
      hours t = 23 -> minutes t = 59 -> seconds t = 59 ->
      incrementSystemTime t =
        Some (if day t =? maxDays
              then mkClock 0 0 0 1 (if month t =? 12 then 1 else month t + 1)
              else mkClock 0 0 0 (day t + 1) (month t))) /\
  incrementSystemTime (mkClock 23 59 59 31 1) = Some (mkClock 0 0 0 1 2) /\
  incrementSystemTime (mkClock 23 59 59 28 2) = Some (mkClock 0 0 0 1 3) /\
  (month t = 2 -> day t = 28 ->
   tick_n (Z.to_nat SECONDS_PER_DAY) t =
     Some (mkClock (hours t) (minutes t) (seconds t) 1 3)).
Proof.
  assert (Hn : forall n : nat,
      tick_n n t = Some (advance_seconds (Z.of_nat n) t) /\
      valid_clock (advance_seconds (Z.of_nat n) t)).
  { intros n. destruct (tick_n_seconds n t Hv) as (t' & E & Hv' & S).
    assert (advance_seconds (Z.of_nat n) t = t') as ->; [|now split].
    unfold advance_seconds. rewrite <- S. now apply of_seconds_to_seconds. }
  split; [exact Hn|]. split.
  { destruct (incrementSystemTime_step t Hv) as (t' & E & Hv' & _); eauto. }
  split.
  { destruct t as [h m s d mo]; clk. intros maxDays Hget -> -> ->.
    destruct Hv as (_ & _ & _ & Hmo & maxDays' & Hget' & Hd); clk.
    cbn [month day] in Hmo, Hget', Hd.
    rewrite Hget in Hget'. injection Hget' as <-.
    assert (Hmax : maxDays <= 31)
      by (split_months Hmo; injection Hget as <-; lia).
    unfold incrementSystemTime, advanceDate; clk.
    change (u8 (59 + 1)) with 60. change (60 <=? 60) with true. clk.
    change (60 <=? 60) with true. clk.
    change (u8 (23 + 1)) with 24. change (24 <=? 24) with true. clk.
    rewrite Hget; simpl.
    rewrite (u8_small (d + 1)), (u8_small (mo + 1)) by lia.
    destruct (Z.eqb_spec d maxDays) as [->|Hne].
    - rewrite (proj2 (Z.ltb_lt _ _)) by lia.
      destruct (Z.eqb_spec mo 12) as [->|Hm12]; [reflexivity|].
      rewrite (proj2 (Z.ltb_ge _ _)) by lia. reflexivity.
    - rewrite (proj2 (Z.ltb_ge _ _)) by lia. reflexivity. }
  split; [reflexivity|]. split; [reflexivity|].
  intros Hmo Hd. destruct (Hn (Z.to_nat SECONDS_PER_DAY)) as [-> _]. f_equal.
  rewrite Z2Nat.id by (unfold SECONDS_PER_DAY; lia).
  destruct t as [h m s d mo]; cbn [month day] in Hmo, Hd; subst; clk.
  destruct Hv as (Hh & Hm & Hs & _); cbn [hours minutes seconds] in Hh, Hm, Hs.
  unfold advance_seconds.
  replace ((to_seconds (mkClock h m s 28 2) + SECONDS_PER_DAY)
             mod SECONDS_PER_YEAR) with (to_seconds (mkClock h m s 1 3)).
  - apply of_seconds_to_seconds. unfold valid_clock; clk.
    repeat split; try lia. exists 31; split; [reflexivity | lia].
  - unfold to_seconds, day_of_year, SECONDS_PER_YEAR, SECONDS_PER_DAY; clk.
    eval_days. rewrite Z.mod_small; lia.
Qed.

Lemma clock_ticks_compose_witness :
  valid_clock (systemClock boot) /\
  tick_n 3 (systemClock boot) = Some (advance_seconds 3 (systemClock boot)).
Proof.
  split; [exact boot_clock_valid|].
  exact (proj1 (proj1 (clock_ticks_compose (systemClock boot) boot_clock_valid) 3%nat)).
Defined.

End ClockProofs.

(** ** The machine monad *)

Section SatisfiesRules.
Context {A B : Type}.
Implicit Types (bus : Bus) (w : World) (halt : string -> World -> Prop).

Lemma satisfies_ret (a : A) bus w (post : A -> World -> Prop) halt :
  post a w -> satisfies (ret a) bus w post halt.
Proof. exact (fun H => H). Qed.

Lemma satisfies_bind (m : M A) (f : A -> M B) bus w
      (post : B -> World -> Prop) halt :
  satisfies m bus w (fun a w' => satisfies (f a) bus w' post halt) halt ->
  satisfies (bind m f) bus w post halt.
Proof. unfold satisfies, bind. destruct (m bus w); auto. Qed.

Lemma satisfies_gets (f : Sys -> A) bus w (post : A -> World -> Prop) halt :
  post (f (sys w)) w -> satisfies (gets f) bus w post halt.
Proof. exact (fun H => H). Qed.

Lemma satisfies_defined (o : option A) (a : A) bus w
      (post : A -> World -> Prop) halt :
  o = Some a -> post a w -> satisfies (defined o) bus w post halt.
Proof. intros -> H. exact H. Qed.

Lemma satisfies_weaken (m : M A) bus w (post post' : A -> World -> Prop)
      halt halt' :
  satisfies m bus w post halt ->
  (forall a w', post a w' -> post' a w') ->
  (forall msg w', halt msg w' -> halt' msg w') ->
  satisfies m bus w post' halt'.
Proof. unfold satisfies. destruct (m bus w); auto. Qed.

Lemma satisfies_returns (m : M A) bus w (post : A -> World -> Prop) :
  satisfies m bus w post never ->
  exists a w', m bus w = Ret a w' /\ post a w'.
Proof.
  unfold satisfies, never. destruct (m bus w) as [a w'| |]; try tauto.
  intros H. exists a, w'. auto.
Qed.

End SatisfiesRules.

Lemma satisfies_modify (f : Sys -> Sys) bus w
      (post : unit -> World -> Prop) halt :
  post tt (mkWorld (f (sys w)) (busReads w) (events w)) ->
  satisfies (modify f) bus w post halt.
Proof. exact (fun H => H). Qed.

Lemma satisfies_emit (e : Event) bus w (post : unit -> World -> Prop) halt :
  post tt (mkWorld (sys w) (busReads w) (events w ++ [e])) ->
  satisfies (emit e) bus w post halt.
Proof. exact (fun H => H). Qed.

Lemma satisfies_when (c : bool) (body : M unit) bus w
      (post : unit -> World -> Prop) halt :
  (c = true -> satisfies body bus w post halt) ->
  (c = false -> post tt w) ->
  satisfies (when c body) bus w post halt.
Proof. destruct c; cbn; auto. Qed.

Lemma bind_run {A B} (m : M A) (f : A -> M B) (bus : Bus) (w : World) :
  bind m f bus w =
  match m bus w with
  | Ret a w' => f a bus w'
  | Halted msg w' => Halted msg w'
  | Undefined => Undefined
  end.
Proof. reflexivity. Qed.

(** Symbolic execution of straight-line code. *)
Ltac exec1 :=
  lazymatch goal with
  | |- satisfies (bind _ _) _ _ _ _ => apply satisfies_bind
  | |- satisfies (gets _) _ _ _ _ => apply satisfies_gets
  | |- satisfies (modify _) _ _ _ _ => apply satisfies_modify
  | |- satisfies (emit _) _ _ _ _ => apply satisfies_emit
  | |- satisfies (ret _) _ _ _ _ => apply satisfies_ret
  end;
  cbv beta; cbn [sys busReads events start]; sys_simpl.

Ltac exec := repeat exec1.

(** ** The sensor path *)

(** One byte: the first success among three attempts, or the halt. *)
Lemma readByte_retries (reg : Z) (message : string) (bus : Bus) (w : World) :
  match firstSuccess (fun i => bus (i + busReads w)%nat ACCEL_WRITE_ADDR reg) with
  | None =>
      readByte 3 0 3 reg message bus w =
        Halted message
          (mkWorld (sys w) (3 + busReads w)
             (events w ++ failedAttempts 2 reg
                ++ [i2cReadSlaveRegister ACCEL_WRITE_ADDR reg I2C_FAILED]
                ++ fatal message))
  | Some (i, byte) =>
      readByte 3 0 3 reg message bus w =
        Ret (u8 byte)
          (mkWorld (sys w) (S (i + busReads w))
             (events w ++ failedAttempts i reg
                ++ [i2cReadSlaveRegister ACCEL_WRITE_ADDR reg OK]))
  end.
Proof.
  destruct w as [s k ev]. unfold firstSuccess. cbn [busReads sys events Nat.add].
  unfold readByte, bind, i2cRead. cbn [busReads sys events].
  destruct (bus k ACCEL_WRITE_ADDR reg) as [[] b0]; cbn [fst snd].
  { unfold ret. cbn. reflexivity. }
  change (0 =? 3 - 1) with false. cbn [ret emit sys busReads events].
  destruct (bus (S k) ACCEL_WRITE_ADDR reg) as [[] b1]; cbn [fst snd].
  { unfold ret. cbn. rewrite <- !app_assoc. reflexivity. }
  change (0 + 1 =? 3 - 1) with false. cbn [ret emit sys busReads events].
  destruct (bus (S (S k)) ACCEL_WRITE_ADDR reg) as [[] b2]; cbn [fst snd].
  { unfold ret. cbn. rewrite <- !app_assoc. reflexivity. }
  change (0 + 1 + 1 =? 3 - 1) with true.
  unfold haltWithError, bind, emit. cbn. rewrite <- !app_assoc. reflexivity.
Qed.

(** C8. A register-pair read makes at most three attempts per byte, with
    [DELAY_milliseconds(10)] after each failed attempt that is not the
    third; three failures in a row end in [haltWithError], which draws
    its message, prints it and never returns; a success within three
    attempts gives the byte read, and two such successes return the
    16-bit value with the machine state untouched and nothing drawn. *)
Theorem readAccelerometerAxis_retries (reg : Z) (bus : Bus) (w : World) :
  let low i := bus (i + busReads w)%nat ACCEL_WRITE_ADDR reg in
  match firstSuccess low with
  | None =>
      readAccelerometerAxis reg bus w =
        Halted "I2C Read Error (LSB)"
          (mkWorld (sys w) (3 + busReads w)
             (events w ++ failedAttempts 2 reg
                ++ [i2cReadSlaveRegister ACCEL_WRITE_ADDR reg I2C_FAILED]
                ++ fatal "I2C Read Error (LSB)"))
  | Some (i, lowByte) =>
      let reg' := u8 (reg + 1) in
      let high j := bus (j + S (i + busReads w))%nat ACCEL_WRITE_ADDR reg' in
      let readLow := failedAttempts i reg
                       ++ [i2cReadSlaveRegister ACCEL_WRITE_ADDR reg OK] in
      match firstSuccess high with
      | None =>
          readAccelerometerAxis reg bus w =
            Halted "I2C Read Error (MSB)"
              (mkWorld (sys w) (3 + S (i + busReads w))
                 (events w ++ readLow ++ failedAttempts 2 reg'
                    ++ [i2cReadSlaveRegister ACCEL_WRITE_ADDR reg' I2C_FAILED]
                    ++ fatal "I2C Read Error (MSB)"))
      | Some (j, highByte) =>
          readAccelerometerAxis reg bus w =
            Ret (int16 (Z.lor (Z.shiftl (u8 highByte) 8) (u8 lowByte)))
              (mkWorld (sys w) (S (j + S (i + busReads w)))
                 (events w ++ readLow ++ failedAttempts j reg'
                    ++ [i2cReadSlaveRegister ACCEL_WRITE_ADDR reg' OK]))
      end
  end.
Proof.
  cbv zeta. unfold readAccelerometerAxis. cbv zeta.
  change (Z.to_nat 3) with 3%nat. rewrite bind_run.
  pose proof (readByte_retries reg "I2C Read Error (LSB)" bus w) as Hlow.
  destruct (firstSuccess _) as [[i lowByte]|]; rewrite Hlow; [|reflexivity].
  rewrite bind_run.
  pose proof (readByte_retries (u8 (reg + 1)) "I2C Read Error (MSB)" bus
                (mkWorld (sys w) (S (i + busReads w))
                   (events w ++ failedAttempts i reg
                      ++ [i2cReadSlaveRegister ACCEL_WRITE_ADDR reg OK])))
    as Hhigh.
  cbn [sys busReads events] in Hhigh.
  destruct (firstSuccess _) as [[j highByte]|]; rewrite Hhigh.
  - unfold ret. rewrite <- !app_assoc. reflexivity.
  - rewrite <- !app_assoc. reflexivity.
Qed.

(** ** Step detection *)

Lemma SFltb_asym (x y : spec_float) : SFltb x y = true -> SFltb y x = false.
Proof.
  unfold SFltb, SFcompare.
  destruct x as [sx|sx| |sx mx ex], y as [sy|sy| |sy my ey];
    try destruct sx; try destruct sy; try discriminate; try reflexivity;
    change (Pos.compare_cont Eq my mx) with (Pos.compare my mx);
    change (Pos.compare_cont Eq mx my) with (Pos.compare mx my);
    rewrite (Z.compare_antisym ex ey), (Pos.compare_antisym mx my);
    destruct (ex ?= ey)%Z, (mx ?= my)%positive; cbn; congruence.
Qed.

Lemma lor_shiftl_8 (hi lo : Z) :
  0 <= hi -> 0 <= lo < 256 -> Z.lor (Z.shiftl hi 8) lo = hi * 256 + lo.
Proof.
  intros Hhi Hlo. rewrite Z.shiftl_mul_pow2 by lia. change (2 ^ 8) with 256.
  symmetry. apply Z.add_nocarry_lor.
  apply Z.bits_inj'. intros n Hn. rewrite Z.land_spec, Z.bits_0.
  destruct (Z.lt_ge_cases n 8) as [Hlt|Hge].
  - change 256 with (2 ^ 8). rewrite Z.mul_pow2_bits_low by lia. reflexivity.
  - destruct (Z.eq_dec lo 0) as [->|Hne]; [rewrite Z.bits_0; apply andb_false_r|].
    rewrite (Z.bits_above_log2 lo n); [apply andb_false_r | lia |].
    apply Z.log2_lt_pow2; [lia|]. 
    apply Z.lt_le_trans with (2 ^ 8); [change (2 ^ 8) with 256; lia|].
    apply Z.pow_le_mono_r; lia.
Qed.

Lemma int16_of_bytes (v : Z) :
  is_int16 v ->
  int16 (Z.lor (Z.shiftl (u8 (highByteOf v)) 8) (u8 (lowByteOf v))) = v.
Proof.
  unfold is_int16, u8, highByteOf, lowByteOf. intros Hv.
  rewrite !Zmod_mod.
  rewrite lor_shiftl_8 by (try apply Z.mod_pos_bound; lia).
  unfold int16.
  assert (E : (v / 256) mod 256 * 256 + v mod 256 = v mod 65536).
  { pose proof (Z.div_mod v 256). pose proof (Z.div_mod (v / 256) 256).
    pose proof (Z.mod_pos_bound v 256). pose proof (Z.mod_pos_bound (v / 256) 256).
    apply (Z.mod_unique_pos _ _ (v / 256 / 256)); lia. }
  rewrite E, Zmod_mod.
  destruct (Z.ltb_spec (v mod 65536) 32768) as [H|H].
  - destruct (Z.lt_ge_cases v 0).
    + rewrite <- (Z.mod_unique_pos v 65536 (-1) (v + 65536)) in H; lia.
    + rewrite Z.mod_small; lia.
  - destruct (Z.lt_ge_cases v 0).
    + rewrite <- (Z.mod_unique_pos v 65536 (-1) (v + 65536)); lia.
    + rewrite Z.mod_small in H; lia.
Qed.

Lemma firstSuccess_sample (a : AccelerometerData) (k : nat) (dev reg : Z) :
  firstSuccess (fun i => sampleBus a (i + k)%nat dev reg) =
    Some (0%nat, snd (sampleBus a 0%nat dev reg)).
Proof. reflexivity. Qed.

Lemma readAccelerometerAxis_sample (a : AccelerometerData) (reg : Z) (w : World) :
  readAccelerometerAxis reg (sampleBus a) w =
    Ret (int16 (Z.lor (Z.shiftl (u8 (snd (sampleBus a 0%nat ACCEL_WRITE_ADDR (u8 (reg + 1))))) 8)
                      (u8 (snd (sampleBus a 0%nat ACCEL_WRITE_ADDR reg)))))
        (mkWorld (sys w) (2 + busReads w)
           (events w ++ [i2cReadSlaveRegister ACCEL_WRITE_ADDR reg OK;
                         i2cReadSlaveRegister ACCEL_WRITE_ADDR (u8 (reg + 1)) OK])).
Proof.
  unfold readAccelerometerAxis. cbv zeta.
  change (Z.to_nat 3) with 3%nat. rewrite bind_run.
  pose proof (readByte_retries reg "I2C Read Error (LSB)" (sampleBus a) w)
    as Hlow.
  rewrite firstSuccess_sample in Hlow. rewrite Hlow, bind_run.
  pose proof (readByte_retries (u8 (reg + 1)) "I2C Read Error (MSB)"
                (sampleBus a)
                (mkWorld (sys w) (S (0 + busReads w))
                   (events w ++ failedAttempts 0 reg
                      ++ [i2cReadSlaveRegister ACCEL_WRITE_ADDR reg OK])))
    as Hhigh.
  cbn [sys busReads events] in Hhigh.
  rewrite firstSuccess_sample in Hhigh. rewrite Hhigh.
  unfold ret. cbn [failedAttempts app Nat.add]. rewrite <- !app_assoc.
  reflexivity.
Qed.

Lemma readAccelerometer_sample (a : AccelerometerData) (w : World) :
  valid_sample a ->
  exists evs, readAccelerometer (sampleBus a) w =
    Ret a (mkWorld (sys w) (6 + busReads w) (events w ++ evs)).
Proof.
  intros (Hx & Hy & Hz). unfold readAccelerometer.
  rewrite bind_run, readAccelerometerAxis_sample.
  rewrite bind_run, readAccelerometerAxis_sample.
  rewrite bind_run, readAccelerometerAxis_sample.
  cbn [sys busReads events Nat.add]. unfold ret.
  unfold sampleBus; cbn [snd].
  vm_compute (u8 (_ + 1)). vm_compute (_ =? _). cbv iota.
  rewrite !int16_of_bytes by assumption.
  rewrite <- !app_assoc. eexists. destruct a; reflexivity.
Qed.

Lemma satisfies_readAccelerometer (a : AccelerometerData) (w : World)
      (post : AccelerometerData -> World -> Prop) halt :
  valid_sample a ->
  (forall evs, post a (mkWorld (sys w) (6 + busReads w) (events w ++ evs))) ->
  satisfies readAccelerometer (sampleBus a) w post halt.
Proof.
  intros Hv Hpost. unfold satisfies.
  destruct (readAccelerometer_sample a w Hv) as (evs & ->). apply Hpost.
Qed.

Lemma array_set_get {A} (l : list A) (i : Z) (c v : A) :
  array_get l i = Some c ->
  exists l', array_set l i v = Some l' /\ array_get l' i = Some v /\
             length l' = length l.
Proof.
  unfold array_get, array_set.
  destruct (Z.ltb_spec i 0); [discriminate|]. intros Hget.
  pose proof (lookup_lt_Some _ _ _ Hget) as Hlt.
  destruct (Z.leb_spec (Z.of_nat (length l)) i); [lia|]. cbn.
  eexists; split; [reflexivity|]. split.
  - destruct (Z.ltb_spec i 0); [lia|]. now apply list_lookup_insert_eq.
  - apply length_insert.
Qed.

Lemma detectStep_sample (a : AccelerometerData) (s : Sys) (c : Z) :
  valid_sample a ->
  array_get (stepsPerSecond s) (currentSecondIndex s) = Some c ->
  exists w', detectStep (sampleBus a) (start s) = Ret tt w' /\
    let edge := exceedsThreshold a && negb (wasStepThresholdExceeded s) in
    totalSteps (sys w') = (if edge then u16 (totalSteps s + 1) else totalSteps s) /\
    currentSecondIndex (sys w') = currentSecondIndex s /\
    array_get (stepsPerSecond (sys w')) (currentSecondIndex s) =
      Some (if edge then u8 (c + 1) else c) /\
    wasStepThresholdExceeded (sys w') = exceedsThreshold a /\
    isMovementActive (sys w') = exceedsThreshold a.
Proof.
  intros Hv Hget.
  destruct (array_set_get _ _ _ (u8 (c + 1)) Hget) as (l' & Hset & Hget' & _).
  enough (satisfies detectStep (sampleBus a) (start s)
            (fun _ w' =>
               let edge := exceedsThreshold a && negb (wasStepThresholdExceeded s) in
               totalSteps (sys w') = (if edge then u16 (totalSteps s + 1) else totalSteps s) /\
               currentSecondIndex (sys w') = currentSecondIndex s /\
               array_get (stepsPerSecond (sys w')) (currentSecondIndex s) =
                 Some (if edge then u8 (c + 1) else c) /\
               wasStepThresholdExceeded (sys w') = exceedsThreshold a /\
               isMovementActive (sys w') = exceedsThreshold a) never) as H.
  { apply satisfies_returns in H. destruct H as ([] & w' & E & H). eauto. }
  unfold detectStep. apply satisfies_bind.
  apply satisfies_readAccelerometer; [assumption|]. intros evs.
  cbv zeta. exec. apply satisfies_when; intros Hedge.
  - exec. eapply satisfies_defined; [exact Hget|]. exec.
    eapply satisfies_defined; [exact Hset|]. exec.
    rewrite Hedge. auto.
  - exec. rewrite Hedge. auto.
Qed.

Lemma runLengths_head (b : bool) (l : list bool) :
  exists n runs, runLengths (b :: l) = (b, n) :: runs.
Proof.
  cbn [runLengths]. destruct (runLengths l) as [|[b' n] runs]; [eauto|].
  destruct (Bool.eqb b b'); eauto.
Qed.

(** The rising edges of a sequence are its maximal runs of [true], the
    first run apart when the sample before the sequence was above. *)
Lemma trueRuns_cons (b : bool) (l : list bool) :
  trueRuns (b :: l) = ((if b then 1 else 0) + risingEdges b l)%nat.
Proof.
  revert b; induction l as [|b' l IH]; intros b.
  - destruct b; reflexivity.
  - specialize (IH b'). unfold trueRuns in *.
    destruct (runLengths_head b' l) as (n & runs & E).
    change (runLengths (b :: b' :: l))
      with (match runLengths (b' :: l) with
            | (b'', n) :: runs =>
                if Bool.eqb b b'' then (b, S n) :: runs
                else (b, 1%nat) :: (b'', n) :: runs
            | [] => [(b, 1%nat)]
            end).
    rewrite E in *. cbn [risingEdges].
    destruct b, b'; cbn [Bool.eqb andb negb] in *;
      rewrite ?filter_cons in *; cbn [fst] in *;
      repeat (destruct (decide _); try congruence); cbn [length] in *; lia.
Qed.

Lemma below_not_exceeding (a : AccelerometerData) :
  belowThreshold a = true -> exceedsThreshold a = false.
Proof. apply SFltb_asym. Qed.

Lemma risingEdges_none (previous : bool) (above : list bool) :
  Forall (fun b => b = false) above -> risingEdges previous above = 0%nat.
Proof.
  intros H; revert previous; induction H as [|b l -> _ IH]; intros previous.
  - reflexivity.
  - cbn. apply IH.
Qed.

(** C1 (amended: strictly above the threshold).  For every sequence of
    samples the bus delivers to [detectStep], from a state whose current
    bucket slot exists: the calls all return; [totalSteps] and the current
    slot of [stepsPerSecond] are incremented (in their widths) once per
    rising edge, that is once per sample with [dynamicForce > 900] whose
    predecessor was not; the slot index does not move; the edge flag ends
    as the last sample's verdict; started with the flag clear, the rising
    edges are the maximal runs of samples above the threshold; and a
    sequence that stays strictly below the threshold increments nothing. *)
Theorem detectStep_counts_rising_edges
    (samples : list AccelerometerData) (s : Sys) (count : Z)
    (Hsamples : Forall valid_sample samples)
    (Hslot : array_get (stepsPerSecond s) (currentSecondIndex s) = Some count) :
  let above := map exceedsThreshold samples in
  let n := risingEdges (wasStepThresholdExceeded s) above in
  exists s', detectSteps samples s = Some s' /\
    totalSteps s' = Nat.iter n (fun t => u16 (t + 1)) (totalSteps s) /\
    currentSecondIndex s' = currentSecondIndex s /\
    array_get (stepsPerSecond s') (currentSecondIndex s) =
      Some (Nat.iter n (fun c => u8 (c + 1)) count) /\
    wasStepThresholdExceeded s' = List.last above (wasStepThresholdExceeded s) /\
    (wasStepThresholdExceeded s = false -> n = trueRuns above) /\
    (Forall (fun a => belowThreshold a = true) samples ->
     n = 0%nat /\ totalSteps s' = totalSteps s).
Proof.
  cbv zeta.
  assert (Hmain : exists s', detectSteps samples s = Some s' /\
    totalSteps s' = Nat.iter (risingEdges (wasStepThresholdExceeded s)
                                (map exceedsThreshold samples))
                             (fun t => u16 (t + 1)) (totalSteps s) /\
    currentSecondIndex s' = currentSecondIndex s /\
    array_get (stepsPerSecond s') (currentSecondIndex s) =
      Some (Nat.iter (risingEdges (wasStepThresholdExceeded s)
                        (map exceedsThreshold samples))
                     (fun c => u8 (c + 1)) count) /\
    wasStepThresholdExceeded s' =
      List.last (map exceedsThreshold samples) (wasStepThresholdExceeded s)).
  { revert s count Hslot.
    induction Hsamples as [|a samples Ha _ IH]; intros s count Hslot.
    - exists s. cbn. auto.
    - destruct (detectStep_sample a s count Ha Hslot)
        as (w' & E & Htot & Hidx & Hget & Hwas & _).
      cbv zeta in Htot, Hget.
      rewrite <- Hidx in Hget.
      destruct (IH (sys w') _ Hget) as (s' & E' & Htot' & Hidx' & Hget' & Hwas').
      exists s'. cbn [detectSteps]. rewrite E. split; [exact E'|].
      cbn [map risingEdges]. rewrite Hwas in *. rewrite Hidx in *.
      rewrite Htot', Hget', Hwas', Htot, Hidx'.
      assert (Hlast : forall (l : list bool) x y,
                 List.last (x :: l) y = List.last l x).
      { induction l as [|z l IHl]; intros x y; [reflexivity|].
        change (List.last (x :: z :: l) y) with (List.last (z :: l) y).
        rewrite (IHl z y). symmetry. apply (IHl z x). }
      rewrite Hlast.
      destruct (exceedsThreshold a && negb (wasStepThresholdExceeded s));
        cbn [Nat.add]; rewrite ?Nat.iter_succ_r; auto. }
  destruct Hmain as (s' & E & Htot & Hidx & Hget & Hwas).
  exists s'. repeat (split; [assumption|]). split.
  - intros Hfalse. rewrite Hfalse.
    pose proof (trueRuns_cons false (map exceedsThreshold samples)) as H.
    cbn [Nat.add] in H. rewrite <- H.
    unfold trueRuns. cbn [runLengths].
    destruct (runLengths (map exceedsThreshold samples)) as [|[b n] runs] eqn:R;
      [reflexivity|].
    destruct b; cbn [Bool.eqb]; rewrite !filter_cons; cbn [fst];
      repeat (destruct (decide _); try congruence); reflexivity.
  - intros Hbelow.
    assert (Hn : risingEdges (wasStepThresholdExceeded s)
                   (map exceedsThreshold samples) = 0%nat).
    { apply risingEdges_none. apply Forall_map.
      eapply Forall_impl; [exact Hbelow|]. intros a. apply below_not_exceeding. }
    rewrite Hn in Htot. split; [exact Hn | exact Htot].
Qed.

Lemma detectStep_counts_rising_edges_witness :
  let samples := [mkAccel 482 0 0; mkAccel 482 0 0; mkAccel 0 0 256;
                  mkAccel (-500) 20 (-9)] in
  Forall valid_sample samples /\
  array_get (stepsPerSecond boot) (currentSecondIndex boot) = Some 0 /\
  exists s', detectSteps samples boot = Some s' /\ totalSteps s' = 2.
Proof.
  cbv zeta.
  assert (Hsamples : Forall valid_sample
            [mkAccel 482 0 0; mkAccel 482 0 0; mkAccel 0 0 256;
             mkAccel (-500) 20 (-9)])
    by (repeat constructor; cbn; lia).
  split; [exact Hsamples|]. split; [reflexivity|].
  destruct (detectStep_counts_rising_edges _ boot 0 Hsamples eq_refl)
    as (s' & E & Htot & _).
  exists s'. split; [exact E|]. rewrite Htot. vm_compute. reflexivity.
Defined.

(** C1 as stated fails at the threshold itself: the sample (481, 0, 0)
    has magnitude 1924 and dynamic force exactly 900, a run of one sample
    "at or above" the threshold, and [detectStep] does not count it. *)
Lemma detectStep_skips_sample_at_threshold :
  let samples := [mkAccel 481 0 0] in
  Forall valid_sample samples /\
  dynamicForce (mkAccel 481 0 0) = STEP_THRESHOLD /\
  trueRuns (map atOrAboveThreshold samples) = 1%nat /\
  option_map totalSteps (detectSteps samples boot) = Some 0.
Proof.
  cbv zeta. split; [repeat constructor; cbn; lia|].
  split; [vm_compute; reflexivity|].
  split; vm_compute; reflexivity.
Qed.
(** ** Frame rules *)

Section KeepsRules.
Context (R : Sys -> Sys -> Prop) `{!PreOrder R}.

Lemma keeps_ret {A} (a : A) : keeps R (ret a).
Proof. intros bus w. cbn. reflexivity. Qed.

Lemma keeps_gets {A} (f : Sys -> A) : keeps R (gets f).
Proof. intros bus w. cbn. reflexivity. Qed.

Lemma keeps_emit (e : Event) : keeps R (emit e).
Proof. intros bus w. cbn. reflexivity. Qed.

Lemma keeps_undefined {A} : keeps R (@undefined A).
Proof. intros bus w. exact I. Qed.

Lemma keeps_defined {A} (o : option A) : keeps R (defined o).
Proof. destruct o; [apply keeps_ret | apply keeps_undefined]. Qed.

Lemma keeps_modify (f : Sys -> Sys) :
  (forall s, R s (f s)) -> keeps R (modify f).
Proof. intros H bus w. cbn. apply H. Qed.

Lemma keeps_bind {A B} (m : M A) (f : A -> M B) :
  keeps R m -> (forall a, keeps R (f a)) -> keeps R (bind m f).
Proof.
  intros Hm Hf bus w. rewrite bind_run. specialize (Hm bus w).
  destruct (m bus w) as [a w'|msg w'|]; [|exact Hm|exact I].
  specialize (Hf a bus w').
  destruct (f a bus w') as [b w''|msg w''|]; [| |exact I];
    (etransitivity; [exact Hm | exact Hf]).
Qed.

(** A read-modify-write of one global: the value read is the one in the
    state that is written. *)
Lemma keeps_update {A B} (f : Sys -> A) (g : A -> Sys -> Sys)
      (k : A -> M B) :
  (forall s, R s (g (f s) s)) -> (forall a, keeps R (k a)) ->
  keeps R (bind (gets f) (fun a => bind (modify (g a)) (fun _ => k a))).
Proof.
  intros Hg Hk bus w. rewrite bind_run. cbn [gets]. rewrite bind_run.
  cbn [modify]. specialize (Hk (f (sys w)) bus
                              (mkWorld (g (f (sys w)) (sys w)) (busReads w)
                                       (events w))).
  cbn [sys] in Hk.
  destruct (k (f (sys w)) bus _) as [b w'|msg w'|]; [| |exact I];
    (etransitivity; [apply Hg | exact Hk]).
Qed.

Lemma keeps_when (c : bool) (body : M unit) :
  keeps R body -> keeps R (when c body).
Proof. destruct c; [auto | intros; apply keeps_ret]. Qed.

Lemma keeps_halt {A} (message : string) : keeps R (@haltWithError A message).
Proof. intros bus w. cbn. reflexivity. Qed.

Lemma keeps_i2cRead (device reg : Z) : keeps R (i2cRead device reg).
Proof.
  intros bus w. unfold i2cRead.
  destruct (bus (busReads w) device reg). cbn. reflexivity.
Qed.

Lemma keeps_readByte (remaining : nat) (i retries reg : Z) (message : string) :
  keeps R (readByte remaining i retries reg message).
Proof.
  revert i; induction remaining as [|n IH]; intros i; cbn [readByte].
  - apply keeps_undefined.
  - apply keeps_bind; [apply keeps_i2cRead|]. intros [status byte].
    cbn [fst snd]. destruct status; [apply keeps_ret|].
    apply keeps_bind.
    + destruct (i =? retries - 1); [apply keeps_halt | apply keeps_ret].
    + intros _. apply keeps_bind; [apply keeps_emit | intros _; apply IH].
Qed.

Lemma keeps_final {A} (m : M A) (bus : Bus) (w : World) (s' : Sys) :
  keeps R m -> final (m bus w) = Some s' -> R (sys w) s'.
Proof.
  intros Hk. specialize (Hk bus w). unfold final.
  destruct (m bus w); intros [= <-]; exact Hk.
Qed.

End KeepsRules.

(** ** PaceEstimator *)

Section PaceProofs.
Import Pace.

Lemma paceStep_range (d t : Z) : 0 <= paceStep d t <= 100.
Proof. unfold paceStep. lia. Qed.

Lemma paceStep_toward (d t : Z) :
  0 <= d <= 100 -> 0 <= t ->
  (d <= t -> d <= paceStep d t <= t) /\
  (t <= d -> t <= paceStep d t <= d) /\
  Z.abs (paceStep d t - d) <= 2.
Proof.
  intros Hd Ht. unfold paceStep.
  destruct (Z.ltb_spec d t), (Z.ltb_spec t d); lia.
Qed.

(** One iteration closes the gap to the clamped target by 2, or reaches
    it. *)
Lemma paceStep_gap (d t : Z) :
  0 <= d <= 100 -> 0 <= t ->
  Z.abs (paceStep d t - Z.min t 100)
  = Z.max 0 (Z.abs (d - Z.min t 100) - 2).
Proof.
  intros Hd Ht. unfold paceStep.
  destruct (Z.ltb_spec d t), (Z.ltb_spec t d); lia.
Qed.

Lemma paceSteps_succ (n : nat) (d t : Z) :
  paceSteps (S n) d t = paceStep (paceSteps n d t) t.
Proof.
  revert d; induction n as [|n IH]; intros d; [reflexivity|].
  change (paceSteps (S (S n)) d t) with (paceSteps (S n) (paceStep d t) t).
  rewrite IH. reflexivity.
Qed.

Lemma paceSteps_range (n : nat) (d t : Z) :
  0 <= d <= 100 -> 0 <= paceSteps n d t <= 100.
Proof.
  intros Hd. destruct n as [|n]; [exact Hd|].
  rewrite paceSteps_succ. apply paceStep_range.
Qed.

Lemma paceSteps_gap (n : nat) (d t : Z) :
  0 <= d <= 100 -> 0 <= t ->
  Z.abs (paceSteps n d t - Z.min t 100)
  = Z.max 0 (Z.abs (d - Z.min t 100) - 2 * Z.of_nat n).
Proof.
  intros Hd Ht. induction n as [|n IH].
  - cbn [paceSteps]. lia.
  - rewrite paceSteps_succ.
    rewrite paceStep_gap by (try apply paceSteps_range; lia).
    rewrite IH. lia.
Qed.

Lemma track_n_succ (n : nat) (d t : spec_float) :
  track_n (S n) d t = track (track_n n d t) t.
Proof.
  revert d; induction n as [|n IH]; intros d; [reflexivity|].
  change (track_n (S (S n)) d t) with (track_n (S n) (track d t) t).
  rewrite IH. reflexivity.
Qed.

(** On a whole displayed pace and a published raw pace the binary32
    update computes without rounding. *)
Lemma track_n_whole (n : nat) (d steps : Z) :
  0 <= d <= 100 -> 0 <= steps < 65536 ->
  track_n n (F32.of_int d) (published steps)
  = F32.of_int (paceSteps n d (60 * steps)).
Proof.
  intros Hd Hk. induction n as [|n IH]; [reflexivity|].
  rewrite track_n_succ, paceSteps_succ, IH.
  apply track_whole; [apply paceSteps_range|]; assumption.
Qed.

Lemma ceiling_half (a : Z) (n : nat) :
  0 <= a ->
  (Qceiling (inject_Z a / 2) <= Z.of_nat n)%Z -> a <= 2 * Z.of_nat n.
Proof.
  intros Ha Hn.
  assert (Hq : (inject_Z a / 2 <= inject_Z (Z.of_nat n))%Q).
  { eapply Qle_trans; [apply Qle_ceiling|]. rewrite <- Zle_Qle. exact Hn. }
  unfold Qdiv in Hq. change (/ 2)%Q with (1 # 2)%Q in Hq.
  assert (Hq' : (inject_Z a <= inject_Z (2 * Z.of_nat n))%Q).
  { rewrite inject_Z_mult. change (inject_Z 2) with 2%Q. lra. }
  now rewrite <- Zle_Qle in Hq'.
Qed.

(** C4 (amended: on the values a run has, and up to the clamp).  For
    every raw pace the tick handler publishes, 60 times a 16-bit step
    count, and every displayed pace that is a whole number from 0 to
    100, each foreground iteration leaves a whole number from 0 to 100,
    moves toward the target without passing it (up while below, down
    while above) and by at most 2; and after ceil(|target - initial| /
    2.0) iterations the displayed pace equals min(target, 100) and stays
    there, which is within 2.0 of the target when the target is at most
    102. *)
Theorem pace_tracks_clamped_target (steps initial : Z)
    (Hsteps : 0 <= steps < 65536) (Hinitial : 0 <= initial <= 100) :
  let target := 60 * steps in
  let displayed n := track_n n (F32.of_int initial) (published steps) in
  (F32.toQ (published steps) == inject_Z target)%Q /\
  (forall n : nat, exists d d',
     displayed n = F32.of_int d /\ displayed (S n) = F32.of_int d' /\
     (F32.toQ (displayed (S n)) == inject_Z d')%Q /\
     0 <= d' <= 100 /\
     (d <= target -> d <= d' <= target) /\
     (target <= d -> target <= d' <= d) /\
     Z.abs (d' - d) <= 2) /\
  (forall n : nat,
     Qceiling (inject_Z (Z.abs (target - initial)) / 2) <= Z.of_nat n ->
     displayed n = F32.of_int (Z.min target 100) /\
     (target <= 102 -> Z.abs (Z.min target 100 - target) <= 2)).
Proof.
  cbv zeta. split; [now apply published_toQ|]. split.
  - intros n. exists (paceSteps n initial (60 * steps)),
                     (paceSteps (S n) initial (60 * steps)).
    rewrite !track_n_whole by assumption.
    pose proof (paceSteps_range n initial (60 * steps) Hinitial) as Hd.
    pose proof (paceSteps_range (S n) initial (60 * steps) Hinitial) as Hd'.
    split; [reflexivity|]. split; [reflexivity|].
    split; [apply whole_toQ; lia|]. split; [exact Hd'|].
    rewrite paceSteps_succ.
    destruct (paceStep_toward (paceSteps n initial (60 * steps)) (60 * steps)
                Hd ltac:(lia)) as (Hup & Hdown & Hrate).
    auto.
  - intros n Hn. apply ceiling_half in Hn; [|lia].
    rewrite track_n_whole by assumption.
    pose proof (paceSteps_gap n initial (60 * steps) Hinitial ltac:(lia)) as Hgap.
    split; [f_equal; lia | lia].
Qed.

Lemma pace_tracks_clamped_target_witness :
  0 <= 1 < 65536 /\ 0 <= 7 <= 100 /\
  track_n 27 (F32.of_int 7) (published 1) = F32.of_int (Z.min (60 * 1) 100).
Proof.
  assert (Hsteps : 0 <= 1 < 65536) by lia.
  assert (Hinitial : 0 <= 7 <= 100) by lia.
  split; [exact Hsteps|]. split; [exact Hinitial|].
  apply (proj2 (proj2 (pace_tracks_clamped_target 1 7 Hsteps Hinitial)) 27%nat).
  vm_compute. discriminate.
Defined.

(** C4 as stated fails above the clamp: from 0 toward a target of 120
    (two steps in one second) the displayed pace is 100 after the
    ceil(120 / 2) = 60 iterations, 20 away from the target.  It also
    fails where binary32 rounds: from 0.7f (0xB33333 * 2^-24) toward 60
    the sum with 2.0f is rounded up, and the pace moves by 2 + 2^-24. *)
Lemma pace_saturates_short_of_target :
  (Qceiling (Qabs (120 - 0) / 2) = 60 /\
   (F32.toQ (published 2) == 120)%Q /\
   (F32.toQ (track_n 60 (F32.of_int 0) (published 2)) == 100)%Q /\
   ~ (Qabs (100 - 120) <= 2)%Q) /\
  (let displayed := S754_finite false 11744051 (-24) in
   (0 <= F32.toQ displayed <= 100)%Q /\
   ~ (Qabs (F32.toQ (track displayed (published 1)) - F32.toQ displayed)
        <= 2)%Q).
Proof.
  split.
  - split; [reflexivity|]. split; [reflexivity|]. split; [reflexivity|].
    vm_compute. intros H. apply H. reflexivity.
  - cbv zeta. split.
    + split; vm_compute; discriminate.
    + vm_compute. intros H. apply H. reflexivity.
Qed.

End PaceProofs.

(** ** Rendering and the interrupt handler *)

Lemma set_previousTime_same (s : Sys) : set_previousTime (previousTime s) s = s.
Proof. destruct s; reflexivity. Qed.

Lemma world_eta (w : World) : mkWorld (sys w) (busReads w) (events w) = w.
Proof. destruct w; reflexivity. Qed.

Lemma ret_run {A} (a : A) (bus : Bus) (w : World) : ret a bus w = Ret a w.
Proof. reflexivity. Qed.

Lemma gets_run {A} (f : Sys -> A) (bus : Bus) (w : World) :
  gets f bus w = Ret (f (sys w)) w.
Proof. reflexivity. Qed.

Lemma modify_run (f : Sys -> Sys) (bus : Bus) (w : World) :
  modify f bus w = Ret tt (mkWorld (f (sys w)) (busReads w) (events w)).
Proof. reflexivity. Qed.

Lemma emit_run (e : Event) (bus : Bus) (w : World) :
  emit e bus w = Ret tt (mkWorld (sys w) (busReads w) (events w ++ [e])).
Proof. reflexivity. Qed.

(** Evaluation of a straight-line prefix. *)
Ltac run :=
  repeat (progress (rewrite ?bind_run, ?ret_run, ?gets_run, ?modify_run,
                      ?emit_run;
                    cbn [when negb sys busReads events])).

(** [updateMenuTimeDisplay] returns; it writes its cache at most and
    emits display calls only. *)
Lemma updateMenuTimeDisplay_run (bus : Bus) (w : World) :
  exists cache drawn,
    updateMenuTimeDisplay bus w =
      Ret tt (mkWorld (set_previousTime cache (sys w)) (busReads w)
                      (events w ++ drawn)) /\
    forallb is_display_call drawn = true.
Proof.
  unfold updateMenuTimeDisplay. run.
  match goal with |- context [String.eqb ?a ?b] => destruct (String.eqb a b) end;
    run.
  - exists (previousTime (sys w)), [].
    rewrite set_previousTime_same, app_nil_r, world_eta. auto.
  - eexists _, [_; _]. rewrite <- app_assoc. split; reflexivity.
Qed.

Lemma satisfies_updateMenuTimeDisplay (bus : Bus) (w : World)
      (post : unit -> World -> Prop) halt :
  (forall cache drawn,
      forallb is_display_call drawn = true ->
      post tt (mkWorld (set_previousTime cache (sys w)) (busReads w)
                       (events w ++ drawn))) ->
  satisfies updateMenuTimeDisplay bus w post halt.
Proof.
  intros H. unfold satisfies.
  destruct (updateMenuTimeDisplay_run bus w) as (cache & drawn & -> & Hd).
  now apply H.
Qed.

Lemma renderMenuItems_run (options : list string) (bus : Bus) :
  forall (i : Z) (w : World),
  exists drawn,
    renderMenuItems options i bus w =
      Ret tt (mkWorld (sys w) (busReads w) (events w ++ drawn)) /\
    forallb is_display_call drawn = true.
Proof.
  induction options as [|o rest IH]; intros i w; cbn [renderMenuItems].
  - exists []. rewrite app_nil_r, world_eta. auto.
  - run.
    destruct (i =? currentMenuSelection (sys w)); run.
    + destruct (IH (i + 1) (mkWorld (sys w) (busReads w)
                  ((events w ++ [oledC_DrawString 10 (u8 (20 + i * 12)) 1 1 o OLEDC_COLOR_WHITE])
                     ++ [oledC_DrawString 4 (u8 (20 + i * 12)) 1 1 ">" OLEDC_COLOR_WHITE])))
        as (drawn & -> & Hd).
      cbn [sys busReads events]. eexists (_ :: _ :: drawn).
      rewrite <- !app_assoc. split; [reflexivity | exact Hd].
    + destruct (IH (i + 1) (mkWorld (sys w) (busReads w)
                  (events w ++ [oledC_DrawString 10 (u8 (20 + i * 12)) 1 1 o OLEDC_COLOR_WHITE])))
        as (drawn & -> & Hd).
      cbn [sys busReads events]. eexists (_ :: drawn).
      rewrite <- !app_assoc. split; [reflexivity | exact Hd].
Qed.

(** [renderMainMenu] returns; it clears the screen, draws, and writes the
    cache of [updateMenuTimeDisplay] at most. *)
Lemma renderMainMenu_run (bus : Bus) (w : World) :
  exists cache drawn,
    renderMainMenu bus w =
      Ret tt (mkWorld (set_previousTime cache (sys w)) (busReads w)
                      (events w ++ oledC_clearScreen :: drawn)) /\
    forallb is_display_call drawn = true.
Proof.
  unfold renderMainMenu. run.
  destruct (renderMenuItems_run MENU_OPTIONS bus 0
              (mkWorld (sys w) (busReads w) (events w ++ [oledC_clearScreen])))
    as (items & -> & Hitems).
  run.
  destruct (updateMenuTimeDisplay_run bus
              (mkWorld (sys w) (busReads w)
                       ((events w ++ [oledC_clearScreen]) ++ items)))
    as (cache & time & -> & Htime).
  run. sys_simpl.
  destruct (use12HourFormat (sys w)); run; cbn [sys busReads events]; sys_simpl.
  - exists cache. eexists (items ++ time ++ [_]).
    rewrite <- !app_assoc. split; [reflexivity|].
    rewrite !forallb_app, Hitems, Htime. reflexivity.
  - exists cache, (items ++ time).
    rewrite <- !app_assoc. split; [reflexivity|].
    rewrite !forallb_app, Hitems, Htime. reflexivity.
Qed.

Lemma satisfies_renderMainMenu (bus : Bus) (w : World)
      (post : unit -> World -> Prop) halt :
  (forall cache drawn,
      forallb is_display_call drawn = true ->
      post tt (mkWorld (set_previousTime cache (sys w)) (busReads w)
                       (events w ++ oledC_clearScreen :: drawn))) ->
  satisfies renderMainMenu bus w post halt.
Proof.
  intros H. unfold satisfies.
  destruct (renderMainMenu_run bus w) as (cache & drawn & -> & Hd).
  now apply H.
Qed.

Lemma array_set_defined {A} (l : list A) (i : Z) (v : A) :
  0 <= i < Z.of_nat (length l) ->
  array_set l i v = Some (<[Z.to_nat i := v]> l).
Proof.
  intros Hi. unfold array_set.
  destruct (Z.ltb_spec i 0); [lia|].
  destruct (Z.leb_spec (Z.of_nat (length l)) i); [lia|]. reflexivity.
Qed.

Lemma next_slot_range (index : Z) :
  0 <= u8 ((index + 1) mod HISTORY_SIZE) < 60.
Proof.
  unfold u8, HISTORY_SIZE.
  pose proof (Z.mod_pos_bound (index + 1) 60).
  rewrite Z.mod_small; lia.
Qed.

(** C3 (amended: the handler waits 10 ms while button 1 reads pressed;
    the tick that enters menu mode is left open).  For every invocation
    of the tick handler on a state whose clock it can advance: the
    handler returns; when the graph is displayed or button 1 reads
    released it calls no collaborator at all, every effect being a write
    to the shared state; when button 1 reads pressed (graph not
    displayed) its last effect is [DELAY_milliseconds(10)], it waits
    nowhere else, and unless that press is the one that enters menu mode
    (the hold count reaching 2 outside menu mode) the delay is its only
    call to a collaborator. *)
Theorem T1Interrupt_effects (RA11 : bool) (s : Sys) (bus : Bus)
    (clock' : ClockTime)
    (Hclock : Clock.incrementSystemTime (systemClock s) = Some clock')
    (Hslots : length (stepsPerSecond s) = 60%nat) :
  let pressed := negb (isGraphDisplayed s) && negb RA11 in
  let entersMenu :=
    pressed && (2 <=? u8 (t1_button1HoldCount s + 1)) && negb (inMainMenu s) in
  exists w', _T1Interrupt RA11 bus (start s) = Ret tt w' /\
    if pressed then
      exists before,
        events w' = before ++ [DELAY_milliseconds 10] /\
        existsb is_wait before = false /\
        (entersMenu = false -> before = [])
    else events w' = [].
Proof.
  cbv zeta.
  enough (H : satisfies (_T1Interrupt RA11) bus (start s)
            (fun _ w' =>
               if negb (isGraphDisplayed s) && negb RA11 then
                 exists before,
                   events w' = before ++ [DELAY_milliseconds 10] /\
                   existsb is_wait before = false /\
                   (negb (isGraphDisplayed s) && negb RA11
                      && (2 <=? u8 (t1_button1HoldCount s + 1))
                      && negb (inMainMenu s) = false -> before = [])
               else events w' = []) never).
  { apply satisfies_returns in H. destruct H as ([] & w' & E & H). eauto. }
  assert (Hbucket : forall (inMenu : bool) (w : World)
                           (post : unit -> World -> Prop),
             length (stepsPerSecond (sys w)) = 60%nat ->
             (forall s', post tt (mkWorld s' (busReads w) (events w))) ->
             satisfies
               (when (negb inMenu) (
                  index ← gets currentSecondIndex;
                  let index' := u8 ((index + 1) mod HISTORY_SIZE) in
                  modify (set_currentSecondIndex index');;
                  slots ← gets stepsPerSecond;
                  slots' ← defined (array_set slots index' 0);
                  modify (set_stepsPerSecond slots');;
                  total ← gets totalSteps;
                  previous ← gets previousStepCount;
                  let stepsThisSecond := u16 (total - previous) in
                  modify (set_previousStepCount total);;
                  let rawPace := F32.mul (F32.of_int stepsThisSecond) (F32.of_int 60) in
                  inactivity ← gets inactivityCount;
                  rawPace' ← (if stepsThisSecond =? 0 then
                     modify (set_inactivityCount (u8 (inactivity + 1)));;
                     ret (if 3 <=? u8 (inactivity + 1) then F32.of_int 0 else rawPace)
                   else
                     modify (set_inactivityCount 0);;
                     ret rawPace);
                  modify (set_currentStepPace rawPace')))
               bus w post never).
  { intros inMenu w post Hlen HP.
    apply satisfies_when; intros _; [|rewrite <- world_eta; apply HP].
    exec. cbv zeta. exec.
    eapply satisfies_defined.
    { apply array_set_defined. rewrite Hlen.
      pose proof (next_slot_range (currentSecondIndex (sys w))). lia. }
    exec.
    match goal with
    | |- satisfies (if ?c then _ else _) _ _ _ _ => destruct c
    end; exec; apply HP. }
  assert (Hdraws : forall drawn, forallb is_display_call drawn = true ->
                                 existsb is_wait drawn = false).
  { induction drawn as [|e drawn IH]; [reflexivity|]. cbn [forallb existsb].
    intros H. apply andb_prop in H as [He Hrest].
    rewrite (IH Hrest). now destruct e. }
  unfold _T1Interrupt. exec.
  eapply satisfies_defined; [exact Hclock|]. exec.
  destruct (isGraphDisplayed s); cbn [negb andb].
  { apply satisfies_when; [discriminate|]. intros _. exec.
    apply Hbucket; [exact Hslots|]. intros s'. reflexivity. }
  apply satisfies_when; [intros _|discriminate].
  cbv zeta. destruct RA11; cbn [negb andb].
  { exec. apply Hbucket; [exact Hslots|]. intros s'. reflexivity. }
  exec. apply satisfies_when; intros Henter; rewrite Henter.
  - exec. apply satisfies_renderMainMenu. intros cache drawn Hdrawn. exec.
    apply Hbucket; [exact Hslots|]. intros s'. cbn [events].
    exists (oledC_clearScreen :: drawn). split; [reflexivity|].
    split; [|discriminate]. cbn [existsb is_wait orb]. now apply Hdraws.
  - exec. apply Hbucket; [exact Hslots|]. intros s'. cbn [events].
    exists []. auto.
Qed.

Lemma T1Interrupt_effects_witness :
  let held := set_t1_button1HoldCount 1 boot in
  Clock.incrementSystemTime (systemClock held) = Some (mkClock 4 0 1 24 1) /\
  length (stepsPerSecond held) = 60%nat /\
  exists w', _T1Interrupt false silent_bus (start held) = Ret tt w' /\
    exists before,
      events w' = before ++ [DELAY_milliseconds 10] /\
      existsb is_wait before = false /\
      (true = false -> before = []).
Proof.
  intros held. split; [reflexivity|]. split; [reflexivity|].
  exact (T1Interrupt_effects false held silent_bus (mkClock 4 0 1 24 1)
           eq_refl eq_refl).
Defined.

(** C3 as stated fails at the first tick that reads button 1 pressed on
    the clock face: the handler's one call to a collaborator is
    [DELAY_milliseconds(10)], a wait inside the handler. *)
Lemma T1Interrupt_waits_on_press :
  effects (step (Tick false) boot) = [DELAY_milliseconds 10] /\
  existsb is_wait (effects (step (Tick false) boot)) = true.
Proof. split; vm_compute; reflexivity. Qed.

(** ** Frames of the menu pages *)

#[local] Instance agree_preorder {T} (proj : Sys -> T) : PreOrder (agree proj).
Proof.
  split; [intros s; reflexivity|].
  intros s1 s2 s3 H12 H23. unfold agree in *. congruence.
Qed.

#[local] Instance preserves_preorder (inv : Sys -> Prop) :
  PreOrder (preserves inv).
Proof. split; [intros s H; exact H | intros s1 s2 s3 H12 H23 H; auto]. Qed.

#[local] Instance stepView_frame : MenuFrame (agree stepView).
Proof. constructor; [exact _ | reflexivity ..]. Qed.

#[local] Instance selection_frame : MenuFrame (preserves selectionInRange).
Proof. constructor; [exact _ | intros v s H; exact H ..]. Qed.

Create HintDb keeps.

(** An assignment respects the relation: by the frame class, or by
    computation when the relation is a given one. *)
Ltac frame_assign :=
  intros ?; cbv beta;
  first [ apply frame_previousTime | apply frame_wasInMenu
        | apply frame_comboPressCount | apply frame_button1WasPressed
        | apply frame_button2WasPressed | apply frame_isGraphDisplayed
        | apply frame_page | apply frame_inMainMenu
        | apply frame_graph_button1HoldCount | apply frame_redrawClock
        | apply frame_inTimeFormatMenu | apply frame_timeFormatOption
        | apply frame_use12HourFormat | apply frame_timeFieldSelected
        | apply frame_timeToSet | apply frame_inTimeSetMenu
        | apply frame_tiltCount | apply frame_systemClock
        | apply frame_dateFieldSelected | apply frame_dateToSet
        | apply frame_justEnteredMenu
        | solve [auto with keeps]
        | solve [unfold preserves, selectionInRange, MENU_ITEM_COUNT;
                 sys_simpl; intros; lia] ].

Ltac frame1 :=
  lazymatch goal with
  | |- keeps ?R (bind (gets ?f)
                      (fun a => bind (modify (@?g a)) (fun _ => @?k a))) =>
      apply (keeps_update R f g k); [frame_assign | intros ?]
  | |- keeps _ (bind _ _) => apply keeps_bind; [try exact _ | | intros ?]
  | |- keeps _ (when _ _) => apply keeps_when; [try exact _ |]
  | |- keeps _ (modify _) => apply keeps_modify; frame_assign
  | |- keeps _ (ret _) => apply keeps_ret; exact _
  | |- keeps _ (gets _) => apply keeps_gets; exact _
  | |- keeps _ (emit _) => apply keeps_emit; exact _
  | |- keeps _ (defined _) => apply keeps_defined; exact _
  | |- keeps _ undefined => apply keeps_undefined
  | |- keeps _ (haltWithError _) => apply keeps_halt; exact _
  | |- keeps _ (readByte _ _ _ _ _) => apply keeps_readByte; exact _
  | |- keeps _ (if ?c then _ else _) => destruct c
  | |- keeps _ (match ?x with _ => _ end) => destruct x
  | |- keeps _ _ => solve [eauto with keeps]
  end.

Ltac frame := cbv zeta; repeat (frame1; cbv zeta).

Section MenuFrames.
Context (R : Sys -> Sys -> Prop) `{!MenuFrame R}.

Lemma keeps_readAccelerometerAxis (reg : Z) :
  keeps R (readAccelerometerAxis reg).
Proof. unfold readAccelerometerAxis. frame. Qed.
Hint Resolve keeps_readAccelerometerAxis : keeps.

Lemma keeps_readAccelerometer : keeps R readAccelerometer.
Proof. unfold readAccelerometer. frame. Qed.
Hint Resolve keeps_readAccelerometer : keeps.

Lemma keeps_checkTiltToSave : keeps R checkTiltToSave.
Proof. unfold checkTiltToSave. frame. Qed.
Hint Resolve keeps_checkTiltToSave : keeps.

Lemma keeps_updateMenuTimeDisplay : keeps R updateMenuTimeDisplay.
Proof. unfold updateMenuTimeDisplay. frame. Qed.
Hint Resolve keeps_updateMenuTimeDisplay : keeps.

Lemma keeps_renderMenuItems (options : list string) (i : Z) :
  keeps R (renderMenuItems options i).
Proof.
  revert i; induction options as [|o rest IH]; intros i; cbn [renderMenuItems];
    frame.
Qed.
Hint Resolve keeps_renderMenuItems : keeps.

Lemma keeps_renderMainMenu : keeps R renderMainMenu.
Proof. unfold renderMainMenu. frame. Qed.
Hint Resolve keeps_renderMainMenu : keeps.

Lemma keeps_menuIterationTail (b1 b2 : bool) :
  keeps R (menuIterationTail b1 b2).
Proof. unfold menuIterationTail. frame. Qed.
Hint Resolve keeps_menuIterationTail : keeps.

Lemma keeps_afterMenuSelection : keeps R afterMenuSelection.
Proof. unfold afterMenuSelection. frame. Qed.
Hint Resolve keeps_afterMenuSelection : keeps.

Lemma keeps_displayStepGraph_enter : keeps R displayStepGraph_enter.
Proof. unfold displayStepGraph_enter. frame. Qed.

Lemma keeps_displayStepGraph_leave : keeps R displayStepGraph_leave.
Proof. unfold displayStepGraph_leave. frame. Qed.
Hint Resolve keeps_displayStepGraph_enter keeps_displayStepGraph_leave : keeps.

Lemma keeps_displayStepGraph_iter (RA11 RA12 : bool) :
  keeps R (displayStepGraph_iter RA11 RA12).
Proof. unfold displayStepGraph_iter. frame. Qed.

Lemma keeps_returnToMainMenu : keeps R returnToMainMenu.
Proof. unfold returnToMainMenu. frame. Qed.
Hint Resolve keeps_returnToMainMenu : keeps.

Lemma keeps_manageTimeFormatSelection_enter :
  keeps R manageTimeFormatSelection_enter.
Proof. unfold manageTimeFormatSelection_enter. frame. Qed.

Lemma keeps_manageTimeFormatSelection_iter (RA11 RA12 : bool) :
  keeps R (manageTimeFormatSelection_iter RA11 RA12).
Proof. unfold manageTimeFormatSelection_iter. frame. Qed.

Lemma keeps_processTimeSetInput (RA11 RA12 : bool) :
  keeps R (processTimeSetInput RA11 RA12).
Proof. unfold processTimeSetInput. frame. Qed.
Hint Resolve keeps_processTimeSetInput : keeps.

Lemma keeps_manageTimeSetPage_enter : keeps R manageTimeSetPage_enter.
Proof. unfold manageTimeSetPage_enter. frame. Qed.

Lemma keeps_manageTimeSetPage_iter (RA11 RA12 : bool) :
  keeps R (manageTimeSetPage_iter RA11 RA12).
Proof. unfold manageTimeSetPage_iter. frame. Qed.

Lemma keeps_processDateSetInput (RA11 RA12 : bool) :
  keeps R (processDateSetInput RA11 RA12).
Proof. unfold processDateSetInput. frame. Qed.
Hint Resolve keeps_processDateSetInput : keeps.

Lemma keeps_manageDateSetPage_enter : keeps R manageDateSetPage_enter.
Proof. unfold manageDateSetPage_enter. frame. Qed.

Lemma keeps_manageDateSetPage_iter (RA11 RA12 : bool) :
  keeps R (manageDateSetPage_iter RA11 RA12).
Proof. unfold manageDateSetPage_iter. frame. Qed.
Hint Resolve keeps_manageTimeFormatSelection_enter
  keeps_manageTimeSetPage_enter keeps_manageDateSetPage_enter : keeps.

Lemma keeps_executeMenuSelection : keeps R executeMenuSelection.
Proof. unfold executeMenuSelection. frame. Qed.
Hint Resolve keeps_executeMenuSelection : keeps.

(** The menu branch of [main]: besides the pages' globals it writes the
    cursor, one step up or down with wrap-around. *)
Lemma keeps_mainMenuIteration (b1 b2 : bool) :
  (forall s, R s (set_currentMenuSelection
                    (if currentMenuSelection s =? 0 then MENU_ITEM_COUNT - 1
                     else u8 (currentMenuSelection s - 1)) s)) ->
  (forall s, R s (set_currentMenuSelection
                    (if currentMenuSelection s =? MENU_ITEM_COUNT - 1 then 0
                     else u8 (currentMenuSelection s + 1)) s)) ->
  keeps R (mainMenuIteration b1 b2).
Proof.
  intros Hup Hdown. unfold mainMenuIteration. frame.
Qed.

End MenuFrames.

(** ** Menu mode *)

(** The handler in menu mode: the clock, the seconds counter and the
    blink flag advance, the hold counter is updated, nothing else is
    written. *)
Lemma T1Interrupt_in_menu (RA11 : bool) (w : World) (bus : Bus)
      (clock' : ClockTime) :
  inMainMenu (sys w) = true ->
  Clock.incrementSystemTime (systemClock (sys w)) = Some clock' ->
  exists hold w',
    _T1Interrupt RA11 bus w = Ret tt w' /\
    sys w' = set_t1_button1HoldCount hold
               (set_showFootIcon (negb (showFootIcon (sys w)))
                  (set_elapsedSeconds (u32 (elapsedSeconds (sys w) + 1))
                     (set_systemClock clock' (sys w)))).
Proof.
  intros Hmenu Hclock.
  enough (H : satisfies (_T1Interrupt RA11) bus w
            (fun _ w' => exists hold,
               sys w' = set_t1_button1HoldCount hold
                          (set_showFootIcon (negb (showFootIcon (sys w)))
                             (set_elapsedSeconds
                                (u32 (elapsedSeconds (sys w) + 1))
                                (set_systemClock clock' (sys w))))) never).
  { apply satisfies_returns in H. destruct H as ([] & w' & E & hold & H). eauto. }
  unfold _T1Interrupt. exec.
  eapply satisfies_defined; [exact Hclock|]. exec.
  apply satisfies_when; intros Hgraph.
  - cbv zeta. destruct RA11; cbn [negb]; exec.
    + rewrite Hmenu. cbn [negb when]. exec. eexists. reflexivity.
    + rewrite Hmenu, andb_false_r. cbn [when]. exec.
      rewrite Hmenu. cbn [negb when]. exec. eexists. reflexivity.
  - exec. rewrite Hmenu. cbn [negb when]. exec.
    exists (t1_button1HoldCount (sys w)). destruct (sys w); reflexivity.
Qed.

(** ** The main-menu cursor *)

Lemma cursor_up_in_range (s : Sys) :
  preserves selectionInRange s
    (set_currentMenuSelection
       (if currentMenuSelection s =? 0 then MENU_ITEM_COUNT - 1
        else u8 (currentMenuSelection s - 1)) s).
Proof.
  unfold preserves, selectionInRange, MENU_ITEM_COUNT. sys_simpl. intros H.
  destruct (Z.eqb_spec (currentMenuSelection s) 0); [lia|].
  rewrite u8_small; lia.
Qed.

Lemma cursor_down_in_range (s : Sys) :
  preserves selectionInRange s
    (set_currentMenuSelection
       (if currentMenuSelection s =? MENU_ITEM_COUNT - 1 then 0
        else u8 (currentMenuSelection s + 1)) s).
Proof.
  unfold preserves, selectionInRange, MENU_ITEM_COUNT. sys_simpl. intros H.
  destruct (Z.eqb_spec (currentMenuSelection s) (5 - 1)); [lia|].
  rewrite u8_small; lia.
Qed.

Lemma keeps_selection_T1Interrupt (RA11 : bool) :
  keeps (preserves selectionInRange) (_T1Interrupt RA11).
Proof.
  pose proof (keeps_renderMainMenu (preserves selectionInRange)) as Hrender.
  unfold _T1Interrupt. frame.
Qed.

Lemma keeps_selection_clockIteration (b1 b2 : bool) :
  keeps (preserves selectionInRange) (clockIteration b1 b2).
Proof.
  pose proof (keeps_readAccelerometer (preserves selectionInRange)) as Hread.
  unfold clockIteration, detectStep. frame.
Qed.

Lemma step_keeps_selection (i : Input) (s s' : Sys) :
  selectionInRange s -> final (step i s) = Some s' -> selectionInRange s'.
Proof.
  intros Hsel Hfinal. revert Hsel.
  change (preserves selectionInRange s s'). revert Hfinal.
  destruct i as [RA11|RA11 RA12 bus]; cbn [step].
  - apply (keeps_final _ _ silent_bus (start s)).
    apply keeps_selection_T1Interrupt.
  - unfold foreground, start.
    rewrite bind_run, gets_run. cbn [sys].
    destruct (page s) eqn:Hpage.
    + unfold mainLoopBody. cbv zeta. rewrite bind_run, gets_run. cbn [sys].
      destruct (inMainMenu s).
      * apply (keeps_final _ _ bus (mkWorld s 0 [])).
        apply keeps_mainMenuIteration;
          [exact _ | apply cursor_up_in_range | apply cursor_down_in_range].
      * apply (keeps_final _ _ bus (mkWorld s 0 [])).
        apply keeps_selection_clockIteration.
    + apply (keeps_final _ _ bus (mkWorld s 0 [])).
      apply keeps_displayStepGraph_iter; exact _.
    + apply (keeps_final _ _ bus (mkWorld s 0 [])).
      apply keeps_manageTimeFormatSelection_iter; exact _.
    + apply (keeps_final _ _ bus (mkWorld s 0 [])).
      apply keeps_manageTimeSetPage_iter; exact _.
    + apply (keeps_final _ _ bus (mkWorld s 0 [])).
      apply keeps_manageDateSetPage_iter; exact _.
Qed.

Lemma satisfies_menuIterationTail (b1 b2 : bool) (bus : Bus) (w : World)
      (post : unit -> World -> Prop) halt :
  (forall cache evs,
      post tt (mkWorld (set_wasInMenu true (set_previousTime cache (sys w)))
                       (busReads w) (events w ++ evs))) ->
  satisfies (menuIterationTail b1 b2) bus w post halt.
Proof.
  intros H. unfold menuIterationTail. exec.
  apply satisfies_when; intros _; cbv beta; exec;
    apply satisfies_updateMenuTimeDisplay; intros cache drawn _; exec;
    rewrite <- ?app_assoc; apply H.
Qed.

(** A single press of button 1 in the main menu. *)
Lemma button1_press (s : Sys) (bus : Bus) :
  page s = InMainLoop -> inMainMenu s = true -> justEnteredMenu s = false ->
  button1WasPressed s = false ->
  exists w', step (Poll false true bus) s = Ret tt w' /\
    currentMenuSelection (sys w') =
      (if currentMenuSelection s =? 0 then MENU_ITEM_COUNT - 1
       else u8 (currentMenuSelection s - 1)).
Proof.
  intros Hpage Hmenu Hjust Hwas.
  enough (H : satisfies (foreground false true) bus (start s)
            (fun _ w' => currentMenuSelection (sys w') =
               (if currentMenuSelection s =? 0 then MENU_ITEM_COUNT - 1
                else u8 (currentMenuSelection s - 1))) never).
  { apply satisfies_returns in H. destruct H as ([] & w' & E & H). eauto. }
  unfold foreground. exec. rewrite Hpage.
  unfold mainLoopBody. cbv zeta. exec. rewrite Hmenu.
  unfold mainMenuIteration. exec. rewrite Hjust. cbn [negb andb].
  exec. rewrite Hwas. cbn [negb andb]. exec.
  apply satisfies_renderMainMenu. intros cache drawn _. exec.
  cbn [negb andb]. apply satisfies_when; [intros _; exec | discriminate].
  apply satisfies_menuIterationTail. intros cache' evs.
  cbn [sys]. sys_simpl. reflexivity.
Qed.

(** A single press of button 2 in the main menu. *)
Lemma button2_press (s : Sys) (bus : Bus) :
  page s = InMainLoop -> inMainMenu s = true -> justEnteredMenu s = false ->
  button2WasPressed s = false ->
  exists w', step (Poll true false bus) s = Ret tt w' /\
    currentMenuSelection (sys w') =
      (if currentMenuSelection s =? MENU_ITEM_COUNT - 1 then 0
       else u8 (currentMenuSelection s + 1)).
Proof.
  intros Hpage Hmenu Hjust Hwas.
  enough (H : satisfies (foreground true false) bus (start s)
            (fun _ w' => currentMenuSelection (sys w') =
               (if currentMenuSelection s =? MENU_ITEM_COUNT - 1 then 0
                else u8 (currentMenuSelection s + 1))) never).
  { apply satisfies_returns in H. destruct H as ([] & w' & E & H). eauto. }
  unfold foreground. exec. rewrite Hpage.
  unfold mainLoopBody. cbv zeta. exec. rewrite Hmenu.
  unfold mainMenuIteration. exec. rewrite Hjust. cbn [negb andb].
  exec. cbn [negb andb]. apply satisfies_when; [intros _; exec | discriminate].
  rewrite Hwas. cbn [negb andb]. exec.
  apply satisfies_renderMainMenu. intros cache drawn _. exec.
  apply satisfies_menuIterationTail. intros cache' evs.
  cbn [sys]. sys_simpl. reflexivity.
Qed.

(** C7. In the main menu (main loop, menu flag set, entry already
    handled) with the cursor in 0..4: a poll that reads button 1 alone
    pressed, not pressed at the poll before, moves the cursor down by one
    and from 0 to 4; one that reads button 2 alone pressed moves it up by
    one and from 4 to 0; and whatever the input and whatever state has
    its cursor in 0..4, the cursor is in 0..4 afterwards. *)
Theorem main_menu_selection_wraps (s : Sys) (bus : Bus)
    (Hpage : page s = InMainLoop) (Hmenu : inMainMenu s = true)
    (Hjust : justEnteredMenu s = false)
    (Hsel : 0 <= currentMenuSelection s <= 4) :
  (button1WasPressed s = false ->
   exists w', step (Poll false true bus) s = Ret tt w' /\
     currentMenuSelection (sys w') =
       (if currentMenuSelection s =? 0 then 4 else currentMenuSelection s - 1)) /\
  (button2WasPressed s = false ->
   exists w', step (Poll true false bus) s = Ret tt w' /\
     currentMenuSelection (sys w') =
       (if currentMenuSelection s =? 4 then 0 else currentMenuSelection s + 1)) /\
  (forall i s0 s',
      0 <= currentMenuSelection s0 <= 4 -> final (step i s0) = Some s' ->
      0 <= currentMenuSelection s' <= 4).
Proof.
  split; [|split].
  - intros Hwas.
    destruct (button1_press s bus Hpage Hmenu Hjust Hwas) as (w' & E & H).
    exists w'. split; [exact E|]. rewrite H. unfold MENU_ITEM_COUNT.
    destruct (Z.eqb_spec (currentMenuSelection s) 0);
      [reflexivity | apply u8_small; lia].
  - intros Hwas.
    destruct (button2_press s bus Hpage Hmenu Hjust Hwas) as (w' & E & H).
    exists w'. split; [exact E|]. rewrite H. unfold MENU_ITEM_COUNT.
    change (5 - 1) with 4.
    destruct (Z.eqb_spec (currentMenuSelection s) 4);
      [reflexivity | apply u8_small; lia].
  - intros i s0 s' H0 Hfinal.
    assert (Hr : selectionInRange s')
      by (apply (step_keeps_selection i s0);
          [unfold selectionInRange, MENU_ITEM_COUNT; lia | exact Hfinal]).
    unfold selectionInRange, MENU_ITEM_COUNT in Hr. lia.
Qed.

Lemma main_menu_selection_wraps_witness :
  let s := set_inMainMenu true boot in
  page s = InMainLoop /\ inMainMenu s = true /\ justEnteredMenu s = false /\
  0 <= currentMenuSelection s <= 4 /\ button1WasPressed s = false /\
  exists w', step (Poll false true silent_bus) s = Ret tt w' /\
             currentMenuSelection (sys w') = 4.
Proof.
  cbv zeta. split; [reflexivity|]. split; [reflexivity|].
  split; [reflexivity|]. split; [cbn; lia|]. split; [reflexivity|].
  assert (H04 : 0 <= currentMenuSelection (set_inMainMenu true boot) <= 4)
    by (cbn; lia).
  exact (proj1 (main_menu_selection_wraps (set_inMainMenu true boot)
                  silent_bus eq_refl eq_refl eq_refl H04) eq_refl).
Defined.
(** ** Preempted execution *)

(** With no tick the preempted program is the program. *)
Lemma preempted_atomic {A} {m : M A} (c : Code m) (bus : Bus) (w : World) :
  preempted c [] bus w = (m bus w, ([], [])).
Proof.
  revert w. induction c as [A a|A f|f|e|device reg|A|A message|A B m f cm IHm cf IHf];
    intros w; try reflexivity.
  cbn [preempted]. rewrite IHm. unfold bind.
  destruct (m bus w) as [a w'|message w'|]; [|reflexivity|reflexivity].
  rewrite IHf. reflexivity.
Qed.

Section Frame.
Context (R : Sys -> Sys -> Prop) `{!PreOrder R}.
(** [calm]: the states in which a handler invocation respects [R]. *)
Context (calm : Sys -> Prop).
Hypothesis handler_respects :
  forall RA11 bus w w',
    calm (sys w) -> _T1Interrupt RA11 bus w = Ret tt w' -> R (sys w) (sys w').
Hypothesis handler_returns :
  forall RA11 bus w message w', _T1Interrupt RA11 bus w <> Halted message w'.

Lemma serve_respects (ticks : Ticks) (bus : Bus) (w : World) :
  match serve ticks bus w with
  | Ret entered w' => Forall calm entered -> R (sys w) (sys w')
  | Halted _ _ => False
  | Undefined => True
  end.
Proof.
  revert w. induction ticks as [|RA11 rest IH]; intros w; cbn [serve].
  - intros _. reflexivity.
  - destruct (_T1Interrupt RA11 bus w) as [[] w1|message w1|] eqn:E;
      [|now apply handler_returns in E|exact I].
    specialize (IH w1).
    destruct (serve rest bus w1) as [entered w2|message w2|]; [|exact IH|exact I].
    intros Hcalm. inversion Hcalm as [|? ? Hhere Hrest]; subst.
    transitivity (sys w1); [now apply (handler_respects RA11 bus)|now apply IH].
Qed.

Lemma access_respects {A} (m : M A) (schedule : Schedule) (bus : Bus)
      (w : World) :
  (forall w0, match m bus w0 with
              | Ret _ w' | Halted _ w' => R (sys w0) (sys w')
              | Undefined => True
              end) ->
  match access m schedule bus w with
  | (Ret _ w', (_, entered)) | (Halted _ w', (_, entered)) =>
      Forall calm entered -> R (sys w) (sys w')
  | (Undefined, _) => True
  end.
Proof.
  intros Hm. unfold access. destruct schedule as [|ticks rest].
  - specialize (Hm w). destruct (m bus w); auto.
  - pose proof (serve_respects ticks bus w) as Hserve.
    destruct (serve ticks bus w) as [entered w1|message w1|];
      [|contradiction|exact I].
    specialize (Hm w1). destruct (m bus w1) as [a w2|message w2|]; [| |exact I];
      intros Hcalm; (transitivity (sys w1); [now apply Hserve | exact Hm]).
Qed.

(** A program whose assignments all respect [R], preempted by handler
    invocations that all start in a calm state, respects [R]. *)
Lemma preempted_respects {A} {m : M A} (c : Code m) :
  respects R c ->
  forall schedule bus w,
    match preempted c schedule bus w with
    | (Ret _ w', (_, entered)) | (Halted _ w', (_, entered)) =>
        Forall calm entered -> R (sys w) (sys w')
    | (Undefined, _) => True
    end.
Proof.
  induction c as [A a|A f|f|e|device reg|A|A message|A B m f cm IHm cf IHf];
    intros Hc schedule bus w; cbn [preempted].
  - intros _. reflexivity.
  - apply access_respects. intros w0. cbn. reflexivity.
  - apply access_respects. intros w0. cbn. apply Hc.
  - apply access_respects. intros w0. cbn. reflexivity.
  - apply access_respects. intros w0. unfold i2cRead.
    destruct (bus (busReads w0) device reg). cbn. reflexivity.
  - exact I.
  - intros _. reflexivity.
  - destruct Hc as [Hm Hf]. specialize (IHm Hm schedule bus w).
    destruct (preempted cm schedule bus w) as [[a w1|message w1|] [schedule1 entered1]];
      [|exact IHm|exact I].
    specialize (IHf a (Hf a) schedule1 bus w1).
    destruct (preempted (cf a) schedule1 bus w1)
      as [[b w2|message w2|] [schedule2 entered2]]; [| |exact I];
      intros Hcalm; apply Forall_app in Hcalm as [H1 H2];
      (transitivity (sys w1); [now apply IHm | now apply IHf]).
Qed.

End Frame.

(** ** The assignments of the menu pages *)

Create HintDb respects.

Ltac respect1 :=
  lazymatch goal with
  | |- True => exact I
  | |- _ /\ _ => split
  | |- respects _ (code_bind _ _ _ _) => cbn [respects]
  | |- respects _ (code_modify _) => cbn [respects]; frame_assign
  | |- respects _ (if ?c then _ else _) => destruct c
  | |- respects _ (match ?x with _ => _ end) => destruct x
  | |- respects _ (code_ret _) => exact I
  | |- respects _ (code_gets _) => exact I
  | |- respects _ (code_emit _) => exact I
  | |- respects _ (code_i2cRead _ _) => exact I
  | |- respects _ code_undefined => exact I
  | |- respects _ (code_halt _) => exact I
  | |- respects _ _ => solve [auto with respects]
  | |- forall _, _ => first [solve [frame_assign] | intros ?]
  end.

Ltac respect := repeat respect1.

Section MenuAssignments.
Context (R : Sys -> Sys -> Prop) `{!MenuFrame R}.

Lemma respects_readByte (remaining : nat) :
  forall (i retries reg : Z) (message : string),
    respects R (code_readByte remaining i retries reg message).
Proof.
  induction remaining as [|remaining IH]; intros i retries reg message;
    cbn [code_readByte]; respect.
Qed.
#[local] Hint Resolve respects_readByte : respects.

Lemma respects_readAccelerometerAxis (reg : Z) :
  respects R (code_readAccelerometerAxis reg).
Proof. unfold code_readAccelerometerAxis. respect. Qed.
#[local] Hint Resolve respects_readAccelerometerAxis : respects.

Lemma respects_readAccelerometer : respects R code_readAccelerometer.
Proof. unfold code_readAccelerometer. respect. Qed.
#[local] Hint Resolve respects_readAccelerometer : respects.

Lemma respects_checkTiltToSave : respects R code_checkTiltToSave.
Proof. unfold code_checkTiltToSave. respect. Qed.
#[local] Hint Resolve respects_checkTiltToSave : respects.

Lemma respects_updateMenuTimeDisplay : respects R code_updateMenuTimeDisplay.
Proof. unfold code_updateMenuTimeDisplay. respect. Qed.
#[local] Hint Resolve respects_updateMenuTimeDisplay : respects.

Lemma respects_renderMenuItems (options : list string) :
  forall i : Z, respects R (code_renderMenuItems options i).
Proof.
  induction options as [|o rest IH]; intros i;
    cbn [code_renderMenuItems]; respect.
Qed.
#[local] Hint Resolve respects_renderMenuItems : respects.

Lemma respects_renderMainMenu : respects R code_renderMainMenu.
Proof. unfold code_renderMainMenu. respect. Qed.
#[local] Hint Resolve respects_renderMainMenu : respects.

Lemma respects_menuIterationTail (b1 b2 : bool) :
  respects R (code_menuIterationTail b1 b2).
Proof.
  unfold code_menuIterationTail. destruct b1, b2; cbn [negb andb]; respect.
Qed.
#[local] Hint Resolve respects_menuIterationTail : respects.

Lemma respects_afterMenuSelection : respects R code_afterMenuSelection.
Proof. unfold code_afterMenuSelection. respect. Qed.
#[local] Hint Resolve respects_afterMenuSelection : respects.

Lemma respects_displayStepGraph_enter : respects R code_displayStepGraph_enter.
Proof. unfold code_displayStepGraph_enter. respect. Qed.

Lemma respects_displayStepGraph_leave : respects R code_displayStepGraph_leave.
Proof. unfold code_displayStepGraph_leave. respect. Qed.
#[local] Hint Resolve respects_displayStepGraph_enter respects_displayStepGraph_leave
  : respects.

Lemma respects_displayStepGraph_iter (RA11 RA12 : bool) :
  respects R (code_displayStepGraph_iter RA11 RA12).
Proof.
  unfold code_displayStepGraph_iter. destruct RA11, RA12; cbn [negb andb]; respect.
Qed.

Lemma respects_returnToMainMenu : respects R code_returnToMainMenu.
Proof. unfold code_returnToMainMenu. respect. Qed.
#[local] Hint Resolve respects_returnToMainMenu : respects.

Lemma respects_manageTimeFormatSelection_enter :
  respects R code_manageTimeFormatSelection_enter.
Proof. unfold code_manageTimeFormatSelection_enter. respect. Qed.

Lemma respects_manageTimeFormatSelection_iter (RA11 RA12 : bool) :
  respects R (code_manageTimeFormatSelection_iter RA11 RA12).
Proof.
  unfold code_manageTimeFormatSelection_iter. destruct RA11, RA12; cbn [negb andb]; respect.
Qed.

Lemma respects_processTimeSetInput (RA11 RA12 : bool) :
  respects R (code_processTimeSetInput RA11 RA12).
Proof.
  unfold code_processTimeSetInput. destruct RA11, RA12; cbn [negb andb]; respect.
Qed.
#[local] Hint Resolve respects_processTimeSetInput : respects.

Lemma respects_manageTimeSetPage_enter :
  respects R code_manageTimeSetPage_enter.
Proof. unfold code_manageTimeSetPage_enter. respect. Qed.

Lemma respects_manageTimeSetPage_iter (RA11 RA12 : bool) :
  respects R (code_manageTimeSetPage_iter RA11 RA12).
Proof.
  unfold code_manageTimeSetPage_iter. destruct RA11, RA12; cbn [negb andb]; respect.
Qed.

Lemma respects_processDateSetInput (RA11 RA12 : bool) :
  respects R (code_processDateSetInput RA11 RA12).
Proof.
  unfold code_processDateSetInput. destruct RA11, RA12; cbn [negb andb]; respect.
Qed.
#[local] Hint Resolve respects_processDateSetInput : respects.

Lemma respects_manageDateSetPage_enter :
  respects R code_manageDateSetPage_enter.
Proof. unfold code_manageDateSetPage_enter. respect. Qed.

Lemma respects_manageDateSetPage_iter (RA11 RA12 : bool) :
  respects R (code_manageDateSetPage_iter RA11 RA12).
Proof.
  unfold code_manageDateSetPage_iter. destruct RA11, RA12; cbn [negb andb]; respect.
Qed.
#[local] Hint Resolve respects_manageTimeFormatSelection_enter
  respects_manageTimeSetPage_enter respects_manageDateSetPage_enter : respects.

Lemma respects_executeMenuSelection : respects R code_executeMenuSelection.
Proof. unfold code_executeMenuSelection. respect. Qed.
#[local] Hint Resolve respects_executeMenuSelection : respects.

Lemma respects_mainMenuIteration (b1 b2 : bool) :
  (forall v s, R s (set_currentMenuSelection v s)) ->
  respects R (code_mainMenuIteration b1 b2).
Proof.
  intros Hcursor. unfold code_mainMenuIteration.
  destruct b1, b2; cbn [negb andb]; respect.
  all: cbn [respects]; intros ?; apply Hcursor.
Qed.

End MenuAssignments.

(** ** The handler, as the foreground sees it *)

Lemma haltFree_returns {A} {m : M A} (c : Code m) :
  haltFree c -> forall bus w message w', m bus w <> Halted message w'.
Proof.
  induction c as [A a|A f|f|e|device reg|A|A message0|A B m f cm IHm cf IHf];
    intros Hc bus w message w'; try discriminate.
  - unfold i2cRead. destruct (bus (busReads w) device reg). discriminate.
  - destruct Hc.
  - destruct Hc as [Hm Hf]. unfold bind.
    destruct (m bus w) as [a w1|message1 w1|] eqn:E; [|now apply IHm in E|discriminate].
    now apply IHf.
Qed.

Ltac halt_free1 :=
  lazymatch goal with
  | |- True => exact I
  | |- _ /\ _ => split
  | |- haltFree (code_bind _ _ _ _) => cbn [haltFree]
  | |- haltFree (if ?c then _ else _) => destruct c
  | |- haltFree (match ?x with _ => _ end) => destruct x
  | |- haltFree (code_halt _) => fail
  | |- haltFree (code_ret _) => exact I
  | |- haltFree (code_gets _) => exact I
  | |- haltFree (code_modify _) => exact I
  | |- haltFree (code_emit _) => exact I
  | |- haltFree code_undefined => exact I
  | |- haltFree _ => solve [auto]
  | |- forall _, _ => intros ?
  end.

Lemma haltFree_updateMenuTimeDisplay : haltFree code_updateMenuTimeDisplay.
Proof. unfold code_updateMenuTimeDisplay. repeat halt_free1. Qed.

Lemma haltFree_renderMenuItems (options : list string) :
  forall i : Z, haltFree (code_renderMenuItems options i).
Proof.
  induction options as [|o rest IH]; intros i;
    cbn [code_renderMenuItems]; repeat halt_free1.
Qed.

Lemma haltFree_renderMainMenu : haltFree code_renderMainMenu.
Proof.
  pose proof haltFree_updateMenuTimeDisplay.
  pose proof haltFree_renderMenuItems.
  unfold code_renderMainMenu. repeat halt_free1.
Qed.

Lemma haltFree_T1Interrupt (RA11 : bool) : haltFree (code_T1Interrupt RA11).
Proof.
  pose proof haltFree_renderMainMenu.
  unfold code_T1Interrupt. destruct RA11; cbn [negb]; repeat halt_free1.
Qed.

(** The handler has no path to [haltWithError]. *)
Lemma T1Interrupt_never_halts (RA11 : bool) (bus : Bus) (w : World)
      (message : string) (w' : World) :
  _T1Interrupt RA11 bus w <> Halted message w'.
Proof. apply (haltFree_returns (code_T1Interrupt RA11)), haltFree_T1Interrupt. Qed.

(** In menu mode an invocation that returns has left the flag set and
    the step data as they were. *)
Lemma T1Interrupt_calm (RA11 : bool) (bus : Bus) (w w' : World) :
  inMainMenu (sys w) = true -> _T1Interrupt RA11 bus w = Ret tt w' ->
  inMainMenu (sys w') = true /\ stepView (sys w') = stepView (sys w).
Proof.
  intros Hmenu E.
  destruct (Clock.incrementSystemTime (systemClock (sys w))) as [clock'|]
    eqn:Hclock.
  - destruct (T1Interrupt_in_menu RA11 w bus clock' Hmenu Hclock)
      as (hold & w1 & E1 & Hsys).
    rewrite E in E1. injection E1 as <-. rewrite Hsys. sys_simpl.
    split; [exact Hmenu | reflexivity].
  - unfold _T1Interrupt in E. rewrite bind_run, gets_run, bind_run in E.
    rewrite Hclock in E. cbn in E. discriminate.
Qed.

(** ** Menu mode under preemption *)

Lemma serve_in_menu (ticks : Ticks) (bus : Bus) (w : World) :
  inMainMenu (sys w) = true ->
  match serve ticks bus w with
  | Ret entered w' =>
      Forall (fun s => inMainMenu s = true) entered /\
      inMainMenu (sys w') = true /\ stepView (sys w') = stepView (sys w)
  | Halted _ _ => False
  | Undefined => True
  end.
Proof.
  revert w. induction ticks as [|RA11 rest IH]; intros w Hmenu; cbn [serve].
  - repeat split; [constructor | exact Hmenu].
  - destruct (_T1Interrupt RA11 bus w) as [[] w1|message w1|] eqn:E;
      [|now apply T1Interrupt_never_halts in E|exact I].
    destruct (T1Interrupt_calm RA11 bus w w1 Hmenu E) as [Hmenu1 Hview1].
    specialize (IH w1 Hmenu1).
    destruct (serve rest bus w1) as [entered w2|message w2|]; [|exact IH|exact I].
    destruct IH as (Hentered & Hmenu2 & Hview2).
    repeat split; [now constructor | exact Hmenu2 | congruence].
Qed.

(** A read of the foreground in menu mode: the ticks that preempt it
    find the flag set and leave it set. *)
Lemma access_gets_in_menu {A} (f : Sys -> A) (schedule : Schedule) (bus : Bus)
      (w : World) :
  inMainMenu (sys w) = true ->
  match access (gets f) schedule bus w with
  | (Ret a w', (_, entered)) =>
      a = f (sys w') /\
      Forall (fun s => inMainMenu s = true) entered /\
      inMainMenu (sys w') = true /\ stepView (sys w') = stepView (sys w)
  | (Halted _ _, _) => False
  | (Undefined, _) => True
  end.
Proof.
  intros Hmenu. unfold access. destruct schedule as [|ticks rest].
  - cbn. repeat split; [constructor | exact Hmenu].
  - pose proof (serve_in_menu ticks bus w Hmenu) as Hserve.
    destruct (serve ticks bus w) as [entered w1|message w1|];
      [|contradiction|exact I].
    cbn. destruct Hserve as (Hentered & Hmenu1 & Hview1). repeat split; assumption.
Qed.

Lemma handler_respects_stepView (RA11 : bool) (bus : Bus) (w w' : World) :
  inMainMenu (sys w) = true -> _T1Interrupt RA11 bus w = Ret tt w' ->
  agree stepView (sys w) (sys w').
Proof. intros Hmenu E. now destruct (T1Interrupt_calm RA11 bus w w' Hmenu E). Qed.

(** One foreground iteration that starts with the flag set, preempted
    anywhere by ticks that find the flag set. *)
Lemma preempted_foreground_in_menu (RA11 RA12 : bool) (schedule : Schedule)
      (bus : Bus) (w : World) :
  inMainMenu (sys w) = true ->
  match preempted (code_foreground RA11 RA12) schedule bus w with
  | (Ret _ w', (_, entered)) | (Halted _ w', (_, entered)) =>
      Forall (fun s => inMainMenu s = true) entered ->
      stepView (sys w') = stepView (sys w)
  | (Undefined, _) => True
  end.
Proof.
  intros Hmenu.
  assert (Hframe : forall {A} {m : M A} (c : Code m),
             respects (agree stepView) c ->
             forall schedule bus w,
               match preempted c schedule bus w with
               | (Ret _ w', (_, entered)) | (Halted _ w', (_, entered)) =>
                   Forall (fun s => inMainMenu s = true) entered ->
                   stepView (sys w') = stepView (sys w)
               | (Undefined, _) => True
               end).
  { intros A m c Hc.
    exact (preempted_respects (agree stepView) (fun s => inMainMenu s = true)
             handler_respects_stepView T1Interrupt_never_halts c Hc). }
  unfold code_foreground. cbn [preempted].
  pose proof (access_gets_in_menu page schedule bus w Hmenu) as Hpage.
  destruct (access (gets page) schedule bus w)
    as [[where_ w1|message w1|] [schedule1 entered1]]; [|contradiction|exact I].
  destruct Hpage as (-> & Hentered1 & Hmenu1 & Hview1).
  assert (Hrest : forall (m : M unit) (c : Code m),
             respects (agree stepView) c ->
             match (let (o, p) := preempted c schedule1 bus w1 in
                    let (schedule'', entered') := p in
                    (o, (schedule'', entered1 ++ entered'))) with
             | (Ret _ w', (_, entered)) | (Halted _ w', (_, entered)) =>
                 Forall (fun s => inMainMenu s = true) entered ->
                 stepView (sys w') = stepView (sys w)
             | (Undefined, _) => True
             end).
  { intros m c Hc. specialize (Hframe _ m c Hc schedule1 bus w1).
    destruct (preempted c schedule1 bus w1)
      as [[a w2|message w2|] [schedule2 entered2]]; [| |exact I];
      intros Hcalm; apply Forall_app in Hcalm as [_ H2];
      rewrite <- Hview1; now apply Hframe. }
  destruct (page (sys w1)).
  - unfold code_mainLoopBody. cbn [preempted].
    pose proof (access_gets_in_menu inMainMenu schedule1 bus w1 Hmenu1) as Hflag.
    destruct (access (gets inMainMenu) schedule1 bus w1)
      as [[inMenu w2|message w2|] [schedule2 entered2]]; [|contradiction|exact I].
    destruct Hflag as (-> & Hentered2 & Hmenu2 & Hview2). rewrite Hmenu2.
    pose proof (Hframe _ _ (code_mainMenuIteration (negb RA11) (negb RA12))
                  (respects_mainMenuIteration (agree stepView) _ _
                     ltac:(reflexivity))
                  schedule2 bus w2) as Hmain.
    destruct (preempted (code_mainMenuIteration (negb RA11) (negb RA12))
                schedule2 bus w2)
      as [[a w3|message w3|] [schedule3 entered3]]; [| |exact I];
      intros Hcalm; apply Forall_app in Hcalm as [_ Hcalm];
      apply Forall_app in Hcalm as [_ Hcalm];
      rewrite <- Hview1, <- Hview2; now apply Hmain.
  - apply Hrest, respects_displayStepGraph_iter; exact _.
  - apply Hrest, respects_manageTimeFormatSelection_iter; exact _.
  - apply Hrest, respects_manageTimeSetPage_iter; exact _.
  - apply Hrest, respects_manageDateSetPage_iter; exact _.
Qed.

Lemma preemptedMenuRun_keeps_steps (polls : list (bool * bool * Bus * Schedule)) :
  forall s s' entered,
    preemptedMenuRun polls s = Some (s', entered) ->
    Forall (fun s0 => inMainMenu s0 = true) entered ->
    stepView s' = stepView s.
Proof.
  induction polls as [|[[[RA11 RA12] bus] schedule] rest IH];
    intros s s' entered; cbn [preemptedMenuRun].
  - intros [= <- <-] _. reflexivity.
  - destruct (inMainMenu s) eqn:Hmenu; [|intros [= <- <-] _; reflexivity].
    pose proof (preempted_foreground_in_menu RA11 RA12 schedule bus (start s) Hmenu)
      as Hpoll.
    destruct (preempted (code_foreground RA11 RA12) schedule bus (start s))
      as [[[] w1|message w1|] [schedule1 entered1]]; [| |discriminate].
    + destruct (preemptedMenuRun rest (sys w1)) as [[s2 entered2]|] eqn:Hrun;
        [|discriminate].
      intros [= <- <-] Hcalm. apply Forall_app in Hcalm as [H1 H2].
      rewrite (IH _ _ _ Hrun H2). now apply Hpoll.
    + intros [= <- <-] Hcalm. now apply Hpoll.
Qed.

(** C9 (amended: from the first iteration that finds the flag set).
    With Timer1 free to preempt the foreground before any of its
    accesses, from a state with [inMainMenu] set: a handler invocation
    leaves the step count, the per-second buckets, their index, the raw
    pace and the two flags [detectStep] writes as they were, keeps the
    flag set, and still advances the clock by one second, counts the
    elapsed second and toggles the blink flag; a foreground iteration
    that starts with the flag set leaves the step data as they were
    wherever ticks preempt it, as long as each tick finds the flag set
    (the handler never clears it: only a tick after the iteration's own
    exit from the menu finds it clear); and so does any run of such
    iterations. *)
Theorem menu_mode_freezes_steps (s : Sys) (Hmenu : inMainMenu s = true) :
  (forall RA11 bus w clock',
      sys w = s ->
      Clock.incrementSystemTime (systemClock s) = Some clock' ->
      exists w', _T1Interrupt RA11 bus w = Ret tt w' /\
        systemClock (sys w') = clock' /\
        elapsedSeconds (sys w') = u32 (elapsedSeconds s + 1) /\
        showFootIcon (sys w') = negb (showFootIcon s) /\
        inMainMenu (sys w') = true /\
        stepView (sys w') = stepView s) /\
  (forall RA11 RA12 schedule bus,
      match preempted (code_foreground RA11 RA12) schedule bus (start s) with
      | (Ret _ w', (_, entered)) | (Halted _ w', (_, entered)) =>
          Forall (fun s0 => inMainMenu s0 = true) entered ->
          stepView (sys w') = stepView s
      | (Undefined, _) => True
      end) /\
  (forall polls s' entered,
      preemptedMenuRun polls s = Some (s', entered) ->
      Forall (fun s0 => inMainMenu s0 = true) entered ->
      stepView s' = stepView s).
Proof.
  split; [|split].
  - intros RA11 bus w clock' <- Hclock.
    destruct (T1Interrupt_in_menu RA11 w bus clock' Hmenu Hclock)
      as (hold & w' & E & Hsys).
    exists w'. split; [exact E|]. rewrite Hsys. sys_simpl.
    repeat split. exact Hmenu.
  - intros RA11 RA12 schedule bus.
    exact (preempted_foreground_in_menu RA11 RA12 schedule bus (start s) Hmenu).
  - intros polls s' entered. apply preemptedMenuRun_keeps_steps.
Qed.

Lemma menu_mode_freezes_steps_witness :
  inMainMenu (set_inMainMenu true boot) = true /\
  exists w' rest entered,
    preempted (code_foreground true true) [[]; [true]; []; [false; true]]
      silent_bus (start (set_inMainMenu true boot))
      = (Ret tt w', (rest, entered)) /\
    length entered = 3%nat /\
    Forall (fun s0 => inMainMenu s0 = true) entered /\
    stepView (sys w') = stepView (set_inMainMenu true boot).
Proof.
  split; [reflexivity|].
  pose proof (proj1 (proj2 (menu_mode_freezes_steps
                              (set_inMainMenu true boot) eq_refl))
                true true [[]; [true]; []; [false; true]] silent_bus) as Hpoll.
  destruct (preempted (code_foreground true true)
              [[]; [true]; []; [false; true]] silent_bus
              (start (set_inMainMenu true boot)))
    as [[[] w'|message w'|] [rest entered]] eqn:E;
    [|vm_compute in E; discriminate E|vm_compute in E; discriminate E].
  exists w', rest, entered. split; [reflexivity|].
  assert (Hentered : length entered = 3%nat /\
                     forallb inMainMenu entered = true).
  { vm_compute in E. injection E as _ _ <-. split; reflexivity. }
  destruct Hentered as [Hlength Hflags].
  assert (Hcalm : Forall (fun s0 => inMainMenu s0 = true) entered).
  { apply List.Forall_forall. intros x Hx.
    exact (proj1 (forallb_forall inMainMenu entered) Hflags x Hx). }
  split; [exact Hlength|]. split; [exact Hcalm|]. exact (Hpoll Hcalm).
Defined.

(** C9 as stated fails for the iteration in flight when the flag is
    set: [main] tests [inMainMenu] once, at the top of the loop body.
    An iteration that found it clear, preempted after the test by the
    tick that enters the menu (RA11 held for the second second), goes
    on to sample the accelerometer and counts a step with the flag
    set. *)
Lemma tick_in_flight_counts_step :
  let held := set_t1_button1HoldCount 1 boot in
  let bus := sampleBus (mkAccel 500 0 0) in
  inMainMenu held = false /\
  exists w' entered,
    preempted (code_foreground true true) [[]; []; [false]] bus (start held)
      = (Ret tt w', ([], [entered])) /\
    inMainMenu entered = false /\ totalSteps entered = 0 /\
    (exists w1, _T1Interrupt false bus (start entered) = Ret tt w1 /\
                inMainMenu (sys w1) = true /\ totalSteps (sys w1) = 0) /\
    inMainMenu (sys w') = true /\ totalSteps (sys w') = 1.
Proof.
  cbv zeta. split; [reflexivity|].
  eexists _, _. split; [vm_compute; reflexivity|].
  split; [reflexivity|]. split; [reflexivity|].
  split; [eexists; split; [vm_compute; reflexivity|split; reflexivity]|].
  split; reflexivity.
Qed.
(** ** The tilt-confirmed pages *)

Lemma SFleb_not_ltb (x y : spec_float) : SFleb x y = true -> SFltb y x = false.
Proof.
  unfold SFleb, SFltb, SFcompare.
  destruct x as [sx|sx| |sx mx ex], y as [sy|sy| |sy my ey];
    try destruct sx; try destruct sy; try discriminate; try reflexivity;
    change (Pos.compare_cont Eq my mx) with (Pos.compare my mx);
    change (Pos.compare_cont Eq mx my) with (Pos.compare mx my);
    rewrite (Z.compare_antisym ex ey), (Pos.compare_antisym mx my);
    destruct (ex ?= ey)%Z, (mx ?= my)%positive; cbn; congruence.
Qed.

Lemma atOrAboveTilt_not_level (a : AccelerometerData) :
  atOrAboveTilt a = true -> heldLevel a = false.
Proof. apply SFleb_not_ltb. Qed.

Lemma satisfies_checkTiltToSave (a : AccelerometerData) (w : World)
      (post : bool -> World -> Prop) halt :
  valid_sample a ->
  (forall evs, post (heldLevel a)
                    (mkWorld (sys w) (6 + busReads w) (events w ++ evs))) ->
  satisfies checkTiltToSave (sampleBus a) w post halt.
Proof.
  intros Hv H. unfold checkTiltToSave. apply satisfies_bind.
  apply satisfies_readAccelerometer; [exact Hv|]. intros evs.
  apply satisfies_ret. apply H.
Qed.

Lemma time_draft_same (s : Sys) :
  set_timeFieldSelected (timeFieldSelected s) (set_timeToSet (timeToSet s) s) = s.
Proof. destruct s; reflexivity. Qed.

(** [processTimeSetInput] returns and writes the draft and the field
    selector only; with both buttons released it leaves the draft. *)
Lemma satisfies_processTimeSetInput (RA11 RA12 : bool) (bus : Bus) (w : World)
      (post : unit -> World -> Prop) halt :
  (forall draft field evs,
      (RA11 = true -> RA12 = true -> draft = timeToSet (sys w)) ->
      post tt (mkWorld (set_timeFieldSelected field
                          (set_timeToSet draft (sys w)))
                       (busReads w) (events w ++ evs))) ->
  satisfies (processTimeSetInput RA11 RA12) bus w post halt.
Proof.
  intros H. unfold processTimeSetInput. cbv zeta. exec.
  destruct RA11, RA12; cbn [negb andb]; exec;
    try (match goal with
         | |- satisfies (if ?c then _ else _) _ _ _ _ => destruct c
         end; exec);
    rewrite <- ?app_assoc;
    try (apply (H (timeToSet (sys w))); reflexivity);
    try (apply (fun d => H d (timeFieldSelected (sys w))); discriminate).
  specialize (H (timeToSet (sys w)) (timeFieldSelected (sys w)) []
                (fun _ _ => eq_refl)).
  rewrite time_draft_same, app_nil_r, world_eta in H. exact H.
Qed.

(** Leaving a page for the main menu: the page marker, the display cache
    and the button statics of [main] are written, nothing else. *)
Lemma satisfies_returnToMainMenu (bus : Bus) (w : World)
      (post : unit -> World -> Prop) halt :
  (forall cache evs,
      post tt (mkWorld
                 (set_wasInMenu true
                    (set_button2WasPressed true
                       (set_button1WasPressed true
                          (set_comboPressCount 0
                             (set_previousTime cache
                                (set_page InMainLoop (sys w)))))))
                 (busReads w) (events w ++ evs))) ->
  satisfies returnToMainMenu bus w post halt.
Proof.
  intros H. unfold returnToMainMenu. exec.
  apply satisfies_renderMainMenu. intros cache1 drawn1 _. exec.
  apply satisfies_updateMenuTimeDisplay. intros cache2 drawn2 _.
  unfold afterMenuSelection. exec.
  apply satisfies_menuIterationTail. intros cache3 evs. cbn [sys busReads events].
  rewrite <- !app_assoc. apply (H cache3).
Qed.

(** [processTimeSetInput] on a staged time within its ranges returns and
    writes the draft, as [stagedTimeAfter] gives it, and the field
    selector, nothing else. *)
Lemma processTimeSetInput_edits (RA11 RA12 : bool) (bus : Bus) (w : World)
      (post : unit -> World -> Prop) halt :
  valid_time (timeToSet (sys w)) ->
  (forall evs,
      post tt (mkWorld
                 (set_timeFieldSelected
                    (selectedFieldAfter RA11 RA12 (timeFieldSelected (sys w)))
                    (set_timeToSet
                       (stagedTimeAfter RA11 RA12 (timeFieldSelected (sys w))
                                        (timeToSet (sys w)))
                       (sys w)))
                 (busReads w) (events w ++ evs))) ->
  satisfies (processTimeSetInput RA11 RA12) bus w post halt.
Proof.
  intros [Hh Hm] H. unfold processTimeSetInput. cbv zeta. exec.
  pose proof (Z.mod_pos_bound (ts_hours (timeToSet (sys w)) + 1) 24).
  pose proof (Z.mod_pos_bound (ts_minutes (timeToSet (sys w)) + 1) 60).
  unfold stagedTimeAfter, selectedFieldAfter in H.
  destruct RA11, RA12; cbn [negb andb] in H |- *; exec.
  - specialize (H []). rewrite time_draft_same, app_nil_r, world_eta in H.
    exact H.
  - destruct (timeFieldSelected (sys w) =? 0); exec;
      rewrite <- ?app_assoc;
      [destruct (Z.eqb_spec (ts_hours (timeToSet (sys w))) 0)
      |destruct (Z.eqb_spec (ts_minutes (timeToSet (sys w))) 0)];
      rewrite ?u8_small by lia; apply H.
  - destruct (timeFieldSelected (sys w) =? 0); exec;
      rewrite <- ?app_assoc; rewrite u8_small by lia; apply H.
  - rewrite <- ?app_assoc. apply H.
Qed.

Lemma time_set_poll_not_level (s : Sys) (RA11 RA12 : bool)
      (a : AccelerometerData) :
  page s = InTimeSetLoop -> inTimeSetMenu s = true ->
  valid_sample a -> heldLevel a = false ->
  exists w', step (Poll RA11 RA12 (sampleBus a)) s = Ret tt w' /\
    tiltCount (sys w') = 0 /\ systemClock (sys w') = systemClock s /\
    page (sys w') = InTimeSetLoop /\ inTimeSetMenu (sys w') = true.
Proof.
  intros Hpage Hactive Hv Hlevel.
  enough (H : satisfies (foreground RA11 RA12) (sampleBus a) (start s)
            (fun _ w' =>
               tiltCount (sys w') = 0 /\ systemClock (sys w') = systemClock s /\
               page (sys w') = InTimeSetLoop /\ inTimeSetMenu (sys w') = true)
            never).
  { apply satisfies_returns in H. destruct H as ([] & w' & E & H). eauto. }
  unfold foreground. exec. rewrite Hpage.
  unfold manageTimeSetPage_iter. exec. rewrite Hactive. cbn [negb].
  exec. apply satisfies_processTimeSetInput. intros draft field evs _.
  exec. apply satisfies_checkTiltToSave; [exact Hv|]. intros evs'.
  rewrite Hlevel. exec. auto.
Qed.


Lemma run_cons (i : Input) (rest : list Input) (s : Sys) :
  run (i :: rest) s =
  match step i s with
  | Ret _ w => run rest (sys w)
  | Halted _ w => Some (sys w)
  | Undefined => None
  end.
Proof. reflexivity. Qed.

(** Polls that do not read level leave the set-time page as it is. *)
Lemma time_set_polls_not_level (polls : list (bool * bool * AccelerometerData))
      (s : Sys) :
  page s = InTimeSetLoop -> inTimeSetMenu s = true ->
  Forall (fun p => valid_sample (snd p) /\ heldLevel (snd p) = false) polls ->
  exists s', run (map tiltPoll polls) s = Some s' /\
    systemClock s' = systemClock s /\
    page s' = InTimeSetLoop /\ inTimeSetMenu s' = true /\
    (polls <> [] -> tiltCount s' = 0) /\ (polls = [] -> s' = s).
Proof.
  intros Hpage Hactive Hpolls. revert s Hpage Hactive.
  induction Hpolls as [|[[RA11 RA12] a] polls [Hv Hlevel] _ IH];
    intros s Hpage Hactive.
  - exists s. cbn. tauto.
  - destruct (time_set_poll_not_level s RA11 RA12 a Hpage Hactive Hv Hlevel)
      as (w1 & E & Htilt & Hclock & Hpage1 & Hactive1).
    destruct (IH (sys w1) Hpage1 Hactive1)
      as (s' & Hrun & Hclock' & Hpage' & Hactive' & Htilt' & Hnil).
    exists s'. cbn [map]. rewrite run_cons. unfold tiltPoll at 1.
    cbn [fst snd]. rewrite E.
    split; [exact Hrun|]. split; [congruence|].
    split; [exact Hpage'|]. split; [exact Hactive'|].
    split; [|discriminate]. intros _.
    destruct polls as [|p polls]; [|apply Htilt'; discriminate].
    rewrite (Hnil eq_refl). exact Htilt.
Qed.

(** ** The staged date *)

Lemma days_in_month (m : Z) :
  1 <= m <= 12 ->
  exists maxDay, array_get Clock.DAYS_PER_MONTH (m - 1) = Some maxDay /\
                 28 <= maxDay <= 31.
Proof.
  intros H.
  assert (Hm : m = 1 \/ m = 2 \/ m = 3 \/ m = 4 \/ m = 5 \/ m = 6 \/
               m = 7 \/ m = 8 \/ m = 9 \/ m = 10 \/ m = 11 \/ m = 12) by lia.
  repeat (destruct Hm as [->|Hm]; [eexists; split; [reflexivity | lia]|]).
  subst; eexists; split; [reflexivity | lia].
Qed.

Lemma next_month_range (m : Z) :
  1 <= m <= 12 ->
  u8 (m mod 12 + 1) = (if m =? 12 then 1 else m + 1) /\
  1 <= u8 (m mod 12 + 1) <= 12.
Proof.
  intros H. destruct (Z.eqb_spec m 12) as [->|Hne]; [split; [reflexivity | vm_compute; split; discriminate]|].
  rewrite Z.mod_small, u8_small by lia. lia.
Qed.

Lemma previous_month_range (m : Z) :
  1 <= m <= 12 ->
  (if m =? 1 then 12 else u8 (m - 1)) = (if m =? 1 then 12 else m - 1) /\
  1 <= (if m =? 1 then 12 else u8 (m - 1)) <= 12.
Proof.
  intros H. destruct (Z.eqb_spec m 1) as [->|Hne]; [lia|].
  rewrite u8_small by lia. lia.
Qed.

Lemma next_day (day maxDay : Z) :
  1 <= day <= maxDay -> maxDay <= 31 ->
  u8 (day mod maxDay + 1) = (if day =? maxDay then 1 else day + 1).
Proof.
  intros Hd Hm. destruct (Z.eqb_spec day maxDay) as [->|Hne].
  - rewrite Z.mod_same by lia. reflexivity.
  - rewrite Z.mod_small, u8_small by lia. reflexivity.
Qed.

Lemma date_draft_same (s : Sys) :
  set_dateFieldSelected (dateFieldSelected s) (set_dateToSet (dateToSet s) s) = s.
Proof. destruct s; reflexivity. Qed.

Lemma daysIn_spec (m maxDay : Z) :
  array_get Clock.DAYS_PER_MONTH (m - 1) = Some maxDay -> daysIn m = maxDay.
Proof. unfold daysIn. now intros ->. Qed.

Lemma clamp_day (day maxDay : Z) :
  (if maxDay <? day then maxDay else day) = Z.min day maxDay.
Proof. destruct (Z.ltb_spec maxDay day); lia. Qed.

(** [processDateSetInput] on a staged date within its month returns and
    writes the draft, as [stagedDateAfter] gives it, and the field
    selector only. *)
Lemma satisfies_processDateSetInput (RA11 RA12 : bool) (bus : Bus) (w : World)
      (post : unit -> World -> Prop) halt :
  valid_date (dateToSet (sys w)) ->
  (forall draft field evs,
      valid_date draft ->
      draft = stagedDateAfter RA11 RA12 (dateFieldSelected (sys w))
                              (dateToSet (sys w)) ->
      post tt (mkWorld (set_dateFieldSelected field
                          (set_dateToSet draft (sys w)))
                       (busReads w) (events w ++ evs))) ->
  satisfies (processDateSetInput RA11 RA12) bus w post halt.
Proof.
  intros Hvalid H.
  assert (Hsame := Hvalid).
  destruct Hvalid as (Hmonth & maxDay & Hget & Hday).
  destruct (days_in_month _ Hmonth) as (maxDay' & Hget' & Hmax).
  rewrite Hget in Hget'. injection Hget' as <-.
  destruct (next_month_range _ Hmonth) as (Hnext & Hnext_range).
  destruct (previous_month_range _ Hmonth) as (Hprev & Hprev_range).
  destruct (days_in_month _ Hnext_range) as (maxNext & HgetNext & HmaxNext).
  destruct (days_in_month _ Hprev_range) as (maxPrev & HgetPrev & HmaxPrev).
  unfold processDateSetInput. cbv zeta. exec.
  unfold stagedDateAfter in H.
  destruct RA11, RA12; cbn [negb andb]; exec.
  - (* both released *)
    specialize (H (dateToSet (sys w)) (dateFieldSelected (sys w)) []
                  Hsame eq_refl).
    rewrite date_draft_same, app_nil_r, world_eta in H. exact H.
  - (* button 2 alone *)
    destruct (dateFieldSelected (sys w) =? 0).
    + destruct (Z.eqb_spec (ds_day (dateToSet (sys w))) 1) as [E1|E1].
      * exec. eapply satisfies_defined; [exact Hget|]. exec.
        rewrite <- ?app_assoc.
        apply (fun d Hd Heq => H d (dateFieldSelected (sys w)) _ Hd Heq).
        -- split; [exact Hmonth|]. exists maxDay. cbn [ds_day ds_month].
           split; [exact Hget | lia].
        -- unfold decrementDay.
           rewrite (daysIn_spec _ _ Hget), E1. reflexivity.
      * exec. rewrite u8_small by lia. rewrite <- ?app_assoc.
        apply (fun d Hd Heq => H d (dateFieldSelected (sys w)) _ Hd Heq).
        -- split; [exact Hmonth|]. exists maxDay. cbn [ds_day ds_month].
           split; [exact Hget | lia].
        -- unfold decrementDay.
           destruct (Z.eqb_spec (ds_day (dateToSet (sys w))) 1);
             [contradiction | reflexivity].
    + exec. eapply satisfies_defined; [exact HgetPrev|]. exec.
      rewrite clamp_day, <- ?app_assoc.
      apply (fun d Hd Heq => H d (dateFieldSelected (sys w)) _ Hd Heq).
      * split; cbn [ds_day ds_month]; [exact Hprev_range|].
        exists maxPrev. split; [exact HgetPrev | lia].
      * unfold previousMonth, withMonth.
        rewrite <- Hprev, (daysIn_spec _ _ HgetPrev). reflexivity.
  - (* button 1 alone *)
    destruct (dateFieldSelected (sys w) =? 0).
    + exec. eapply satisfies_defined; [exact Hget|]. exec.
      rewrite next_day by lia. rewrite <- ?app_assoc.
      apply (fun d Hd Heq => H d (dateFieldSelected (sys w)) _ Hd Heq).
      * split; [exact Hmonth|]. exists maxDay. cbn [ds_day ds_month].
        split; [exact Hget|].
        destruct (Z.eqb_spec (ds_day (dateToSet (sys w))) maxDay); lia.
      * unfold incrementDay. rewrite (daysIn_spec _ _ Hget). reflexivity.
    + exec. eapply satisfies_defined; [exact HgetNext|]. exec.
      rewrite clamp_day, <- ?app_assoc.
      apply (fun d Hd Heq => H d (dateFieldSelected (sys w)) _ Hd Heq).
      * split; cbn [ds_day ds_month]; [exact Hnext_range|].
        exists maxNext. split; [exact HgetNext | lia].
      * unfold nextMonth, withMonth.
        rewrite <- Hnext, (daysIn_spec _ _ HgetNext). reflexivity.
  - (* both pressed: the other field is selected *)
    rewrite <- ?app_assoc.
    apply (H (dateToSet (sys w)) _ _ Hsame eq_refl).
Qed.

(** C6. For every staged date within its month and every state of the
    two buttons, [processDateSetInput] returns and leaves a staged date
    within its month, the one [stagedDateAfter] gives: button 1 alone on
    the day field increments the day, wrapping from the month's day count
    to 1; button 2 alone decrements it, wrapping from 1 to the day count;
    on the month field button 1 moves to the next month (12 to 1), button
    2 to the previous one (1 to 12), and a staged day above the new
    month's day count becomes that count; both buttons or none leave the
    date as it is. *)
Theorem staged_date_stays_in_month (RA11 RA12 : bool) (bus : Bus) (w : World)
    (Hvalid : valid_date (dateToSet (sys w))) :
  exists w', processDateSetInput RA11 RA12 bus w = Ret tt w' /\
    valid_date (dateToSet (sys w')) /\
    dateToSet (sys w') =
      stagedDateAfter RA11 RA12 (dateFieldSelected (sys w)) (dateToSet (sys w)).
Proof.
  enough (H : satisfies (processDateSetInput RA11 RA12) bus w
            (fun _ w' =>
               valid_date (dateToSet (sys w')) /\
               dateToSet (sys w') =
                 stagedDateAfter RA11 RA12 (dateFieldSelected (sys w))
                                 (dateToSet (sys w))) never).
  { apply satisfies_returns in H. destruct H as ([] & w' & E & H). eauto. }
  apply satisfies_processDateSetInput; [exact Hvalid|].
  intros draft field evs Hdraft Heq. cbn [sys]. sys_simpl. auto.
Qed.

Lemma staged_date_stays_in_month_witness :
  valid_date (dateToSet (set_dateToSet (mkDateSetting 31 1)
                           (set_dateFieldSelected 1 boot))) /\
  exists w', processDateSetInput false true silent_bus
               (start (set_dateToSet (mkDateSetting 31 1)
                         (set_dateFieldSelected 1 boot))) = Ret tt w' /\
             dateToSet (sys w') = mkDateSetting 28 2.
Proof.
  assert (Hv : valid_date (dateToSet (sys (start
            (set_dateToSet (mkDateSetting 31 1) (set_dateFieldSelected 1 boot)))))).
  { split; [cbn; lia|]. exists 31. split; [reflexivity | cbn; lia]. }
  split; [exact Hv|].
  destruct (staged_date_stays_in_month false true silent_bus _ Hv)
    as (w' & E & _ & Hd).
  exists w'. split; [exact E|]. rewrite Hd. reflexivity.
Defined.


(** C5 (the code commits without a streak).  On the set-time page, for
    every streak count, 0 as a poll that did not read level leaves it
    included, one poll that reads level returns with the staged time, as
    this poll's buttons leave it, stored in the clock with the seconds at
    0 and the date as it was, and with the page left for the main menu:
    the counter is incremented and tested against 1 in the same poll, so
    no run of level polls is needed and the reset to 0 changes
    nothing. *)
Theorem set_time_commits_on_first_level_poll (s : Sys) (RA11 RA12 : bool)
    (a : AccelerometerData)
    (Hpage : page s = InTimeSetLoop) (Hactive : inTimeSetMenu s = true)
    (Htilt : 0 <= tiltCount s) (Hdraft : valid_time (timeToSet s))
    (Hsample : valid_sample a) (Hlevel : heldLevel a = true) :
  exists w', step (Poll RA11 RA12 (sampleBus a)) s = Ret tt w' /\
    let staged := stagedTimeAfter RA11 RA12 (timeFieldSelected s) (timeToSet s) in
    systemClock (sys w') =
      mkClock (ts_hours staged) (ts_minutes staged) 0
              (day (systemClock s)) (month (systemClock s)) /\
    timeToSet (sys w') = staged /\
    page (sys w') = InMainLoop /\ inTimeSetMenu (sys w') = false.
Proof.
  enough (H : satisfies (foreground RA11 RA12) (sampleBus a) (start s)
            (fun _ w' =>
               let staged := stagedTimeAfter RA11 RA12 (timeFieldSelected s)
                                             (timeToSet s) in
               systemClock (sys w') =
                 mkClock (ts_hours staged) (ts_minutes staged) 0
                         (day (systemClock s)) (month (systemClock s)) /\
               timeToSet (sys w') = staged /\
               page (sys w') = InMainLoop /\ inTimeSetMenu (sys w') = false)
            never).
  { apply satisfies_returns in H. destruct H as ([] & w' & E & H). eauto. }
  unfold foreground. exec. rewrite Hpage.
  unfold manageTimeSetPage_iter. exec. rewrite Hactive. cbn [negb].
  exec. apply processTimeSetInput_edits; [exact Hdraft|]. intros evs.
  exec. apply satisfies_checkTiltToSave; [exact Hsample|]. intros evs'.
  rewrite Hlevel. exec.
  destruct (Z.leb_spec 1 (tiltCount s + 1)); [|lia]. exec.
  apply satisfies_returnToMainMenu. intros cache evs''.
  cbn [sys]. sys_simpl. auto.
Qed.

Lemma set_time_commits_on_first_level_poll_witness :
  let s := set_page InTimeSetLoop
             (set_inTimeSetMenu true (set_timeToSet (mkTimeSetting 7 30) boot)) in
  let level := mkAccel 0 0 100 in
  page s = InTimeSetLoop /\ inTimeSetMenu s = true /\ 0 <= tiltCount s /\
  valid_time (timeToSet s) /\ valid_sample level /\ heldLevel level = true /\
  tiltCount s = 0 /\
  exists w', step (Poll true true (sampleBus level)) s = Ret tt w' /\
    systemClock (sys w') = mkClock 7 30 0 24 1 /\
    page (sys w') = InMainLoop.
Proof.
  intros s level.
  assert (Hp : page s = InTimeSetLoop) by reflexivity.
  assert (Ha : inTimeSetMenu s = true) by reflexivity.
  assert (Ht : 0 <= tiltCount s) by (cbn; lia).
  assert (Hd : valid_time (timeToSet s)) by (unfold valid_time; cbn; lia).
  assert (Hv : valid_sample level)
    by (unfold valid_sample, is_int16; cbn; lia).
  assert (Hl : heldLevel level = true) by (vm_compute; reflexivity).
  repeat (split; [assumption|]). split; [reflexivity|].
  destruct (set_time_commits_on_first_level_poll s true true level
              Hp Ha Ht Hd Hv Hl) as (w' & E & Hc & _ & Hpg & _).
  exists w'. split; [exact E|]. split; [exact Hc | exact Hpg].
Defined.



(** * The program keeps its state well-formed *)

(** ** The sensor path, whatever the bus replies *)

Lemma satisfies_readByte_any (reg : Z) (message : string) (bus : Bus)
      (w : World) (post : Z -> World -> Prop) halt :
  (forall byte k evs, post byte (mkWorld (sys w) k (events w ++ evs))) ->
  (forall k evs,
      halt message (mkWorld (sys w) k (events w ++ evs ++ fatal message))) ->
  satisfies (readByte 3 0 3 reg message) bus w post halt.
Proof.
  intros Hpost Hhalt. unfold satisfies.
  pose proof (readByte_retries reg message bus w) as H.
  destruct (firstSuccess _) as [[i byte]|]; rewrite H; [apply Hpost|].
  rewrite (app_assoc (failedAttempts 2 reg)). apply Hhalt.
Qed.

Lemma sensorHalt_later (w w1 : World) (message : string) (w' : World) :
  sys w1 = sys w -> (exists evs, events w1 = events w ++ evs) ->
  sensorHalt w1 message w' -> sensorHalt w message w'.
Proof.
  intros Hsys (evs1 & Hev) (Hmsg & Hsys' & evs & Hev').
  split; [exact Hmsg|]. split; [congruence|].
  exists (evs1 ++ evs). rewrite Hev', Hev, <- !app_assoc. reflexivity.
Qed.

Lemma satisfies_readAccelerometerAxis_any (reg : Z) (bus : Bus) (w : World)
      (post : Z -> World -> Prop) :
  (forall v k evs, post v (mkWorld (sys w) k (events w ++ evs))) ->
  satisfies (readAccelerometerAxis reg) bus w post (sensorHalt w).
Proof.
  intros Hpost. unfold readAccelerometerAxis. cbv zeta.
  change (Z.to_nat 3) with 3%nat.
  apply satisfies_bind, satisfies_readByte_any.
  - intros low k evs.
    apply satisfies_bind, satisfies_readByte_any.
    + intros high k' evs'. apply satisfies_ret. cbn [sys events].
      rewrite <- app_assoc. apply Hpost.
    + intros k' evs'. cbn [sys events].
      split; [now right|]. split; [reflexivity|].
      exists (evs ++ evs'). now rewrite <- !app_assoc.
  - intros k evs. split; [now left|]. split; [reflexivity|]. now exists evs.
Qed.

Lemma satisfies_readAccelerometer_any (bus : Bus) (w : World)
      (post : AccelerometerData -> World -> Prop) :
  (forall a k evs, post a (mkWorld (sys w) k (events w ++ evs))) ->
  satisfies readAccelerometer bus w post (sensorHalt w).
Proof.
  intros Hpost. unfold readAccelerometer.
  apply satisfies_bind, satisfies_readAccelerometerAxis_any.
  intros x k1 evs1.
  apply satisfies_bind.
  eapply satisfies_weaken;
    [apply satisfies_readAccelerometerAxis_any | intros ? ? H; exact H |].
  2: { intros msg w'. apply sensorHalt_later; [reflexivity|].
       cbn [events]. now exists evs1. }
  intros y k2 evs2. cbn [sys events].
  apply satisfies_bind.
  eapply satisfies_weaken;
    [apply satisfies_readAccelerometerAxis_any | intros ? ? H; exact H |].
  2: { intros msg w'. apply sensorHalt_later; [reflexivity|].
       cbn [events]. exists (evs1 ++ evs2). now rewrite app_assoc. }
  intros z k3 evs3. apply satisfies_ret. cbn [sys events].
  rewrite <- !app_assoc. apply Hpost.
Qed.

(** ** Calls in sequence *)

Lemma safe_call {A B} (m : M A) (k : A -> M B) (bus : Bus) (w : World)
      (post : B -> World -> Prop) :
  safe m -> wellFormed (sys w) ->
  (forall a w', wellFormed (sys w') ->
     satisfies (k a) bus w' post (fun _ w' => wellFormed (sys w'))) ->
  satisfies (bind m k) bus w post (fun _ w' => wellFormed (sys w')).
Proof.
  intros Hm Hw Hk. apply satisfies_bind.
  eapply satisfies_weaken; [apply Hm, Hw | | auto].
  intros a w' Hw'. cbv beta in Hw'. now apply Hk.
Qed.

Lemma safe_last {A} (m : M A) (bus : Bus) (w : World) :
  safe m -> wellFormed (sys w) ->
  satisfies m bus w (fun _ w' => wellFormed (sys w'))
                    (fun _ w' => wellFormed (sys w')).
Proof. intros Hm Hw. now apply Hm. Qed.

Lemma safe_updateMenuTimeDisplay : safe updateMenuTimeDisplay.
Proof.
  intros bus w Hw. apply satisfies_updateMenuTimeDisplay.
  intros cache drawn _. exact Hw.
Qed.

Lemma safe_renderMainMenu : safe renderMainMenu.
Proof.
  intros bus w Hw. apply satisfies_renderMainMenu.
  intros cache drawn _. exact Hw.
Qed.

Lemma safe_readAccelerometer : safe readAccelerometer.
Proof.
  intros bus w Hw.
  eapply satisfies_weaken;
    [apply satisfies_readAccelerometer_any | intros ? ? H; exact H |].
  - intros a k evs. exact Hw.
  - intros msg w' (_ & Hsys & _). cbv beta. now rewrite Hsys.
Qed.

Lemma safe_apply {A} (m : M A) (bus : Bus) (w : World)
      (post : A -> World -> Prop) :
  safe m -> wellFormed (sys w) ->
  (forall a w', wellFormed (sys w') -> post a w') ->
  satisfies m bus w post (fun _ w' => wellFormed (sys w')).
Proof.
  intros Hm Hw Hpost.
  eapply satisfies_weaken; [apply Hm, Hw | | auto].
  intros a w' Hw'. now apply Hpost.
Qed.

(** A call of a function known to be safe, in the middle of a body. *)
Ltac call L :=
  apply (safe_apply _ _ _ _ L);
  [ try assumption | intros ? ? ?; cbv beta ].

(** Well-formedness after assignments: the untouched parts by
    assumption, the assigned ones left to prove. *)
Ltac wf Hw :=
  unfold wellFormed in Hw |- *; sys_simpl;
  destruct Hw as (Hclock & Htime & Hdate & Hslots & Hindex & Hhist & Hpace
                  & Hshown & Hraw);
  split; [try assumption|split; [try assumption|split; [try assumption|
  split; [try assumption|split; [try assumption|split; [try assumption|
  split; [try assumption|split; try assumption]]]]]]].

Lemma array_get_defined {A} (l : list A) (i : Z) :
  0 <= i < Z.of_nat (length l) -> exists v, array_get l i = Some v.
Proof.
  intros Hi. unfold array_get. destruct (Z.ltb_spec i 0); [lia|].
  apply lookup_lt_is_Some. lia.
Qed.

Lemma safe_detectStep : safe detectStep.
Proof.
  intros bus w Hw. unfold detectStep.
  apply satisfies_bind. call safe_readAccelerometer.
  clear dependent w. rename w' into w, H into Hw. cbv zeta.
  exec. apply satisfies_when; [intros _|intros _; exact Hw]. exec.
  assert (Hw' := Hw).
  destruct Hw' as (_ & _ & _ & Hlen & Hrange & _).
  unfold HISTORY_SIZE in *.
  destruct (array_get_defined (stepsPerSecond (sys w))
              (currentSecondIndex (sys w))) as (count & Hget); [lia|].
  eapply satisfies_defined; [exact Hget|]. exec.
  eapply satisfies_defined; [apply array_set_defined; lia|]. exec.
  wf Hw. rewrite length_insert. assumption.
Qed.

(** A block in the middle of a body, of which only the well-formedness
    of the state it leaves is kept. *)
Ltac block :=
  eapply satisfies_weaken
    with (post := fun _ w' => wellFormed (sys w'))
         (halt := fun _ w' => wellFormed (sys w'));
  [ | intros ? ? ?; cbv beta | auto ].

Lemma safe_T1Interrupt (RA11 : bool) : safe (_T1Interrupt RA11).
Proof.
  intros bus w Hw. unfold _T1Interrupt. exec.
  destruct (incrementSystemTime_step (systemClock (sys w)))
    as (clock' & Hclock' & Hvalid & _); [apply Hw|].
  eapply satisfies_defined; [exact Hclock'|]. exec.
  assert (Hw1 : wellFormed (set_systemClock clock' (sys w))) by (wf Hw).
  block.
  { apply satisfies_when; [intros _|intros _; exact Hw1].
    destruct (negb RA11); exec; [|exact Hw1].
    block; [|exact H].
    apply satisfies_when; [intros _|intros _; exact Hw1]. exec.
    call safe_renderMainMenu. exact H. }
  clear dependent w. rename w' into w, H into Hw.
  exec. apply satisfies_when; [intros _|intros _; exact Hw]. exec. cbv zeta.
  pose proof (next_slot_range (currentSecondIndex (sys w))) as Hnext.
  assert (Hlen : length (stepsPerSecond (sys w)) = 60%nat) by apply Hw.
  eapply satisfies_defined; [apply array_set_defined; lia|]. exec.
  match goal with
  | |- satisfies (if ?c then _ else _) _ _ _ _ => destruct c
  end; exec; wf Hw; rewrite ?length_insert; try assumption.
  - destruct (3 <=? _);
      [exists 0; split; [lia | reflexivity]|].
    eexists. split; [|reflexivity]. apply Z.mod_pos_bound. lia.
  - eexists. split; [|reflexivity]. apply Z.mod_pos_bound. lia.
Qed.

(** ** The pages *)

Lemma safe_menuIterationTail (b1 b2 : bool) : safe (menuIterationTail b1 b2).
Proof.
  intros bus w Hw. apply satisfies_menuIterationTail.
  intros cache evs. exact Hw.
Qed.

Lemma safe_afterMenuSelection : safe afterMenuSelection.
Proof.
  intros bus w Hw. unfold afterMenuSelection. exec.
  apply safe_menuIterationTail. exact Hw.
Qed.

Lemma safe_returnToMainMenu : safe returnToMainMenu.
Proof.
  intros bus w Hw. apply satisfies_returnToMainMenu.
  intros cache evs. exact Hw.
Qed.

Lemma safe_displayStepGraph_leave : safe displayStepGraph_leave.
Proof.
  intros bus w Hw. unfold displayStepGraph_leave. exec.
  apply safe_afterMenuSelection. exact Hw.
Qed.

Lemma safe_displayStepGraph_iter (RA11 RA12 : bool) :
  safe (displayStepGraph_iter RA11 RA12).
Proof.
  intros bus w Hw. unfold displayStepGraph_iter. cbv zeta.
  destruct (negb RA12); [|destruct (negb RA11)]; exec.
  - call safe_renderMainMenu. exec.
    call safe_updateMenuTimeDisplay. exec.
    apply safe_displayStepGraph_leave. assumption.
  - match goal with
    | |- satisfies (if ?c then _ else _) _ _ _ _ => destruct c
    end; exec; [|exact Hw].
    apply safe_displayStepGraph_leave. exact Hw.
  - exact Hw.
Qed.

Lemma safe_manageTimeFormatSelection_iter (RA11 RA12 : bool) :
  safe (manageTimeFormatSelection_iter RA11 RA12).
Proof.
  intros bus w Hw. unfold manageTimeFormatSelection_iter. cbv zeta. exec.
  destruct (negb (inTimeFormatMenu (sys w)));
    [now apply safe_returnToMainMenu|].
  destruct (negb RA12); [|destruct (negb RA11)]; exec; try exact Hw.
  apply safe_returnToMainMenu. exact Hw.
Qed.

Lemma safe_checkTiltToSave : safe checkTiltToSave.
Proof.
  intros bus w Hw. unfold checkTiltToSave.
  apply satisfies_bind. call safe_readAccelerometer.
  apply satisfies_ret. assumption.
Qed.

Lemma valid_stagedTimeAfter (RA11 RA12 : bool) (field : Z) (t : TimeSetting) :
  valid_time t -> valid_time (stagedTimeAfter RA11 RA12 field t).
Proof.
  intros [Hh Hm]. unfold stagedTimeAfter, valid_time.
  pose proof (Z.mod_pos_bound (ts_hours t + 1) 24).
  pose proof (Z.mod_pos_bound (ts_minutes t + 1) 60).
  destruct RA11, RA12, (field =? 0); cbn [ts_hours ts_minutes];
    try destruct (Z.eqb_spec (ts_hours t) 0);
    try destruct (Z.eqb_spec (ts_minutes t) 0); lia.
Qed.

Lemma safe_processTimeSetInput (RA11 RA12 : bool) :
  safe (processTimeSetInput RA11 RA12).
Proof.
  intros bus w Hw. apply processTimeSetInput_edits; [apply Hw|].
  intros evs. cbn [sys]. wf Hw. now apply valid_stagedTimeAfter.
Qed.

Lemma safe_manageTimeSetPage_iter (RA11 RA12 : bool) :
  safe (manageTimeSetPage_iter RA11 RA12).
Proof.
  intros bus w Hw. unfold manageTimeSetPage_iter. exec.
  destruct (negb (inTimeSetMenu (sys w)));
    [now apply safe_returnToMainMenu|].
  apply satisfies_bind. call (safe_processTimeSetInput RA11 RA12).
  apply satisfies_bind. call safe_checkTiltToSave.
  clear dependent w. clear dependent w'. rename w'0 into w, H0 into Hw.
  destruct a0; exec; [|exact Hw].
  match goal with
  | |- satisfies (if ?c then _ else _) _ _ _ _ => destruct c
  end; exec; [|exact Hw].
  apply safe_returnToMainMenu. cbn [sys].
  assert (Hc : Clock.valid_clock (systemClock (sys w))) by apply Hw.
  assert (Ht : valid_time (timeToSet (sys w))) by apply Hw.
  wf Hw. destruct Hc as (_ & _ & _ & Hd). destruct Ht as [Hh Hm].
  unfold Clock.valid_clock. cbn [hours minutes seconds day month].
  split; [exact Hh|]. split; [exact Hm|]. split; [lia | exact Hd].
Qed.

Lemma safe_processDateSetInput (RA11 RA12 : bool) :
  safe (processDateSetInput RA11 RA12).
Proof.
  intros bus w Hw. apply satisfies_processDateSetInput; [apply Hw|].
  intros draft field evs Hdraft _. cbn [sys]. wf Hw.
Qed.

Lemma safe_manageDateSetPage_iter (RA11 RA12 : bool) :
  safe (manageDateSetPage_iter RA11 RA12).
Proof.
  intros bus w Hw. unfold manageDateSetPage_iter. exec.
  destruct (negb (inTimeSetMenu (sys w)));
    [now apply safe_returnToMainMenu|].
  apply satisfies_bind. call (safe_processDateSetInput RA11 RA12).
  apply satisfies_bind. call safe_checkTiltToSave.
  clear dependent w. clear dependent w'. rename w'0 into w, H0 into Hw.
  destruct a0; exec; [|exact Hw].
  match goal with
  | |- satisfies (if ?c then _ else _) _ _ _ _ => destruct c
  end; exec; [|exact Hw].
  apply safe_returnToMainMenu. cbn [sys].
  assert (Hc : Clock.valid_clock (systemClock (sys w))) by apply Hw.
  assert (Hd : valid_date (dateToSet (sys w))) by apply Hw.
  wf Hw. destruct Hc as (Hh & Hm & Hs & _). destruct Hd as [Hmonth Hday].
  unfold Clock.valid_clock. cbn [hours minutes seconds day month]. auto.
Qed.

Lemma safe_manageTimeSetPage_enter : safe manageTimeSetPage_enter.
Proof.
  intros bus w Hw. unfold manageTimeSetPage_enter. exec.
  assert (Hc : Clock.valid_clock (systemClock (sys w))) by apply Hw.
  wf Hw. split; cbn [ts_hours ts_minutes]; apply Hc.
Qed.

Lemma safe_manageDateSetPage_enter : safe manageDateSetPage_enter.
Proof.
  intros bus w Hw. unfold manageDateSetPage_enter. exec.
  assert (Hc : Clock.valid_clock (systemClock (sys w))) by apply Hw.
  wf Hw. destruct Hc as (_ & _ & _ & Hmonth & Hday).
  split; cbn [ds_day ds_month]; assumption.
Qed.

Lemma safe_executeMenuSelection : safe executeMenuSelection.
Proof.
  intros bus w Hw. unfold executeMenuSelection. exec.
  repeat match goal with
  | |- satisfies (if ?c then _ else _) _ _ _ _ => destruct c
  end.
  - unfold displayStepGraph_enter. exec. exact Hw.
  - unfold manageTimeFormatSelection_enter. exec. exact Hw.
  - apply satisfies_bind. call safe_manageTimeSetPage_enter.
    apply satisfies_ret. assumption.
  - apply satisfies_bind. call safe_manageDateSetPage_enter.
    apply satisfies_ret. assumption.
  - exec. exact Hw.
  - exec. exact Hw.
Qed.

(** ** The foreground loop *)

Lemma safe_mainMenuIteration (b1 b2 : bool) : safe (mainMenuIteration b1 b2).
Proof.
  intros bus w Hw. unfold mainMenuIteration. exec.
  destruct (justEnteredMenu (sys w)).
  { exec. call safe_renderMainMenu. exec. assumption. }
  destruct (b1 && b2).
  { exec.
    match goal with
    | |- satisfies (if ?c then _ else _) _ _ _ _ => destruct c
    end; [|now apply safe_menuIterationTail].
    exec. call safe_executeMenuSelection.
    destruct a; [apply satisfies_ret; assumption|].
    now apply safe_afterMenuSelection. }
  exec. block.
  { match goal with
    | |- satisfies (if ?c then _ else _) _ _ _ _ => destruct c
    end.
    - exec. call safe_renderMainMenu. exec. assumption.
    - apply satisfies_when; intros _; exec; exact Hw. }
  clear dependent w. rename w' into w, H into Hw. exec. block.
  { match goal with
    | |- satisfies (if ?c then _ else _) _ _ _ _ => destruct c
    end.
    - exec. call safe_renderMainMenu. exec. assumption.
    - apply satisfies_when; intros _; exec; exact Hw. }
  now apply safe_menuIterationTail.
Qed.

Lemma safe_clockIteration (b1 b2 : bool) : safe (clockIteration b1 b2).
Proof.
  intros bus w Hw. unfold clockIteration. exec. block.
  { apply satisfies_when; intros _; exec; exact Hw. }
  clear dependent w. rename w' into w, H into Hw.
  apply satisfies_bind. call safe_detectStep.
  clear dependent w. rename w' into w, H into Hw. exec.
  assert (Hw' := Hw).
  destruct Hw' as (_ & _ & _ & _ & _ & Hlen & _
                   & (whole & Hwhole & Ewhole) & (steps & Hsteps & Esteps)).
  rewrite Ewhole, Esteps, (track_whole whole steps Hwhole Hsteps).
  pose proof (paceStep_range whole (60 * steps)) as Hstep.
  eapply satisfies_defined; [apply whole_to_uint8; lia|]. exec.
  pose proof (Z.mod_pos_bound (elapsedSeconds (sys w)) GRAPH_WIDTH) as Hslot.
  unfold GRAPH_WIDTH in Hslot, Hlen.
  eapply satisfies_defined; [apply array_set_defined; unfold GRAPH_WIDTH; lia|].
  exec. apply satisfies_when; intros _; exec.
  all: wf Hw;
    [ now rewrite length_insert
    | apply Forall_insert; [assumption | lia]
    | eexists; split; [|reflexivity]; lia ].
Qed.

Lemma safe_foreground (RA11 RA12 : bool) : safe (foreground RA11 RA12).
Proof.
  intros bus w Hw. unfold foreground. exec.
  destruct (page (sys w)).
  - unfold mainLoopBody. cbv zeta. exec.
    destruct (inMainMenu (sys w));
      [now apply safe_mainMenuIteration | now apply safe_clockIteration].
  - now apply safe_displayStepGraph_iter.
  - now apply safe_manageTimeFormatSelection_iter.
  - now apply safe_manageTimeSetPage_iter.
  - now apply safe_manageDateSetPage_iter.
Qed.

Lemma boot_wellFormed : wellFormed boot.
Proof.
  unfold wellFormed. cbn.
  split; [exact boot_clock_valid|].
  split; [unfold valid_time; cbn; lia|].
  split; [split; [cbn; lia | exists 31; split; [reflexivity | cbn; lia]]|].
  split; [reflexivity|]. split; [unfold HISTORY_SIZE; lia|].
  split; [reflexivity|].
  split; [repeat constructor; lia|].
  split; [exists 0; split; [lia | reflexivity]|].
  exists 0. split; [lia | reflexivity].
Defined.

Lemma step_wellFormed (i : Input) (s : Sys) :
  wellFormed s ->
  match step i s with
  | Ret _ w | Halted _ w => wellFormed (sys w)
  | Undefined => False
  end.
Proof.
  intros Hs. destruct i as [RA11|RA11 RA12 bus]; cbn [step].
  - exact (safe_T1Interrupt RA11 silent_bus (start s) Hs).
  - exact (safe_foreground RA11 RA12 bus (start s) Hs).
Qed.

Lemma scenario_wellFormed (clock : ClockTime) (draft : DateSetting) (s : Sys) :
  Clock.valid_clock clock -> valid_date draft ->
  systemClock s = clock -> dateToSet s = draft ->
  timeToSet s = timeToSet boot ->
  stepsPerSecond s = stepsPerSecond boot ->
  currentSecondIndex s = currentSecondIndex boot ->
  stepRateHistory s = stepRateHistory boot ->
  displayedStepPace s = displayedStepPace boot ->
  currentStepPace s = currentStepPace boot ->
  wellFormed s.
Proof.
  intros Hclock Hdraft Eclock Edraft Etime Ebuckets Eindex Ehistory Eshown Eraw.
  destruct boot_wellFormed as (_ & Htime & _ & H4 & H5 & H6 & H7 & H8 & H9).
  unfold wellFormed.
  rewrite Eclock, Edraft, Etime, Ebuckets, Eindex, Ehistory, Eshown, Eraw.
  exact (conj Hclock (conj Htime (conj Hdraft (conj H4 (conj H5 (conj H6
           (conj H7 (conj H8 H9)))))))).
Qed.

(** X1. With every tick handled between two foreground iterations:
    whatever the buttons read and whatever the sensor bus replies, a
    run of ticks and foreground polls from a well-formed state never
    reaches undefined behaviour (no index outside [DAYS_PER_MONTH],
    [stepsPerSecond] or [stepRateHistory], no byte used unread) and
    ends, or halts on a bus error, in a well-formed state: the clock
    holds a valid time and date, both drafts are within their ranges,
    the two rings keep their sizes and every graph sample is at most
    100.  Timer1 is never masked, and a tick inside an iteration breaks
    this: one between the two reads that copy the clock's date into the
    draft, on 31 January at 23:59:59, stages 31 February; one between
    the two stores that commit the draft 31 March over 15 April runs
    the handler on 31 April. *)
Theorem run_keeps_wellFormed (inputs : list Input) (s : Sys)
    (Hs : wellFormed s) :
  (exists s', run inputs s = Some s' /\ wellFormed s') /\
  (wellFormed january31 /\
   exists w' entered,
     preempted (code_foreground false false) (repeat [] 14 ++ [[true]])
       silent_bus (start january31) = (Ret tt w', ([], [entered])) /\
     wellFormed entered /\
     dateToSet (sys w') = mkDateSetting 31 2 /\
     ~ valid_date (dateToSet (sys w')) /\
     ~ wellFormed (sys w')) /\
  (wellFormed april15 /\
   exists w' rest entered,
     preempted (code_foreground true true) (repeat [] 14 ++ [[true]])
       (sampleBus (mkAccel 0 0 100)) (start april15)
       = (Ret tt w', (rest, [entered])) /\
     (day (systemClock entered), month (systemClock entered)) = (31, 4) /\
     ~ Clock.valid_clock (systemClock entered) /\
     ~ wellFormed entered).
Proof.
  assert (Hfebruary : ~ valid_date (mkDateSetting 31 2)).
  { intros (_ & maxDay & Hmax & Hday). cbn in Hmax, Hday.
    injection Hmax as <-. lia. }
  assert (Hapril : ~ Clock.valid_clock (mkClock 12 0 0 31 4)).
  { intros (_ & _ & _ & _ & maxDay & Hmax & Hday). cbn in Hmax, Hday.
    injection Hmax as <-. lia. }
  assert (Hstart : Clock.valid_clock (mkClock 23 59 59 31 1)).
  { unfold Clock.valid_clock. cbn. repeat split; try lia.
    exists 31. split; [reflexivity | lia]. }
  assert (Hnoon : Clock.valid_clock (mkClock 12 0 0 15 4)).
  { unfold Clock.valid_clock. cbn. repeat split; try lia.
    exists 30. split; [reflexivity | lia]. }
  assert (Hmarch : valid_date (mkDateSetting 31 3)).
  { split; [cbn; lia | exists 31; split; [reflexivity | cbn; lia]]. }
  assert (Hjanuary : valid_date (mkDateSetting 31 1)).
  { split; [cbn; lia | exists 31; split; [reflexivity | cbn; lia]]. }
  destruct boot_wellFormed as (_ & _ & Hboot & _).
  split; [|split].
  - revert s Hs. induction inputs as [|i rest IH]; intros s Hs.
    + exists s. split; [reflexivity | exact Hs].
    + rewrite run_cons. pose proof (step_wellFormed i s Hs) as Hstep.
      destruct (step i s) as [[] w|msg w|];
        [now apply IH | eauto | contradiction].
  - split.
    { apply (scenario_wellFormed (mkClock 23 59 59 31 1) (dateToSet boot));
        [exact Hstart | exact Hboot | reflexivity ..]. }
    eexists _, _. split; [vm_compute; reflexivity|].
    split.
    { apply (scenario_wellFormed (mkClock 23 59 59 31 1) (mkDateSetting 31 1));
        [exact Hstart | exact Hjanuary | reflexivity ..]. }
    split; [reflexivity|]. split; [exact Hfebruary|].
    intros (_ & _ & Hdate & _). exact (Hfebruary Hdate).
  - split.
    { apply (scenario_wellFormed (mkClock 12 0 0 15 4) (mkDateSetting 31 3));
        [exact Hnoon | exact Hmarch | reflexivity ..]. }
    eexists _, _, _. split; [vm_compute; reflexivity|].
    split; [reflexivity|].
    split; [exact Hapril|]. intros (Hclock & _). exact (Hapril Hclock).
Qed.

Lemma run_keeps_wellFormed_witness :
  wellFormed boot /\
  exists s', run [Tick false; Tick false; Poll true true silent_bus] boot
             = Some s' /\ wellFormed s'.
Proof.
  split; [exact boot_wellFormed|].
  exact (proj1 (run_keeps_wellFormed
                  [Tick false; Tick false; Poll true true silent_bus] boot
                  boot_wellFormed)).
Defined.

(** * Editing the drafts *)

(** X2. For every staged time within its ranges and every state of the
    two buttons, [processTimeSetInput] returns, writes only the draft and
    the field selector, and leaves a staged time within its ranges:
    button 1 alone steps the selected field up, hours from 23 to 0 and
    minutes from 59 to 0 without touching the hours; button 2 alone steps
    it down, from 0 to 23 or 59; both buttons select the other field;
    none changes nothing. *)
Theorem staged_time_stays_in_range (RA11 RA12 : bool) (bus : Bus) (w : World)
    (Hvalid : valid_time (timeToSet (sys w))) :
  exists w', processTimeSetInput RA11 RA12 bus w = Ret tt w' /\
    sys w' =
      set_timeFieldSelected
        (selectedFieldAfter RA11 RA12 (timeFieldSelected (sys w)))
        (set_timeToSet
           (stagedTimeAfter RA11 RA12 (timeFieldSelected (sys w))
                            (timeToSet (sys w)))
           (sys w)) /\
    valid_time (timeToSet (sys w')).
Proof.
  enough (H : satisfies (processTimeSetInput RA11 RA12) bus w
            (fun _ w' =>
               sys w' =
                 set_timeFieldSelected
                   (selectedFieldAfter RA11 RA12 (timeFieldSelected (sys w)))
                   (set_timeToSet
                      (stagedTimeAfter RA11 RA12 (timeFieldSelected (sys w))
                                       (timeToSet (sys w)))
                      (sys w)) /\
               valid_time (timeToSet (sys w'))) never).
  { apply satisfies_returns in H. destruct H as ([] & w' & E & H). eauto. }
  apply processTimeSetInput_edits; [exact Hvalid|].
  intros evs. cbn [sys]. split; [reflexivity|]. sys_simpl.
  now apply valid_stagedTimeAfter.
Qed.

Lemma staged_time_stays_in_range_witness :
  let s := set_timeToSet (mkTimeSetting 23 59) boot in
  valid_time (timeToSet s) /\
  exists w', processTimeSetInput false true silent_bus (start s) = Ret tt w' /\
             timeToSet (sys w') = mkTimeSetting 0 59.
Proof.
  intros s.
  assert (Hv : valid_time (timeToSet (sys (start s))))
    by (unfold valid_time; cbn; lia).
  split; [exact Hv|].
  destruct (staged_time_stays_in_range false true silent_bus (start s) Hv)
    as (w' & E & Hsys & _).
  exists w'. split; [exact E|]. rewrite Hsys. reflexivity.
Defined.

Lemma stagedTime_up_down (field : Z) (t : TimeSetting) :
  valid_time t ->
  stagedTimeAfter true false field (stagedTimeAfter false true field t) = t /\
  stagedTimeAfter false true field (stagedTimeAfter true false field t) = t.
Proof.
  destruct t as [h m]. unfold valid_time, stagedTimeAfter.
  cbn [ts_hours ts_minutes]. intros [Hh Hm].
  destruct (field =? 0); cbn [ts_hours ts_minutes].
  - split.
    + destruct (Z.eq_dec h 23) as [->|]; [reflexivity|].
      rewrite Z.mod_small by lia.
      destruct (Z.eqb_spec (h + 1) 0); [lia|]. f_equal. lia.
    + destruct (Z.eqb_spec h 0) as [->|]; [reflexivity|].
      rewrite Z.mod_small by lia. f_equal. lia.
  - split.
    + destruct (Z.eq_dec m 59) as [->|]; [reflexivity|].
      rewrite Z.mod_small by lia.
      destruct (Z.eqb_spec (m + 1) 0); [lia|]. f_equal. lia.
    + destruct (Z.eqb_spec m 0) as [->|]; [reflexivity|].
      rewrite Z.mod_small by lia. f_equal. lia.
Qed.

Lemma set_time_draft_twice (f f' : Z) (t t' : TimeSetting) (s : Sys) :
  set_timeFieldSelected f' (set_timeToSet t'
    (set_timeFieldSelected f (set_timeToSet t s))) =
  set_timeFieldSelected f' (set_timeToSet t' s).
Proof. reflexivity. Qed.

(** X3. On a staged time within its ranges, a step up followed by a step
    down of the selected field, or a step down followed by a step up,
    gives back the state before the two presses, at the wrap-around
    values too. *)
Theorem staged_time_steps_undo (bus bus' : Bus) (w : World)
    (Hvalid : valid_time (timeToSet (sys w))) :
  (exists w1 w2,
      processTimeSetInput false true bus w = Ret tt w1 /\
      processTimeSetInput true false bus' w1 = Ret tt w2 /\
      sys w2 = sys w) /\
  (exists w1 w2,
      processTimeSetInput true false bus w = Ret tt w1 /\
      processTimeSetInput false true bus' w1 = Ret tt w2 /\
      sys w2 = sys w).
Proof.
  assert (Hrun : forall RA11 RA12 b w0,
             valid_time (timeToSet (sys w0)) ->
             exists w' evs,
               processTimeSetInput RA11 RA12 b w0 = Ret tt w' /\
               w' = mkWorld
                      (set_timeFieldSelected
                         (selectedFieldAfter RA11 RA12
                            (timeFieldSelected (sys w0)))
                         (set_timeToSet
                            (stagedTimeAfter RA11 RA12
                               (timeFieldSelected (sys w0))
                               (timeToSet (sys w0)))
                            (sys w0)))
                      (busReads w0) (events w0 ++ evs)).
  { intros RA11 RA12 b w0 Hv.
    destruct (satisfies_returns (processTimeSetInput RA11 RA12) b w0
                (fun _ w' => exists evs, w' = mkWorld
                      (set_timeFieldSelected
                         (selectedFieldAfter RA11 RA12
                            (timeFieldSelected (sys w0)))
                         (set_timeToSet
                            (stagedTimeAfter RA11 RA12
                               (timeFieldSelected (sys w0))
                               (timeToSet (sys w0)))
                            (sys w0)))
                      (busReads w0) (events w0 ++ evs)))
      as ([] & w' & E & evs & Hw').
    - apply processTimeSetInput_edits; [exact Hv|]. intros evs. now exists evs.
    - now exists w', evs. }
  destruct (stagedTime_up_down (timeFieldSelected (sys w)) _ Hvalid)
    as [Hup Hdown].
  split.
  - destruct (Hrun false true bus w Hvalid) as (w1 & evs1 & E1 & ->).
    match type of E1 with
    | _ = Ret _ ?w1 =>
        destruct (Hrun true false bus' w1
                    (valid_stagedTimeAfter false true _ _ Hvalid))
          as (w2 & evs2 & E2 & ->)
    end.
    eexists _, _. split; [exact E1|]. split; [exact E2|].
    cbn [sys]. sys_simpl. rewrite set_time_draft_twice.
    unfold selectedFieldAfter. cbn [negb andb].
    rewrite Hup. apply time_draft_same.
  - destruct (Hrun true false bus w Hvalid) as (w1 & evs1 & E1 & ->).
    match type of E1 with
    | _ = Ret _ ?w1 =>
        destruct (Hrun false true bus' w1
                    (valid_stagedTimeAfter true false _ _ Hvalid))
          as (w2 & evs2 & E2 & ->)
    end.
    eexists _, _. split; [exact E1|]. split; [exact E2|].
    cbn [sys]. sys_simpl. rewrite set_time_draft_twice.
    unfold selectedFieldAfter. cbn [negb andb].
    rewrite Hdown. apply time_draft_same.
Qed.

Lemma staged_time_steps_undo_witness :
  let s := set_timeToSet (mkTimeSetting 23 59) boot in
  valid_time (timeToSet s) /\
  exists w1 w2,
    processTimeSetInput false true silent_bus (start s) = Ret tt w1 /\
    processTimeSetInput true false silent_bus w1 = Ret tt w2 /\
    sys w2 = s.
Proof.
  intros s.
  assert (Hv : valid_time (timeToSet (sys (start s))))
    by (unfold valid_time; cbn; lia).
  split; [exact Hv|].
  exact (proj1 (staged_time_steps_undo silent_bus silent_bus (start s) Hv)).
Defined.

(** A single button leaves the date field selector alone. *)
Lemma keeps_dateFieldSelected (RA11 RA12 : bool) :
  RA11 || RA12 = true ->
  keeps (agree dateFieldSelected) (processDateSetInput RA11 RA12).
Proof.
  intros Hone. unfold processDateSetInput. cbv zeta.
  apply keeps_bind; [exact _ | apply keeps_gets; exact _ | intros draft].
  apply keeps_bind; [exact _ | apply keeps_gets; exact _ | intros field].
  destruct RA11, RA12; try discriminate; cbn [negb andb];
    try (apply keeps_ret; exact _);
    repeat first
      [ apply keeps_bind; [exact _ | | intros ?]
      | apply keeps_emit; exact _
      | apply keeps_defined; exact _
      | apply keeps_modify; try exact _; intros ?; reflexivity
      | match goal with
        | |- keeps _ (if ?c then _ else _) => destruct c
        end ].
Qed.

Lemma set_date_same_field (d : DateSetting) (s : Sys) :
  set_dateFieldSelected (dateFieldSelected s) (set_dateToSet d s) =
  set_dateToSet d s.
Proof. destruct s; reflexivity. Qed.

(** One press of a single button on a staged date within its month. *)
Lemma processDateSetInput_single (RA11 RA12 : bool) (bus : Bus) (w : World) :
  RA11 || RA12 = true -> valid_date (dateToSet (sys w)) ->
  exists w', processDateSetInput RA11 RA12 bus w = Ret tt w' /\
    sys w' = set_dateToSet
               (stagedDateAfter RA11 RA12 (dateFieldSelected (sys w))
                                (dateToSet (sys w)))
               (sys w) /\
    valid_date (dateToSet (sys w')).
Proof.
  intros Hone Hvalid.
  destruct (satisfies_returns (processDateSetInput RA11 RA12) bus w
              (fun _ w' => exists field,
                 sys w' = set_dateFieldSelected field
                            (set_dateToSet
                               (stagedDateAfter RA11 RA12
                                  (dateFieldSelected (sys w))
                                  (dateToSet (sys w)))
                               (sys w)) /\
                 valid_date (dateToSet (sys w'))))
    as ([] & w' & E & field & Hsys & Hv).
  { apply satisfies_processDateSetInput; [exact Hvalid|].
    intros draft field evs Hdraft ->. exists field. cbn [sys]. sys_simpl.
    split; [reflexivity | exact Hdraft]. }
  exists w'. split; [exact E|]. split; [|exact Hv].
  pose proof (keeps_dateFieldSelected RA11 RA12 Hone bus w) as Hfield.
  rewrite E in Hfield. unfold agree in Hfield.
  rewrite Hsys in Hfield |- *. sys_simpl_in Hfield. rewrite Hfield.
  apply set_date_same_field.
Qed.

Lemma daysIn_valid (d : DateSetting) :
  valid_date d -> 1 <= ds_day d <= daysIn (ds_month d).
Proof.
  intros (_ & maxDay & Hget & Hday). now rewrite (daysIn_spec _ _ Hget).
Qed.

Lemma stagedDate_day_up_down (d : DateSetting) :
  valid_date d ->
  decrementDay (incrementDay d) = d /\ incrementDay (decrementDay d) = d.
Proof.
  intros Hv. pose proof (daysIn_valid d Hv) as Hday.
  destruct d as [dd m]. unfold incrementDay, decrementDay.
  cbn [ds_day ds_month] in *. split.
  - destruct (Z.eqb_spec dd (daysIn m)) as [->|Hne]; [reflexivity|].
    destruct (Z.eqb_spec (dd + 1) 1); [lia|]. f_equal. lia.
  - destruct (Z.eqb_spec dd 1) as [->|Hne].
    + rewrite Z.eqb_refl. reflexivity.
    + destruct (Z.eqb_spec (dd - 1) (daysIn m)); [lia|]. f_equal. lia.
Qed.

Lemma stagedDate_month_there_and_back (d : DateSetting) :
  valid_date d ->
  previousMonth (nextMonth d) =
    mkDateSetting (Z.min (ds_day d) (ds_day (nextMonth d))) (ds_month d) /\
  nextMonth (previousMonth d) =
    mkDateSetting (Z.min (ds_day d) (ds_day (previousMonth d))) (ds_month d).
Proof.
  intros Hv. pose proof (daysIn_valid d Hv) as Hday.
  destruct Hv as (Hmonth & _). destruct d as [dd m].
  unfold previousMonth, nextMonth, withMonth. cbn [ds_day ds_month] in *.
  split.
  - destruct (Z.eqb_spec m 12) as [->|Hne]; cbn [Z.eqb Pos.eqb].
    + f_equal. lia.
    + destruct (Z.eqb_spec (m + 1) 1); [lia|].
      replace (m + 1 - 1) with m by lia. f_equal. lia.
  - destruct (Z.eqb_spec m 1) as [->|Hne]; cbn [Z.eqb Pos.eqb].
    + f_equal. lia.
    + destruct (Z.eqb_spec (m - 1) 12); [lia|].
      replace (m - 1 + 1) with m by lia. f_equal. lia.
Qed.

Lemma set_dateToSet_twice (d d' : DateSetting) (s : Sys) :
  set_dateToSet d' (set_dateToSet d s) = set_dateToSet d' s.
Proof. reflexivity. Qed.

Lemma set_dateToSet_same (s : Sys) : set_dateToSet (dateToSet s) s = s.
Proof. destruct s; reflexivity. Qed.

(** X4. On a staged date within its month, with the day selected, a step
    up followed by a step down (or down, then up) gives back the state
    before the two presses, across the month's last day too.  With the
    month selected, going to the next month and back (or to the previous
    and back) restores the month, but the day comes back clamped to the
    day count of the month passed through: 31 January becomes 28 January
    by way of February. *)
Theorem staged_date_steps_undo (bus bus' : Bus) (w : World)
    (Hvalid : valid_date (dateToSet (sys w))) :
  let d := dateToSet (sys w) in
  let back w1 w2 :=
    if dateFieldSelected (sys w) =? 0 then sys w2 = sys w
    else sys w2 =
         set_dateToSet
           (mkDateSetting (Z.min (ds_day d) (ds_day (dateToSet (sys w1))))
                          (ds_month d))
           (sys w) in
  (exists w1 w2,
      processDateSetInput false true bus w = Ret tt w1 /\
      processDateSetInput true false bus' w1 = Ret tt w2 /\ back w1 w2) /\
  (exists w1 w2,
      processDateSetInput true false bus w = Ret tt w1 /\
      processDateSetInput false true bus' w1 = Ret tt w2 /\ back w1 w2).
Proof.
  cbv zeta.
  destruct (stagedDate_day_up_down _ Hvalid) as [Hup Hdown].
  destruct (stagedDate_month_there_and_back _ Hvalid) as [Hnext Hprev].
  split.
  - destruct (processDateSetInput_single false true bus w eq_refl Hvalid)
      as (w1 & E1 & Hsys1 & Hv1).
    destruct (processDateSetInput_single true false bus' w1 eq_refl Hv1)
      as (w2 & E2 & Hsys2 & _).
    exists w1, w2. split; [exact E1|]. split; [exact E2|].
    rewrite Hsys2, Hsys1. sys_simpl. rewrite set_dateToSet_twice.
    unfold stagedDateAfter.
    destruct (dateFieldSelected (sys w) =? 0).
    + rewrite Hup. apply set_dateToSet_same.
    + rewrite Hnext. reflexivity.
  - destruct (processDateSetInput_single true false bus w eq_refl Hvalid)
      as (w1 & E1 & Hsys1 & Hv1).
    destruct (processDateSetInput_single false true bus' w1 eq_refl Hv1)
      as (w2 & E2 & Hsys2 & _).
    exists w1, w2. split; [exact E1|]. split; [exact E2|].
    rewrite Hsys2, Hsys1. sys_simpl. rewrite set_dateToSet_twice.
    unfold stagedDateAfter.
    destruct (dateFieldSelected (sys w) =? 0).
    + rewrite Hdown. apply set_dateToSet_same.
    + rewrite Hprev. reflexivity.
Qed.

Lemma staged_date_steps_undo_witness :
  let s := set_dateToSet (mkDateSetting 31 1) (set_dateFieldSelected 1 boot) in
  valid_date (dateToSet s) /\
  exists w1 w2,
    processDateSetInput false true silent_bus (start s) = Ret tt w1 /\
    processDateSetInput true false silent_bus w1 = Ret tt w2 /\
    dateToSet (sys w1) = mkDateSetting 28 2 /\
    dateToSet (sys w2) = mkDateSetting 28 1.
Proof.
  intros s.
  assert (Hv : valid_date (dateToSet (sys (start s)))).
  { split; [cbn; lia|]. exists 31. split; [reflexivity | cbn; lia]. }
  split; [exact Hv|].
  destruct (proj1 (staged_date_steps_undo silent_bus silent_bus (start s) Hv))
    as (w1 & w2 & E1 & E2 & Hback).
  exists w1, w2. split; [exact E1|]. split; [exact E2|].
  assert (Hd1 : dateToSet (sys w1) = mkDateSetting 28 2).
  { pose proof E1 as E1'. vm_compute in E1'. now injection E1' as <-. }
  split; [exact Hd1|].
  change (dateFieldSelected (sys (start s)) =? 0) with false in Hback.
  cbv beta iota in Hback. rewrite Hback, Hd1. reflexivity.
Defined.

(** * The menu pages, poll by poll *)

(** ** The 12H/24H page *)

Lemma time_format_poll (s : Sys) (RA11 RA12 : bool) (bus : Bus) :
  page s = InTimeFormatLoop -> inTimeFormatMenu s = true ->
  exists w', step (Poll RA11 RA12 bus) s = Ret tt w' /\
    if negb RA12 then
      timeFormatOption (sys w') = (timeFormatOption s + 1) mod 2 /\
      use12HourFormat (sys w') = use12HourFormat s /\
      page (sys w') = InTimeFormatLoop /\ inTimeFormatMenu (sys w') = true
    else if negb RA11 then
      use12HourFormat (sys w') = (timeFormatOption s =? 0) /\
      page (sys w') = InMainLoop /\ inTimeFormatMenu (sys w') = false /\
      inMainMenu (sys w') = inMainMenu s
    else sys w' = s.
Proof.
  intros Hpage Hactive.
  enough (H : satisfies (foreground RA11 RA12) bus (start s)
            (fun _ w' =>
               if negb RA12 then
                 timeFormatOption (sys w') = (timeFormatOption s + 1) mod 2 /\
                 use12HourFormat (sys w') = use12HourFormat s /\
                 page (sys w') = InTimeFormatLoop /\
                 inTimeFormatMenu (sys w') = true
               else if negb RA11 then
                 use12HourFormat (sys w') = (timeFormatOption s =? 0) /\
                 page (sys w') = InMainLoop /\
                 inTimeFormatMenu (sys w') = false /\
                 inMainMenu (sys w') = inMainMenu s
               else sys w' = s) never).
  { apply satisfies_returns in H. destruct H as ([] & w' & E & H). eauto. }
  unfold foreground. exec. rewrite Hpage.
  unfold manageTimeFormatSelection_iter. cbv zeta. exec.
  rewrite Hactive. cbn [negb].
  destruct RA12; cbn [negb]; [destruct RA11; cbn [negb]|]; exec.
  - reflexivity.
  - apply satisfies_returnToMainMenu. intros cache evs.
    cbn [sys]. sys_simpl. auto.
  - pose proof (Z.mod_pos_bound (timeFormatOption s + 1) 2).
    rewrite u8_small by lia. auto.
Qed.

Lemma time_format_presses (polls : list (bool * bool)) (bus : Bus) :
  Forall (fun levels => snd levels = false \/ fst levels = true) polls ->
  forall s : Sys,
  page s = InTimeFormatLoop -> inTimeFormatMenu s = true ->
  timeFormatOption s = 0 \/ timeFormatOption s = 1 ->
  exists s', run (map (buttonPoll bus) polls ++ [Poll false true bus]) s
             = Some s' /\
    use12HourFormat s' =
      xorb (timeFormatOption s =? 0) (Nat.odd (button2Presses polls)) /\
    page s' = InMainLoop /\ inTimeFormatMenu s' = false.
Proof.
  induction 1 as [|[RA11 RA12] polls Hpoll _ IH];
    intros s Hpage Hactive Hoption.
  - destruct (time_format_poll s false true bus Hpage Hactive)
      as (w' & E & H12 & Hp & Ha & _).
    cbn [map app]. rewrite run_cons, E. exists (sys w').
    split; [reflexivity|]. rewrite H12, xorb_false_r. auto.
  - destruct (time_format_poll s RA11 RA12 bus Hpage Hactive)
      as (w1 & E & H).
    cbn [map app]. unfold buttonPoll at 1. cbn [fst snd] in *.
    rewrite run_cons, E.
    unfold button2Presses. rewrite filter_cons. cbn [snd].
    destruct RA12; cbn [negb] in H.
    + destruct Hpoll as [Hpoll | ->]; [discriminate|]. cbn [negb] in H.
      rewrite H. destruct (decide (true = false)); [discriminate|].
      now apply IH.
    + destruct H as (Ho & _ & Hp & Ha).
      destruct (decide (false = false)); [|contradiction].
      destruct (IH (sys w1) Hp Ha) as (s' & Hrun & H12 & Hrest).
      { rewrite Ho. destruct Hoption as [-> | ->]; [right | left]; reflexivity. }
      exists s'. split; [exact Hrun|]. split; [|exact Hrest].
      rewrite H12, Ho. cbn [length]. rewrite Nat.odd_succ, <- Nat.negb_odd.
      fold (button2Presses polls).
      destruct Hoption as [-> | ->];
        destruct (Nat.odd (button2Presses polls)); reflexivity.
Qed.

(** X5. Opening the 12H/24H page puts the marker on the current format.
    From there, polls that press button 2 (whatever button 1 reads) or no
    button, followed by a poll that presses button 1 alone, all return;
    the page is then closed and the format is the one before when button
    2 was pressed an even number of times and the other one when it was
    pressed an odd number of times. *)
Theorem time_format_toggles (s : Sys) (polls : list (bool * bool)) (bus : Bus)
    (Hpolls : Forall (fun levels => snd levels = false \/ fst levels = true)
                     polls) :
  exists w0, manageTimeFormatSelection_enter bus (start s) = Ret tt w0 /\
    timeFormatOption (sys w0) = (if use12HourFormat s then 0 else 1) /\
    exists s',
      run (map (buttonPoll bus) polls ++ [Poll false true bus]) (sys w0)
        = Some s' /\
      use12HourFormat s' =
        xorb (use12HourFormat s) (Nat.odd (button2Presses polls)) /\
      page s' = InMainLoop /\ inTimeFormatMenu s' = false.
Proof.
  eexists. split; [reflexivity|]. cbn [sys]. sys_simpl.
  split; [reflexivity|].
  match goal with
  | |- exists s', run _ ?s0 = _ /\ _ =>
      assert (Hoption : timeFormatOption s0 = 0 \/ timeFormatOption s0 = 1)
        by (unfold start; cbn [sys]; sys_simpl;
            destruct (use12HourFormat s); [left | right]; reflexivity);
      destruct (time_format_presses polls bus Hpolls s0 eq_refl eq_refl
                  Hoption) as (s' & Hrun & H12 & Hrest)
  end.
  exists s'. split; [exact Hrun|]. split; [|exact Hrest].
  rewrite H12. unfold start. cbn [sys]. sys_simpl.
  now destruct (use12HourFormat s).
Qed.

Lemma time_format_toggles_witness :
  Forall (fun levels : bool * bool => snd levels = false \/ fst levels = true)
         [(true, false); (true, true); (false, false)] /\
  exists w0, manageTimeFormatSelection_enter silent_bus (start boot)
             = Ret tt w0 /\
    exists s',
      run (map (buttonPoll silent_bus)
               [(true, false); (true, true); (false, false)]
             ++ [Poll false true silent_bus]) (sys w0) = Some s' /\
      use12HourFormat s' = true.
Proof.
  assert (Hpolls : Forall (fun levels : bool * bool =>
                             snd levels = false \/ fst levels = true)
                          [(true, false); (true, true); (false, false)]).
  { repeat (constructor; [cbn; auto|]). constructor. }
  split; [exact Hpolls|].
  destruct (time_format_toggles boot _ silent_bus Hpolls)
    as (w0 & E & _ & s' & Hrun & H12 & _).
  exists w0. split; [exact E|]. exists s'. split; [exact Hrun|].
  rewrite H12. reflexivity.
Defined.

(** ** The main menu: executing the selection *)

Lemma combo_poll_counts (s : Sys) (bus : Bus) :
  page s = InMainLoop -> inMainMenu s = true -> justEnteredMenu s = false ->
  u8 (comboPressCount s + 1) < 3 ->
  exists cache w', step (Poll false false bus) s = Ret tt w' /\
    sys w' = set_wasInMenu true
               (set_previousTime cache
                  (set_comboPressCount (u8 (comboPressCount s + 1)) s)).
Proof.
  intros Hpage Hmenu Hjust Hcount.
  enough (H : satisfies (foreground false false) bus (start s)
            (fun _ w' => exists cache,
               sys w' = set_wasInMenu true
                          (set_previousTime cache
                             (set_comboPressCount
                                (u8 (comboPressCount s + 1)) s))) never).
  { apply satisfies_returns in H.
    destruct H as ([] & w' & E & cache & H). eauto. }
  unfold foreground. exec. rewrite Hpage.
  unfold mainLoopBody. cbv zeta. exec. rewrite Hmenu.
  unfold mainMenuIteration. exec. rewrite Hjust. cbn [negb andb]. exec.
  destruct (Z.leb_spec 3 (u8 (comboPressCount s + 1))); [lia|].
  apply satisfies_menuIterationTail. intros cache evs. cbn [sys].
  now exists cache.
Qed.

Lemma combo_poll_executes (s : Sys) (bus : Bus) :
  page s = InMainLoop -> inMainMenu s = true -> justEnteredMenu s = false ->
  3 <= u8 (comboPressCount s + 1) ->
  exists w', step (Poll false false bus) s = Ret tt w' /\
    match currentMenuSelection s with
    | 0 => page (sys w') = InGraphLoop /\ isGraphDisplayed (sys w') = true
    | 1 => page (sys w') = InTimeFormatLoop /\
           inTimeFormatMenu (sys w') = true /\
           timeFormatOption (sys w') = (if use12HourFormat s then 0 else 1)
    | 2 => page (sys w') = InTimeSetLoop /\ inTimeSetMenu (sys w') = true /\
           timeToSet (sys w') =
             mkTimeSetting (hours (systemClock s)) (minutes (systemClock s)) /\
           timeFieldSelected (sys w') = 0 /\ tiltCount (sys w') = 0
    | 3 => page (sys w') = InDateSetLoop /\ inTimeSetMenu (sys w') = true /\
           dateToSet (sys w') =
             mkDateSetting (day (systemClock s)) (month (systemClock s)) /\
           dateFieldSelected (sys w') = 0 /\ tiltCount (sys w') = 0
    | 4 => page (sys w') = InMainLoop /\ inMainMenu (sys w') = false /\
           redrawClock (sys w') = true
    | _ => page (sys w') = InMainLoop /\ inMainMenu (sys w') = true
    end /\
    systemClock (sys w') = systemClock s /\
    currentMenuSelection (sys w') = currentMenuSelection s.
Proof.
  intros Hpage Hmenu Hjust Hcount.
  enough (H : satisfies (foreground false false) bus (start s)
            (fun _ w' =>
    match currentMenuSelection s with
    | 0 => page (sys w') = InGraphLoop /\ isGraphDisplayed (sys w') = true
    | 1 => page (sys w') = InTimeFormatLoop /\
           inTimeFormatMenu (sys w') = true /\
           timeFormatOption (sys w') = (if use12HourFormat s then 0 else 1)
    | 2 => page (sys w') = InTimeSetLoop /\ inTimeSetMenu (sys w') = true /\
           timeToSet (sys w') =
             mkTimeSetting (hours (systemClock s)) (minutes (systemClock s)) /\
           timeFieldSelected (sys w') = 0 /\ tiltCount (sys w') = 0
    | 3 => page (sys w') = InDateSetLoop /\ inTimeSetMenu (sys w') = true /\
           dateToSet (sys w') =
             mkDateSetting (day (systemClock s)) (month (systemClock s)) /\
           dateFieldSelected (sys w') = 0 /\ tiltCount (sys w') = 0
    | 4 => page (sys w') = InMainLoop /\ inMainMenu (sys w') = false /\
           redrawClock (sys w') = true
    | _ => page (sys w') = InMainLoop /\ inMainMenu (sys w') = true
    end /\
    systemClock (sys w') = systemClock s /\
    currentMenuSelection (sys w') = currentMenuSelection s) never).
  { apply satisfies_returns in H. destruct H as ([] & w' & E & H). eauto. }
  unfold foreground. exec. rewrite Hpage.
  unfold mainLoopBody. cbv zeta. exec. rewrite Hmenu.
  unfold mainMenuIteration. exec. rewrite Hjust. cbn [negb andb]. exec.
  destruct (Z.leb_spec 3 (u8 (comboPressCount s + 1))); [|lia].
  exec. unfold executeMenuSelection. exec.
  destruct (Z.eqb_spec (currentMenuSelection s) 0) as [E|H0].
  { rewrite E. unfold displayStepGraph_enter. exec. auto. }
  destruct (Z.eqb_spec (currentMenuSelection s) 1) as [E|H1].
  { rewrite E. unfold manageTimeFormatSelection_enter. exec. auto. }
  destruct (Z.eqb_spec (currentMenuSelection s) 2) as [E|H2].
  { rewrite E. unfold manageTimeSetPage_enter. exec. auto 10. }
  destruct (Z.eqb_spec (currentMenuSelection s) 3) as [E|H3].
  { rewrite E. unfold manageDateSetPage_enter. exec. auto 10. }
  destruct (Z.eqb_spec (currentMenuSelection s) 4) as [E|H4].
  { rewrite E. exec. unfold afterMenuSelection. exec.
    apply satisfies_menuIterationTail. intros cache evs. cbn [sys]. sys_simpl.
    auto. }
  exec. unfold afterMenuSelection. exec.
  apply satisfies_menuIterationTail. intros cache evs. cbn [sys]. sys_simpl.
  split; [|auto].
  destruct (currentMenuSelection s) as [|[[[]|[]|]|[[]|[]|]|]|]; try lia; auto.
Qed.

Lemma single_poll_resets_combo (s : Sys) (RA11 RA12 : bool) (bus : Bus) :
  page s = InMainLoop -> inMainMenu s = true -> justEnteredMenu s = false ->
  RA11 || RA12 = true ->
  exists w', step (Poll RA11 RA12 bus) s = Ret tt w' /\
    comboPressCount (sys w') = 0 /\
    page (sys w') = InMainLoop /\ inMainMenu (sys w') = true /\
    justEnteredMenu (sys w') = false.
Proof.
  intros Hpage Hmenu Hjust Hone.
  enough (H : satisfies (foreground RA11 RA12) bus (start s)
            (fun _ w' =>
               comboPressCount (sys w') = 0 /\
               page (sys w') = InMainLoop /\ inMainMenu (sys w') = true /\
               justEnteredMenu (sys w') = false) never).
  { apply satisfies_returns in H. destruct H as ([] & w' & E & H). eauto. }
  unfold foreground. exec. rewrite Hpage.
  unfold mainLoopBody. cbv zeta. exec. rewrite Hmenu.
  unfold mainMenuIteration. exec. rewrite Hjust.
  replace (negb RA11 && negb RA12) with false
    by (destruct RA11, RA12; try discriminate; reflexivity).
  exec.
  eapply satisfies_weaken with
    (post := fun _ w' =>
               comboPressCount (sys w') = 0 /\
               page (sys w') = InMainLoop /\ inMainMenu (sys w') = true /\
               justEnteredMenu (sys w') = false)
    (halt := never); [ | | auto].
  { match goal with
    | |- satisfies (if ?c then _ else _) _ _ _ _ => destruct c
    end.
    - exec. apply satisfies_renderMainMenu. intros cache drawn _. exec. auto.
    - apply satisfies_when; intros _; exec; auto. }
  intros [] w1 (Hc1 & Hp1 & Hm1 & Hj1). exec.
  eapply satisfies_weaken with
    (post := fun _ w' =>
               comboPressCount (sys w') = 0 /\
               page (sys w') = InMainLoop /\ inMainMenu (sys w') = true /\
               justEnteredMenu (sys w') = false)
    (halt := never); [ | | auto].
  { match goal with
    | |- satisfies (if ?c then _ else _) _ _ _ _ => destruct c
    end.
    - exec. apply satisfies_renderMainMenu. intros cache drawn _. exec. auto.
    - apply satisfies_when; intros _; exec; auto. }
  intros [] w2 (Hc2 & Hp2 & Hm2 & Hj2).
  apply satisfies_menuIterationTail. intros cache evs. cbn [sys]. sys_simpl.
  auto.
Qed.

(** X6. In the main menu the selection is executed by the third poll in
    a row that reads both buttons pressed: from a combo count of 0 the
    first two such polls return and change neither page, cursor nor
    clock; the third opens the page of the cursor (0 the graph, 1 the
    12H/24H page with the marker on the current format, 2 and 3 the
    set-time and set-date pages with a draft copied from the clock, the
    first field selected and the tilt streak at 0) or, on item 4, leaves
    menu mode and asks for a full redraw of the clock face.  A poll that
    does not read both buttons pressed puts the combo count back to 0. *)
Theorem third_combo_poll_executes (s : Sys) (bus : Bus)
    (Hpage : page s = InMainLoop) (Hmenu : inMainMenu s = true)
    (Hjust : justEnteredMenu s = false) (Hcombo : comboPressCount s = 0) :
  (exists s2,
      run [Poll false false bus; Poll false false bus] s = Some s2 /\
      page s2 = InMainLoop /\ inMainMenu s2 = true /\
      currentMenuSelection s2 = currentMenuSelection s /\
      systemClock s2 = systemClock s /\
      exists w3, step (Poll false false bus) s2 = Ret tt w3 /\
        match currentMenuSelection s with
        | 0 => page (sys w3) = InGraphLoop /\ isGraphDisplayed (sys w3) = true
        | 1 => page (sys w3) = InTimeFormatLoop /\
               inTimeFormatMenu (sys w3) = true /\
               timeFormatOption (sys w3)
                 = (if use12HourFormat s then 0 else 1)
        | 2 => page (sys w3) = InTimeSetLoop /\
               inTimeSetMenu (sys w3) = true /\
               timeToSet (sys w3) =
                 mkTimeSetting (hours (systemClock s))
                               (minutes (systemClock s)) /\
               timeFieldSelected (sys w3) = 0 /\ tiltCount (sys w3) = 0
        | 3 => page (sys w3) = InDateSetLoop /\
               inTimeSetMenu (sys w3) = true /\
               dateToSet (sys w3) =
                 mkDateSetting (day (systemClock s)) (month (systemClock s)) /\
               dateFieldSelected (sys w3) = 0 /\ tiltCount (sys w3) = 0
        | 4 => page (sys w3) = InMainLoop /\ inMainMenu (sys w3) = false /\
               redrawClock (sys w3) = true
        | _ => page (sys w3) = InMainLoop /\ inMainMenu (sys w3) = true
        end) /\
  (forall RA11 RA12 s0,
      page s0 = InMainLoop -> inMainMenu s0 = true ->
      justEnteredMenu s0 = false -> RA11 || RA12 = true ->
      exists w', step (Poll RA11 RA12 bus) s0 = Ret tt w' /\
                 comboPressCount (sys w') = 0).
Proof.
  split.
  - destruct (combo_poll_counts s bus Hpage Hmenu Hjust)
      as (cache1 & w1 & E1 & Hs1); [rewrite Hcombo; vm_compute; reflexivity|].
    rewrite Hcombo in Hs1. change (u8 (0 + 1)) with 1 in Hs1.
    destruct (combo_poll_counts (sys w1) bus)
      as (cache2 & w2 & E2 & Hs2);
      try (rewrite Hs1; sys_simpl; assumption);
      [rewrite Hs1; sys_simpl; vm_compute; reflexivity|].
    rewrite Hs1 in Hs2. sys_simpl_in Hs2. change (u8 (1 + 1)) with 2 in Hs2.
    exists (sys w2). rewrite run_cons, E1. cbv beta iota.
    rewrite run_cons, E2. cbv beta iota.
    split; [reflexivity|]. rewrite Hs2. sys_simpl.
    repeat (split; [first [assumption | reflexivity]|]).
    destruct (combo_poll_executes
                (set_wasInMenu true
                   (set_previousTime cache2 (set_comboPressCount 2 s))) bus)
      as (w3 & E3 & H3 & _); try assumption;
      [sys_simpl; vm_compute; discriminate|].
    exists w3. split; [exact E3|]. sys_simpl_in H3. exact H3.
  - intros RA11 RA12 s0 Hp Hm Hj Hone.
    destruct (single_poll_resets_combo s0 RA11 RA12 bus Hp Hm Hj Hone)
      as (w' & E & Hc & _).
    eauto.
Qed.

Lemma third_combo_poll_executes_witness :
  let s := set_currentMenuSelection 2 (set_inMainMenu true boot) in
  page s = InMainLoop /\ inMainMenu s = true /\ justEnteredMenu s = false /\
  comboPressCount s = 0 /\
  exists s2, run [Poll false false silent_bus; Poll false false silent_bus] s
             = Some s2 /\
    exists w3, step (Poll false false silent_bus) s2 = Ret tt w3 /\
      page (sys w3) = InTimeSetLoop /\
      timeToSet (sys w3) = mkTimeSetting 4 0.
Proof.
  intros s.
  split; [reflexivity|]. split; [reflexivity|]. split; [reflexivity|].
  split; [reflexivity|].
  destruct (proj1 (third_combo_poll_executes s silent_bus
                     eq_refl eq_refl eq_refl eq_refl))
    as (s2 & Hrun & _ & _ & _ & _ & w3 & E3 & H3).
  exists s2. split; [exact Hrun|]. exists w3. split; [exact E3|].
  change (currentMenuSelection s) with 2 in H3.
  destruct H3 as (Hp & _ & Ht & _). split; [exact Hp | exact Ht].
Defined.

(** * The tick handler on the clock face *)

Ltac bucket_block Hbucket Hmenu Hslots :=
  match goal with
  | |- satisfies _ _ (mkWorld ?s0 _ ?ev) ?post _ =>
      apply (fun Hm Hl => Hbucket s0 Hm Hl post ev);
      [sys_simpl; exact Hmenu | sys_simpl; exact Hslots|]
  end.

(** The state after the three unconditional assignments of the handler. *)
Lemma T1Interrupt_clock_face (RA11 : bool) (s : Sys) (bus : Bus)
      (clock' : ClockTime) :
  Clock.incrementSystemTime (systemClock s) = Some clock' ->
  length (stepsPerSecond s) = 60%nat ->
  inMainMenu s = false ->
  let ticked := set_showFootIcon (negb (showFootIcon s))
                  (set_elapsedSeconds (u32 (elapsedSeconds s + 1))
                     (set_systemClock clock' s)) in
  let held := u8 (t1_button1HoldCount s + 1) in
  let steps := u16 (totalSteps s - previousStepCount s) in
  let index' := (currentSecondIndex s + 1) mod HISTORY_SIZE in
  exists w', _T1Interrupt RA11 bus (start s) = Ret tt w' /\
    if negb (isGraphDisplayed s) && negb RA11 && (2 <=? held) then
      exists cache,
        sys w' = set_t1_button1HoldCount 0
                   (set_previousTime cache
                      (set_currentMenuSelection 0
                         (set_inMainMenu true ticked)))
    else
      sys w' =
        set_currentStepPace (Pace.published steps)
          (set_inactivityCount
             (if steps =? 0 then u8 (inactivityCount s + 1) else 0)
             (set_previousStepCount (totalSteps s)
                (set_stepsPerSecond
                   (<[Z.to_nat index' := 0]> (stepsPerSecond s))
                   (set_currentSecondIndex index'
                      (set_t1_button1HoldCount
                         (if isGraphDisplayed s
                          then t1_button1HoldCount s
                          else if RA11 then 0 else held)
                         ticked))))).
Proof.
  intros Hclock Hslots Hmenu. cbv zeta.
  pose proof (Z.mod_pos_bound (currentSecondIndex s + 1) HISTORY_SIZE) as Hidx.
  unfold HISTORY_SIZE in *.
  match goal with
  | |- exists w', _ /\ @?P w' =>
      enough (H : satisfies (_T1Interrupt RA11) bus (start s)
                    (fun _ w' => P w') never)
  end.
  { apply satisfies_returns in H. destruct H as ([] & w' & E & H). eauto. }
  assert (Hbucket : forall s0 : Sys,
            inMainMenu s0 = false -> length (stepsPerSecond s0) = 60%nat ->
            forall (post : unit -> World -> Prop) ev,
            post tt
              (mkWorld
                 (set_currentStepPace
                    (Pace.published (u16 (totalSteps s0 - previousStepCount s0)))
                    (set_inactivityCount
                       (if u16 (totalSteps s0 - previousStepCount s0) =? 0
                        then u8 (inactivityCount s0 + 1) else 0)
                       (set_previousStepCount (totalSteps s0)
                          (set_stepsPerSecond
                             (<[Z.to_nat ((currentSecondIndex s0 + 1) mod 60)
                                := 0]> (stepsPerSecond s0))
                             (set_currentSecondIndex
                                ((currentSecondIndex s0 + 1) mod 60) s0)))))
                 0%nat ev) ->
            satisfies
              (bind (gets inMainMenu) (fun inMenu =>
               when (negb inMenu) (
                  index ← gets currentSecondIndex;
                  let index' := u8 ((index + 1) mod HISTORY_SIZE) in
                  modify (set_currentSecondIndex index');;
                  slots ← gets stepsPerSecond;
                  slots' ← defined (array_set slots index' 0);
                  modify (set_stepsPerSecond slots');;
                  total ← gets totalSteps;
                  previous ← gets previousStepCount;
                  let stepsThisSecond := u16 (total - previous) in
                  modify (set_previousStepCount total);;
                  let rawPace := F32.mul (F32.of_int stepsThisSecond) (F32.of_int 60) in
                  inactivity ← gets inactivityCount;
                  rawPace' ← (if stepsThisSecond =? 0 then
                     modify (set_inactivityCount (u8 (inactivity + 1)));;
                     ret (if 3 <=? u8 (inactivity + 1) then F32.of_int 0 else rawPace)
                   else
                     modify (set_inactivityCount 0);;
                     ret rawPace);
                  modify (set_currentStepPace rawPace'))))
              bus (mkWorld s0 0%nat ev) post never).
  { intros s0 Hm0 Hlen post ev HP. exec. rewrite Hm0. cbn [negb when].
    exec. cbv zeta. unfold HISTORY_SIZE.
    pose proof (Z.mod_pos_bound (currentSecondIndex s0 + 1) 60).
    rewrite u8_small by lia.
    eapply satisfies_defined; [apply array_set_defined; lia|]. exec.
    destruct (Z.eqb_spec (u16 (totalSteps s0 - previousStepCount s0)) 0)
      as [E|E]; exec; [|exact HP].
    rewrite E in HP |- *.
    destruct (3 <=? u8 (inactivityCount s0 + 1)); exact HP. }
  unfold _T1Interrupt. exec.
  eapply satisfies_defined; [exact Hclock|]. exec.
  destruct (isGraphDisplayed s); cbn [negb andb when].
  { exec. bucket_block Hbucket Hmenu Hslots. sys_simpl.
    match goal with |- ?a = ?b => enough (a = b) by assumption end.
    destruct s; reflexivity. }
  destruct RA11; cbn [negb andb]; exec.
  { bucket_block Hbucket Hmenu Hslots. sys_simpl. reflexivity. }
  rewrite Hmenu. cbn [negb]. rewrite andb_true_r.
  destruct (2 <=? u8 (t1_button1HoldCount s + 1)); cbn [when]; exec.
  - apply satisfies_renderMainMenu. intros cache drawn _. exec.
    cbn [negb when]. exec. now exists cache.
  - bucket_block Hbucket Hmenu Hslots. sys_simpl. reflexivity.
Qed.

(** X7. On the clock face (not in menu mode, graph not displayed, hold
    count 0, clock valid): one tick that reads button 1 pressed only
    counts it; a second one in a row enters menu mode with the cursor on
    item 0 and the hold count back at 0; a tick that reads the button
    released in between puts the hold count back to 0 without entering
    the menu. *)
Theorem long_press_enters_menu (s : Sys)
    (Hclock : Clock.valid_clock (systemClock s))
    (Hslots : length (stepsPerSecond s) = 60%nat)
    (Hmenu : inMainMenu s = false) (Hgraph : isGraphDisplayed s = false)
    (Hhold : t1_button1HoldCount s = 0) :
  (exists s1, run [Tick false] s = Some s1 /\
     inMainMenu s1 = false /\ t1_button1HoldCount s1 = 1) /\
  (exists s2, run [Tick false; Tick false] s = Some s2 /\
     inMainMenu s2 = true /\ currentMenuSelection s2 = 0 /\
     t1_button1HoldCount s2 = 0) /\
  (exists s2, run [Tick false; Tick true] s = Some s2 /\
     inMainMenu s2 = false /\ t1_button1HoldCount s2 = 0).
Proof.
  destruct (incrementSystemTime_step _ Hclock) as (clock1 & E1 & Hvalid1 & _).
  destruct (incrementSystemTime_step _ Hvalid1) as (clock2 & E2 & _).
  destruct (T1Interrupt_clock_face false s silent_bus clock1 E1 Hslots Hmenu)
    as (w1 & Hstep1 & Hs1).
  rewrite Hgraph, Hhold in Hs1. cbn [negb andb] in Hs1.
  change (2 <=? u8 (0 + 1)) with false in Hs1. change (u8 (0 + 1)) with 1 in Hs1.
  cbv iota in Hs1.
  assert (Hmenu1 : inMainMenu (sys w1) = false) by (now rewrite Hs1).
  assert (Hhold1 : t1_button1HoldCount (sys w1) = 1) by (now rewrite Hs1).
  assert (Hgraph1 : isGraphDisplayed (sys w1) = false) by (now rewrite Hs1).
  assert (Hslots1 : length (stepsPerSecond (sys w1)) = 60%nat)
    by (rewrite Hs1; sys_simpl; now rewrite length_insert).
  assert (Hclock1 : Clock.incrementSystemTime (systemClock (sys w1))
                    = Some clock2) by (now rewrite Hs1).
  split; [|split].
  - exists (sys w1). rewrite run_cons. cbn [step]. rewrite Hstep1. auto.
  - destruct (T1Interrupt_clock_face false (sys w1) silent_bus clock2
                Hclock1 Hslots1 Hmenu1) as (w2 & Hstep2 & Hs2).
    rewrite Hgraph1, Hhold1 in Hs2. cbn [negb andb] in Hs2.
    change (2 <=? u8 (1 + 1)) with true in Hs2. cbv iota in Hs2.
    destruct Hs2 as (cache & Hs2).
    exists (sys w2). rewrite run_cons. cbn [step]. rewrite Hstep1.
    cbv beta iota. rewrite run_cons. cbn [step]. rewrite Hstep2.
    split; [reflexivity|]. now rewrite Hs2.
  - destruct (T1Interrupt_clock_face true (sys w1) silent_bus clock2
                Hclock1 Hslots1 Hmenu1) as (w2 & Hstep2 & Hs2).
    rewrite Hgraph1 in Hs2. cbn [negb andb] in Hs2. cbv iota in Hs2.
    exists (sys w2). rewrite run_cons. cbn [step]. rewrite Hstep1.
    cbv beta iota. rewrite run_cons. cbn [step]. rewrite Hstep2.
    split; [reflexivity|]. now rewrite Hs2.
Qed.

Lemma long_press_enters_menu_witness :
  Clock.valid_clock (systemClock boot) /\
  length (stepsPerSecond boot) = 60%nat /\
  inMainMenu boot = false /\ isGraphDisplayed boot = false /\
  t1_button1HoldCount boot = 0 /\
  exists s2, run [Tick false; Tick false] boot = Some s2 /\
             inMainMenu s2 = true /\ currentMenuSelection s2 = 0.
Proof.
  split; [exact boot_clock_valid|]. split; [reflexivity|].
  split; [reflexivity|]. split; [reflexivity|]. split; [reflexivity|].
  destruct (proj1 (proj2 (long_press_enters_menu boot boot_clock_valid
                            eq_refl eq_refl eq_refl eq_refl)))
    as (s2 & Hrun & Hm & Hc & _).
  exists s2. auto.
Defined.

(** X8. A tick outside menu mode that does not enter the menu (graph
    displayed, button 1 released, or first tick of a press) publishes as
    raw pace the binary32 product of the steps counted since the previous
    tick (modulo 2^16) and 60, which is 60 times the steps without
    rounding, remembers the step count, moves the bucket index to the next
    of the 60 slots and clears that slot.  The inactivity counter is
    incremented on a second without steps and cleared otherwise, and has
    no influence on the pace: a second without steps gives pace 0 at
    once. *)
Theorem tick_publishes_pace (RA11 : bool) (s : Sys) (bus : Bus)
    (clock' : ClockTime)
    (Hclock : Clock.incrementSystemTime (systemClock s) = Some clock')
    (Hslots : length (stepsPerSecond s) = 60%nat)
    (Hmenu : inMainMenu s = false)
    (Hstay : isGraphDisplayed s || RA11
             || (u8 (t1_button1HoldCount s + 1) <? 2) = true) :
  let steps := u16 (totalSteps s - previousStepCount s) in
  let index' := (currentSecondIndex s + 1) mod 60 in
  exists w', _T1Interrupt RA11 bus (start s) = Ret tt w' /\
    currentStepPace (sys w') = Pace.published steps /\
    (F32.toQ (currentStepPace (sys w')) == inject_Z (60 * steps))%Q /\
    previousStepCount (sys w') = totalSteps s /\
    totalSteps (sys w') = totalSteps s /\
    currentSecondIndex (sys w') = index' /\
    stepsPerSecond (sys w') = <[Z.to_nat index' := 0]> (stepsPerSecond s) /\
    inactivityCount (sys w') =
      (if steps =? 0 then u8 (inactivityCount s + 1) else 0) /\
    inMainMenu (sys w') = false.
Proof.
  cbv zeta.
  destruct (T1Interrupt_clock_face RA11 s bus clock' Hclock Hslots Hmenu)
    as (w' & E & Hs).
  exists w'. split; [exact E|].
  replace (negb (isGraphDisplayed s) && negb RA11
           && (2 <=? u8 (t1_button1HoldCount s + 1))) with false in Hs.
  - rewrite Hs. sys_simpl. unfold HISTORY_SIZE.
    split; [reflexivity|].
    split; [apply published_toQ, Z.mod_pos_bound; lia|]. auto 10.
  - destruct (isGraphDisplayed s), RA11; cbn [negb andb orb] in *;
      try reflexivity.
    destruct (Z.ltb_spec (u8 (t1_button1HoldCount s + 1)) 2);
      [|discriminate].
    destruct (Z.leb_spec 2 (u8 (t1_button1HoldCount s + 1))); [lia|reflexivity].
Qed.

Lemma tick_publishes_pace_witness :
  let s := set_totalSteps 2 boot in
  Clock.incrementSystemTime (systemClock s) = Some (mkClock 4 0 1 24 1) /\
  length (stepsPerSecond s) = 60%nat /\ inMainMenu s = false /\
  isGraphDisplayed s || true || (u8 (t1_button1HoldCount s + 1) <? 2) = true /\
  exists w', _T1Interrupt true silent_bus (start s) = Ret tt w' /\
    (F32.toQ (currentStepPace (sys w')) == 120)%Q /\
    currentSecondIndex (sys w') = 1.
Proof.
  intros s. split; [reflexivity|]. split; [reflexivity|].
  split; [reflexivity|]. split; [reflexivity|].
  destruct (tick_publishes_pace true s silent_bus (mkClock 4 0 1 24 1)
              eq_refl eq_refl eq_refl eq_refl)
    as (w' & E & _ & Hpace & _ & _ & Hidx & _).
  exists w'. split; [exact E|]. split; [exact Hpace | exact Hidx].
Defined.

(** Button 1 still down in the main menu after a press already handled:
    the poll leaves the cursor where it is. *)
Lemma button1_still_down (s : Sys) (bus : Bus) :
  page s = InMainLoop -> inMainMenu s = true -> justEnteredMenu s = false ->
  button1WasPressed s = true ->
  exists w', step (Poll false true bus) s = Ret tt w' /\
    currentMenuSelection (sys w') = currentMenuSelection s /\
    inMainMenu (sys w') = true.
Proof.
  intros Hpage Hmenu Hjust Hwas.
  enough (H : satisfies (foreground false true) bus (start s)
            (fun _ w' =>
               currentMenuSelection (sys w') = currentMenuSelection s /\
               inMainMenu (sys w') = true) never).
  { apply satisfies_returns in H. destruct H as ([] & w' & E & H). eauto. }
  unfold foreground. exec. rewrite Hpage.
  unfold mainLoopBody. cbv zeta. exec. rewrite Hmenu.
  unfold mainMenuIteration. exec. rewrite Hjust. cbn [negb andb].
  exec. rewrite Hwas. cbn [negb andb when]. exec.
  apply satisfies_menuIterationTail. intros cache evs. cbn [sys]. sys_simpl.
  auto.
Qed.

(** X9. The poll after a long-press entry, with button 1 still down: if
    the main loop has no press of button 1 on record
    ([button1WasPressed] clear, as after start-up) it takes the held
    button for a new press and moves the cursor from item 0 to the last
    item, 4; if a press is on record (as after any executed menu
    selection) the cursor stays on item 0. *)
Theorem long_press_held_into_menu (s : Sys) (bus : Bus)
    (Hclock : Clock.valid_clock (systemClock s))
    (Hslots : length (stepsPerSecond s) = 60%nat)
    (Hmenu : inMainMenu s = false) (Hgraph : isGraphDisplayed s = false)
    (Hhold : t1_button1HoldCount s = 1)
    (Hpage : page s = InMainLoop) (Hjust : justEnteredMenu s = false) :
  exists s', run [Tick false; Poll false true bus] s = Some s' /\
    inMainMenu s' = true /\
    currentMenuSelection s' = (if button1WasPressed s then 0 else 4).
Proof.
  destruct (incrementSystemTime_step _ Hclock) as (clock1 & E1 & _).
  destruct (T1Interrupt_clock_face false s silent_bus clock1 E1 Hslots Hmenu)
    as (w1 & Hstep1 & Hs1).
  rewrite Hgraph, Hhold in Hs1. cbn [negb andb] in Hs1.
  change (2 <=? u8 (1 + 1)) with true in Hs1. cbv iota in Hs1.
  destruct Hs1 as (cache & Hs1).
  assert (Hpage1 : page (sys w1) = InMainLoop) by (now rewrite Hs1).
  assert (Hmenu1 : inMainMenu (sys w1) = true) by (now rewrite Hs1).
  assert (Hjust1 : justEnteredMenu (sys w1) = false) by (now rewrite Hs1).
  assert (Hsel1 : currentMenuSelection (sys w1) = 0) by (now rewrite Hs1).
  assert (Hwas1 : button1WasPressed (sys w1) = button1WasPressed s)
    by (now rewrite Hs1).
  rewrite run_cons. cbn [step]. rewrite Hstep1. cbv beta iota.
  rewrite run_cons.
  destruct (button1WasPressed s) eqn:Hwas.
  - destruct (button1_still_down (sys w1) bus Hpage1 Hmenu1 Hjust1 Hwas1)
      as (w2 & E2 & Hsel2 & Hmenu2).
    rewrite E2. exists (sys w2). split; [reflexivity|]. split; [exact Hmenu2|].
    congruence.
  - destruct (button1_press (sys w1) bus Hpage1 Hmenu1 Hjust1 Hwas1)
      as (w2 & E2 & Hsel2).
    rewrite E2. exists (sys w2). split; [reflexivity|].
    rewrite Hsel2, Hsel1. split; [|reflexivity].
    enough (H : satisfies (foreground false true) bus (start (sys w1))
              (fun _ w' => inMainMenu (sys w') = true) never).
    { unfold satisfies in H. cbn [step] in E2. rewrite E2 in H. exact H. }
    unfold foreground. exec. rewrite Hpage1.
    unfold mainLoopBody. cbv zeta. exec. rewrite Hmenu1.
    unfold mainMenuIteration. exec. rewrite Hjust1. cbn [negb andb].
    exec. rewrite Hwas1. cbn [negb andb]. exec.
    apply satisfies_renderMainMenu. intros cache' drawn _. exec.
    cbn [negb andb]. apply satisfies_when; [intros _; exec | discriminate].
    apply satisfies_menuIterationTail. intros cache'' evs.
    cbn [sys]. sys_simpl. exact Hmenu1.
Qed.

Lemma long_press_held_into_menu_witness :
  let s := set_t1_button1HoldCount 1 boot in
  Clock.valid_clock (systemClock s) /\
  length (stepsPerSecond s) = 60%nat /\
  inMainMenu s = false /\ isGraphDisplayed s = false /\
  t1_button1HoldCount s = 1 /\ page s = InMainLoop /\
  justEnteredMenu s = false /\
  exists s', run [Tick false; Poll false true silent_bus] s = Some s' /\
             currentMenuSelection s' = 4.
Proof.
  intros s. split; [exact boot_clock_valid|].
  split; [reflexivity|]. split; [reflexivity|]. split; [reflexivity|].
  split; [reflexivity|]. split; [reflexivity|]. split; [reflexivity|].
  destruct (long_press_held_into_menu s silent_bus boot_clock_valid
              eq_refl eq_refl eq_refl eq_refl eq_refl eq_refl)
    as (s' & Hrun & _ & Hsel).
  exists s'. split; [exact Hrun | exact Hsel].
Defined.

(** * The graph page *)

Lemma graph_poll (s : Sys) (RA11 RA12 : bool) (bus : Bus) :
  page s = InGraphLoop ->
  let held := u8 (graph_button1HoldCount s + 1) in
  exists w', step (Poll RA11 RA12 bus) s = Ret tt w' /\
    if negb RA12 then
      page (sys w') = InMainLoop /\ inMainMenu (sys w') = true /\
      isGraphDisplayed (sys w') = false /\
      graph_button1HoldCount (sys w') = graph_button1HoldCount s
    else if negb RA11 then
      if 20 <=? held then
        page (sys w') = InMainLoop /\ inMainMenu (sys w') = false /\
        redrawClock (sys w') = true /\ isGraphDisplayed (sys w') = false /\
        graph_button1HoldCount (sys w') = held
      else sys w' = set_graph_button1HoldCount held s
    else sys w' = set_graph_button1HoldCount 0 s.
Proof.
  intros Hpage. cbv zeta.
  match goal with
  | |- exists w', _ /\ @?P w' =>
      enough (H : satisfies (foreground RA11 RA12) bus (start s)
                    (fun _ w' => P w') never)
  end.
  { apply satisfies_returns in H. destruct H as ([] & w' & E & H). eauto. }
  unfold foreground. exec. rewrite Hpage.
  unfold displayStepGraph_iter. cbv zeta.
  destruct RA12; cbn [negb]; [destruct RA11; cbn [negb]|]; exec.
  - reflexivity.
  - destruct (20 <=? u8 (graph_button1HoldCount s + 1)); exec; [|reflexivity].
    unfold displayStepGraph_leave, afterMenuSelection. exec.
    apply satisfies_menuIterationTail. intros cache evs. cbn [sys]. sys_simpl.
    auto 10.
  - apply satisfies_renderMainMenu. intros cache drawn _. exec.
    apply satisfies_updateMenuTimeDisplay. intros cache' drawn' _. exec.
    unfold displayStepGraph_leave, afterMenuSelection. exec.
    apply satisfies_menuIterationTail. intros cache'' evs. cbn [sys]. sys_simpl.
    auto 10.
Qed.

Lemma graph_hold_counts (n : nat) (bus : Bus) : forall s : Sys,
  page s = InGraphLoop ->
  0 <= graph_button1HoldCount s ->
  graph_button1HoldCount s + Z.of_nat n < 20 ->
  run (replicate n (Poll false true bus)) s =
    Some (set_graph_button1HoldCount (graph_button1HoldCount s + Z.of_nat n) s).
Proof.
  induction n as [|n IH]; intros s Hpage Hlo Hhi.
  - cbn [replicate run]. f_equal. rewrite Z.add_0_r. destruct s; reflexivity.
  - cbn [replicate]. rewrite run_cons.
    destruct (graph_poll s false true bus Hpage) as (w' & E & H).
    cbn [negb] in H. rewrite u8_small in H by lia.
    destruct (Z.leb_spec 20 (graph_button1HoldCount s + 1)); [lia|].
    rewrite E, H, IH; sys_simpl; try assumption; try lia.
    replace (graph_button1HoldCount s + 1 + Z.of_nat n)
      with (graph_button1HoldCount s + Z.of_nat (S n)) by lia.
    reflexivity.
Qed.

(** X10. On the graph page, from a hold count [h] below 20: the next
    [19 - h] polls that read button 1 alone pressed only count, and the
    one after them clears menu mode, asks for a full redraw of the clock
    face and leaves the page with the count at 20 (the count is not reset
    on leaving); a poll that reads no button puts the count back to 0;
    a poll that reads button 2 pressed, whatever button 1 reads, leaves
    the page for the main menu. *)
Theorem graph_page_polls (s : Sys) (bus : Bus)
    (Hpage : page s = InGraphLoop)
    (Hhold : 0 <= graph_button1HoldCount s < 20) :
  (exists s19,
      run (replicate (Z.to_nat (19 - graph_button1HoldCount s))
                     (Poll false true bus)) s = Some s19 /\
      s19 = set_graph_button1HoldCount 19 s /\
      exists w', step (Poll false true bus) s19 = Ret tt w' /\
        page (sys w') = InMainLoop /\ inMainMenu (sys w') = false /\
        redrawClock (sys w') = true /\ isGraphDisplayed (sys w') = false /\
        graph_button1HoldCount (sys w') = 20) /\
  (exists w', step (Poll true true bus) s = Ret tt w' /\
      sys w' = set_graph_button1HoldCount 0 s) /\
  (forall RA11, exists w', step (Poll RA11 false bus) s = Ret tt w' /\
      page (sys w') = InMainLoop /\ inMainMenu (sys w') = true /\
      isGraphDisplayed (sys w') = false).
Proof.
  split; [|split].
  - exists (set_graph_button1HoldCount 19 s).
    split; [|split; [reflexivity|]].
    + rewrite graph_hold_counts by (try assumption; lia).
      do 2 f_equal. lia.
    + destruct (graph_poll (set_graph_button1HoldCount 19 s) false true bus
                  Hpage) as (w' & E & H).
      exists w'. split; [exact E|]. exact H.
  - destruct (graph_poll s true true bus Hpage) as (w' & E & H). eauto.
  - intros RA11.
    destruct (graph_poll s RA11 false bus Hpage) as (w' & E & Hp & Hm & Hg & _).
    eauto.
Qed.

Lemma graph_page_polls_witness :
  let s := set_page InGraphLoop (set_isGraphDisplayed true
             (set_inMainMenu true boot)) in
  page s = InGraphLoop /\ 0 <= graph_button1HoldCount s < 20 /\
  exists s19, run (replicate 19 (Poll false true silent_bus)) s = Some s19 /\
    exists w', step (Poll false true silent_bus) s19 = Ret tt w' /\
      page (sys w') = InMainLoop /\ inMainMenu (sys w') = false.
Proof.
  intros s.
  assert (Hh : 0 <= graph_button1HoldCount s < 20) by (cbn; lia).
  split; [reflexivity|]. split; [exact Hh|].
  destruct (proj1 (graph_page_polls s silent_bus eq_refl Hh))
    as (s19 & Hrun & _ & w' & E & Hp & Hm & _).
  exists s19. split; [exact Hrun|]. exists w'. auto.
Defined.

(** * The display cache *)

(** ** The clock face *)

Lemma displayedHours_range (use12 : bool) (h : Z) :
  0 <= h < 24 ->
  0 <= fst (displayedHours use12 h) < 24 /\
  (use12 = true -> 1 <= fst (displayedHours use12 h) <= 12 /\
                   fst (displayedHours use12 h) mod 12 = h mod 12 /\
                   snd (displayedHours use12 h) = (12 <=? h)).
Proof.
  intros Hh. unfold displayedHours. destruct use12.
  - destruct (Z.eqb_spec h 0) as [->|H0]; cbn [fst snd].
    { split; [lia|]. intros _. split; [lia|]. split; reflexivity. }
    destruct (Z.leb_spec 12 h); cbn [fst snd].
    + destruct (Z.ltb_spec 12 h).
      * rewrite u8_small by lia. split; [lia|]. intros _.
        split; [lia|]. split; [|reflexivity].
        replace h with (h - 12 + 1 * 12) at 2 by lia.
        now rewrite Z.mod_add by lia.
      * split; [lia|]. intros _. split; [lia|]. split; reflexivity.
    + split; [lia|]. intros _. split; [lia|]. split; reflexivity.
  - cbn [fst snd]. split; [lia | discriminate].
Qed.

(** After a call the statics describe the time drawn. *)
Lemma renderClockDisplay_cache (redraw use12 : bool) (t : ClockTime)
      (c : ClockCache) :
  exists pm, fst (renderClockDisplay redraw use12 t c) = clockCacheOf use12 t pm.
Proof.
  unfold renderClockDisplay, clockCacheOf.
  set (c0 := if redraw then forgetClock use12 else c).
  destruct (displayedHours use12 (hours t)) as [dh isPM].
  cbv zeta. cbn [fst].
  exists (lastIsPM c0).
  assert (Hsame : forall x y : Z, (if negb (x =? y) then x else y) = x)
    by (intros x y; destruct (Z.eqb_spec x y); cbn; congruence).
  assert (Hor : forall (x y : Z) (b : bool),
             (if negb (x =? y) || b then x else y) = x)
    by (intros x y b; destruct (Z.eqb_spec x y), b; cbn; congruence).
  rewrite !Hor, Hsame. f_equal.
  - destruct use12; cbn [andb]; [|reflexivity].
    destruct (eqb isPM (lastIsPM c0)) eqn:E; cbn [negb orb]; [|reflexivity].
    apply eqb_prop in E.
    now destruct (_ || _).
  - destruct (day t =? lastDay c0) eqn:E; cbn [negb orb];
      [apply Z.eqb_eq in E|reflexivity].
    now destruct (_ || _).
  - destruct (month t =? lastMonth c0) eqn:E;
      [apply Z.eqb_eq in E|now rewrite orb_true_r].
    now destruct (_ || _).
Qed.

(** X11. Once the clock face has been drawn for a time [t1], a call for
    a time [t2] in the same format (no redraw requested) draws exactly
    the fields that differ, in the order hours, minutes, seconds, AM/PM,
    date: the hour digits when the displayed hour differs, the minute
    and second digits when they differ, the AM/PM label when the format
    is 12-hour and the half of the day differs, the date when the day or
    the month differs.  The same time again draws nothing. *)
Theorem clock_display_draws_differences (redraw use12 : bool)
    (t1 t2 : ClockTime) (statics : ClockCache)
    (Hhours : 0 <= hours t2 < 24) :
  let c1 := fst (renderClockDisplay redraw use12 t1 statics) in
  let '(dh1, pm1) := displayedHours use12 (hours t1) in
  let '(dh2, pm2) := displayedHours use12 (hours t2) in
  snd (renderClockDisplay false use12 t2 c1) =
    (if dh2 =? dh1 then [] else hoursField dh2)
    ++ (if minutes t2 =? minutes t1 then [] else minutesField (minutes t2))
    ++ (if seconds t2 =? seconds t1 then [] else secondsField (seconds t2))
    ++ (if use12 && negb (eqb pm2 pm1) then periodField pm2 else [])
    ++ (if (day t2 =? day t1) && (month t2 =? month t1) then []
        else dateField (day t2) (month t2)).
Proof.
  cbv zeta.
  destruct (renderClockDisplay_cache redraw use12 t1 statics) as (pm & ->).
  pose proof (displayedHours_range use12 (hours t2) Hhours) as [Hdh _].
  unfold renderClockDisplay, clockCacheOf.
  destruct (displayedHours use12 (hours t1)) as [dh1 pm1].
  destruct (displayedHours use12 (hours t2)) as [dh2 pm2].
  cbn [fst] in Hdh. cbv zeta.
  cbn [lastHours lastMinutes lastSeconds lastWas12Hour lastIsPM lastDay
       lastMonth snd].
  rewrite eqb_reflx. cbn [negb]. rewrite !orb_false_r.
  f_equal; [now destruct (dh2 =? dh1)|].
  f_equal; [now destruct (minutes t2 =? minutes t1)|].
  f_equal; [now destruct (seconds t2 =? seconds t1)|].
  destruct (Z.eqb_spec dh2 dh1) as [->|Hne]; cbn [negb].
  - assert (Hd : (dh1 =? 255) = false) by (apply Z.eqb_neq; lia).
    rewrite Hd, !orb_false_r. f_equal.
    + destruct use12; cbn [andb negb]; [|reflexivity].
      now destruct (eqb pm2 pm1).
    + now destruct (day t2 =? day t1), (month t2 =? month t1).
  - assert (Hd : (dh2 =? 255) = false) by (apply Z.eqb_neq; lia).
    rewrite Hd, !orb_false_r. f_equal.
    + destruct use12; cbn [andb negb]; [|reflexivity].
      now destruct (eqb pm2 pm1).
    + now destruct (day t2 =? day t1), (month t2 =? month t1).
Qed.

Lemma clock_display_draws_differences_witness :
  0 <= hours (mkClock 4 0 1 24 1) < 24 /\
  snd (renderClockDisplay false true (mkClock 4 0 1 24 1)
         (fst (renderClockDisplay true true (mkClock 4 0 0 24 1)
                 initialClockCache)))
  = secondsField 1.
Proof.
  assert (Hh : 0 <= hours (mkClock 4 0 1 24 1) < 24) by (cbn; lia).
  split; [exact Hh|].
  exact (clock_display_draws_differences true true (mkClock 4 0 0 24 1)
           (mkClock 4 0 1 24 1) initialClockCache Hh).
Defined.

(** X12. With a redraw requested, the call draws the whole clock face
    whatever it drew before: hours, minutes, seconds, then the AM/PM
    label in 12-hour format (in 24-hour format the label area is
    cleared), then the date; and its statics are those of the time
    drawn. *)
Theorem clock_display_redraws_all (use12 : bool) (t : ClockTime)
    (statics : ClockCache) (Hvalid : Clock.valid_clock t) :
  let '(dh, pm) := displayedHours use12 (hours t) in
  renderClockDisplay true use12 t statics =
    (clockCacheOf use12 t true,
     hoursField dh ++ minutesField (minutes t) ++ secondsField (seconds t)
     ++ (if use12 then periodField pm
         else [oledC_DrawRectangle 0 85 20 93 OLEDC_COLOR_BLACK])
     ++ dateField (day t) (month t)).
Proof.
  destruct Hvalid as (Hh & Hm & Hs & Hmo & maxDays & _ & Hd).
  pose proof (displayedHours_range use12 (hours t) Hh) as [Hdh _].
  unfold renderClockDisplay, clockCacheOf, forgetClock.
  destruct (displayedHours use12 (hours t)) as [dh pm].
  cbn [fst] in Hdh. cbv zeta.
  cbn [lastHours lastMinutes lastSeconds lastWas12Hour lastIsPM lastDay
       lastMonth].
  assert (Hformat : negb (eqb (negb use12) use12) = true)
    by (now destruct use12).
  rewrite Hformat, !orb_true_r.
  assert (Hsec : negb (seconds t =? 255) = true)
    by (destruct (Z.eqb_spec (seconds t) 255); [lia | reflexivity]).
  assert (Hday : negb (day t =? 255) || negb (month t =? 255) = true)
    by (destruct (Z.eqb_spec (month t) 255); [lia | apply orb_true_r]).
  rewrite Hsec. cbn [orb]. rewrite Hday. cbn [orb].
  destruct use12; reflexivity.
Qed.

Lemma clock_display_redraws_all_witness :
  Clock.valid_clock (systemClock boot) /\
  snd (renderClockDisplay true true (systemClock boot) initialClockCache)
  = hoursField 4 ++ minutesField 0 ++ secondsField 0 ++ periodField false
    ++ dateField 24 1.
Proof.
  split; [exact boot_clock_valid|].
  pose proof (clock_display_redraws_all true (systemClock boot)
                initialClockCache boot_clock_valid) as H.
  cbv beta iota zeta in H.
  change (displayedHours true (hours (systemClock boot))) with (4, false) in H.
  cbv beta iota in H. rewrite H. reflexivity.
Defined.

(** ** The pace text *)

Lemma decimal_inj (m n : Z) : 0 <= m -> 0 <= n -> decimal m = decimal n -> m = n.
Proof.
  unfold decimal. intros Hm Hn H.
  assert (Hu : N.to_uint (Z.to_N m) = N.to_uint (Z.to_N n)).
  { pose proof (NilEmpty.usu (N.to_uint (Z.to_N m))) as H1.
    pose proof (NilEmpty.usu (N.to_uint (Z.to_N n))) as H2.
    rewrite H in H1. congruence. }
  apply (f_equal N.of_uint) in Hu. rewrite !Unsigned.of_to in Hu. lia.
Qed.

(** X13. [displayStepPace] keeps the text it shows in its static buffer:
    a pace of at most 0.5 leaves the buffer empty, erasing the text shown
    if there is one; a larger pace leaves in it the decimal text of the
    pace rounded to the nearest integer, and when that differs from the
    text shown the old text is overdrawn in black before the new one is
    drawn in white; when it does not differ nothing is drawn.  So a
    second call with the same pace draws nothing, and a call with a pace
    that rounds to another number always redraws. *)
Theorem pace_text_follows_pace (previousText : string) (pace : Q) :
  let rounded p := u16 (Qfloor (p + (1 # 2))) in
  let textOf p :=
    if Qle_bool p (1 # 2) then EmptyString else decimal (rounded p) in
  displayStepPace previousText pace =
    (textOf pace,
     if String.eqb previousText (textOf pace) then []
     else oledC_DrawString 25 2 1 1 previousText OLEDC_COLOR_BLACK
          :: (if Qle_bool pace (1 # 2) then []
              else [oledC_DrawString 25 2 1 1 (textOf pace)
                                     OLEDC_COLOR_WHITE])) /\
  displayStepPace (textOf pace) pace = (textOf pace, []) /\
  (forall pace',
      Qle_bool pace (1 # 2) = false -> Qle_bool pace' (1 # 2) = false ->
      rounded pace' <> rounded pace ->
      displayStepPace (textOf pace) pace' =
        (textOf pace',
         [oledC_DrawString 25 2 1 1 (textOf pace) OLEDC_COLOR_BLACK;
          oledC_DrawString 25 2 1 1 (textOf pace') OLEDC_COLOR_WHITE])).
Proof.
  cbv zeta. unfold displayStepPace. split; [|split].
  - destruct (Qle_bool pace (1 # 2)); cbv zeta.
    + destruct (String.eqb_spec previousText EmptyString) as [->|Hne];
        reflexivity.
    + destruct (String.eqb_spec previousText
                  (decimal (u16 (Qfloor (pace + (1 # 2)))))) as [->|Hne];
        reflexivity.
  - destruct (Qle_bool pace (1 # 2)); cbv zeta.
    + reflexivity.
    + now rewrite String.eqb_refl.
  - intros pace' -> -> Hne. cbv zeta.
    destruct (String.eqb_spec (decimal (u16 (Qfloor (pace + (1 # 2)))))
                (decimal (u16 (Qfloor (pace' + (1 # 2)))))) as [E|_];
      [|reflexivity].
    apply decimal_inj in E; [congruence | |];
      unfold u16; apply Z.mod_pos_bound; lia.
Qed.

(** ** Two-digit fields *)

(** X14. [formatTwoDigits] gives two characters; for a value below 100
    they are its decimal digits, tens first, so the value can be read
    back; from 100 to 255 the first character is past ['9'] and the text
    is not a number. *)
Theorem formatTwoDigits_reads_back (value : Z) (Hbyte : 0 <= value < 256) :
  String.length (formatTwoDigits value) = 2%nat /\
  readTwoDigits (formatTwoDigits value)
    = (if value <? 100 then Some value else None).
Proof.
  split; [reflexivity|].
  assert (Hall : forallb (fun n : nat =>
                   match readTwoDigits (formatTwoDigits (Z.of_nat n)),
                         (if Z.of_nat n <? 100 then Some (Z.of_nat n) else None)
                   with
                   | Some a, Some b => a =? b
                   | None, None => true
                   | _, _ => false
                   end) (seq 0 256) = true) by (vm_compute; reflexivity).
  rewrite forallb_forall in Hall.
  specialize (Hall (Z.to_nat value)).
  rewrite Z2Nat.id in Hall by lia.
  assert (Hin : In (Z.to_nat value) (seq 0 256)) by (apply in_seq; lia).
  specialize (Hall Hin).
  destruct (readTwoDigits (formatTwoDigits value)) as [a|],
           (if value <? 100 then Some value else None) as [b|];
    try discriminate; [|reflexivity].
  apply Z.eqb_eq in Hall. now subst.
Qed.

Lemma formatTwoDigits_reads_back_witness :
  0 <= 59 < 256 /\ readTwoDigits (formatTwoDigits 59) = Some 59.
Proof.
  assert (H : 0 <= 59 < 256) by lia.
  split; [exact H|]. exact (proj2 (formatTwoDigits_reads_back 59 H)).
Defined.

(** ** The time line of the menu *)

Lemma updateMenuTimeDisplay_exact (bus : Bus) (w : World) :
  let text := menuTimeText (use12HourFormat (sys w)) (systemClock (sys w)) in
  updateMenuTimeDisplay bus w =
    Ret tt (mkWorld (set_previousTime text (sys w)) (busReads w)
              (events w ++
               if String.eqb (previousTime (sys w)) text then []
               else [oledC_DrawRectangle 48 80 115 88 OLEDC_COLOR_BLACK;
                     oledC_DrawString 48 80 1 1 text OLEDC_COLOR_WHITE])).
Proof.
  cbv zeta. unfold updateMenuTimeDisplay, menuTimeText, displayedHours. run.
  cbv zeta.
  assert (Hcases :
    use12HourFormat (sys w) = false \/
    (use12HourFormat (sys w) = true /\
     (hours (systemClock (sys w)) = 0 \/
      (hours (systemClock (sys w)) <> 0 /\
       exists b, (12 <=? hours (systemClock (sys w))) = b)))).
  { destruct (use12HourFormat (sys w)); [right|now left].
    split; [reflexivity|].
    destruct (Z.eq_dec (hours (systemClock (sys w))) 0); [now left|right].
    eauto. }
  destruct Hcases as [->|[-> [E0|[Hne [b Hb]]]]].
  - cbn [fst].
    match goal with
    | |- context [String.eqb ?a ?b] =>
        destruct (String.eqb_spec a b) as [E|Hd]
    end; run.
    + rewrite <- E, set_previousTime_same, app_nil_r, world_eta. reflexivity.
    + rewrite <- app_assoc. reflexivity.
  - rewrite E0. cbn [Z.leb Z.eqb Z.compare fst].
    match goal with
    | |- context [String.eqb ?a ?b] =>
        destruct (String.eqb_spec a b) as [E|Hd]
    end; run.
    + rewrite <- E, set_previousTime_same, app_nil_r, world_eta. reflexivity.
    + rewrite <- app_assoc. reflexivity.
  - destruct (Z.eqb_spec (hours (systemClock (sys w))) 0); [contradiction|].
    rewrite Hb. destruct b; cbn [fst];
    match goal with
    | |- context [String.eqb ?a ?b] =>
        destruct (String.eqb_spec a b) as [E|Hd]
    end; run;
    first [ rewrite <- E, set_previousTime_same, app_nil_r, world_eta;
            reflexivity
          | rewrite <- app_assoc; reflexivity ].
Qed.

(** X15. [updateMenuTimeDisplay] draws the time line of the menu only
    when its text, hh:mm:ss with the hour converted as on the clock face,
    differs from the text it drew last: then it clears the line and
    draws the new text; it always leaves that text in its static buffer,
    so a second call before the clock changes draws nothing and changes
    nothing, whatever the bus. *)
Theorem menu_time_drawn_on_change (bus bus' : Bus) (w : World) :
  let text := menuTimeText (use12HourFormat (sys w)) (systemClock (sys w)) in
  exists w1,
    updateMenuTimeDisplay bus w = Ret tt w1 /\
    sys w1 = set_previousTime text (sys w) /\
    events w1 = events w ++
                (if String.eqb (previousTime (sys w)) text then []
                 else [oledC_DrawRectangle 48 80 115 88 OLEDC_COLOR_BLACK;
                       oledC_DrawString 48 80 1 1 text OLEDC_COLOR_WHITE]) /\
    updateMenuTimeDisplay bus' w1 = Ret tt w1.
Proof.
  cbv zeta. eexists. split; [apply updateMenuTimeDisplay_exact|].
  split; [reflexivity|]. split; [reflexivity|].
  rewrite updateMenuTimeDisplay_exact. cbn [sys busReads events]. sys_simpl.
  rewrite String.eqb_refl, app_nil_r. reflexivity.
Qed.

(** ** The main menu *)

Lemma renderMenuItems_exact (options : list string) (bus : Bus) :
  forall (i : Z) (w : World),
  0 <= i -> i + Z.of_nat (length options) <= 19 ->
  exists drawn,
    renderMenuItems options i bus w =
      Ret tt (mkWorld (sys w) (busReads w) (events w ++ drawn)) /\
    List.filter isLabel drawn = menuLabels options i /\
    List.filter isMarker drawn =
      (if (i <=? currentMenuSelection (sys w))
          && (currentMenuSelection (sys w) <? i + Z.of_nat (length options))
       then [oledC_DrawString 4 (20 + 12 * currentMenuSelection (sys w)) 1 1
                              ">" OLEDC_COLOR_WHITE]
       else []).
Proof.
  induction options as [|o rest IH]; intros i w Hi Hlen;
    cbn [renderMenuItems length] in *.
  - exists []. rewrite app_nil_r, world_eta.
    split; [reflexivity|]. split; [reflexivity|].
    destruct (Z.leb_spec i (currentMenuSelection (sys w))),
             (Z.ltb_spec (currentMenuSelection (sys w)) (i + Z.of_nat 0));
      try reflexivity; lia.
  - run. rewrite u8_small by lia.
    replace (20 + i * 12) with (20 + 12 * i) by lia.
    destruct (Z.eqb_spec i (currentMenuSelection (sys w))) as [E|Hne]; run.
    + edestruct (IH (i + 1)) as (drawn & -> & Hlabels & Hmarkers);
        [lia | lia |].
      cbn [sys busReads events] in *. eexists (_ :: _ :: drawn).
      rewrite <- !app_assoc. split; [reflexivity|].
      cbn [List.filter isLabel isMarker Z.eqb Pos.eqb andb String.eqb
           Ascii.eqb Bool.eqb].
      rewrite Hlabels, Hmarkers. split; [reflexivity|]. rewrite <- E.
      destruct (Z.leb_spec (i + 1) i); [lia|]. cbn [andb].
      destruct (Z.leb_spec i i); [|lia].
      destruct (Z.ltb_spec i (i + Z.of_nat (S (length rest)))); [|lia].
      reflexivity.
    + edestruct (IH (i + 1)) as (drawn & -> & Hlabels & Hmarkers);
        [lia | lia |].
      cbn [sys busReads events] in *. eexists (_ :: drawn).
      rewrite <- !app_assoc. split; [reflexivity|].
      cbn [List.filter isLabel isMarker Z.eqb Pos.eqb andb].
      rewrite Hlabels, Hmarkers. split; [reflexivity|].
      destruct (Z.leb_spec (i + 1) (currentMenuSelection (sys w))),
               (Z.leb_spec i (currentMenuSelection (sys w))),
               (Z.ltb_spec (currentMenuSelection (sys w))
                           (i + 1 + Z.of_nat (length rest))),
               (Z.ltb_spec (currentMenuSelection (sys w))
                           (i + Z.of_nat (S (length rest))));
        cbn [andb]; try reflexivity; lia.
Qed.

(** X16. [renderMainMenu] clears the screen and draws the five items in
    column 10, rows 20, 32, 44, 56 and 68, in their order; it draws the
    cursor [">"] exactly once, in the row of the selected item, when the
    selection is one of 0..4, and not at all otherwise; the time line and
    the AM/PM label it draws afterwards are neither item nor cursor. *)
Theorem main_menu_marks_selection (bus : Bus) (w : World) :
  let selection := currentMenuSelection (sys w) in
  exists w' drawn,
    renderMainMenu bus w = Ret tt w' /\
    events w' = events w ++ oledC_clearScreen :: drawn /\
    List.filter isLabel drawn = menuLabels MENU_OPTIONS 0 /\
    List.filter isMarker drawn =
      (if (0 <=? selection) && (selection <? MENU_ITEM_COUNT)
       then [oledC_DrawString 4 (20 + 12 * selection) 1 1 ">"
                              OLEDC_COLOR_WHITE]
       else []).
Proof.
  cbv zeta. unfold renderMainMenu. run.
  destruct (renderMenuItems_exact MENU_OPTIONS bus 0
              (mkWorld (sys w) (busReads w) (events w ++ [oledC_clearScreen])))
    as (items & -> & Hlabels & Hmarkers); [lia | cbn; lia |].
  run. rewrite updateMenuTimeDisplay_exact. run. sys_simpl.
  cbn [sys] in Hmarkers.
  assert (Htime : forall text : string,
            let line := if String.eqb (previousTime (sys w)) text then []
                        else [oledC_DrawRectangle 48 80 115 88 OLEDC_COLOR_BLACK;
                              oledC_DrawString 48 80 1 1 text OLEDC_COLOR_WHITE] in
            List.filter isLabel line = [] /\ List.filter isMarker line = []).
  { intros text. cbv zeta.
    destruct (String.eqb (previousTime (sys w)) text); split; reflexivity. }
  destruct (Htime (menuTimeText (use12HourFormat (sys w))
                                (systemClock (sys w)))) as [Ht1 Ht2].
  destruct (use12HourFormat (sys w)); run; cbn [sys busReads events];
    eexists _, _; (split; [reflexivity|]);
    rewrite <- !app_assoc; (split; [cbn [app]; reflexivity|]);
    rewrite !List.filter_app, Ht1, Ht2, Hlabels, Hmarkers;
    cbn [List.filter isLabel isMarker Z.eqb andb app];
    rewrite !app_nil_r; auto.
Qed.

(** * The step graph *)

Section GraphProofs.
Import Graph.

Lemma yOf_range (value : Z) :
  0 <= value <= 100 -> topY <= yOf value <= baselineY.
Proof.
  intros Hv. unfold yOf, topY, baselineY, GRAPH_HEIGHT.
  change (100 - 10 - 10) with 80.
  assert (0 <= value * 80 / 100) by (apply Z.div_pos; lia).
  assert (value * 80 / 100 <= 80)
    by (apply Z.div_le_upper_bound; lia).
  lia.
Qed.

Lemma xOf_range (i : Z) :
  1 <= i <= 89 -> xLeft <= xOf (i - 1) <= xOf i /\ xOf i <= xRight.
Proof.
  intros Hi. unfold xOf, xLeft, xRight, GRAPH_WIDTH.
  change (90 - 5) with 85. change (90 - 1) with 89.
  assert (0 <= (i - 1) * 85 / 89) by (apply Z.div_pos; lia).
  assert ((i - 1) * 85 / 89 <= i * 85 / 89) by (apply Z.div_le_mono; lia).
  assert (i * 85 / 89 <= 85) by (apply Z.div_le_upper_bound; lia).
  lia.
Qed.

Lemma gridRow_onScreen (fuel : nat) (y : Z) : forall x : Z,
  xLeft <= x -> topY <= y <= baselineY ->
  Forall onScreen (gridRow fuel x y).
Proof.
  induction fuel as [|fuel IH]; intros x Hx Hy; cbn [gridRow];
    [constructor|].
  destruct (Z.leb_spec x xRight); [|constructor].
  constructor; [cbn; lia|]. apply IH; [lia | exact Hy].
Qed.

Lemma gridLevel_onScreen (value : Z) :
  10 <= value <= 100 ->
  Forall onScreen (gridLevel value) /\
  List.filter isPaceLine (gridLevel value) = [].
Proof.
  intros Hv. unfold gridLevel. cbv zeta.
  pose proof (yOf_range value ltac:(lia)) as Hy. split.
  - apply Forall_app. split; [apply gridRow_onScreen; [reflexivity | exact Hy]|].
    constructor; [|constructor]. cbn [onScreen].
    assert (yOf value <= 82).
    { unfold yOf, baselineY, topY, GRAPH_HEIGHT. change (100 - 10 - 10) with 80.
      assert (8 <= value * 80 / 100) by (apply Z.div_le_lower_bound; lia).
      lia. }
    unfold topY, baselineY, GRAPH_HEIGHT in Hy. lia.
  - rewrite List.filter_app. cbn [List.filter isPaceLine app].
    rewrite app_nil_r.
    generalize xLeft. generalize 100%nat.
    induction n as [|n IH]; intros x; cbn [gridRow]; [reflexivity|].
    destruct (x <=? xRight); [|reflexivity]. cbn [List.filter isPaceLine].
    apply IH.
Qed.

Lemma array_get_lookup {A} (l : list A) (i : Z) :
  0 <= i -> array_get l i = l !! Z.to_nat i.
Proof. intros Hi. unfold array_get. destruct (Z.ltb_spec i 0); [lia|reflexivity]. Qed.

Lemma activePairs_cons (before sample : Z) (rest : list Z) :
  activePairs (before :: sample :: rest) =
  Nat.add (if (0 <? sample) || (0 <? before) then 1%nat else 0%nat)
          (activePairs (sample :: rest)).
Proof. reflexivity. Qed.

Lemma paceLines_onScreen (history : list Z) :
  length history = 90%nat ->
  Forall (fun pace => 0 <= pace <= 100) history ->
  forall (remaining : nat) (i before : Z),
  1 <= i -> i + Z.of_nat remaining = 90 ->
  history !! Z.to_nat (i - 1) = Some before ->
  exists lines,
    paceLines remaining i history (xOf (i - 1)) (yOf before) = Some lines /\
    Forall onScreen lines /\
    List.filter isPaceLine lines = lines /\
    length lines = activePairs (drop (Z.to_nat (i - 1)) history).
Proof.
  intros Hlen Hpace. induction remaining as [|remaining IH];
    intros i before Hi Hsum Hbefore; cbn [paceLines].
  - exists []. split; [reflexivity|]. split; [constructor|].
    split; [reflexivity|].
    rewrite (drop_S _ _ _ Hbefore), drop_ge by lia. reflexivity.
  - assert (Hlt : (Z.to_nat i < length history)%nat) by lia.
    destruct (lookup_lt_is_Some_2 _ _ Hlt) as (sample & Hsample).
    rewrite !array_get_lookup by lia. rewrite Hsample, Hbefore.
    cbn [mbind option_bind].
    destruct (IH (i + 1) sample) as (rest & Hrest & Hon & Hfilter & Hcount);
      [lia | lia | now replace (i + 1 - 1) with i by lia |].
    replace (i + 1 - 1) with i in * by lia.
    rewrite Hrest. cbn [mbind option_bind]. eexists. split; [reflexivity|].
    rewrite (drop_S _ _ _ Hbefore).
    replace (S (Z.to_nat (i - 1))) with (Z.to_nat i) by lia.
    rewrite (drop_S _ _ _ Hsample) in Hcount |- *.
    rewrite activePairs_cons, <- Hcount.
    pose proof (xOf_range i ltac:(lia)) as Hx.
    assert (Hy1 : topY <= yOf before <= baselineY).
    { apply yOf_range.
      exact (proj1 (Forall_lookup _ _) Hpace _ _ Hbefore). }
    assert (Hy2 : topY <= yOf sample <= baselineY).
    { apply yOf_range.
      exact (proj1 (Forall_lookup _ _) Hpace _ _ Hsample). }
    destruct ((0 <? sample) || (0 <? before)); cbn [app].
    + split; [constructor; [cbn [onScreen]; lia | exact Hon]|].
      cbn [List.filter isPaceLine length]. rewrite Hfilter. auto.
    + auto.
Qed.

(** X17. For a pace history of 90 samples between 0 and 100 (as every
    state of a run has it), [displayStepGraph] reads the history inside
    its bounds and everything it draws is on the 96 by 96 screen: the
    three dotted grid lines and the segments of the pace curve stay
    inside the plot area, from column 5 to 90 and row 10 to 90, every
    segment going from left to right; and it draws one segment for each
    pair of neighbouring samples of which one at least is not 0, so a
    history of zeros gives no curve. *)
Theorem graph_stays_in_plot_area (history : list Z)
    (Hlen : length history = 90%nat)
    (Hpace : Forall (fun pace => 0 <= pace <= 100) history) :
  exists calls,
    draw history = Some calls /\
    Forall onScreen calls /\
    length (List.filter isPaceLine calls) = activePairs history.
Proof.
  unfold draw. cbv zeta.
  assert (H0 : (0 < length history)%nat) by lia.
  destruct (lookup_lt_is_Some_2 _ _ H0) as (first & Hfirst).
  rewrite array_get_lookup by lia. change (Z.to_nat 0) with 0%nat.
  rewrite Hfirst. cbn [mbind option_bind].
  destruct (paceLines_onScreen history Hlen Hpace
              (Z.to_nat (GRAPH_WIDTH - 1)) 1 first)
    as (lines & Hlines & Hon & Hfilter & Hcount);
    [lia | reflexivity | exact Hfirst |].
  change (xOf (1 - 1)) with xLeft in Hlines.
  rewrite Hlines. cbn [mbind option_bind]. eexists. split; [reflexivity|].
  destruct (gridLevel_onScreen 30 ltac:(lia)) as [Hg30 Hf30].
  destruct (gridLevel_onScreen 60 ltac:(lia)) as [Hg60 Hf60].
  destruct (gridLevel_onScreen 100 ltac:(lia)) as [Hg100 Hf100].
  split.
  - rewrite !Forall_app. repeat split; try assumption.
    vm_compute. repeat constructor; discriminate.
  - rewrite !List.filter_app, Hf30, Hf60, Hf100, Hfilter.
    change (List.filter isPaceLine (axisTicks 10 0)) with (@nil PlotCall).
    cbn [app]. exact Hcount.
Qed.

Lemma graph_stays_in_plot_area_witness :
  length (stepRateHistory boot) = 90%nat /\
  Forall (fun pace => 0 <= pace <= 100) (stepRateHistory boot) /\
  exists calls, draw (stepRateHistory boot) = Some calls /\
    List.filter isPaceLine calls = [].
Proof.
  assert (Hlen : length (stepRateHistory boot) = 90%nat) by reflexivity.
  assert (Hpace : Forall (fun pace => 0 <= pace <= 100) (stepRateHistory boot))
    by apply boot_wellFormed.
  split; [exact Hlen|]. split; [exact Hpace|].
  destruct (graph_stays_in_plot_area _ Hlen Hpace) as (calls & E & _ & Hcount).
  exists calls. split; [exact E|].
  change (activePairs (stepRateHistory boot)) with 0%nat in Hcount.
  now apply length_zero_iff_nil.
Defined.

End GraphProofs.

(** * The foot icon *)

Section IconProofs.
Import Icon.

Lemma land_bit (word n : Z) :
  0 <= n -> (Z.land word (Z.shiftl 1 n) =? 0) = negb (Z.testbit word n).
Proof.
  intros Hn. rewrite Z.shiftl_1_l.
  destruct (Z.testbit word n) eqn:Hbit; cbn [negb].
  - apply Z.eqb_neq. intros H0.
    assert (Hb : Z.testbit (Z.land word (2 ^ n)) n = true)
      by (now rewrite Z.land_spec, Hbit, Z.pow2_bits_true).
    rewrite H0, Z.bits_0 in Hb. discriminate.
  - apply Z.eqb_eq. apply Z.bits_inj'. intros k Hk.
    rewrite Z.land_spec, Z.bits_0, Z.pow2_bits_eqb by lia.
    destruct (Z.eqb_spec n k) as [<-|Hne];
      [now rewrite Hbit | apply andb_false_r].
Qed.

Lemma iconColumns_points (x y : Z) (bitmap : list Z) (width row word : Z) :
  0 <= row -> bitmap !! Z.to_nat row = Some word -> width <= 16 ->
  forall (remaining : nat) (col : Z),
  0 <= col -> col + Z.of_nat remaining = width ->
  exists points,
    iconColumns remaining col x y bitmap width row = Some points /\
    forall px py,
      In (px, py) points <->
      py = u8 (y + row) /\
      exists c, col <= c < width /\ px = u8 (x + c) /\
                Z.testbit word (width - 1 - c) = true.
Proof.
  intros Hrow Hword Hwide. induction remaining as [|remaining IH];
    intros col Hcol Hsum; cbn [iconColumns].
  - exists []. split; [reflexivity|]. intros px py. split; [intros []|].
    intros (_ & c & Hc & _). lia.
  - unfold array_get. destruct (Z.ltb_spec row 0); [lia|].
    rewrite Hword. cbn [mbind option_bind].
    unfold shiftOne.
    destruct (Z.leb_spec 0 (width - 1 - col)); [|lia].
    destruct (Z.ltb_spec (width - 1 - col) 16); [|lia].
    cbn [andb mbind option_bind].
    rewrite (u8_small (col + 1)) by lia.
    destruct (IH (col + 1)) as (rest & -> & Hrest); [lia | lia |].
    cbn [mbind option_bind]. eexists. split; [reflexivity|].
    intros px py. rewrite in_app_iff, Hrest, land_bit, negb_involutive by lia.
    split.
    + intros [Hhere | (Hy & c & Hc & Hx & Hbit)].
      * destruct (Z.testbit word (width - 1 - col)) eqn:Hbit; [|destruct Hhere].
        destruct Hhere as [[= <- <-]|[]].
        split; [reflexivity|]. exists col. split; [lia|]. auto.
      * split; [exact Hy|]. exists c. split; [lia|]. auto.
    + intros (Hy & c & Hc & Hx & Hbit).
      destruct (Z.eq_dec c col) as [->|Hne].
      * left. rewrite Hbit. left. now subst.
      * right. split; [exact Hy|]. exists c. split; [lia|]. auto.
Qed.

Lemma iconRows_points (x y : Z) (bitmap : list Z) (width height : Z) :
  0 <= width <= 16 -> height <= Z.of_nat (length bitmap) -> height < 256 ->
  forall (remaining : nat) (row : Z),
  0 <= row -> row + Z.of_nat remaining = height ->
  exists points,
    iconRows remaining row x y bitmap width = Some points /\
    forall px py,
      In (px, py) points <->
      exists r c word,
        row <= r < height /\ 0 <= c < width /\
        bitmap !! Z.to_nat r = Some word /\
        Z.testbit word (width - 1 - c) = true /\
        px = u8 (x + c) /\ py = u8 (y + r).
Proof.
  intros Hwidth Hheight Hbyte. induction remaining as [|remaining IH];
    intros row Hrow Hsum; cbn [iconRows].
  - exists []. split; [reflexivity|]. intros px py. split; [intros []|].
    intros (r & c & word & Hr & _). lia.
  - assert (Hlt : (Z.to_nat row < length bitmap)%nat) by lia.
    destruct (lookup_lt_is_Some_2 _ _ Hlt) as (word & Hword).
    destruct (iconColumns_points x y bitmap width row word Hrow Hword
                (proj2 Hwidth) (Z.to_nat width) 0)
      as (points & -> & Hpoints); [lia | lia |].
    cbn [mbind option_bind].
    rewrite (u8_small (row + 1)) by lia.
    destruct (IH (row + 1)) as (rest & -> & Hrest); [lia | lia |].
    cbn [mbind option_bind]. eexists. split; [reflexivity|].
    intros px py. rewrite in_app_iff, Hpoints, Hrest. split.
    + intros [(Hy & c & Hc & Hx & Hbit) | (r & c & w & Hr & Hc & Hw & Hb & E)].
      * exists row, c, word. repeat split; auto; lia.
      * exists r, c, w. repeat split; auto; lia.
    + intros (r & c & w & Hr & Hc & Hw & Hb & Hx & Hy).
      destruct (Z.eq_dec r row) as [->|Hne].
      * left. split; [exact Hy|]. exists c. split; [exact Hc|].
        split; [exact Hx|]. congruence.
      * right. exists r, c, w. repeat split; auto; lia.
Qed.

(** X18. [renderFootIcon], called with a width of at most 16 (from 17 on
    its shift [1 << (width - 1 - col)] is undefined for the first
    columns) on a bitmap with at least [height] rows, reads the bitmap
    inside its bounds and sets exactly the points of the bits that are
    set among the low [width] bits of the first [height] rows, the
    highest of these bits in the leftmost column: the point in column [c]
    and row [r] of the icon is set exactly when bit [width - 1 - c] of
    row [r] is.  When the icon does not pass the coordinate 255, every
    point lies in the box of [width] by [height] points at [(x, y)],
    which the main loop clears before each call. *)
Theorem foot_icon_points (x y : Z) (bitmap : list Z) (width height : Z)
    (Hx : is_uint8 x) (Hy : is_uint8 y)
    (Hbitmap : Forall is_uint16 bitmap)
    (Hwidth : 0 <= width <= 16)
    (Hheight : 0 <= height <= Z.of_nat (length bitmap))
    (Hbyte : is_uint8 height) :
  exists points,
    renderFootIcon x y bitmap width height = Some points /\
    (forall px py,
        In (px, py) points <->
        exists r c word,
          0 <= r < height /\ 0 <= c < width /\
          bitmap !! Z.to_nat r = Some word /\
          Z.testbit word (width - 1 - c) = true /\
          px = u8 (x + c) /\ py = u8 (y + r)) /\
    (x + width <= 256 -> y + height <= 256 ->
     forall px py, In (px, py) points ->
        x <= px < x + width /\ y <= py < y + height).
Proof.
  destruct (iconRows_points x y bitmap width height Hwidth (proj2 Hheight)
              (proj2 Hbyte) (Z.to_nat height) 0)
    as (points & E & Hpoints); [lia | lia |].
  exists points. split; [exact E|]. split; [exact Hpoints|].
  intros Hright Hbottom px py Hin. apply Hpoints in Hin.
  destruct Hin as (r & c & word & Hr & Hc & _ & _ & -> & ->).
  unfold is_uint8 in *. rewrite !u8_small by lia. lia.
Qed.

Lemma foot_icon_points_witness :
  is_uint8 0 /\ is_uint8 0 /\ Forall is_uint16 FOOT_ICON_1 /\
  0 <= 16 <= 16 /\ 0 <= 16 <= Z.of_nat (length FOOT_ICON_1) /\
  is_uint8 16 /\
  exists points, renderFootIcon 0 0 FOOT_ICON_1 16 16 = Some points /\
    forall px py, In (px, py) points -> 0 <= px < 0 + 16 /\ 0 <= py < 0 + 16.
Proof.
  assert (Hzero : is_uint8 0) by (unfold is_uint8; lia).
  assert (Hwords : Forall is_uint16 FOOT_ICON_1)
    by (repeat constructor; unfold is_uint16; lia).
  assert (Hw : 0 <= 16 <= 16) by lia.
  assert (Hh : 0 <= 16 <= Z.of_nat (length FOOT_ICON_1)) by (cbn; lia).
  assert (Hb : is_uint8 16) by (unfold is_uint8; lia).
  repeat (split; [assumption|]).
  destruct (foot_icon_points 0 0 FOOT_ICON_1 16 16 Hzero Hzero Hwords Hw Hh Hb)
    as (points & E & _ & Hbox).
  exists points. split; [exact E|]. apply Hbox; lia.
Defined.

End IconProofs.
(** * The clock face, poll by poll *)

(** ** The sensor path, by what the bus delivers *)

Lemma satisfies_readByte_sensed (reg : Z) (message : string) (bus : Bus)
      (w : World) (post : Z -> World -> Prop) halt :
  (forall byte reads evs,
      sensedByte bus (busReads w) reg = Some (byte, reads) ->
      post byte (mkWorld (sys w) reads (events w ++ evs))) ->
  (sensedByte bus (busReads w) reg = None ->
   forall k evs,
     halt message (mkWorld (sys w) k (events w ++ evs ++ fatal message))) ->
  satisfies (readByte 3 0 3 reg message) bus w post halt.
Proof.
  intros Hpost Hhalt. unfold satisfies, sensedByte in *.
  pose proof (readByte_retries reg message bus w) as H.
  destruct (firstSuccess _) as [[i byte]|]; rewrite H.
  - now apply Hpost.
  - rewrite (app_assoc (failedAttempts 2 reg)). now apply Hhalt.
Qed.

Lemma satisfies_readAccelerometerAxis_sensed (reg : Z) (bus : Bus) (w : World)
      (post : Z -> World -> Prop) (halt : string -> World -> Prop) :
  (forall v reads evs,
      sensedAxis bus (busReads w) reg = Some (v, reads) ->
      post v (mkWorld (sys w) reads (events w ++ evs))) ->
  (sensedAxis bus (busReads w) reg = None ->
   forall message w', sensorHalt w message w' -> halt message w') ->
  satisfies (readAccelerometerAxis reg) bus w post halt.
Proof.
  intros Hpost Hhalt. unfold readAccelerometerAxis, sensedAxis in *. cbv zeta.
  change (Z.to_nat 3) with 3%nat.
  apply satisfies_bind, satisfies_readByte_sensed.
  - intros low reads1 evs Elow. rewrite Elow in *.
    apply satisfies_bind, satisfies_readByte_sensed; cbn [busReads sys events].
    + intros high reads2 evs' Ehigh. rewrite Ehigh in *.
      apply satisfies_ret. rewrite <- app_assoc. now apply Hpost.
    + intros Ehigh k evs'. rewrite Ehigh in *. apply Hhalt; [reflexivity|].
      split; [now right|]. split; [reflexivity|].
      exists (evs ++ evs'). cbn [events]. now rewrite <- !app_assoc.
  - intros Elow k evs. rewrite Elow in *. apply Hhalt; [reflexivity|].
    split; [now left|]. split; [reflexivity|]. now exists evs.
Qed.

Lemma satisfies_readAccelerometer_sensed (bus : Bus) (w : World)
      (post : AccelerometerData -> World -> Prop)
      (halt : string -> World -> Prop) :
  busReads w = 0%nat ->
  (forall a k evs,
      sensedSample bus = Some a ->
      post a (mkWorld (sys w) k (events w ++ evs))) ->
  (sensedSample bus = None ->
   forall message w', sensorHalt w message w' -> halt message w') ->
  satisfies readAccelerometer bus w post halt.
Proof.
  intros Hreads Hpost Hhalt. unfold readAccelerometer, sensedSample in *.
  apply satisfies_bind, satisfies_readAccelerometerAxis_sensed;
    rewrite Hreads.
  2: { intros E. rewrite E in *. now apply Hhalt. }
  intros x reads1 evs1 Ex. rewrite Ex in *.
  apply satisfies_bind, satisfies_readAccelerometerAxis_sensed;
    cbn [busReads sys events].
  2: { intros E. rewrite E in *. intros message w' Hh.
       apply Hhalt; [reflexivity|].
       eapply sensorHalt_later; [| |exact Hh]; [reflexivity|].
       cbn [events]. now exists evs1. }
  intros y reads2 evs2 Ey. rewrite Ey in *.
  apply satisfies_bind, satisfies_readAccelerometerAxis_sensed;
    cbn [busReads sys events].
  2: { intros E. rewrite E in *. intros message w' Hh.
       apply Hhalt; [reflexivity|].
       eapply sensorHalt_later; [| |exact Hh]; [reflexivity|].
       cbn [events]. exists (evs1 ++ evs2). now rewrite app_assoc. }
  intros z reads3 evs3 Ez. rewrite Ez in *.
  apply satisfies_ret. cbn [sys events]. rewrite <- !app_assoc.
  now apply Hpost.
Qed.

(** [detectStep] on the sample the bus delivers: the flags, and on a
    rising edge the step count and the bucket of the current second. *)
Lemma satisfies_detectStep_sensed (bus : Bus) (w : World)
      (post : unit -> World -> Prop) (halt : string -> World -> Prop) :
  busReads w = 0%nat ->
  length (stepsPerSecond (sys w)) = 60%nat ->
  0 <= currentSecondIndex (sys w) < 60 ->
  (forall a count k evs,
      sensedSample bus = Some a ->
      array_get (stepsPerSecond (sys w)) (currentSecondIndex (sys w))
        = Some count ->
      let edge :=
        exceedsThreshold a && negb (wasStepThresholdExceeded (sys w)) in
      post tt (mkWorld
                 (set_wasStepThresholdExceeded (exceedsThreshold a)
                    (set_stepsPerSecond
                       (if edge
                        then <[Z.to_nat (currentSecondIndex (sys w))
                               := u8 (count + 1)]> (stepsPerSecond (sys w))
                        else stepsPerSecond (sys w))
                       (set_totalSteps
                          (if edge then u16 (totalSteps (sys w) + 1)
                           else totalSteps (sys w))
                          (set_isMovementActive (exceedsThreshold a) (sys w)))))
                 k (events w ++ evs))) ->
  (sensedSample bus = None ->
   forall message w', sensorHalt w message w' -> halt message w') ->
  satisfies detectStep bus w post halt.
Proof.
  intros Hreads Hlen Hindex Hpost Hhalt. unfold detectStep.
  apply satisfies_bind.
  apply satisfies_readAccelerometer_sensed; [exact Hreads| |exact Hhalt].
  intros a k evs Ea. cbv zeta.
  destruct (array_get_defined (stepsPerSecond (sys w))
              (currentSecondIndex (sys w))) as (count & Hget); [lia|].
  specialize (Hpost a count).
  eapply satisfies_weaken with (halt := never); [|intros ? ? H; exact H|
                                                  intros ? ? []].
  exec. apply satisfies_when; intros Hedge.
  - exec. eapply satisfies_defined; [exact Hget|]. exec.
    eapply satisfies_defined; [apply array_set_defined; lia|]. exec.
    rewrite <- app_assoc.
    pose proof (fun evs' => Hpost k evs' Ea Hget) as Hp.
    cbv zeta in Hp. rewrite Hedge in Hp. apply Hp.
  - exec. specialize (Hpost k evs Ea Hget). cbv zeta in Hpost.
    rewrite Hedge in Hpost.
    match goal with
    | H : post tt (mkWorld ?s1 _ _) |- post tt (mkWorld ?s2 _ _) =>
        replace s2 with s1; [exact H|]
    end.
    destruct (sys w); reflexivity.
Qed.

(** X19. A poll on the clock face (main loop, not in menu mode) from a
    well-formed state.  When every byte of the sample is delivered
    within three attempts, the poll returns: it has set the two LEDs to
    the state of the two buttons, counted a step exactly when the sample
    exceeds the threshold and the one before did not, moved the
    displayed pace one step toward the raw pace, stored that pace as a
    whole number in the graph sample of the current second (slot
    [elapsedSeconds mod 90], overwriting what an earlier poll of the
    same second stored), cleared the redraw request, and cleared the
    icon box and drawn the foot icon exactly when the displayed pace is
    above 0.  When a byte fails three times in a row, the poll halts
    with the message of that byte and leaves the step count, the
    buckets, both paces and the graph samples as they were. *)
Theorem clock_face_poll (s : Sys) (RA11 RA12 : bool) (bus : Bus)
    (Hwf : wellFormed s) (Hpage : page s = InMainLoop)
    (Hmenu : inMainMenu s = false) :
  let leds := [LED1_PORT (if RA11 then 0 else 1);
               LED2_PORT (if RA12 then 0 else 1)] in
  match sensedSample bus with
  | Some accel =>
      exists w', step (Poll RA11 RA12 bus) s = Ret tt w' /\
        let displayed := Pace.track (displayedStepPace s) (currentStepPace s) in
        let edge := exceedsThreshold accel && negb (wasStepThresholdExceeded s) in
        totalSteps (sys w') =
          (if edge then u16 (totalSteps s + 1) else totalSteps s) /\
        wasStepThresholdExceeded (sys w') = exceedsThreshold accel /\
        displayedStepPace (sys w') = displayed /\
        (exists sample,
            F32.to_uint8 displayed = Some sample /\ 0 <= sample <= 100 /\
            stepRateHistory (sys w') =
              <[Z.to_nat (elapsedSeconds s mod GRAPH_WIDTH) := sample]>
                (stepRateHistory s)) /\
        redrawClock (sys w') = false /\ wasInMenu (sys w') = false /\
        exists sensed,
          events w' =
            leds ++ sensed
            ++ [Draws "displayStepPace"; Draws "renderClockDisplay";
                oledC_DrawRectangle 0 0 15 15 OLEDC_COLOR_BLACK]
            ++ (if F32.ltb (F32.of_int 0) displayed
                then [Draws "renderFootIcon"] else [])
            ++ [DELAY_milliseconds 20]
  | None =>
      exists message w', step (Poll RA11 RA12 bus) s = Halted message w' /\
        (message = "I2C Read Error (LSB)"%string \/
         message = "I2C Read Error (MSB)"%string) /\
        stepView (sys w') = stepView s /\
        displayedStepPace (sys w') = displayedStepPace s /\
        stepRateHistory (sys w') = stepRateHistory s /\
        exists sensed, events w' = leds ++ sensed ++ fatal message
  end.
Proof.
  cbv zeta. cbn [step].
  set (leds := [LED1_PORT (if RA11 then 0 else 1);
                LED2_PORT (if RA12 then 0 else 1)]).
  enough (H : satisfies (foreground RA11 RA12) bus (start s)
            (fun _ w' => exists accel, sensedSample bus = Some accel /\
               totalSteps (sys w') =
                 (if exceedsThreshold accel && negb (wasStepThresholdExceeded s)
                  then u16 (totalSteps s + 1) else totalSteps s) /\
               wasStepThresholdExceeded (sys w') = exceedsThreshold accel /\
               displayedStepPace (sys w')
                 = Pace.track (displayedStepPace s) (currentStepPace s) /\
               (exists sample,
                   F32.to_uint8 (Pace.track (displayedStepPace s)
                                            (currentStepPace s)) = Some sample /\
                   0 <= sample <= 100 /\
                   stepRateHistory (sys w') =
                     <[Z.to_nat (elapsedSeconds s mod GRAPH_WIDTH) := sample]>
                       (stepRateHistory s)) /\
               redrawClock (sys w') = false /\ wasInMenu (sys w') = false /\
               exists sensed,
                 events w' =
                   leds ++ sensed
                   ++ [Draws "displayStepPace"; Draws "renderClockDisplay";
                       oledC_DrawRectangle 0 0 15 15 OLEDC_COLOR_BLACK]
                   ++ (if F32.ltb (F32.of_int 0)
                            (Pace.track (displayedStepPace s) (currentStepPace s))
                       then [Draws "renderFootIcon"] else [])
                   ++ [DELAY_milliseconds 20])
            (fun message w' => sensedSample bus = None /\
               (message = "I2C Read Error (LSB)"%string \/
                message = "I2C Read Error (MSB)"%string) /\
               stepView (sys w') = stepView s /\
               displayedStepPace (sys w') = displayedStepPace s /\
               stepRateHistory (sys w') = stepRateHistory s /\
               exists sensed, events w' = leds ++ sensed ++ fatal message)).
  { unfold satisfies in H.
    destruct (foreground RA11 RA12 bus (start s)) as [[] w'|message w'|];
      [| |contradiction].
    - destruct H as (accel & -> & H). eauto.
    - destruct H as (-> & H). eauto. }
  assert (Hslots : length (stepsPerSecond s) = 60%nat) by apply Hwf.
  assert (Hindex : 0 <= currentSecondIndex s < 60) by apply Hwf.
  assert (Hhist : length (stepRateHistory s) = 90%nat) by apply Hwf.
  destruct Hwf as (_ & _ & _ & _ & _ & _ & _
                   & (whole & Hwhole & Ewhole) & (steps & Hsteps & Esteps)).
  unfold foreground. exec. rewrite Hpage.
  unfold mainLoopBody. cbv zeta. exec. rewrite Hmenu.
  unfold clockIteration. exec.
  replace (if negb RA11 then 1 else 0) with (if RA11 then 0 else 1)
    by (now destruct RA11).
  replace (if negb RA12 then 1 else 0) with (if RA12 then 0 else 1)
    by (now destruct RA12).
  fold leds.
  eapply satisfies_weaken with
    (post := fun _ w1 =>
       (sys w1 = s \/ sys w1 = set_wasInMenu false s) /\
       wasInMenu (sys w1) = false /\ busReads w1 = 0%nat /\
       exists cleared, events w1 = leds ++ cleared)
    (halt := never); [ | | intros ? ? []].
  { apply satisfies_when; intros Hwas; exec.
    - split; [now right|]. split; [reflexivity|]. split; [reflexivity|].
      now exists [oledC_DrawRectangle 0 80 115 88 OLEDC_COLOR_BLACK].
    - split; [now left|]. split; [exact Hwas|]. split; [reflexivity|].
      now exists []. }
  intros [] w1 (Hs1 & Hwas1 & Hreads1 & cleared & Hev1).
  assert (Hfields : stepView (sys w1) = stepView s /\
                    displayedStepPace (sys w1) = displayedStepPace s /\
                    currentStepPace (sys w1) = currentStepPace s /\
                    elapsedSeconds (sys w1) = elapsedSeconds s /\
                    stepRateHistory (sys w1) = stepRateHistory s /\
                    stepsPerSecond (sys w1) = stepsPerSecond s /\
                    currentSecondIndex (sys w1) = currentSecondIndex s /\
                    totalSteps (sys w1) = totalSteps s /\
                    wasStepThresholdExceeded (sys w1)
                      = wasStepThresholdExceeded s)
    by (destruct Hs1 as [-> | ->]; repeat split).
  destruct Hfields as (Hview & Hd & Hraw & Hel & Hh & Hsl & Hix & Htot & Hwas).
  apply satisfies_bind.
  apply satisfies_detectStep_sensed; [exact Hreads1 | congruence | congruence | |].
  2: { intros Enone message w' (Hmsg & Hsys & evs & Hev).
       rewrite Hsys. repeat (split; [assumption|]).
       exists (cleared ++ evs). rewrite Hev, Hev1, <- !app_assoc. reflexivity. }
  intros a count k evs Ea _. cbv zeta. exec.
  rewrite Hd, Hraw, Hel, Hh, Htot, Hwas.
  rewrite Ewhole, Esteps, (track_whole whole steps Hwhole Hsteps).
  pose proof (paceStep_range whole (60 * steps)) as Hstep.
  eapply satisfies_defined; [apply whole_to_uint8; lia|]. exec.
  pose proof (Z.mod_pos_bound (elapsedSeconds s) GRAPH_WIDTH) as Hslot.
  unfold GRAPH_WIDTH in Hslot |- *.
  eapply satisfies_defined; [apply array_set_defined; lia|]. exec.
  apply satisfies_when; intros Hfoot; exec; rewrite Hfoot;
    exists a; (split; [exact Ea|]);
    (split; [reflexivity|]); (split; [reflexivity|]);
    (split; [reflexivity|]);
    (split; [eexists; split; [apply whole_to_uint8; lia|];
             split; [lia | reflexivity]|]);
    (split; [reflexivity|]); (split; [exact Hwas1|]);
    exists (cleared ++ evs); rewrite Hev1, <- !app_assoc; reflexivity.
Qed.

Lemma clock_face_poll_witness :
  let bus := sampleBus (mkAccel 0 0 256) in
  wellFormed boot /\ page boot = InMainLoop /\ inMainMenu boot = false /\
  sensedSample bus = Some (mkAccel 0 0 256) /\
  exists w', step (Poll true false bus) boot = Ret tt w' /\
    totalSteps (sys w') = 0 /\
    displayedStepPace (sys w') = F32.of_int 0 /\
    take 2 (events w') = [LED1_PORT 0; LED2_PORT 1].
Proof.
  intros bus.
  assert (E : sensedSample bus = Some (mkAccel 0 0 256))
    by (vm_compute; reflexivity).
  split; [exact boot_wellFormed|]. split; [reflexivity|]. split; [reflexivity|].
  split; [exact E|].
  pose proof (clock_face_poll boot true false bus boot_wellFormed
                eq_refl eq_refl) as H.
  cbv zeta in H. rewrite E in H.
  destruct H as (w' & Hstep & Ht & _ & Hd & _ & _ & _ & sensed & Hev).
  exists w'. split; [exact Hstep|]. split; [exact Ht|].
  split; [exact Hd|]. rewrite Hev. reflexivity.
Defined.

(** ** A sensor that does not answer *)

Lemma readAccelerometer_dead (bus : Bus) (w : World)
      (post : AccelerometerData -> World -> Prop) :
  deadSensor bus -> busReads w = 0%nat ->
  satisfies readAccelerometer bus w post
    (fun message w' => message = "I2C Read Error (LSB)"%string /\
                       sys w' = sys w).
Proof.
  intros Hdead Hreads. unfold readAccelerometer, readAccelerometerAxis.
  cbv zeta. change (Z.to_nat 3) with 3%nat.
  apply satisfies_bind, satisfies_bind. unfold satisfies.
  pose proof (readByte_retries REG_DATA_X0 "I2C Read Error (LSB)" bus w) as H.
  unfold firstSuccess in H. rewrite Hreads in H. cbn [Nat.add] in H.
  rewrite !Hdead in H by lia. rewrite H. auto.
Qed.

(** X20. When the sensor does not answer (three failed reads in a row
    of the first data register), a poll that needs a sample halts with
    the message "I2C Read Error (LSB)" and commits nothing: on the clock
    face the step count and both paces are as before; on the set-time
    and set-date pages the clock is as before and the page stays open,
    whatever the buttons did to the draft in that poll. *)
Theorem dead_sensor_halts_poll (s : Sys) (RA11 RA12 : bool) (bus : Bus)
    (Hdead : deadSensor bus)
    (Htime : valid_time (timeToSet s)) (Hdate : valid_date (dateToSet s)) :
  (page s = InMainLoop -> inMainMenu s = false ->
   exists w', step (Poll RA11 RA12 bus) s
              = Halted "I2C Read Error (LSB)" w' /\
     totalSteps (sys w') = totalSteps s /\
     currentStepPace (sys w') = currentStepPace s /\
     displayedStepPace (sys w') = displayedStepPace s) /\
  (page s = InTimeSetLoop \/ page s = InDateSetLoop ->
   inTimeSetMenu s = true ->
   exists w', step (Poll RA11 RA12 bus) s
              = Halted "I2C Read Error (LSB)" w' /\
     systemClock (sys w') = systemClock s /\
     page (sys w') = page s /\ inTimeSetMenu (sys w') = true).
Proof.
  assert (Hhalts : forall (post : unit -> World -> Prop)
                          (halt : World -> Prop),
            satisfies (foreground RA11 RA12) bus (start s)
              (fun _ _ => False)
              (fun message w' =>
                 message = "I2C Read Error (LSB)"%string /\ halt w') ->
            exists w', step (Poll RA11 RA12 bus) s
                       = Halted "I2C Read Error (LSB)" w' /\ halt w').
  { intros _ halt H. unfold satisfies in H. cbn [step].
    destruct (foreground RA11 RA12 bus (start s)) as [a w'|message w'|];
      [contradiction| |contradiction].
    destruct H as [-> H]. eauto. }
  split.
  - intros Hpage Hmenu.
    apply (Hhalts (fun _ _ => True)
             (fun w' => totalSteps (sys w') = totalSteps s /\
                        currentStepPace (sys w') = currentStepPace s /\
                        displayedStepPace (sys w') = displayedStepPace s)).
    unfold foreground. exec. rewrite Hpage.
    unfold mainLoopBody. cbv zeta. exec. rewrite Hmenu.
    unfold clockIteration. exec.
    eapply satisfies_weaken with
      (post := fun _ w1 =>
         busReads w1 = 0%nat /\ totalSteps (sys w1) = totalSteps s /\
         currentStepPace (sys w1) = currentStepPace s /\
         displayedStepPace (sys w1) = displayedStepPace s)
      (halt := never); [ | | intros ? ? []].
    { apply satisfies_when; intros _; exec; auto. }
    intros [] w1 (Hreads & Ht & Hc & Hd).
    apply satisfies_bind. unfold detectStep. apply satisfies_bind.
    eapply satisfies_weaken;
      [apply (readAccelerometer_dead bus w1 (fun _ _ => False) Hdead Hreads)
      | intros ? ? [] |].
    intros message w' (-> & Hsys). cbv beta. rewrite Hsys. auto.
  - intros Hpage Hactive.
    apply (Hhalts (fun _ _ => True)
             (fun w' => systemClock (sys w') = systemClock s /\
                        page (sys w') = page s /\
                        inTimeSetMenu (sys w') = true)).
    unfold foreground. exec.
    destruct Hpage as [Hpage | Hpage]; rewrite Hpage.
    + unfold manageTimeSetPage_iter. exec. rewrite Hactive. cbn [negb].
      apply satisfies_bind.
      apply processTimeSetInput_edits; [exact Htime|]. intros evs.
      apply satisfies_bind. unfold checkTiltToSave. apply satisfies_bind.
      match goal with
      | |- satisfies readAccelerometer _ ?w1 _ _ =>
          eapply satisfies_weaken;
            [apply (readAccelerometer_dead bus w1 (fun _ _ => False) Hdead
                      eq_refl)
            | intros ? ? [] |]
      end.
      intros message w' (-> & Hsys). cbv beta. rewrite Hsys.
      cbn [sys]. sys_simpl. auto.
    + unfold manageDateSetPage_iter. exec. rewrite Hactive. cbn [negb].
      apply satisfies_bind.
      apply satisfies_processDateSetInput; [exact Hdate|].
      intros draft field evs _ _.
      apply satisfies_bind. unfold checkTiltToSave. apply satisfies_bind.
      match goal with
      | |- satisfies readAccelerometer _ ?w1 _ _ =>
          eapply satisfies_weaken;
            [apply (readAccelerometer_dead bus w1 (fun _ _ => False) Hdead
                      eq_refl)
            | intros ? ? [] |]
      end.
      intros message w' (-> & Hsys). cbv beta. rewrite Hsys.
      cbn [sys]. sys_simpl. auto.
Qed.

Lemma silent_bus_dead : deadSensor silent_bus.
Proof. intros n _. reflexivity. Qed.

Lemma dead_sensor_halts_poll_witness :
  deadSensor silent_bus /\ valid_time (timeToSet boot) /\
  valid_date (dateToSet boot) /\ page boot = InMainLoop /\
  inMainMenu boot = false /\
  exists w', step (Poll true true silent_bus) boot
             = Halted "I2C Read Error (LSB)" w' /\
             totalSteps (sys w') = 0.
Proof.
  assert (Htime : valid_time (timeToSet boot)) by apply boot_wellFormed.
  assert (Hdate : valid_date (dateToSet boot)) by apply boot_wellFormed.
  split; [exact silent_bus_dead|]. split; [exact Htime|].
  split; [exact Hdate|]. split; [reflexivity|]. split; [reflexivity|].
  destruct (proj1 (dead_sensor_halts_poll boot true true silent_bus
                     silent_bus_dead Htime Hdate) eq_refl eq_refl)
    as (w' & E & Ht & _).
  exists w'. split; [exact E|]. rewrite Ht. reflexivity.
Defined.
(** * Start-up *)

Section StartupProofs.
Import Startup.

(** The three iterations of a loop, written out. *)
Lemma attempts_unrolled (t : Transfer) (accepted : I2Cerror -> Z -> bool)
      (message : string) (wire : Wire) (n : nat) :
  let reply k := Transferred t (fst (wire k t)) (u8 (snd (wire k t))) in
  let ok k := accepted (fst (wire k t)) (u8 (snd (wire k t))) in
  attempts 3 0 t accepted message wire n =
    if ok n then ([reply n], Some (S n))
    else if ok (S n) then ([reply n; Delay 10; reply (S n)], Some (S (S n)))
    else if ok (S (S n))
    then ([reply n; Delay 10; reply (S n); Delay 10; reply (S (S n))],
          Some (S (S (S n))))
    else ([reply n; Delay 10; reply (S n); Delay 10; reply (S (S n));
           Fatal message], None).
Proof.
  cbv zeta. cbn [attempts].
  change (0 =? 2) with false. change (0 + 1 =? 2) with false.
  change (0 + 1 + 1 =? 2) with true. cbv iota.
  destruct (accepted (fst (wire n t)) (u8 (snd (wire n t))));
    [reflexivity|].
  destruct (accepted (fst (wire (S n) t)) (u8 (snd (wire (S n) t))));
    [reflexivity|].
  destruct (accepted (fst (wire (S (S n)) t)) (u8 (snd (wire (S (S n)) t))));
    reflexivity.
Qed.

Ltac entries :=
  repeat (apply List.Forall_cons;
          [first [ now left | now (right; left)
                 | right; right; now eauto | right; now eauto 6 ]|]);
  try apply List.Forall_nil.

(** What a loop leaves in the log. *)
Lemma attempts_log (t : Transfer) (accepted : I2Cerror -> Z -> bool)
      (message : string) (wire : Wire) (n : nat) :
  let result := attempts 3 0 t accepted message wire n in
  let log := fst result in
  (length (List.filter isTransfer log) <= 3)%nat /\
  Forall (fun e => e = Delay 10 \/ e = Fatal message \/
                   exists status byte, e = Transferred t status byte) log /\
  match snd result with
  | Some n' =>
      n' = (n + length (List.filter isTransfer log))%nat /\
      List.filter isFatal log = [] /\
      exists before status byte,
        log = before ++ [Transferred t status byte] /\
        accepted status byte = true /\
        Forall (fun e => e = Delay 10 \/
                         exists s b, e = Transferred t s b /\
                                     accepted s b = false) before
  | None =>
      exists before, log = before ++ [Fatal message] /\
        length (List.filter isTransfer before) = 3%nat /\
        Forall (fun e => e = Delay 10 \/
                         exists s b, e = Transferred t s b /\
                                     accepted s b = false) before
  end.
Proof.
  cbv zeta. rewrite attempts_unrolled. cbv zeta.
  destruct (accepted (fst (wire n t)) (u8 (snd (wire n t)))) eqn:E0;
    [|destruct (accepted (fst (wire (S n) t)) (u8 (snd (wire (S n) t))))
        eqn:E1;
      [|destruct (accepted (fst (wire (S (S n)) t))
                           (u8 (snd (wire (S (S n)) t)))) eqn:E2]];
    cbn [fst snd List.filter isTransfer isFatal length];
    (split; [lia|]);
    (split; [entries|]).
  - split; [lia|]. split; [reflexivity|].
    exists [], (fst (wire n t)), (u8 (snd (wire n t))).
    split; [reflexivity|]. split; [exact E0 | entries].
  - split; [lia|]. split; [reflexivity|].
    eexists [_; _], _, _. split; [reflexivity|]. split; [exact E1|].
    entries.
  - split; [lia|]. split; [reflexivity|].
    eexists [_; _; _; _], _, _. split; [reflexivity|]. split; [exact E2|].
    entries.
  - eexists [_; _; _; _; _]. split; [reflexivity|]. split; [reflexivity|].
    entries.
Qed.

Lemma rejected_entries (t : Transfer) (accepted : I2Cerror -> Z -> bool)
      (l : list Step) :
  Forall (fun e => e = Delay 10 \/
                   exists s b, e = Transferred t s b /\ accepted s b = false) l ->
  List.filter isFatal l = [] /\
  (forall device reg, t = Read device reg -> List.filter isWrite l = []) /\
  (forall device, t = Read device 0 -> accepted = identified ->
                  List.filter isIdentification l = []).
Proof.
  induction 1 as [|e l He _ (IH1 & IH2 & IH3)]; [repeat split|].
  destruct He as [->|(s & b & -> & Hrej)]; cbn [List.filter isFatal isWrite
                                                   isIdentification].
  - repeat split; auto.
  - split; [exact IH1|]. split.
    + intros device reg ->. eauto.
    + intros device -> ->. cbn [isIdentification].
      replace (match s with OK => b =? 229 | I2C_FAILED => false end)
        with (identified s b) by (now destruct s).
      rewrite Hrej. eauto.
Qed.

Lemma identified_entry (device : Z) (s : I2Cerror) (b : Z) :
  isIdentification (Transferred (Read device 0) s b) = identified s b.
Proof. now destruct s. Qed.

(** One run of the identity check. *)
Lemma checkDeviceId_log (wire : Wire) (n : nat) :
  let log := fst (checkDeviceId wire n) in
  (length (List.filter isTransfer log) <= 3)%nat /\
  List.filter isWrite log = [] /\
  match snd (checkDeviceId wire n) with
  | Some n' =>
      n' = (n + length (List.filter isTransfer log))%nat /\
      List.filter isFatal log = [] /\
      length (List.filter isIdentification log) = 1%nat
  | None =>
      exists before,
        log = before ++ [Fatal "I2C Error or Wrong Device ID"] /\
        List.filter isFatal before = []
  end.
Proof.
  cbv zeta. unfold checkDeviceId.
  pose proof (attempts_log (Read ACCEL_WRITE_ADDR 0) identified
                "I2C Error or Wrong Device ID" wire n) as (Hn & _ & Hout).
  cbv zeta in Hout. split; [exact Hn|].
  destruct (snd (attempts 3 0 (Read ACCEL_WRITE_ADDR 0) identified
                   "I2C Error or Wrong Device ID" wire n)) as [n'|].
  - destruct Hout as (Hcount & Hfatal & before & s & b & Hlog & Hacc & Hrej).
    destruct (rejected_entries _ _ _ Hrej) as (_ & Hw & Hi).
    rewrite Hlog in *. rewrite !List.filter_app in *.
    rewrite (Hw _ _ eq_refl), (Hi _ eq_refl eq_refl).
    cbn [List.filter isWrite isTransfer isFatal app] in *.
    rewrite identified_entry, Hacc. auto.
  - destruct Hout as (before & Hlog & _ & Hrej).
    destruct (rejected_entries _ _ _ Hrej) as (Hf & Hw & _).
    rewrite Hlog. rewrite List.filter_app, (Hw _ _ eq_refl).
    split; [reflexivity|]. eauto.
Qed.

(** One of the two configuration writes. *)
Lemma write_log (reg value : Z) (message : string) (wire : Wire) (n : nat) :
  let result := attempts 3 0 (Write ACCEL_WRITE_ADDR reg value) acknowledged
                         message wire n in
  let log := fst result in
  (length (List.filter isTransfer log) <= 3)%nat /\
  match snd result with
  | Some n' =>
      n' = (n + length (List.filter isTransfer log))%nat /\
      List.filter isFatal log = [] /\
      exists before byte,
        log = before ++ [Transferred (Write ACCEL_WRITE_ADDR reg value) OK byte]
  | None =>
      exists before, log = before ++ [Fatal message] /\
                     List.filter isFatal before = []
  end.
Proof.
  cbv zeta.
  pose proof (attempts_log (Write ACCEL_WRITE_ADDR reg value) acknowledged
                message wire n) as (Hn & _ & Hout).
  cbv zeta in Hout. split; [exact Hn|].
  destruct (snd (attempts 3 0 (Write ACCEL_WRITE_ADDR reg value) acknowledged
                   message wire n)) as [n'|].
  - destruct Hout as (Hcount & Hfatal & before & s & b & Hlog & Hacc & _).
    split; [exact Hcount|]. split; [exact Hfatal|].
    exists before, b. destruct s; [exact Hlog | discriminate].
  - destruct Hout as (before & Hlog & _ & Hrej).
    destruct (rejected_entries _ _ _ Hrej) as (Hf & _). eauto.
Qed.

Lemma andThen_some (first : list Step * option nat)
      (second : nat -> list Step * option nat) (n : nat) :
  snd first = Some n ->
  andThen first second = (fst first ++ fst (second n), snd (second n)).
Proof. unfold andThen. now intros ->. Qed.

Lemma andThen_none (first : list Step * option nat)
      (second : nat -> list Step * option nat) :
  snd first = None -> andThen first second = first.
Proof. unfold andThen. now intros ->. Qed.

(** X21. Whatever the bus answers, the start-up of [main] makes at most
    twelve transfers, three per loop.  It writes to the sensor only
    after the identity register has been read back as 0xE5 with status
    OK twice, once by [main] and once by [initializeAccelerometer]: a
    read that succeeds with another identity counts as a failure.  It
    either returns, without any fatal error, its last transfer being
    the acknowledged write of 0x0B to the data-format register 0x31, or
    it halts in [haltWithError] as the last thing it does, with the
    message of the loop whose three attempts failed. *)
Theorem startup_identifies_before_writing (wire : Wire) :
  let log := fst (main_startup wire) in
  (exists checks writes,
      log = checks ++ writes /\
      List.filter isWrite checks = [] /\
      (writes <> [] -> length (List.filter isIdentification checks) = 2%nat)) /\
  (length (List.filter isTransfer log) <= 12)%nat /\
  match snd (main_startup wire) with
  | Some n =>
      n = length (List.filter isTransfer log) /\
      List.filter isFatal log = [] /\
      exists before byte,
        log = before ++ [Transferred (Write ACCEL_WRITE_ADDR 0x31 0x0B) OK byte]
  | None =>
      exists before message,
        log = before ++ [Fatal message] /\
        List.filter isFatal before = [] /\
        In message ["I2C Error or Wrong Device ID"; "Accel Power Error";
                    "Accel Data Format Error"]%string
  end.
Proof.
  cbv zeta. unfold main_startup.
  pose proof (checkDeviceId_log wire 0) as (Ht0 & Hw0 & Hout0).
  cbv zeta in *.
  destruct (snd (checkDeviceId wire 0)) as [n0|] eqn:E0.
  2: { rewrite (andThen_none _ _ E0), E0.
       destruct Hout0 as (before & Hlog & Hfatal).
       split; [|split; [lia|]].
       - exists (fst (checkDeviceId wire 0)), [].
         rewrite app_nil_r. split; [reflexivity|]. split; [exact Hw0|].
         now intros [].
       - exists before, "I2C Error or Wrong Device ID"%string.
         split; [exact Hlog|]. split; [exact Hfatal|]. now left. }
  rewrite (andThen_some _ _ _ E0). cbn [fst snd].
  destruct Hout0 as (-> & Hf0 & Hid0). cbn [Nat.add].
  set (log0 := fst (checkDeviceId wire 0)) in *.
  set (n0 := length (List.filter isTransfer log0)) in *.
  unfold initializeAccelerometer.
  pose proof (checkDeviceId_log wire n0) as (Ht1 & Hw1 & Hout1).
  cbv zeta in *.
  destruct (snd (checkDeviceId wire n0)) as [n1|] eqn:E1.
  2: { rewrite (andThen_none _ _ E1), E1.
       destruct Hout1 as (before & Hlog & Hfatal).
       split; [|split].
       - exists (log0 ++ fst (checkDeviceId wire n0)), [].
         rewrite app_nil_r. split; [reflexivity|].
         rewrite List.filter_app, Hw0, Hw1. split; [reflexivity|].
         now intros [].
       - rewrite List.filter_app, length_app. fold n0. lia.
       - exists (log0 ++ before), "I2C Error or Wrong Device ID"%string.
         rewrite Hlog, <- app_assoc. split; [reflexivity|].
         rewrite List.filter_app, Hf0, Hfatal. split; [reflexivity|]. now left. }
  rewrite (andThen_some _ _ _ E1). cbn [fst snd].
  destruct Hout1 as (-> & Hf1 & Hid1).
  set (log1 := fst (checkDeviceId wire n0)) in *.
  set (n1 := (n0 + length (List.filter isTransfer log1))%nat) in *.
  assert (Hchecks : List.filter isWrite (log0 ++ log1) = [] /\
                    length (List.filter isIdentification (log0 ++ log1)) = 2%nat /\
                    List.filter isFatal (log0 ++ log1) = [] /\
                    length (List.filter isTransfer (log0 ++ log1)) = n1).
  { rewrite !List.filter_app, !length_app, Hw0, Hw1, Hf0, Hf1, Hid0, Hid1.
    auto. }
  destruct Hchecks as (Hw & Hid & Hf & Hn1).
  pose proof (write_log REG_POWER_CTL MEASURE_MODE "Accel Power Error" wire n1)
    as (Ht2 & Hout2).
  cbv zeta in *.
  destruct (snd (attempts 3 0 (Write ACCEL_WRITE_ADDR REG_POWER_CTL MEASURE_MODE)
                   acknowledged "Accel Power Error" wire n1)) as [n2|] eqn:E2.
  2: { rewrite (andThen_none _ _ E2), E2.
       destruct Hout2 as (before & Hlog & Hfatal).
       split; [|split].
       - eexists (log0 ++ log1), _. rewrite app_assoc.
         split; [reflexivity|]. split; [exact Hw|]. intros _. exact Hid.
       - rewrite app_assoc, List.filter_app, length_app, Hn1. lia.
       - exists (log0 ++ log1 ++ before), "Accel Power Error"%string.
         rewrite Hlog, <- !app_assoc. split; [reflexivity|].
         rewrite app_assoc, List.filter_app, Hf, Hfatal.
         split; [reflexivity|]. right. now left. }
  rewrite (andThen_some _ _ _ E2). cbn [fst snd].
  destruct Hout2 as (-> & Hf2 & _).
  set (log2 := fst (attempts 3 0
                      (Write ACCEL_WRITE_ADDR REG_POWER_CTL MEASURE_MODE)
                      acknowledged "Accel Power Error" wire n1)) in *.
  set (n2 := (n1 + length (List.filter isTransfer log2))%nat) in *.
  pose proof (write_log 0x31 0x0B "Accel Data Format Error" wire n2)
    as (Ht3 & Hout3).
  cbv zeta in *.
  set (log3 := fst (attempts 3 0 (Write ACCEL_WRITE_ADDR 49 11) acknowledged
                      "Accel Data Format Error" wire n2)) in *.
  assert (Hsplit : log0 ++ log1 ++ log2 ++ log3
                   = (log0 ++ log1) ++ (log2 ++ log3))
    by (now rewrite <- !app_assoc).
  split; [|split].
  - eexists (log0 ++ log1), _. split; [exact Hsplit|].
    split; [exact Hw|]. intros _. exact Hid.
  - rewrite Hsplit, !List.filter_app, !length_app.
    rewrite List.filter_app, length_app in Hn1. lia.
  - destruct (snd (attempts 3 0 (Write ACCEL_WRITE_ADDR 49 11) acknowledged
                     "Accel Data Format Error" wire n2)) as [n3|].
    + destruct Hout3 as (-> & Hf3 & before & byte & Hlog).
      split; [|split].
      * rewrite Hsplit, !List.filter_app, !length_app.
        rewrite List.filter_app, length_app in Hn1. lia.
      * rewrite Hsplit, !List.filter_app.
        rewrite List.filter_app in Hf. now rewrite Hf, Hf2, Hf3.
      * exists (log0 ++ log1 ++ log2 ++ before), byte.
        rewrite Hlog, <- !app_assoc. reflexivity.
    + destruct Hout3 as (before & Hlog & Hfatal).
      exists (log0 ++ log1 ++ log2 ++ before),
             "Accel Data Format Error"%string.
      rewrite Hlog, <- !app_assoc. split; [reflexivity|].
      split; [|right; right; now left].
      now rewrite !List.filter_app, Hf0, Hf1, Hf2, Hfatal.
Qed.

End StartupProofs.

(** * The sensor bench program *)

Section WorkingAccProofs.
Import WorkingAcc.
Local Close Scope mach_scope.

Lemma decimal_fits (n : Z) :
  0 <= n < 65536 -> (String.length (decimal n) <? 6)%nat = true.
Proof.
  intros Hn.
  apply (allFrom_spec (fun k => (String.length (decimal k) <? 6)%nat)
                      (Z.to_nat 65536) 0 n).
  - vm_compute. reflexivity.
  - rewrite Z2Nat.id; lia.
Qed.

Lemma u16_range (n : Z) : 0 <= u16 n < 65536.
Proof. unfold u16. apply Z.mod_pos_bound. lia. Qed.

Lemma u16_next_differs (n : Z) : 0 <= n < 65536 -> u16 (n + 1) <> n.
Proof.
  unfold u16. intros Hn H.
  destruct (Z.eq_dec n 65535) as [-> | Hne]; [discriminate H|].
  rewrite Z.mod_small in H by lia. lia.
Qed.

Lemma last_cons_default {A} (a d : A) (l : list A) :
  List.last (a :: l) d = List.last l a.
Proof.
  revert a d. induction l as [|b l IH]; intros a d; [reflexivity|].
  change (List.last (a :: b :: l) d) with (List.last (b :: l) d).
  rewrite IH. symmetry. apply IH.
Qed.

Lemma detectStep_edge (accel : AccelerometerData) (s : Statics) :
  let edge := above accel && negb (wasAboveThreshold s) in
  detectStep accel s =
    (mkStatics (above accel) (above accel)
               (if edge then u16 (stepCount s + 1) else stepCount s)
               (inactivityCounter s) (oldStr s),
     printf_mag (magnitude accel)
                (F32.fabsf (F32.sub (magnitude accel) baselineGravity))
     :: (if edge then [printf_count (u16 (stepCount s + 1))] else [])).
Proof.
  cbv zeta. unfold detectStep. fold (above accel).
  now destruct (above accel && negb (wasAboveThreshold s)).
Qed.

Lemma drawSteps_shows (s : Statics) :
  0 <= stepCount s < 65536 ->
  exists s' drawn,
    drawSteps s = Some (s', drawn) /\ inSync s' /\
    stepCount s' = stepCount s /\
    wasAboveThreshold s' = wasAboveThreshold s /\
    drawn = if String.eqb (oldStr s) (decimal (stepCount s)) then []
            else [DrawString 80 2 1 1 (oldStr s) OLEDC_COLOR_BLACK;
                  DrawString 80 2 1 1 (decimal (stepCount s)) OLEDC_COLOR_WHITE].
Proof.
  intros Hn. unfold drawSteps. rewrite (decimal_fits _ Hn).
  destruct (String.eqb (oldStr s) (decimal (stepCount s))) eqn:E; cbn.
  - apply String.eqb_eq in E. now exists s, [].
  - eexists _, _. split; [reflexivity|]. now cbn.
Qed.

(** X22. However long the bench program runs and whatever the sensor
    returns, [sprintf] never writes past the six bytes of [drawSteps]'s
    buffer, and the step count has grown, modulo 65536, by the number of
    samples whose dynamic force exceeds 200 while the one before did
    not, each of them printing one step line; once the loop has run the
    text kept for the display is the decimal text of the count. *)
Theorem bench_counts_rising_edges (samples : list AccelerometerData)
        (s : Statics) :
  0 <= stepCount s < 65536 ->
  let edges := risingEdges (wasAboveThreshold s) (map above samples) in
  exists s' calls,
    iterations samples s = Some (s', calls) /\
    stepCount s' = u16 (stepCount s + Z.of_nat edges) /\
    length (List.filter isCountLine calls) = edges /\
    wasAboveThreshold s' = List.last (map above samples) (wasAboveThreshold s) /\
    (samples <> [] -> inSync s').
Proof.
  revert s. induction samples as [|accel rest IH]; intros s Hn; cbv zeta.
  - exists s, []. cbn. rewrite Z.add_0_r. unfold u16.
    rewrite Z.mod_small by lia.
    do 4 (split; [reflexivity|]). intros Hne. now destruct Hne.
  - cbn [iterations map risingEdges]. unfold countAndShow.
    rewrite detectStep_edge. cbv zeta.
    set (edge := above accel && negb (wasAboveThreshold s)).
    set (count := if edge then u16 (stepCount s + 1) else stepCount s).
    set (s1 := mkStatics _ _ count _ _).
    assert (Hn1 : 0 <= stepCount s1 < 65536).
    { cbn. unfold count. destruct edge; [apply u16_range | exact Hn]. }
    destruct (drawSteps_shows s1 Hn1)
      as (s2 & drawn & -> & Hsync & Hcount & Hwas & Hdrawn).
    assert (Hn2 : 0 <= stepCount s2 < 65536) by (rewrite Hcount; exact Hn1).
    destruct (IH s2 Hn2) as (s' & later & Hrun & Hc & Hlines & Hlast & Hsync').
    rewrite Hrun. rewrite Hwas, Hcount in *. cbn [stepCount wasAboveThreshold s1] in *.
    eexists _, _. split; [reflexivity|].
    assert (Hdrawn' : List.filter isCountLine drawn = []).
    { rewrite Hdrawn. now destruct (String.eqb _ _). }
    split; [|split; [|split]].
    + rewrite Hc. unfold count. destruct edge.
      * unfold u16. rewrite Zplus_mod_idemp_l. f_equal; lia.
      * f_equal; lia.
    + rewrite !List.filter_app, !length_app, Hdrawn', Hlines.
      now destruct edge.
    + rewrite Hlast. symmetry. apply last_cons_default.
    + intros _. destruct rest as [|accel' rest'].
      * cbn in Hrun. injection Hrun as <- <-. exact Hsync.
      * apply Hsync'. discriminate.
Qed.

Lemma bench_counts_rising_edges_witness :
  let samples := [mkAccel 0 0 0; mkAccel 0 0 256; mkAccel 0 0 0] in
  let s := initialStatics in
  0 <= stepCount s < 65536 /\
  exists s' calls,
    iterations samples s = Some (s', calls) /\ stepCount s' = 2.
Proof.
  intros samples s.
  assert (Hn : 0 <= stepCount s < 65536) by (cbn; lia).
  split; [exact Hn|].
  destruct (bench_counts_rising_edges samples s Hn)
    as (s' & calls & Hrun & Hcount & _).
  exists s', calls. split; [exact Hrun|]. rewrite Hcount. reflexivity.
Defined.

(** X23. While the display shows the count, an iteration of the bench
    loop leaves it showing the count, and it draws exactly when it
    counts a step: nothing when the sample is not a rising edge, and
    otherwise the old count overdrawn in black and then the new one,
    which is another number also when the counter wraps, in white. *)
Theorem bench_redraws_on_steps (accel : AccelerometerData) (s : Statics) :
  0 <= stepCount s < 65536 -> inSync s ->
  exists s' calls,
    countAndShow accel s = Some (s', calls) /\ inSync s' /\
    if above accel && negb (wasAboveThreshold s)
    then stepCount s' <> stepCount s /\
         List.filter isDraw calls =
           [DrawString 80 2 1 1 (decimal (stepCount s)) OLEDC_COLOR_BLACK;
            DrawString 80 2 1 1 (decimal (stepCount s')) OLEDC_COLOR_WHITE]
    else stepCount s' = stepCount s /\ List.filter isDraw calls = [].
Proof.
  intros Hn Hsync. unfold countAndShow. rewrite detectStep_edge. cbv zeta.
  set (edge := above accel && negb (wasAboveThreshold s)).
  set (s1 := mkStatics _ _ _ _ _).
  assert (Hn1 : 0 <= stepCount s1 < 65536).
  { cbn. destruct edge; [apply u16_range | exact Hn]. }
  destruct (drawSteps_shows s1 Hn1)
    as (s2 & drawn & -> & Hsync2 & Hcount & _ & ->).
  eexists _, _. split; [reflexivity|]. split; [exact Hsync2|].
  rewrite Hcount. cbn [s1 stepCount oldStr]. rewrite Hsync.
  destruct edge.
  - pose proof (u16_next_differs _ Hn) as Hne. split; [exact Hne|].
    destruct (String.eqb _ _) eqn:E; [|reflexivity].
    apply String.eqb_eq, decimal_inj in E; [|lia|apply u16_range].
    now symmetry in E.
  - split; [reflexivity|]. now rewrite String.eqb_refl.
Qed.

Lemma bench_redraws_on_steps_witness :
  let s := mkStatics false false 65535 0 "65535" in
  0 <= stepCount s < 65536 /\ inSync s /\
  exists s' calls,
    countAndShow (mkAccel 0 0 0) s = Some (s', calls) /\
    stepCount s' <> stepCount s.
Proof.
  intros s.
  assert (Hn : 0 <= stepCount s < 65536) by (cbn; lia).
  assert (Hsync : inSync s) by reflexivity.
  split; [exact Hn|]. split; [exact Hsync|].
  destruct (bench_redraws_on_steps (mkAccel 0 0 0) s Hn Hsync)
    as (s' & calls & Hrun & _ & Hedge).
  exists s', calls. split; [exact Hrun|].
  change (above (mkAccel 0 0 0) && negb (wasAboveThreshold s))
    with true in Hedge.
  exact (proj1 Hedge).
Defined.

End WorkingAccProofs.
